(* ===== verification/_CoqProject ===== *)
-Q . S2P
Prelude.v
PyModel.v
Regex.v
Storage.v
DbConnection.v
Query.v
Validators.v
Sql.v
Models.v
Reports.v
Reads.v
Widgets.v
Csv.v
StudentDialog.v
Dialogs.v
Pages.v
QueryPages.v
MainWindow.v
Tinker.v
LegacyDialogs.v
Frontend.v
TableWindow.v
SubApp.v
Scripts.v
