(* ===== verification/Prelude.v ===== *)
(** * Student-Information-Manager: a verification development

    The repository is a desktop CRUD application (PyQt6 over MySQL) for
    students, subjects, lecturers, classes and enrollments.  Under
    src/final/: validators.py (class [Validators]: field and record
    validation, with uniqueness checks that read the database), models.py
    (one class of static methods per table: validate, then
    INSERT/UPDATE/DELETE, and the reads), db_connection.py (the pool and
    the [execute_query]/[execute_update] wrappers), query_models.py (the
    reporting queries and [export_query_to_csv]), and the GUI: main.py
    opens the window of main_win.py, whose table pages (class
    [BaseTablePage] and five subclasses) list the tables, open the dialogs
    of dialogs_complete.py and studentdialog_logic.py, delete rows and
    export CSV files.  The pages and dialogs call models.py (the student
    dialog runs its own SQL); models.py calls validators.py; both call
    db_connection.py.  Earlier GUIs that main.py does not use sit beside
    them: tinker.py (Tkinter), dialog.py, Frontend.py, database.py, and
    student-info-manager/tét.py; student-info-manager/app is a second,
    smaller application with its own models.

    ** Files, in dependency order
    - [Prelude] (this file): the result monad [result] with its notation
      ([x <- m ;; k], scope [res_scope]) standing for Python exceptions,
      the tactics [res_simpl], [res_inv] and [opt_inv], the hint
      databases, the rounding of quotients ([round_half_even_div]:
      Python's [round]; [round_half_away_div]: MySQL's [ROUND]) and shared
      list lemmas.
    - [PyModel]: Python values ([pyval]), dictionaries ([pydict], a
      [gmap]), exceptions ([exc]; the [ValidationError] messages are the
      constructors of [vmsg], one per [raise] site), and the builtins the
      sources call: [str.strip], [str.upper], [str.split], [int()],
      [float()], [round(x, 2)].  Python's Unicode character database is
      the class [PyUnicode], fixed on ASCII by its laws; [ascii_unicode]
      is the instance used to evaluate examples.
    - [Regex]: [re.match] for the patterns of the sources, as a
      backtracking matcher [bt] with the search order of Python's [sre]
      engine, proved sound and complete against the relation [matches].
    - [Storage]: db_connection.py.  The tables are records ([Student.t],
      ...); [conn] is the database with the reachability of the server;
      [execute_query] and [execute_query_one] turn every failure into
      [None] as the source does, [execute_update] re-raises.  String
      comparison follows the column collation, the class [Collation].
    - [DbConnection]: the [DatabaseConnection] singleton of
      db_connection.py: the pool created at import (which raises when the
      server is down), [get_cursor] with its commit and rollback, the
      three execute methods and [check_table_exists].
    - [Query]: the SQL the reads use (ORDER BY as a sort on keys, LIMIT,
      LIKE, joins, GROUP BY, AVG/MIN/MAX with MySQL's DECIMAL rounding).
    - [Validators]: every method of validators.py.
    - [Sql]: the write statements of models.py, each a function on the
      database that MySQL may refuse.
    - [Models]: the write methods of the model classes.
    - [Reports]: the methods of [QueryModels]; [Reads]: the read methods
      of models.py.
    - [Widgets]: the Qt behaviour the slots rely on (message boxes, the
      outcome of a slot [slot_result] with an escaped exception, [QDate],
      spin boxes, combo boxes, the selected row of a table).
    - [Csv]: [csv.writer] and [csv.DictWriter] with a reference reader,
      [BaseTablePage.on_export] and [export_query_to_csv].
    - [StudentDialog]: studentdialog_logic.py, whose add and update run
      their own INSERT and UPDATE (the statements of [Sql]), and its
      [clear_form].
    - [Dialogs]: the four dialogs of dialogs_complete.py, their loading
      of the record edited and their save through models.py.
    - [Pages]: the five table pages of main_win.py (load_data, on_add,
      on_edit, on_delete) and the clicks as [gui_action].
    - [QueryPages]: the four query pages and the dashboard of
      main_win.py; the rows of a query as the dictionaries of the cursor,
      the table of a page as state that [load_data] rewrites, the filter
      widgets as actions ([q3_action], [Query3Page_session]).
    - [MainWindow]: main.py.  The window is the dictionary [self.pages]
      of the ten pages (each page's state: the dashboard, a table page's
      table and search text, a query page's filters and table) with the
      page on screen; a user action is a sidebar click ([show_page]) or
      an action on the page on screen; [mw_reachable] is the step
      relation, [mw_session] the event loop, [main] the start-up with
      [test_connection], and [run_main_py] the whole script, whose
      imports first create the pool of [DbConnection].
    - [Tinker]: the Tkinter script tinker.py (its tree, [add_student]
      and the main loop, where Tkinter reports a callback's exception and
      goes on).
    - [Scripts]: the [__main__] blocks of db_connection.py, models.py,
      query_models.py, dialogs_complete.py and studentdialog_logic.py,
      as the lines they print and the exception that ends them.
    - [LegacyDialogs]: the four Add dialogs of dialog.py, whose [db] is a
      function.
    - [Frontend]: the window of Frontend.py with its [DatabaseManager],
      its table of [str(value)] texts and the [StudentDialog] it opens to
      add and edit; [TableWindow]: the window of database.py.
    - [SubApp]: the second application under
      src/final/student-info-manager/app: its five models on the state
      of [Storage] ([StudentModel.update] with the SET clause its
      dictionary keys make), [EnrollmentService.enroll] with its contract
      [enroll_spec], and scripts of calls ([app_script]) as demo.py
      runs them.

    ** What the theorems show (claim ids C1-C35)
    - Validation: an accepted student record is well formed (C1); an
      accepted grade is NaN or the input rounded in [0, 10] (C2); the
      e-mail pattern is characterised (C3); subject codes normalise
      idempotently (C4); accepted birth dates give ages 15 to 80 (C5);
      with the server down the uniqueness check passes (C8).
    - Writes of models.py: no create method returns normally (C6); the
      update of a student refuses its own e-mail (C7).
    - The second application: [EnrollmentService.enroll] refines its
      contract (C9); [StudentModel.update] fails on the keys of the
      dictionary [create] takes (C31).
    - The main window: its dashboard and Query 2 are never reloaded
      after start-up, whatever a session writes (C10); every sidebar
      button shows its page in every reachable window (C11); from every
      reachable window four actions show Query 3 with any filters and
      the current result of its query (C12, liveness); with the server
      down main.py dies at the import of db_connection, before the box
      of [main()] can be shown (C13); an accepted Add reloads the
      Students page without its search term (C22).
    - Dialogs: the student dialog inserts what the form holds when it
      passes its checks (C14) and crashes without a connection (C32); the
      add mode of the other dialogs never writes (C33); editing a subject
      unchanged is the identity (C30).
    - Table pages: Delete changes nothing without a selected row and a
      Yes (C15), and with them deletes the student the row shows (C16).
    - CSV: on_export writes the table's texts (C18) and, composed with
      load_data, the students listed (C17); Query 1's export writes the
      query's rows (C19).
    - Query pages: the year 2020 can never be a filter of Query 3 (C20);
      the dashboard's Top 10 shows the ranked rows of its query (C27);
      Export CSV aborts the application when the server is down (C35).
    - Reads and reports: the student search (C26), the students above
      average (C25), one row per student in Query 2 (C28), and Query 1 as
      the inner join with one row per enrollment (C29).
    - The earlier GUIs: deleting the selected row of Frontend.py deletes
      the student it shows (C21), while editing a student without address
      stores the text None ([MyApp_edit_stores_None_address]); tinker.py
      never inserts (C23); no dialog of dialog.py can write (C24).
    - Scripts: the self-test of db_connection.py prints the number of
      students it reads, and dies at the import with the server down, so
      its failure branch is dead (C34); the self-tests of models.py and
      query_models.py print the counts of their reads
      ([models_main_spec], [query_models_main_spec]).
    - Transactions ([DbConnection], not claims): the wrappers of
      [Storage] are what [get_cursor] computes ([execute_update_refines])
      and a batch of [execute_many] is atomic ([execute_many_atomic]).
    - Termination: the only recursion that is not structural, the digit
      loop of [str(n)], is given fuel [1 + log2 n], which
      [digits_go_spec] shows is enough (see below).

    ** Modelling choices
    - A Python [float] is modelled by its exact rational value (NaN and
      the infinities apart); a DECIMAL grade with two decimals is an integer number of
      hundredths.
    - Strings are lists of code points; the character classes are those
      of [PyUnicode].
    - The MySQL schema is not in the repository: the tables follow the
      INSERT statements, the constraints the data model of the spec; the
      foreign key from classes to lecturers restricts deletes.  The
      ENUM columns of the spec (Gender, Semester, GradeLetter) are
      modelled as plain strings, so the model does not refuse a value
      outside them; DOB is a string column, not a DATE that MySQL would
      normalise.
    - A comparison of a number with a string in a WHERE clause
      ([sql_eq]) is false, where MySQL would convert the string to a
      number; the ids the GUIs read back from cells ([mysql_id]) are
      parsed with Python's [int()], which agrees with MySQL on the texts
      [str(int)] writes.
    - One reachability bit of the server ([up]) serves a whole run: the
      import of db_connection and the calls after it see the same
      server.  The second application is modelled with its .env
      settings present and app/ on the module path (without them its
      imports fail, as the findings record).
    - PyQt6 turns [setText(None)] and [QTableWidgetItem(None)] into the
      empty text; an exception that escapes a slot aborts the
      application ([Escaped]).  The generated StudentDialogUI module is
      not in the repository: the student form is a record of widget
      values.
    - The form a dialog is saved with is the loaded form after a list of
      user edits ([run_dialog]); the answer of a confirmation box and of
      the file dialog are parameters.
    - Every function is structurally recursive except the digits of
      [QDate::toString] and [str(n)]: [nat_digits] runs with fuel
      [1 + log2 n], enough since each step divides by 10 and a number
      below [2 ^ (1 + log2 n)] has at most [1 + log2 n] decimal digits
      ([digits_go_spec], used by [parse_int_str]).
    - The modules design.py and StudentDialogUI.py, generated by Qt
      Designer, are not in the repository: the widgets they create and
      the values they give them are parameters (the student form
      [student_form0], the headers of the table of Frontend.py and
      database.py, the items of the gender and major boxes).

    ** Not modelled
    - A key of [StudentModel.update] of the second application that
      holds SQL text rather than a column name: the model treats it as
      an unknown column, while MySQL would run the text.
    - Widget layout, colours, fonts and styles (the style sheets of
      main.py and main_win.py, the sidebar header); the pyqtgraph drawing
      (the chart is the list of its bars); logging, and the messages the
      GUIs print on the console (the output of the [__main__] self-tests
      is modelled, with Python's [repr] of a row as a parameter).
    - The [__main__] block of database.py, which only builds and shows
      [StudentTableWindow] ([StudentTableWindow_init]); the first of its
      two identical copies of the code, which Python rebinds to the
      second.
    - student-info-manager/tét.py: it cannot be imported (it imports
      [student_crud], which is not in the repository) and its [__init__]
      calls [db.connect()], which [DatabaseConnection] does not define;
      no method of it can run.
    - The pool size and session reset of db_connection.py, which do not
      change what a call returns, and [get_table_info] ([DESCRIBE],
      never called). *)

From stdpp Require Export base list gmap strings.
From Stdlib Require Export ZArith Lia.
Local Open Scope Z_scope.

(** ** The result monad

    Python code that may [raise] is modelled as a function returning
    [result E A]: [Ok a] is a normal return, [Err e] an exception that
    propagates to the caller. *)

Inductive result (E A : Type) : Type :=
| Ok (a : A)
| Err (e : E).
Arguments Ok {E A} a.
Arguments Err {E A} e.

Definition res_bind {E A B} (m : result E A) (k : A -> result E B) : result E B :=
  match m with
  | Ok a => k a
  | Err e => Err e
  end.

Definition res_map {E A B} (f : A -> B) (m : result E A) : result E B :=
  match m with
  | Ok a => Ok (f a)
  | Err e => Err e
  end.

(** [raise_if b e]: the Python idiom [if b: raise e]. *)
Definition raise_if {E} (b : bool) (e : E) : result E unit :=
  if b then Err e else Ok tt.

Declare Scope res_scope.
Delimit Scope res_scope with res.
Notation "x <- m ;; k" := (res_bind m (fun x => k))
  (at level 100, m at level 99, right associativity) : res_scope.
Notation "m ;;; k" := (res_bind m (fun _ => k))
  (at level 100, right associativity) : res_scope.
Open Scope res_scope.

Definition is_ok {E A} (m : result E A) : bool :=
  match m with Ok _ => true | Err _ => false end.

(** ** Rounding of integer quotients

    [round_half_even_div a b] is the integer nearest to [a / b], ties to
    even (Python's [round]); [round_half_away_div a b] rounds ties away
    from zero (MySQL's [ROUND] on exact values). Both are within one half
    of the exact quotient. *)

Definition round_half_even_div (a b : Z) : Z :=
  let q := a / b in
  let r := a mod b in
  if Z.ltb (2 * r) b then q
  else if Z.ltb b (2 * r) then q + 1
  else if Z.even q then q else q + 1.

Definition round_half_away_div (a b : Z) : Z :=
  Z.sgn a * ((2 * Z.abs a + b) / (2 * b)).

(** ** Lists *)

(** Lookup in an association list keyed by strings: the dispatch on a
    column or table name. *)
Fixpoint assoc {A} (k : string) (l : list (string * A)) : option A :=
  match l with
  | [] => None
  | (k', v) :: l' => if String.eqb k k' then Some v else assoc k l'
  end.

Definition sum_Z (l : list Z) : Z := foldr Z.add 0 l.

(** ** Lemmas *)

Section ResultLemmas.
  Context {E A B : Type}.

Lemma res_bind_Ok (a : A) (k : A -> result E B) : res_bind (Ok a) k = k a.
  Proof. reflexivity. Qed.

Lemma res_bind_Err (e : E) (k : A -> result E B) : res_bind (Err e) k = Err e.
  Proof. reflexivity. Qed.

Lemma res_bind_Ok_inv (m : result E A) (k : A -> result E B) b :
    res_bind m k = Ok b -> exists a, m = Ok a /\ k a = Ok b.
  Proof. destruct m; simpl; [eauto | discriminate]. Qed.

Lemma res_bind_Err_inv (m : result E A) (k : A -> result E B) e :
    res_bind m k = Err e -> m = Err e \/ exists a, m = Ok a /\ k a = Err e.
  Proof. destruct m; simpl; [eauto | intros [= ->]; auto]. Qed.

Lemma raise_if_false (e : E) : raise_if false e = Ok tt.
  Proof. reflexivity. Qed.

Lemma raise_if_true (e : E) : raise_if true e = Err e.
  Proof. reflexivity. Qed.

Lemma raise_if_Ok b (e : E) : raise_if b e = Ok tt <-> b = false.
  Proof. destruct b; simpl; split; congruence. Qed.
End ResultLemmas.

Create Rewrite HintDb res_simpl.
#[export] Hint Rewrite @res_bind_Ok @res_bind_Err @raise_if_false @raise_if_true
  : res_simpl.

(** [res_simpl] evaluates binds whose head is known; [res_inv H]
    decomposes an [Ok] hypothesis of a chain of binds. *)
Ltac res_simpl := autorewrite with res_simpl in *.

Ltac res_inv H :=
  repeat match type of H with
  | res_bind _ _ = Ok _ =>
      let a := fresh "a" in let Ha := fresh "Ha" in
      apply res_bind_Ok_inv in H as [a [Ha H]]
  end;
  repeat match goal with
  | Hr : raise_if _ _ = Ok ?u |- _ => destruct u; apply raise_if_Ok in Hr
  end.

Lemma div_mod_bounds (a b : Z) : 0 < b -> b * (a / b) <= a < b * (a / b) + b.
Proof.
  intros Hb. pose proof (Z.div_mod a b ltac:(lia)).
  pose proof (Z.mod_pos_bound a b Hb). lia.
Qed.

Lemma round_half_even_div_bounds (a b : Z) :
  0 < b -> 2 * b * round_half_even_div a b - b <= 2 * a <= 2 * b * round_half_even_div a b + b.
Proof.
  intros Hb. unfold round_half_even_div.
  pose proof (Z.div_mod a b ltac:(lia)).
  pose proof (Z.mod_pos_bound a b Hb).
  destruct (Z.ltb_spec (2 * (a mod b)) b); [lia|].
  destruct (Z.ltb_spec b (2 * (a mod b))); [lia|].
  destruct (Z.even (a / b)); lia.
Qed.

Lemma round_half_away_div_nonneg (a b : Z) :
  0 <= a -> 0 < b -> round_half_away_div a b = (2 * a + b) / (2 * b).
Proof.
  intros Ha Hb. unfold round_half_away_div.
  destruct (Z.eq_dec a 0) as [->|Hne].
  { change (Z.sgn 0) with 0. rewrite Z.mul_0_l, Z.div_small by lia. reflexivity. }
  rewrite Z.sgn_pos, Z.abs_eq by lia. lia.
Qed.

Lemma round_half_away_div_bounds (a b : Z) :
  0 <= a -> 0 < b ->
  2 * b * round_half_away_div a b - b <= 2 * a < 2 * b * round_half_away_div a b + b.
Proof.
  intros Ha Hb. rewrite round_half_away_div_nonneg by lia.
  pose proof (div_mod_bounds (2 * a + b) (2 * b) ltac:(lia)). lia.
Qed.

(** Rounding a quotient keeps it within integer bounds of the quotient. *)
Lemma round_half_away_div_within (a b lo hi : Z) :
  0 <= lo -> 0 < b -> lo * b <= a <= hi * b -> lo <= round_half_away_div a b <= hi.
Proof.
  intros Hlo Hb Ha. pose proof (round_half_away_div_bounds a b ltac:(nia) Hb). nia.
Qed.

Lemma round_half_away_div_exact (a b : Z) : 0 < b -> round_half_away_div (a * b) b = a.
Proof.
  intros Hb. unfold round_half_away_div. rewrite Z.abs_mul, (Z.abs_eq b), Z.sgn_mul, (Z.sgn_pos b) by lia.
  replace (2 * (Z.abs a * b) + b) with (b + Z.abs a * (2 * b)) by ring.
  rewrite Z.div_add, Z.div_small by lia. rewrite Z.mul_1_r, Z.add_0_l, Z.mul_comm. apply Z.abs_sgn.
Qed.

Lemma sum_Z_app (l1 l2 : list Z) : sum_Z (l1 ++ l2) = sum_Z l1 + sum_Z l2.
Proof. induction l1; simpl; lia. Qed.

Lemma sum_Z_bounds (lo hi : Z) (l : list Z) :
  Forall (fun x => lo <= x <= hi) l ->
  lo * Z.of_nat (length l) <= sum_Z l <= hi * Z.of_nat (length l).
Proof. induction 1; simpl; lia. Qed.


Lemma mapM_map_Some {A B C} (f : B -> option C) (h : A -> B) (g : A -> C) (l : list A) :
  (forall x, f (h x) = Some (g x)) -> mapM f (map h l) = Some (map g l).
Proof. intros Hf. induction l as [|x l IH]; simpl; [done|]. by rewrite Hf, IH. Qed.

(** Keeping the [true] results of a decided predicate keeps the elements
    that satisfy it. *)
Lemma filter_true_bool_decide {A} (P : A -> Prop) `{!forall x, Decision (P x)} (l : list A) :
  map (fun _ => tt) (filter (fun b : bool => b = true) (map (fun x => bool_decide (P x)) l))
  = map (fun _ => tt) (filter P l).
Proof.
  induction l as [|x l IH]; [done|]. simpl. rewrite !filter_cons.
  case_bool_decide; simpl; [rewrite decide_True by done | rewrite decide_False by done];
    simpl; by rewrite IH.
Qed.

Lemma filter_empty_forall {A} (P : A -> Prop) `{!forall x, Decision (P x)} (l : list A) :
  (forall x, x ∈ l -> ~ P x) -> filter P l = [].
Proof.
  induction l as [|x l IH]; intros Hl; [done|].
  rewrite filter_cons, decide_False by (apply Hl; left). apply IH.
  intros y Hy. apply Hl. by right.
Qed.

Lemma filter_all_true {A} (P : A -> Prop) `{!forall x, Decision (P x)} (l : list A) :
  (forall x, x ∈ l -> P x) -> filter P l = l.
Proof.
  induction l as [|x l IH]; intros Hl; [done|].
  rewrite filter_cons, decide_True by (apply Hl; left). f_equal. apply IH.
  intros y Hy. apply Hl. by right.
Qed.

(** A filter on a mapped list is a filter before the map. *)
Lemma filter_fmap_comm {A B} (P : B -> Prop) `{!forall x, Decision (P x)} (h : A -> B) (l : list A) :
  filter P (h <$> l) = h <$> filter (fun x => P (h x)) l.
Proof.
  induction l as [|x l IH]; [done|].
  rewrite fmap_cons, !filter_cons, IH. by destruct (decide (P (h x))).
Qed.

Section Keys.
  Context {A K : Type} `{!EqDecision K} (key : A -> K).

  (** In a list whose keys are distinct, a key selects at most one element. *)
Lemma filter_key_le1 (l : list A) (k : K) :
    NoDup (key <$> l) -> (length (filter (fun y => key y = k) l) <= 1)%nat.
  Proof.
    induction l as [|a l IH]; intros Hl; simpl; [lia|].
    apply NoDup_cons in Hl as [Ha Hl]. rewrite filter_cons.
    destruct (decide (key a = k)) as [<-|]; [|auto]. simpl.
    rewrite filter_empty_forall; [simpl; lia|].
    intros y Hy Hk. apply Ha. rewrite <-Hk. by apply list_elem_of_fmap_2.
  Qed.

  (** ... and exactly the element that has it. *)
Lemma filter_key_unique (l : list A) (x : A) :
    NoDup (key <$> l) -> x ∈ l -> filter (fun y => key y = key x) l = [x].
  Proof.
    induction l as [|a l IH]; intros Hl Hx; [by apply elem_of_nil in Hx|].
    apply NoDup_cons in Hl as [Ha Hl]. rewrite filter_cons.
    apply elem_of_cons in Hx as [->|Hx].
    - rewrite decide_True by done. f_equal. apply filter_empty_forall.
      intros y Hy Hk. apply Ha. rewrite <-Hk. by apply list_elem_of_fmap_2.
    - rewrite decide_False; [by apply IH|].
      intros Hk. apply Ha. rewrite Hk. by apply list_elem_of_fmap_2.
  Qed.
Lemma key_inj (l : list A) (x y : A) :
    NoDup (key <$> l) -> x ∈ l -> y ∈ l -> key y = key x -> y = x.
  Proof.
    intros Hl Hx Hy Hk. pose proof (filter_key_unique l x Hl Hx) as Hf.
    assert (Hy' : y ∈ filter (fun z => key z = key x) l) by (apply list_elem_of_filter; done).
    rewrite Hf in Hy'. by apply list_elem_of_singleton in Hy'.
  Qed.
End Keys.

Lemma sum_Z_Permutation (l1 l2 : list Z) : l1 ≡ₚ l2 -> sum_Z l1 = sum_Z l2.
Proof. induction 1; simpl; lia. Qed.

Lemma sum_Z_cons (x : Z) (l : list Z) : sum_Z (x :: l) = x + sum_Z l.
Proof. done. Qed.

Lemma sum_Z_fmap_add {A} (f h : A -> Z) (l : list A) :
  sum_Z ((fun x => f x + h x) <$> l) = sum_Z (f <$> l) + sum_Z (h <$> l).
Proof. induction l as [|x l IH]; [done|]. rewrite !fmap_cons, !sum_Z_cons, IH. lia. Qed.

Lemma sum_Z_indicator_absent {A} `{!EqDecision A} (l : list A) (x : A) :
  x ∉ l -> sum_Z ((fun g => if decide (x = g) then 1 else 0) <$> l) = 0.
Proof.
  induction l as [|z l IH]; intros Hx; [done|].
  rewrite fmap_cons, sum_Z_cons, decide_False, IH by set_solver. lia.
Qed.

(** Counting the occurrences of one element of a duplicate-free list. *)
Lemma sum_Z_indicator {A} `{!EqDecision A} (l : list A) (x : A) :
  NoDup l -> x ∈ l -> sum_Z ((fun g => if decide (x = g) then 1 else 0) <$> l) = 1.
Proof.
  induction 1 as [|y l Hy Hl IH]; [by intros ?%elem_of_nil|].
  intros Hx. rewrite fmap_cons, sum_Z_cons. destruct (decide (x = y)) as [->|Hne].
  - rewrite sum_Z_indicator_absent by done. lia.
  - rewrite IH; [lia|]. by apply elem_of_cons in Hx as [?|?].
Qed.

Section Replace.
  Context {A K : Type} (key : A -> K).

  (** Deleting rows keeps the keys distinct. *)
Lemma NoDup_fmap_filter (P : A -> Prop) `{!forall x, Decision (P x)} (l : list A) :
    NoDup (key <$> l) -> NoDup (key <$> filter P l).
  Proof.
    induction l as [|x l IH]; intros Hl; [done|].
    apply NoDup_cons in Hl as [Hx Hl]. rewrite filter_cons.
    destruct (decide (P x)); [|auto]. rewrite fmap_cons. constructor; [|auto].
    intros Hin. apply Hx. apply list_elem_of_fmap in Hin as (y & Hy & Hy').
    apply list_elem_of_filter in Hy' as [_ Hy']. rewrite Hy. by apply list_elem_of_fmap_2.
  Qed.

  (** Updating rows in place with their own keys keeps the keys. *)
Lemma fmap_replace_keys (hit : A -> bool) (g : A -> A) (l : list A) :
    (forall r, r ∈ l -> hit r = true -> key (g r) = key r) ->
    key <$> ((fun r => if hit r then g r else r) <$> l) = key <$> l.
  Proof.
    induction l as [|x l IH]; intros Hg; [done|]. rewrite !fmap_cons.
    rewrite IH by (intros r Hr; apply Hg; by right). f_equal.
    destruct (hit x) eqn:Hx; [apply Hg; [left | done] | done].
  Qed.

Lemma elem_of_replace (hit : A -> bool) (g : A -> A) (l : list A) (r : A) :
    r ∈ l -> (if hit r then g r else r) ∈ (fun r => if hit r then g r else r) <$> l.
  Proof. intros Hr. by apply (list_elem_of_fmap_2 (fun r => if hit r then g r else r)). Qed.

Lemma elem_of_replace_inv (hit : A -> bool) (g : A -> A) (l : list A) (r' : A) :
    r' ∈ (fun r => if hit r then g r else r) <$> l ->
    exists r, r ∈ l /\ r' = if hit r then g r else r.
  Proof. intros (r & -> & Hr)%list_elem_of_fmap. eauto. Qed.
End Replace.

(** The rows a filter keeps satisfy what the kept rows satisfy. *)
Lemma Forall_filter_cond {A} (P Q : A -> Prop) `{!forall x, Decision (Q x)} (l : list A) :
  Forall (fun x => Q x -> P x) l -> Forall P (filter Q l).
Proof.
  induction 1 as [|x l Hx Hl IH]; [constructor|]. rewrite filter_cons.
  destruct (decide (Q x)); [constructor|]; auto.
Qed.

Lemma Forall_true_impl {A} (P Q : A -> Prop) (l : list A) :
  Forall P l -> Forall (fun x => Q x -> P x) l.
Proof. intros Hl. eapply Forall_impl; [exact Hl|]. auto. Qed.

Lemma existsb_elem {A} (f : A -> bool) (l : list A) :
  existsb f l = true <-> exists x, x ∈ l /\ f x = true.
Proof. rewrite existsb_exists. setoid_rewrite list_elem_of_In. done. Qed.

(** ** Joins on keys *)

(** A [SELECT ... JOIN] written as a list bind: each outer row gives at
    most one joined row when every inner table has at most one match. *)
Lemma length_bind_le1 {A B} (f : A -> list B) (l : list A) :
  (length l <= 1)%nat -> (forall a, a ∈ l -> length (f a) <= 1)%nat -> (length (l ≫= f) <= 1)%nat.
Proof.
  destruct l as [|a [|b l]]; simpl; intros Hl Hf; [lia| |lia].
  rewrite app_nil_r. apply Hf. by left.
Qed.

(** The matches of a key in a table with distinct keys, when every two
    matches have the same key. *)
Lemma filter_le1_keys {A K} (key : A -> K) (P : A -> Prop) `{!forall x, Decision (P x)} (l : list A) :
  NoDup (key <$> l) -> (forall x y, x ∈ l -> y ∈ l -> P x -> P y -> key x = key y) ->
  (length (filter P l) <= 1)%nat.
Proof.
  induction l as [|a l IH]; intros Hl Hk; simpl; [lia|].
  apply NoDup_cons in Hl as [Ha Hl]. rewrite filter_cons.
  destruct (decide (P a)) as [Pa|].
  - simpl. rewrite filter_empty_forall; [simpl; lia|].
    intros y Hy Py. apply Ha. rewrite (Hk a y); [|by left|by right|done|done]. by apply list_elem_of_fmap_2.
  - apply IH; [done|]. intros x y Hx Hy. apply Hk; by right.
Qed.

(** The rows of a join keyed by the outer row keep the outer table's
    distinct keys. *)
Lemma NoDup_bind_keys {A B K} (key : A -> K) (kb : B -> K) (f : A -> list B) (l : list A) :
  NoDup (key <$> l) -> (forall a, a ∈ l -> length (f a) <= 1)%nat ->
  (forall a b, b ∈ f a -> kb b = key a) -> NoDup (kb <$> (l ≫= f)).
Proof.
  induction l as [|a l IH]; intros Hl Hf Hk; [constructor|].
  apply NoDup_cons in Hl as [Ha Hl]. simpl. rewrite fmap_app. apply NoDup_app. split_and!.
  - destruct (f a) as [|b [|b' bs]] eqn:E; [constructor|by apply NoDup_singleton|].
    specialize (Hf a (list_elem_of_here _ _)). rewrite E in Hf. simpl in Hf. lia.
  - intros k Hka Hkl. apply list_elem_of_fmap in Hka as (b & -> & Hb).
    apply list_elem_of_fmap in Hkl as (b' & Hkb & Hb'). apply list_elem_of_bind in Hb' as (a' & Hb' & Ha').
    apply Ha. rewrite <-(Hk a b Hb), Hkb, (Hk a' b' Hb'). by apply list_elem_of_fmap_2.
  - apply IH; [done| |done]. intros a' Ha'. apply Hf. by right.
Qed.
