(* ===== verification/PyModel.v ===== *)
(** * PyModel: the fragment of the Python runtime the sources rely on

    Values that flow through the program's dictionaries ([pyval]), the
    dictionaries themselves ([pydict], a [gmap] from key to value), the
    exceptions raised by the code and by the builtins it calls ([exc]),
    and the builtins used by the validators: [str.strip], [str.upper],
    [str.split], [int(x)] and [float(x)].

    Strings are lists of Unicode code points.  The character database
    that Python consults (which code points are white space, which are
    alphanumeric, which are decimal digits, how a character upper-cases)
    is not modelled in full: it is the class [PyUnicode], whose laws fix
    it on ASCII, where it is exactly Python's.  Every theorem is stated
    for an arbitrary instance; [ascii_unicode] is the instance used to
    evaluate examples on ASCII input. *)

From S2P Require Import Prelude.
From Stdlib Require Import QArith.
Local Open Scope Z_scope.
Local Open Scope res_scope.

(** ** Strings *)

Abbreviation ustr := (list Z).

(** An ASCII literal of the source as a code-point string. *)
Definition us (s : string) : ustr :=
  map (fun c => Z.of_nat (Ascii.nat_of_ascii c)) (String.list_ascii_of_string s).

Definition in_range (lo hi c : Z) : bool := (lo <=? c) && (c <=? hi).

(** CPython's [_Py_ascii_whitespace]: \t \n \v \f \r, the four
    separators 0x1C..0x1F and the space. *)
Definition ascii_isspace (c : Z) : bool := in_range 9 13 c || in_range 28 32 c.
Definition ascii_isalnum (c : Z) : bool :=
  in_range 48 57 c || in_range 65 90 c || in_range 97 122 c.
Definition ascii_digit (c : Z) : option Z :=
  if in_range 48 57 c then Some (c - 48) else None.
Definition ascii_upper (c : Z) : Z := if in_range 97 122 c then c - 32 else c.
Definition ascii_lower (c : Z) : Z := if in_range 65 90 c then c + 32 else c.

Class PyUnicode := {
  uc_isspace : Z -> bool;          (** [Py_UNICODE_ISSPACE] *)
  uc_isalnum : Z -> bool;          (** [str.isalnum] on one character *)
  uc_digit : Z -> option Z;        (** value of a decimal digit (category Nd) *)
  uc_upper : Z -> ustr;            (** full upper-case mapping *)
  uc_isspace_ascii c : 0 <= c < 128 -> uc_isspace c = ascii_isspace c;
  uc_isalnum_ascii c : 0 <= c < 128 -> uc_isalnum c = ascii_isalnum c;
  uc_digit_ascii c : 0 <= c < 128 -> uc_digit c = ascii_digit c;
  uc_upper_ascii c : 0 <= c < 128 -> uc_upper c = [ascii_upper c];
  uc_digit_bound c d : uc_digit c = Some d -> 0 <= d <= 9;
  uc_digit_alnum c d : uc_digit c = Some d -> uc_isalnum c = true;
  uc_digit_upper c d : uc_digit c = Some d -> uc_upper c = [c];
  uc_space_not_alnum c : uc_isspace c = true -> uc_isalnum c = false;
  uc_upper_nonempty c : uc_upper c <> [];
  uc_upper_nonspace c : uc_isspace c = false -> Forall (fun u => uc_isspace u = false) (uc_upper c);
}.

(** The instance that knows only ASCII: no code point above 127 is a
    space, a letter or a digit, and upper-casing leaves it unchanged. *)
#[local] Obligation Tactic := idtac.
#[export] Program Instance ascii_unicode : PyUnicode := {
  uc_isspace c := (c <? 128) && ascii_isspace c;
  uc_isalnum c := (c <? 128) && ascii_isalnum c;
  uc_digit c := if c <? 128 then ascii_digit c else None;
  uc_upper c := [if c <? 128 then ascii_upper c else c];
}.
Next Obligation. intros c Hc; cbn; destruct (Z.ltb_spec c 128); [reflexivity | lia]. Qed.
Next Obligation. intros c Hc; cbn; destruct (Z.ltb_spec c 128); [reflexivity | lia]. Qed.
Next Obligation. intros c Hc; cbn; destruct (Z.ltb_spec c 128); [reflexivity | lia]. Qed.
Next Obligation. intros c Hc; cbn; destruct (Z.ltb_spec c 128); [reflexivity | lia]. Qed.
Next Obligation.
  intros c d; cbn. destruct (c <? 128); [|discriminate]. unfold ascii_digit, in_range.
  destruct (Z.leb_spec 48 c), (Z.leb_spec c 57); simpl; intros; simplify_eq; lia.
Qed.
Next Obligation.
  intros c d; cbn. destruct (c <? 128); [|discriminate]. unfold ascii_digit, ascii_isalnum.
  destruct (in_range 48 57 c); simpl; congruence.
Qed.
Next Obligation.
  intros c d; cbn. destruct (c <? 128); [|discriminate]. unfold ascii_digit, ascii_upper, in_range.
  destruct (Z.leb_spec 48 c), (Z.leb_spec c 57); simpl; try discriminate.
  destruct (Z.leb_spec 97 c); simpl; [lia | done].
Qed.
Next Obligation.
  intros c; cbn. destruct (c <? 128); [|done]. unfold ascii_isspace, ascii_isalnum, in_range.
  destruct (Z.leb_spec 9 c), (Z.leb_spec c 13), (Z.leb_spec 28 c), (Z.leb_spec c 32),
    (Z.leb_spec 48 c), (Z.leb_spec c 57), (Z.leb_spec 65 c), (Z.leb_spec c 90),
    (Z.leb_spec 97 c), (Z.leb_spec c 122); simpl; intros; try done; lia.
Qed.
Next Obligation. done. Qed.
Next Obligation.
  intros c; cbn. destruct (Z.ltb_spec c 128); simpl; intros Hc; repeat constructor.
  - unfold ascii_upper, ascii_isspace, in_range in *.
    destruct (Z.leb_spec 97 c), (Z.leb_spec c 122); simpl in *;
      destruct (Z.ltb_spec (c - 32) 128); simpl; try done;
      repeat match goal with |- context [?a <=? ?b] => destruct (Z.leb_spec a b) end; simpl; try done; lia.
  - destruct (Z.ltb_spec c 128); [lia | done].
Qed.

Section Strings.
  Context `{PyUnicode}.

Fixpoint lstrip (s : ustr) : ustr :=
    match s with
    | c :: s' => if uc_isspace c then lstrip s' else s
    | [] => []
    end.

  (** [s.strip()] *)
Definition py_strip (s : ustr) : ustr := reverse (lstrip (reverse (lstrip s))).

  (** [s.upper()] *)
Definition py_upper (s : ustr) : ustr := s ≫= uc_upper.

  (** [s.split()]: the maximal runs of non-space characters. *)
Fixpoint split_go (cur : ustr) (s : ustr) : list ustr :=
    match s with
    | [] => if cur is [] then [] else [reverse cur]
    | c :: s' =>
        if uc_isspace c then (if cur is [] then split_go [] s' else reverse cur :: split_go [] s')
        else split_go (c :: cur) s'
    end.
Definition py_split (s : ustr) : list ustr := split_go [] s.

  (** [sep.join(parts)] *)
Fixpoint py_join (sep : ustr) (parts : list ustr) : ustr :=
    match parts with
    | [] => []
    | [p] => p
    | p :: ps => p ++ sep ++ py_join sep ps
    end.
End Strings.

(** ** Numbers

    A Python [float] is NaN, an infinity, or a finite value, modelled by
    its exact rational value: the rounding of a decimal literal to the
    nearest binary double is not modelled. *)

Inductive pyfloat :=
| FFin (q : Q)
| FNaN
| FInf (neg : bool).

Definition q_lt (x y : Q) : bool := Qnum x * Zpos (Qden y) <? Qnum y * Zpos (Qden x).

(** The comparisons [x < y] and [x > y] of two floats: false whenever
    one side is NaN. *)
Definition float_lt (x y : pyfloat) : bool :=
  match x, y with
  | FNaN, _ | _, FNaN => false
  | FFin a, FFin b => q_lt a b
  | FInf true, FInf true => false
  | FInf true, _ => true
  | _, FInf false => match x with FInf false => false | _ => true end
  | _, _ => false
  end.

(** [round(x, 2)]: the nearest multiple of 1/100, ties to even;
    infinities and NaN are returned unchanged. *)
Definition float_round2 (x : pyfloat) : pyfloat :=
  match x with
  | FFin q => FFin (Qmake (round_half_even_div (Qnum q * 100) (Zpos (Qden q))) 100)
  | _ => x
  end.

(** [float(n)] of an [int]: [OverflowError] from 2^1024 - 2^970 on,
    where the nearest double would be 2^1024. *)
Definition float_overflow_bound : Z := 2 ^ 1024 - 2 ^ 970.

(** ** Values, dictionaries and exceptions *)

Inductive pyval :=
| PNone
| PBool (b : bool)
| PInt (z : Z)
| PFloat (f : pyfloat)
| PStr (s : ustr).

Abbreviation pydict := (gmap string pyval).

(** The messages raised with [ValidationError]: one constructor per
    [raise] site of validators.py and models.py, carrying the values the
    f-string interpolates. *)
Inductive vmsg :=
| MsgRequired (field : string)          (** "{field_name} ... không được để trống." *)
| MsgDuplicate (column : string) (value : pyval)  (** "{column} '{value}' đã tồn tại ..." *)
| MsgFullName                           (** "Full name must contain first and last name" *)
| MsgEmailFormat                        (** "Invalid email format" *)
| MsgDobFormat                          (** "DOB must be YYYY-MM-DD" *)
| MsgAge                                (** "Age must be between 15 and 80 years old." *)
| MsgGender                             (** "Gender must be Male, Female, or Other." *)
| MsgYearNumber                         (** "Year must be a number." *)
| MsgYearRange                          (** "Invalid year range." *)
| MsgSubjectCode                        (** "Subject code must be LETTERS+NUMBERS ..." *)
| MsgGradeNumber                        (** "Grade must be a number." *)
| MsgGradeRange                         (** "Grade must be between {min_val} and {max_val}" *)
| MsgCreditsInt                         (** "Credits must be an integer" *)
| MsgCreditsRange                       (** "Credits must be a positive integer (1-10)" *)
| MsgAlreadyEnrolledVi                  (** "Sinh viên đã đăng ký vào lớp học này!" *)
| MsgAlreadyEnrolled.                   (** "Student already enrolled in this class" *)

Inductive exc :=
| ValidationError (m : vmsg)
| KeyError (k : string)
| AttributeError (name : string)
| TypeError
| ValueError
| OverflowError
| DbError
| RuntimeError
| NameError (name : string).

Definition dict_get (d : pydict) (k : string) : pyval := default PNone (d !! k).

Definition dict_get_or (d : pydict) (k : string) (dflt : pyval) : pyval := default dflt (d !! k).

Definition dict_index (d : pydict) (k : string) : result exc pyval :=
  match d !! k with Some v => Ok v | None => Err (KeyError k) end.

Definition py_truthy (v : pyval) : bool :=
  match v with
  | PNone => false
  | PBool b => b
  | PInt z => negb (z =? 0)
  | PFloat (FFin q) => negb (Qnum q =? 0)
  | PFloat _ => true
  | PStr s => negb (bool_decide (s = []))
  end.

(** ** The conversions [int(x)] and [float(x)] *)

Section Conversions.
  Context `{PyUnicode}.

  (** A run of decimal digits in which single underscores may separate
      two digits, as [int()] and [float()] accept (PEP 515). *)
Fixpoint scan_digits_tail (s : ustr) : list Z * ustr :=
    match s with
    | c :: s' =>
        match uc_digit c with
        | Some d => let '(ds, r) := scan_digits_tail s' in (d :: ds, r)
        | None =>
            if c =? 95 then
              match s' with
              | c2 :: s'' =>
                  match uc_digit c2 with
                  | Some d => let '(ds, r) := scan_digits_tail s'' in (d :: ds, r)
                  | None => ([], s)
                  end
              | [] => ([], s)
              end
            else ([], s)
        end
    | [] => ([], [])
    end.

Definition scan_digits (s : ustr) : list Z * ustr :=
    match s with
    | c :: s' =>
        match uc_digit c with
        | Some d => let '(ds, r) := scan_digits_tail s' in (d :: ds, r)
        | None => ([], s)
        end
    | [] => ([], [])
    end.

Definition digits_value (ds : list Z) : Z := foldl (fun acc d => acc * 10 + d) 0 ds.

Definition take_sign (s : ustr) : Z * ustr :=
    match s with
    | 43 :: s' => (1, s')
    | 45 :: s' => (-1, s')
    | _ => (1, s)
    end.

  (** CPython refuses to convert a decimal string of more than 4300
      digits ([sys.int_info.default_max_str_digits]). *)
Definition max_str_digits : nat := 4300.

  (** [int(s)] for a string [s]. *)
Definition parse_int (s : ustr) : result exc Z :=
    let '(sg, t) := take_sign (py_strip s) in
    let '(ds, r) := scan_digits t in
    if bool_decide (ds = []) || negb (bool_decide (r = [])) then Err ValueError
    else if Nat.ltb max_str_digits (length ds) then Err ValueError
    else Ok (sg * digits_value ds).

Definition ci_eq (s : ustr) (lit : string) : bool := bool_decide (map ascii_lower s = us lit).

Definition decimal_q (m e : Z) : Q :=
    if 0 <=? e then Qmake (m * 10 ^ e) 1 else Qmake m (Z.to_pos (10 ^ (- e))).

  (** [float(s)] for a string [s]: [nan], [inf], [infinity] in any case,
      or a decimal with an optional fraction and exponent. *)
Definition parse_float (s : ustr) : option pyfloat :=
    let '(sg, t) := take_sign (py_strip s) in
    if ci_eq t "nan" then Some FNaN
    else if ci_eq t "inf" || ci_eq t "infinity" then Some (FInf (sg <? 0))
    else
      let '(ip, r1) := scan_digits t in
      let '(fp, r2) := match r1 with 46 :: r => scan_digits r | _ => ([], r1) end in
      let ok_mant := negb (bool_decide (ip = [] /\ fp = [])) in
      let exp :=
        match r2 with
        | [] => Some 0
        | e :: r => if (e =? 101) || (e =? 69) then
                      let '(esg, r') := take_sign r in
                      let '(eds, r'') := scan_digits r' in
                      if bool_decide (eds <> [] /\ r'' = []) then Some (esg * digits_value eds)
                      else None
                    else None
        end in
      match ok_mant, exp with
      | true, Some e =>
          Some (FFin (decimal_q (sg * digits_value (ip ++ fp)) (e - Z.of_nat (length fp))))
      | _, _ => None
      end.

Definition py_int (v : pyval) : result exc Z :=
    match v with
    | PNone => Err TypeError
    | PBool b => Ok (if b then 1 else 0)
    | PInt z => Ok z
    | PFloat (FFin q) => Ok (Z.quot (Qnum q) (Zpos (Qden q)))
    | PFloat FNaN => Err ValueError
    | PFloat (FInf _) => Err OverflowError
    | PStr s => parse_int s
    end.

Definition py_float (v : pyval) : result exc pyfloat :=
    match v with
    | PNone => Err TypeError
    | PBool b => Ok (FFin (if b then 1 else 0)%Q)
    | PInt z => if float_overflow_bound <=? Z.abs z then Err OverflowError else Ok (FFin (inject_Z z))
    | PFloat f => Ok f
    | PStr s => match parse_float s with Some f => Ok f | None => Err ValueError end
    end.

  (** [except ValueError: raise e]: a [ValueError] of [m] becomes [e];
    every other exception propagates unchanged. *)
Definition catch_value_error {A} (m : result exc A) (e : exc) : result exc A :=
  match m with
  | Err ValueError => Err e
  | _ => m
  end.

(** [str(v).strip() == ""]: only a string can print as blank. *)
Definition py_str_blank (v : pyval) : bool :=
    match v with PStr s => bool_decide (py_strip s = []) | _ => false end.
End Conversions.

(** ** Lemmas on [strip] and [upper] *)

Section StringLemmas.
  Context `{PyUnicode}.

Lemma lstrip_head (u r : ustr) (c : Z) : lstrip u = c :: r -> uc_isspace c = false.
  Proof.
    induction u as [|x u IH]; simpl; [discriminate|].
    destruct (uc_isspace x) eqn:E; [apply IH | intros [= -> _]; done].
  Qed.

Lemma lstrip_id (t : ustr) : Forall (fun c => uc_isspace c = false) t -> lstrip t = t.
  Proof. induction 1 as [|c t Hc _ _]; simpl; [done|]. by rewrite Hc. Qed.

Lemma py_strip_id (t : ustr) : Forall (fun c => uc_isspace c = false) t -> py_strip t = t.
  Proof.
    intros Ht. unfold py_strip. rewrite (lstrip_id t Ht).
    rewrite lstrip_id; [apply reverse_involutive|]. by apply Forall_reverse.
  Qed.

  (** A non-blank stripped string ends with a character that is not
      white space. *)
Lemma py_strip_last (s : ustr) :
    py_strip s <> [] -> exists p c, py_strip s = p ++ [c] /\ uc_isspace c = false.
  Proof.
    unfold py_strip. destruct (lstrip (reverse (lstrip s))) as [|c r] eqn:E; [done|].
    intros _. exists (reverse r), c. split; [apply reverse_cons | by eapply lstrip_head].
  Qed.

Lemma py_upper_app (s t : ustr) : py_upper (s ++ t) = py_upper s ++ py_upper t.
  Proof. apply bind_app. Qed.

Lemma py_upper_id (t : ustr) : Forall (fun c => uc_upper c = [c]) t -> py_upper t = t.
  Proof.
    induction 1 as [|c t Hc _ IH]; [done|]. change (c :: t) with ([c] ++ t).
    rewrite py_upper_app, IH. unfold py_upper; simpl. by rewrite Hc.
  Qed.

  (** Upper-casing keeps a final non-space character non-space. *)
Lemma py_upper_last (p : ustr) (c : Z) :
    uc_isspace c = false -> exists q u, py_upper (p ++ [c]) = q ++ [u] /\ uc_isspace u = false.
  Proof.
    intros Hc. rewrite py_upper_app. unfold py_upper at 2. simpl. rewrite app_nil_r.
    pose proof (uc_upper_nonspace c Hc) as Hns. pose proof (uc_upper_nonempty c) as Hne.
    destruct (uc_upper c) as [|u us'] using rev_ind; [done|].
    exists (py_upper p ++ us'), u. split; [by rewrite app_assoc|].
    apply Forall_app in Hns as [_ Hu]. by inversion Hu.
  Qed.
End StringLemmas.
