(* ===== verification/Regex.v ===== *)
(** * Regex: the [re.match] semantics of the patterns the sources use

    The validators call [re.match] with three patterns (e-mail, subject
    code, and the pattern [datetime.strptime] compiles for
    "%Y-%m-%d").  They use character classes, literals, concatenation,
    alternation, greedy [+] over a class and the anchor [$].  [bt] is a
    backtracking matcher in continuation-passing style that explores the
    alternatives in the order Python's [sre] engine does (left branch of
    [|] first, longest run of a greedy [+] first), so [re_match] returns
    the end of the very match Python finds.  [matches] is the
    declarative semantics; [bt_sound] and [bt_complete] relate the two. *)

From S2P Require Import Prelude PyModel.
Local Open Scope Z_scope.

Inductive regex :=
| RClass (p : Z -> bool)          (** one character of a class, or a literal *)
| RSeq (r1 r2 : regex)
| RAlt (r1 r2 : regex)            (** [r1|r2] *)
| RPlus (p : Z -> bool)           (** [[class]+], greedy *)
| RDollar.                        (** [$]: end of string, or before a final newline *)

Definition RLit (c : Z) : regex := RClass (Z.eqb c).

Fixpoint span_len (p : Z -> bool) (s : ustr) : nat :=
  match s with
  | c :: s' => if p c then S (span_len p s') else O
  | [] => O
  end.

Definition at_end (s : ustr) : bool := bool_decide (s = [] \/ s = [10]).

Section Backtrack.
  Context {A : Type}.

  (** Greedy repetition: try the continuation after [n], [n-1], ..., [1]
      characters. *)
Fixpoint try_down (n : nat) (s : ustr) (k : ustr -> option A) : option A :=
    match n with
    | O => None
    | S j => match k (drop (S j) s) with
             | Some x => Some x
             | None => try_down j s k
             end
    end.

Fixpoint bt (r : regex) (s : ustr) (k : ustr -> option A) : option A :=
    match r with
    | RClass p => match s with
                  | c :: s' => if p c then k s' else None
                  | [] => None
                  end
    | RSeq r1 r2 => bt r1 s (fun s' => bt r2 s' k)
    | RAlt r1 r2 => match bt r1 s k with
                    | Some x => Some x
                    | None => bt r2 s k
                    end
    | RPlus p => try_down (span_len p s) s k
    | RDollar => if at_end s then k s else None
    end.
End Backtrack.

(** [re.match(r, s)]: the end offset of the match, or [None]. *)
Definition re_match (r : regex) (s : ustr) : option nat :=
  bt r s (fun rest => Some (length s - length rest)%nat).

(** ** Declarative semantics: [matches r s s'] when [r] can consume a
    prefix of [s] and leave [s']. *)
Inductive matches : regex -> ustr -> ustr -> Prop :=
| m_class p c s : p c = true -> matches (RClass p) (c :: s) s
| m_seq r1 r2 s s1 s2 : matches r1 s s1 -> matches r2 s1 s2 -> matches (RSeq r1 r2) s s2
| m_alt_l r1 r2 s s' : matches r1 s s' -> matches (RAlt r1 r2) s s'
| m_alt_r r1 r2 s s' : matches r2 s s' -> matches (RAlt r1 r2) s s'
| m_plus_one p c s : p c = true -> matches (RPlus p) (c :: s) s
| m_plus_more p c s s' : p c = true -> matches (RPlus p) s s' -> matches (RPlus p) (c :: s) s'
| m_dollar s : at_end s = true -> matches RDollar s s.

#[export] Hint Constructors matches : core.

(** ** Greedy runs *)

Lemma plus_drop (p : Z -> bool) (s : ustr) (i : nat) :
  (1 <= i <= span_len p s)%nat -> matches (RPlus p) s (drop i s).
Proof.
  revert i. induction s as [|c s IH]; intros i Hi; simpl in *; [lia|].
  destruct (p c) eqn:Hp; [|lia].
  destruct i as [|[|i]]; [lia| |]; simpl; [by constructor|].
  apply m_plus_more; [done|]. apply (IH (S i)). lia.
Qed.

Lemma plus_inv (p : Z -> bool) (s s' : ustr) :
  matches (RPlus p) s s' -> exists i, (1 <= i <= span_len p s)%nat /\ s' = drop i s.
Proof.
  remember (RPlus p) as r eqn:Er. induction 1; inversion Er; subst.
  - exists 1%nat. simpl. rewrite H. split; [lia | done].
  - destruct IHmatches as [i [Hi ->]]; [done|].
    exists (S i). simpl. rewrite H. split; [lia | done].
Qed.

Section TryDown.
  Context {A : Type}.

Lemma try_down_sound (n : nat) (s : ustr) (k : ustr -> option A) x :
    try_down n s k = Some x -> exists i, (1 <= i <= n)%nat /\ k (drop i s) = Some x.
  Proof.
    induction n as [|n IH]; simpl; [discriminate|].
    destruct (k (drop (S n) s)) eqn:E; intros Hx.
    - injection Hx as <-. exists (S n). split; [lia | done].
    - destruct (IH Hx) as [i [Hi Hk]]. exists i. split; [lia | done].
  Qed.

Lemma try_down_complete (n i : nat) (s : ustr) (k : ustr -> option A) :
    (1 <= i <= n)%nat -> is_Some (k (drop i s)) -> is_Some (try_down n s k).
  Proof.
    induction n as [|n IH]; simpl; intros Hi Hk; [lia|].
    destruct (k (drop (S n) s)) eqn:E; [done|].
    destruct (decide (i = S n)) as [->|Hne]; [by rewrite E in Hk|].
    apply IH; [lia | done].
  Qed.
End TryDown.

(** ** The matcher implements the semantics *)

Theorem bt_sound {A} (r : regex) (s : ustr) (k : ustr -> option A) x :
  bt r s k = Some x -> exists s', matches r s s' /\ k s' = Some x.
Proof.
  revert s k x. induction r as [p|r1 IH1 r2 IH2|r1 IH1 r2 IH2|p|]; intros s k x; simpl.
  - destruct s as [|c s]; [discriminate|]. destruct (p c) eqn:Hp; [|discriminate]. eauto.
  - intros H. destruct (IH1 _ _ _ H) as [s1 [M1 H1]].
    destruct (IH2 _ _ _ H1) as [s2 [M2 H2]]. eauto.
  - destruct (bt r1 s k) eqn:E.
    + intros [= <-]. destruct (IH1 _ _ _ E) as [s' [M H]]. eauto.
    + intros H. destruct (IH2 _ _ _ H) as [s' [M H']]. eauto.
  - intros H. destruct (try_down_sound _ _ _ _ H) as [i [Hi Hk]].
    exists (drop i s). split; [by apply plus_drop | done].
  - destruct (at_end s) eqn:E; [|discriminate]. eauto.
Qed.

Theorem bt_complete {A} (r : regex) (s s' : ustr) (k : ustr -> option A) :
  matches r s s' -> is_Some (k s') -> is_Some (bt r s k).
Proof.
  intros M. revert k. induction M; intros k Hk; simpl.
  - by rewrite H.
  - apply IHM1. by apply IHM2.
  - destruct (bt r1 s k) eqn:E; [done|]. specialize (IHM k Hk). by rewrite E in IHM.
  - destruct (bt r1 s k); [done|]. by apply IHM.
  - apply (try_down_complete _ 1); simpl; [rewrite H; lia | done].
  - apply plus_inv in M as [i [Hi ->]].
    apply (try_down_complete _ (S i)); simpl; [rewrite H; lia | done].
  - by rewrite H.
Qed.

(** [re.match] succeeds exactly when the pattern matches a prefix. *)
Corollary re_match_spec (r : regex) (s : ustr) :
  is_Some (re_match r s) <-> exists s', matches r s s'.
Proof.
  unfold re_match. split.
  - intros [x Hx]. destruct (bt_sound _ _ _ _ Hx) as [s' [M _]]. eauto.
  - intros [s' M]. eapply bt_complete; [exact M | done].
Qed.

(** ** Inversion of the semantics, one lemma per construct *)

Lemma matches_class_iff (p : Z -> bool) (s s' : ustr) :
  matches (RClass p) s s' <-> exists c, p c = true /\ s = c :: s'.
Proof. split; [inversion 1; eauto | intros (c & Hc & ->); auto]. Qed.

Lemma matches_seq_iff (r1 r2 : regex) (s s2 : ustr) :
  matches (RSeq r1 r2) s s2 <-> exists s1, matches r1 s s1 /\ matches r2 s1 s2.
Proof. split; [inversion 1; eauto | intros (s1 & ? & ?); eauto]. Qed.

Lemma matches_alt_iff (r1 r2 : regex) (s s' : ustr) :
  matches (RAlt r1 r2) s s' <-> matches r1 s s' \/ matches r2 s s'.
Proof. split; [inversion 1; auto | intros [?|?]; auto]. Qed.

Lemma matches_dollar_iff (s s' : ustr) : matches RDollar s s' <-> s' = s /\ at_end s = true.
Proof. split; [inversion 1; auto | intros [-> ?]; auto]. Qed.

Lemma matches_plus_iff (p : Z -> bool) (s s' : ustr) :
  matches (RPlus p) s s' <-> exists x, x <> [] /\ Forall (fun c => p c = true) x /\ s = x ++ s'.
Proof.
  split.
  - intros M. remember (RPlus p) as r eqn:Er. induction M; inversion Er; subst.
    + exists [c]; split; [done | split; [by constructor | done]].
    + destruct IHM as (x & _ & Hx & ->); [done|].
      exists (c :: x). split; [done | split; [by constructor | done]].
  - intros (x & Hne & Hx & ->). induction Hx as [|c x Hc Hx IH]; [done|].
    destruct x as [|c' x]; simpl; [by constructor|].
    apply m_plus_more; [done | apply IH; done].
Qed.

Lemma at_end_iff (s : ustr) : at_end s = true <-> s = [] \/ s = [10].
Proof. unfold at_end. by rewrite bool_decide_eq_true. Qed.

Create Rewrite HintDb re_iff.
#[export] Hint Rewrite matches_class_iff matches_seq_iff matches_alt_iff
  matches_dollar_iff matches_plus_iff at_end_iff : re_iff.

(** [re_inv] decomposes every [matches] hypothesis down to equations on
    the input and facts about the characters. *)
Ltac re_inv :=
  repeat match goal with
  | H : matches (RSeq _ _) _ _ |- _ => apply matches_seq_iff in H as (? & ? & ?)
  | H : matches (RAlt _ _) _ _ |- _ => apply matches_alt_iff in H as [?|?]
  | H : matches (RPlus _) _ _ |- _ => apply matches_plus_iff in H as (? & ? & ? & ?); subst
  | H : matches (RClass _) _ _ |- _ => apply matches_class_iff in H as (? & ? & ?); subst
  | H : matches RDollar _ _ |- _ => apply matches_dollar_iff in H as [? ?]; subst
  | H : at_end _ = true |- _ => apply at_end_iff in H
  end.
