(* ===== verification/Storage.v ===== *)
(** * Storage: the database and the connection wrapper of db_connection.py

    The MySQL schema is not part of the repository; the tables are
    modelled from the INSERT statements of models.py and the data model
    of the spec: one [Record] per table, in a [Module] named after the
    table, with the source's column names as field names.  A grade is
    stored as a DECIMAL with two decimals, i.e. an integer number of
    hundredths.

    [conn] is the state [DatabaseConnection] reaches: the database and
    whether the server answers.  [execute_query] and [execute_query_one]
    model the two read paths: any [mysql.connector.Error] is logged and
    turned into [None], so a failed read and an empty read look the same
    to the caller.  [execute_update] re-raises ([DbError]) and leaves the
    database unchanged (rollback).

    String comparison in WHERE clauses follows the column collation,
    which the schema fixes and which is the class [Collation]; its laws
    are those of an equivalence. *)

From S2P Require Import Prelude PyModel.
Local Open Scope Z_scope.

(** Lexicographic order on code points: the binary collation's order. *)
Fixpoint lex_cmp (s t : ustr) : comparison :=
  match s, t with
  | [], [] => Eq
  | [], _ :: _ => Lt
  | _ :: _, [] => Gt
  | a :: s', b :: t' => match Z.compare a b with Eq => lex_cmp s' t' | o => o end
  end.

Class Collation := {
  coll_eq : ustr -> ustr -> bool;
  coll_eq_refl s : coll_eq s s = true;
  coll_eq_sym s t : coll_eq s t = coll_eq t s;
  coll_eq_trans s t u : coll_eq s t = true -> coll_eq t u = true -> coll_eq s u = true;
  (** The order of [ORDER BY] on a string column. *)
  coll_cmp : ustr -> ustr -> comparison;
  coll_cmp_opp s t : coll_cmp s t = CompOpp (coll_cmp t s);
  coll_cmp_eq s t : coll_cmp s t = Eq <-> coll_eq s t = true;
}.

(** The binary collation: code-point equality and order. *)
#[export] Program Instance binary_collation : Collation := {
  coll_eq s t := bool_decide (s = t);
  coll_cmp := lex_cmp;
}.
Next Obligation. intros s. by apply bool_decide_eq_true. Qed.
Next Obligation. intros s t. apply bool_decide_ext. split; congruence. Qed.
Next Obligation.
  intros s t u. rewrite !bool_decide_eq_true. congruence.
Qed.
Next Obligation.
  intros s t. revert t. induction s as [|a s IH]; intros [|b t]; simpl; try done.
  destruct (Z.compare_spec a b) as [->|Hab|Hab].
  - by rewrite Z.compare_refl.
  - by rewrite (proj2 (Z.compare_gt_iff b a) Hab).
  - by rewrite (proj2 (Z.compare_lt_iff b a) Hab).
Qed.
Next Obligation.
  intros s t. rewrite bool_decide_eq_true. revert t.
  induction s as [|a s IH]; intros [|b t]; simpl; try (split; congruence).
  destruct (Z.compare_spec a b) as [->|?|?].
  - rewrite IH. split; congruence.
  - split; [discriminate | intros [= -> _]; lia].
  - split; [discriminate | intros [= -> _]; lia].
Qed.

(** ** SQL values *)

Inductive sqlval :=
| SNull
| SInt (z : Z)
| SStr (s : ustr)
| SDec (hundredths : Z).

(** The parameter conversion of mysql-connector for the values the
    program binds: [None], booleans, integers and strings.  Floats are
    bound only by the enrollment writes, which [Models] translates to
    hundredths; here they are refused like an unsupported type. *)
Definition sql_param (v : pyval) : option sqlval :=
  match v with
  | PNone => Some SNull
  | PBool b => Some (SInt (if b then 1 else 0))
  | PInt z => Some (SInt z)
  | PStr s => Some (SStr s)
  | PFloat _ => None
  end.

(** Three-valued [=]: [None] is SQL's UNKNOWN. *)
Definition sql_eq `{Collation} (a b : sqlval) : option bool :=
  match a, b with
  | SNull, _ | _, SNull => None
  | SInt x, SInt y => Some (x =? y)
  | SDec x, SDec y => Some (x =? y)
  | SInt x, SDec y | SDec y, SInt x => Some (x * 100 =? y)
  | SStr s, SStr t => Some (coll_eq s t)
  | _, _ => Some false
  end.

Definition sql_opt_str (o : option ustr) : sqlval := from_option SStr SNull o.
Definition sql_opt_int (o : option Z) : sqlval := from_option SInt SNull o.
Definition sql_opt_dec (o : option Z) : sqlval := from_option SDec SNull o.

(** ** Tables *)

Module Student.
Record t := mk {
    StudentID : Z; FirstName : ustr; LastName : ustr; DOB : ustr; Gender : ustr;
    Address : option ustr; Phone : option ustr; Email : option ustr;
    EnrollmentYear : Z; Major : option ustr }.

Definition col (c : string) (r : t) : option sqlval :=
    assoc c [
      ("StudentID", SInt (StudentID r));
      ("FirstName", SStr (FirstName r));
      ("LastName", SStr (LastName r));
      ("DOB", SStr (DOB r));
      ("Gender", SStr (Gender r));
      ("Address", sql_opt_str (Address r));
      ("Phone", sql_opt_str (Phone r));
      ("Email", sql_opt_str (Email r));
      ("EnrollmentYear", SInt (EnrollmentYear r));
      ("Major", sql_opt_str (Major r)) ].
End Student.

Module Subject.
Record t := mk { SubjectCode : ustr; SubjectName : ustr; Credits : Z }.

Definition col (c : string) (r : t) : option sqlval :=
    assoc c [
      ("SubjectCode", SStr (SubjectCode r));
      ("SubjectName", SStr (SubjectName r));
      ("Credits", SInt (Credits r)) ].
End Subject.

Module Lecturer.
Record t := mk {
    LecturerID : Z; LecturerFirstName : ustr; LecturerLastName : ustr;
    LecturerEmail : option ustr; Office : option ustr }.

Definition col (c : string) (r : t) : option sqlval :=
    assoc c [
      ("LecturerID", SInt (LecturerID r));
      ("LecturerFirstName", SStr (LecturerFirstName r));
      ("LecturerLastName", SStr (LecturerLastName r));
      ("LecturerEmail", sql_opt_str (LecturerEmail r));
      ("Office", sql_opt_str (Office r)) ].
End Lecturer.

Module Class.
Record t := mk {
    ClassID : Z; SubjectCode : ustr; LecturerID : option Z; ClassName : option ustr;
    Semester : ustr; Year : Z; MaxCapacity : Z }.

Definition col (c : string) (r : t) : option sqlval :=
    assoc c [
      ("ClassID", SInt (ClassID r));
      ("SubjectCode", SStr (SubjectCode r));
      ("LecturerID", sql_opt_int (LecturerID r));
      ("ClassName", sql_opt_str (ClassName r));
      ("Semester", SStr (Semester r));
      ("Year", SInt (Year r));
      ("MaxCapacity", SInt (MaxCapacity r)) ].
End Class.

Module Enrollment.
Record t := mk {
    StudentID : Z; ClassID : Z; Grade : option Z; GradeLetter : option ustr;
    Note : option ustr }.

Definition col (c : string) (r : t) : option sqlval :=
    assoc c [
      ("StudentID", SInt (StudentID r));
      ("ClassID", SInt (ClassID r));
      ("Grade", sql_opt_dec (Grade r));
      ("GradeLetter", sql_opt_str (GradeLetter r));
      ("Note", sql_opt_str (Note r)) ].
End Enrollment.

(** Decidable equality of rows, for [decide] on membership and keys. *)
#[export] Instance Student_eq_dec : EqDecision Student.t.
Proof. solve_decision. Defined.
#[export] Instance Subject_eq_dec : EqDecision Subject.t.
Proof. solve_decision. Defined.
#[export] Instance Lecturer_eq_dec : EqDecision Lecturer.t.
Proof. solve_decision. Defined.
#[export] Instance Class_eq_dec : EqDecision Class.t.
Proof. solve_decision. Defined.
#[export] Instance Enrollment_eq_dec : EqDecision Enrollment.t.
Proof. solve_decision. Defined.

Record database := mkDb {
  students : list Student.t;
  subjects : list Subject.t;
  lecturers : list Lecturer.t;
  classes : list Class.t;
  enrollments : list Enrollment.t;
  auto_student : Z;     (** next AUTO_INCREMENT value of students.StudentID *)
  auto_lecturer : Z;    (** ... of lecturers.LecturerID *)
  auto_class : Z;       (** ... of classes.ClassID *)
}.

(** A table seen through its column accessor, as a generic
    [SELECT ... FROM {table}] sees it; [None] for an unknown table. *)
Definition table_rows (d : database) (table : string) : option (list (string -> option sqlval)) :=
  assoc table [
    ("students", map (flip Student.col) (students d));
    ("subjects", map (flip Subject.col) (subjects d));
    ("lecturers", map (flip Lecturer.col) (lecturers d));
    ("classes", map (flip Class.col) (classes d));
    ("enrollments", map (flip Enrollment.col) (enrollments d)) ].

(** The key constraints of the schema: the primary keys of students,
    lecturers and classes, and of enrollments (StudentID, ClassID). *)
Definition keys_unique (d : database) : Prop :=
  NoDup (Student.StudentID <$> students d) /\
  NoDup (Lecturer.LecturerID <$> lecturers d) /\
  NoDup (Class.ClassID <$> classes d) /\
  NoDup ((fun e => (Enrollment.StudentID e, Enrollment.ClassID e)) <$> enrollments d).

(** ** The connection *)

Record conn := mkConn { db : database; up : bool }.

(** [execute_query(query, params)] with [fetch_one=False]: the rows, or
    [None] when the statement fails ([q] returns [None]) or the server
    is unreachable. *)
Definition execute_query {R} (c : conn) (q : database -> option (list R)) : option (list R) :=
  if up c then q (db c) else None.

(** [execute_query(query, params, fetch_one=True)]: the first row, or
    [None] when there is none, when the statement fails, or when the
    server is unreachable. *)
Definition execute_query_one {R} (c : conn) (q : database -> option (list R)) : option R :=
  execute_query c q ≫= head.

(** [execute_update(query, params)]: the new state and the row count;
    [DbError] (after a rollback) when the statement fails. *)
Definition execute_update (c : conn) (u : database -> option (database * Z)) : result exc (conn * Z) :=
  if up c then
    match u (db c) with
    | Some (d', n) => Ok (mkConn d' true, n)
    | None => Err DbError
    end
  else Err DbError.

(** ** The statement of [Validators.check_unique]

    [SELECT 1 FROM {table} WHERE {column} = %s] and, when a current id
    is given, [AND {id_col} != %s].  A row is selected when the WHERE
    clause is TRUE; an unknown table or column is an SQL error. *)
Section CheckUniqueSelect.
  Context `{Collation}.

Definition where_unique (column : string) (v : sqlval) (excl : option (string * sqlval))
      (row : string -> option sqlval) : option bool :=
    cv ← row column;
    let eq := sql_eq cv v in
    match excl with
    | None => Some (bool_decide (eq = Some true))
    | Some (idc, idv) =>
        iv ← row idc;
        let ne := negb <$> sql_eq iv idv in
        Some (bool_decide (eq = Some true /\ ne = Some true))
    end.

Definition select_unique (table column : string) (v : pyval) (excl : option (string * pyval))
      (d : database) : option (list unit) :=
    rows ← table_rows d table;
    sv ← sql_param v;
    ex ← (match excl with
          | None => Some None
          | Some (idc, idv) => (fun x => Some (idc, x)) <$> sql_param idv
          end);
    sel ← mapM (where_unique column sv ex) rows;
    Some (map (fun _ => tt) (filter (fun b : bool => b = true) sel)).

  (** [SELECT 1 FROM enrollments WHERE StudentID=%s AND ClassID=%s]
      (validators.py line 225, models.py line 523). *)
Definition select_enrollment_pair (sid cid : pyval) (d : database) : option (list unit) :=
    sv ← sql_param sid;
    cv ← sql_param cid;
    Some (map (fun _ => tt)
      (filter (fun e => sql_eq (SInt (Enrollment.StudentID e)) sv = Some true /\
                        sql_eq (SInt (Enrollment.ClassID e)) cv = Some true) (enrollments d))).
End CheckUniqueSelect.
