(* ===== verification/DbConnection.v ===== *)
(** * DbConnection: the pool and the transactions of db_connection.py

    [DatabaseConnection] (db_connection.py 19-163) is a singleton created
    at import ([db = DatabaseConnection()], line 165): its [__init__]
    builds a pool of five connections with autocommit off, which opens
    them at once and raises when the server cannot be reached.  Every
    call goes through two context managers: [get_connection] takes a
    connection from the pool and gives it back, [get_cursor] opens a
    cursor, commits when the body returns and rolls back and re-raises
    when it raises.  [execute_query] catches the error and returns
    [None]; [execute_update] and [execute_many] re-raise.

    [with_cursor] is [get_cursor] around a body that works on the state
    of the transaction: it returns the connection after the call (the
    committed state, or the state before the call after a rollback) and
    the outcome.  [Storage.execute_query] and [Storage.execute_update],
    on which every other file is built, are shown to be what these
    methods compute ([execute_update_refines]). *)
From S2P Require Import Prelude PyModel Storage.
Local Open Scope Z_scope.

(** [_initialize_pool] (lines 41-58), run by [__init__] at import. *)
Definition DatabaseConnection_init (c : conn) : result exc unit := if up c then Ok tt else Err DbError.

(** [self._pool.get_connection()] in [get_connection] (lines 60-81): a
    pooled connection is reset before use, which fails when the server
    is gone. *)
Definition pool_get_connection (c : conn) : result exc unit := if up c then Ok tt else Err DbError.

(** [get_cursor()] (lines 83-102) around [body]: [conn.commit()] after
    the body, [conn.rollback()] and [raise] when it raises. *)
Definition with_cursor {A} (c : conn) (body : database -> result exc (database * A)) : conn * result exc A :=
  match pool_get_connection c with
  | Err e => (c, Err e)
  | Ok _ =>
      match body (db c) with
      | Ok (d', a) => (mkConn d' true, Ok a)
      | Err e => (c, Err e)
      end
  end.

(** [cursor.execute(query, params)] of a statement; [rowcount] after a
    write. *)
Definition cursor_execute {A} (u : database -> option (database * A)) (d : database) : result exc (database * A) :=
  match u d with Some r => Ok r | None => Err DbError end.

(** [execute_query(query, params)] (lines 104-124): a read in the
    transaction; an error is logged and [None] returned. *)
Definition DatabaseConnection_execute_query {R} (c : conn) (q : database -> option (list R)) : option (list R) :=
  match with_cursor c (cursor_execute (fun d => (fun rows => (d, rows)) <$> q d)) with
  | (_, Ok rows) => Some rows
  | (_, Err _) => None
  end.

(** [execute_update(query, params)] (lines 126-143) *)
Definition DatabaseConnection_execute_update (c : conn) (u : database -> option (database * Z)) : conn * result exc Z :=
  with_cursor c (cursor_execute u).

(** [cursor.executemany(query, params_list)]: the statement once per
    parameter tuple, in order, [rowcount] the sum of the counts; an
    empty list runs nothing and leaves [rowcount] at -1. *)
Fixpoint executemany_go {P} (u : P -> database -> option (database * Z)) (ps : list P) (d : database) (n : Z)
    : result exc (database * Z) :=
  match ps with
  | [] => Ok (d, n)
  | p :: ps' => match u p d with Some (d', k) => executemany_go u ps' d' (n + k) | None => Err DbError end
  end.

Definition cursor_executemany {P} (u : P -> database -> option (database * Z)) (ps : list P) (d : database)
    : result exc (database * Z) :=
  match ps with [] => Ok (d, -1) | _ => executemany_go u ps d 0 end.

(** [execute_many(query, params_list)] (lines 145-163) *)
Definition DatabaseConnection_execute_many {P} (c : conn) (u : P -> database -> option (database * Z)) (ps : list P)
    : conn * result exc Z :=
  with_cursor c (cursor_executemany u ps).

(** The tables of the schema (the spec's data model; no schema file is
    in the repository). *)
Definition schema_tables : list string := ["students"; "subjects"; "lecturers"; "classes"; "enrollments"].

(** [check_table_exists(table_name)] (lines 188-198): the count of the rows of
    [information_schema.tables] for the table; [result and ...] is
    [None] when the query failed. *)
Definition check_table_exists (c : conn) (table_name : string) : option bool :=
  match DatabaseConnection_execute_query c (fun _ => Some [if bool_decide (table_name ∈ schema_tables) then 1 else 0])
  with
  | Some (count :: _) => Some (0 <? count)
  | _ => None
  end.

(** * Properties *)

Section DbConnectionProperties.

(** The connection wrappers every model is built on compute what
    db_connection.py does: [Storage.execute_update] is [execute_update]
    run in [get_cursor] (committed on success; on an error rolled back,
    the connection left as it was, and re-raised), and
    [Storage.execute_query] is [execute_query] with its errors turned
    into [None]. *)
Theorem execute_update_refines (c : conn) (u : database -> option (database * Z)) {R} (q : database -> option (list R)) :
  (execute_update c u = match DatabaseConnection_execute_update c u with
                        | (c', Ok n) => Ok (c', n)
                        | (_, Err e) => Err e
                        end /\
   forall e, (DatabaseConnection_execute_update c u).2 = Err e -> (DatabaseConnection_execute_update c u).1 = c) /\
  execute_query c q = DatabaseConnection_execute_query c q.
Proof.
  unfold execute_update, execute_query, DatabaseConnection_execute_update, DatabaseConnection_execute_query,
    with_cursor, pool_get_connection, cursor_execute.
  destruct (up c); [|done]. split; [split|].
  - by destruct (u (db c)) as [[d' n]|].
  - intros e. by destruct (u (db c)) as [[d' n]|].
  - by destruct (q (db c)).
Qed.

(** [executemany] runs the statement on each tuple in turn. *)
Lemma executemany_go_app {P} (u : P -> database -> option (database * Z)) (p : P) (ps : list P) (d : database) (n : Z) :
  executemany_go u (p :: ps) d n =
    match u p d with Some (d', k) => executemany_go u ps d' (n + k) | None => Err DbError end.
Proof. done. Qed.

(** [execute_many] is atomic: when a statement of the batch fails,
    the rollback of [get_cursor] leaves the database as it was before
    the call, even for the tuples already run; otherwise every tuple is
    applied in order, committed once, and the row count is their sum. *)
Theorem execute_many_atomic {P} (c : conn) (u : P -> database -> option (database * Z)) (ps : list P) :
  let '(c', r) := DatabaseConnection_execute_many c u ps in
  match r with
  | Err _ => c' = c
  | Ok n => up c = true /\ exists d', cursor_executemany u ps (db c) = Ok (d', n) /\ c' = mkConn d' true
  end.
Proof.
  unfold DatabaseConnection_execute_many, with_cursor, pool_get_connection.
  destruct (up c) eqn:Hup; [|done].
  destruct (cursor_executemany u ps (db c)) as [[d' n]|e]; [|done].
  split; [done|]. by exists d'.
Qed.
End DbConnectionProperties.

(** ** Example *)

(** A batch of two deletions whose second tuple names no row runs both;
    a batch whose second statement fails leaves the first undone. *)
Example execute_many_rollback :
  let c := mkConn (mkDb [] [] [] [] [] 1 1 1) true in
  let u (k : Z) (d : database) := if k =? 0 then None else Some (mkDb [] [] [] [] [] (auto_student d + k) 1 1, 1) in
  DatabaseConnection_execute_many c u [1; 2] = (mkConn (mkDb [] [] [] [] [] 4 1 1) true, Ok 2) /\
  DatabaseConnection_execute_many c u [1; 0] = (c, Err DbError) /\
  check_table_exists c "students" = Some true /\ check_table_exists c "teachers" = Some false /\
  check_table_exists (mkConn (db c) false) "students" = None.
Proof. vm_compute. split_and!; reflexivity. Qed.
