(* ===== verification/Query.v ===== *)
(** * Query: the SQL read constructs the SELECT statements use

    The SELECT statements of models.py and query_models.py are modelled
    one function each (in [Reads] and [Reports]); this file holds what
    they share:
    - [ORDER BY] as [order_by]: a sort of the rows on a list of keys,
      each ascending or descending, compared with [sql_cmp] (NULL first
      when ascending, strings in the order of the collation).  MySQL
      leaves the order of rows with equal keys unspecified; the model
      sorts with stdpp's (stable) [merge_sort], and the theorems about
      queries only use that the result is sorted and a permutation of
      its input ([order_by_sorted], [order_by_perm]).
    - [LIMIT n OFFSET k] as [sql_limit].
    - [LIKE] as [like_match]: [%], [_] and the escape character [\],
      characters compared one by one under the collation (MySQL's LIKE is
      per-character).
    - the aggregates over a DECIMAL(4,2) column: [AVG] has six decimals
      (the column's two plus [div_precision_increment] = 4), rounded half
      away from zero; [ROUND(x, 2)] rounds that again to hundredths. *)

From S2P Require Import Prelude PyModel Storage.
From stdpp Require Import sorting.
Local Open Scope Z_scope.

(** ** ORDER BY *)

Inductive dir := Asc | Desc.

Section Order.
  Context `{Collation}.

Definition sql_cmp (a b : sqlval) : comparison :=
    match a, b with
    | SNull, SNull => Eq
    | SNull, _ => Lt
    | _, SNull => Gt
    | SInt x, SInt y => Z.compare x y
    | SDec x, SDec y => Z.compare x y
    | SInt x, SDec y => Z.compare (100 * x) y
    | SDec x, SInt y => Z.compare x (100 * y)
    | SStr s, SStr t => coll_cmp s t
    | SStr _, _ => Gt
    | _, SStr _ => Lt
    end.

Definition dir_cmp (d : dir) (o : comparison) : comparison :=
    match d with Asc => o | Desc => CompOpp o end.

  (** Lexicographic comparison of two keys under the directions [ds]. *)
Fixpoint keys_cmp (ds : list dir) (k1 k2 : list sqlval) : comparison :=
    match ds, k1, k2 with
    | d :: ds', a :: k1', b :: k2' =>
        match dir_cmp d (sql_cmp a b) with Eq => keys_cmp ds' k1' k2' | o => o end
    | _, _, _ => Eq
    end.

Definition row_le {R} (ds : list dir) (key : R -> list sqlval) (x y : R) : Prop :=
    keys_cmp ds (key x) (key y) <> Gt.

#[export] Instance row_le_dec {R} ds (key : R -> list sqlval) : RelDecision (row_le ds key).
  Proof. intros x y. unfold row_le. apply _. Defined.

  (** [SELECT ... ORDER BY key] *)
Definition order_by {R} (ds : list dir) (key : R -> list sqlval) (l : list R) : list R :=
    merge_sort (row_le ds key) l.

  (** [LIMIT n]: a negative count is a syntax error once the connector
      has written the parameter into the statement. *)
Definition sql_limit {R} (n : Z) (l : list R) : option (list R) :=
    if n <? 0 then None else Some (take (Z.to_nat n) l).

Definition sql_limit_offset {R} (n k : Z) (l : list R) : option (list R) :=
    if (n <? 0) || (k <? 0) then None else Some (take (Z.to_nat n) (drop (Z.to_nat k) l)).
End Order.

(** ** Joins and grouping *)

(** [l LEFT JOIN r ON ...]: each left row with its matches, or with NULL
    when it has none. *)
Definition left_join {A B} (l : list A) (r : A -> list B) : list (A * option B) :=
  a ← l; match r a with [] => [(a, None)] | bs => (fun b => (a, Some b)) <$> bs end.

(** [GROUP BY label] with [COUNT( * )]: one row per distinct label, in
    the order of first occurrence. *)
Definition group_count (labels : list ustr) : list (ustr * Z) :=
  (fun g => (g, Z.of_nat (length (filter (fun x => x = g) labels)))) <$> remove_dups labels.

(** ** LIKE *)

Section Like.
  Context `{Collation}.

Fixpoint tails (s : ustr) : list ustr :=
    match s with [] => [[]] | _ :: s' => s :: tails s' end.

Definition like_char (c c' : Z) : bool := coll_eq [c] [c'].

  (** [s LIKE p] with the default escape character [\]. *)
Fixpoint like_match (p : ustr) (s : ustr) : bool :=
    match p with
    | [] => bool_decide (s = [])
    | 37 :: p' => existsb (like_match p') (tails s)
    | 95 :: p' => match s with [] => false | _ :: s' => like_match p' s' end
    | 92 :: c :: p' => match s with [] => false | c' :: s' => like_char c c' && like_match p' s' end
    | c :: p' => match s with [] => false | c' :: s' => like_char c c' && like_match p' s' end
    end.

  (** A pattern without wildcard nor escape characters matches a string
      exactly when the two agree character by character. *)
Definition plain_pattern (k : ustr) : Prop := Forall (fun c => c <> 37 /\ c <> 95 /\ c <> 92) k.

  (** [k] occurs in [s], characters compared under the collation. *)
Definition occurs (k s : ustr) : Prop :=
    exists a x b, s = a ++ x ++ b /\ Forall2 (fun c c' => like_char c c' = true) k x.
End Like.

(** The number of occurrences of [g] in [l]: [COUNT( * )] of a group. *)
Definition occurrences {A} `{!EqDecision A} (l : list A) (g : A) : Z := Z.of_nat (length (filter (fun x => x = g) l)).

(** ** Aggregates over DECIMAL(4,2) values (hundredths) *)

(** [AVG(col)]: NULL on no row, otherwise in millionths. *)
Definition avg6 (l : list Z) : option Z :=
  match l with
  | [] => None
  | _ => Some (round_half_away_div (sum_Z l * 10000) (Z.of_nat (length l)))
  end.

(** [ROUND(x, 2)] of a value with six decimals, in hundredths. *)
Definition round2_of6 (x : Z) : Z := round_half_away_div x 10000.

Definition sql_min (l : list Z) : option Z :=
  match l with [] => None | x :: l' => Some (foldr Z.min x l') end.
Definition sql_max (l : list Z) : option Z :=
  match l with [] => None | x :: l' => Some (foldr Z.max x l') end.

(** [COUNT(DISTINCT col)] over integer values. *)
Definition count_distinct (l : list Z) : Z := Z.of_nat (length (remove_dups l)).

(** * Lemmas *)

Section OrderLemmas.
  Context `{Collation}.

Lemma sql_cmp_opp (a b : sqlval) : sql_cmp a b = CompOpp (sql_cmp b a).
  Proof.
    destruct a, b; simpl; try done; try apply Z.compare_antisym; apply coll_cmp_opp.
  Qed.

Lemma keys_cmp_opp (ds : list dir) (k1 k2 : list sqlval) :
    keys_cmp ds k1 k2 = CompOpp (keys_cmp ds k2 k1).
  Proof.
    revert k1 k2. induction ds as [|d ds IH]; intros [|a k1] [|b k2]; simpl; try done.
    rewrite (sql_cmp_opp a b).
    destruct d, (sql_cmp b a); simpl; auto.
  Qed.

Lemma row_le_total {R} ds (key : R -> list sqlval) : Total (row_le ds key).
  Proof.
    intros x y. unfold row_le. rewrite (keys_cmp_opp ds (key y) (key x)).
    destruct (keys_cmp ds (key x) (key y)); simpl; auto; by right.
  Qed.
#[export] Existing Instance row_le_total.

Lemma order_by_sorted {R} ds (key : R -> list sqlval) (l : list R) :
    Sorted (row_le ds key) (order_by ds key l).
  Proof. apply Sorted_merge_sort, _. Qed.

Lemma order_by_perm {R} ds (key : R -> list sqlval) (l : list R) :
    order_by ds key l ≡ₚ l.
  Proof. apply merge_sort_Permutation. Qed.

Lemma elem_of_order_by {R} ds (key : R -> list sqlval) (l : list R) x :
    x ∈ order_by ds key l <-> x ∈ l.
  Proof. by rewrite order_by_perm. Qed.

Lemma sql_limit_Some {R} (n : Z) (l l' : list R) :
    sql_limit n l = Some l' -> 0 <= n /\ l' = take (Z.to_nat n) l.
  Proof. unfold sql_limit. destruct (Z.ltb_spec n 0); intros; simplify_eq; auto. Qed.
End OrderLemmas.

Section LikeLemmas.
  Context `{Collation}.

Lemma elem_of_tails (s t : ustr) : t ∈ tails s <-> exists a, s = a ++ t.
  Proof.
    revert t. induction s as [|c s IH]; intros t; simpl.
    - rewrite list_elem_of_singleton. split; [intros ->; by exists [] |].
      intros [a Ha]. symmetry in Ha. by apply app_eq_nil in Ha as [_ ->].
    - rewrite elem_of_cons, IH. split.
      + intros [->|[a ->]]; [by exists [] | by exists (c :: a)].
      + intros [[|c' a] Ha]; [by left|]. injection Ha as -> ->. right. eauto.
  Qed.


Lemma like_plain (k m s : ustr) :
    plain_pattern k ->
    like_match (k ++ m) s = true <->
    exists x s', s = x ++ s' /\ Forall2 (fun a b => like_char a b = true) k x /\ like_match m s' = true.
  Proof.
    intros Hk. revert s. induction Hk as [|c k [H1 [H2 H3]] Hk IH]; intros s.
    - simpl. split; [intros; by exists [], s | intros (x & s' & -> & Hx & Hm); by inversion Hx].
    - assert (like_match (c :: k ++ m) s =
              match s with [] => false | c' :: s' => like_char c c' && like_match (k ++ m) s' end)
        as Hc.
      { destruct c as [|p|p]; try done; repeat (destruct p; try done). }
      change ((c :: k) ++ m) with (c :: (k ++ m)). rewrite Hc. clear Hc.
      destruct s as [|c' s].
      + split; [discriminate | intros (x & s' & Hs & Hx & _); inversion Hx; subst; discriminate].
      + rewrite andb_true_iff, IH. split.
        * intros [Hc (x & s' & -> & Hx & Hm)]. exists (c' :: x), s'. eauto.
        * intros (x & s' & Hs & Hx & Hm). inversion Hx as [|? y ? x' Hc Hx']; subst.
          simpl in Hs. injection Hs as -> ->. eauto 7.
  Qed.


  (** [col LIKE '%k%'] for a plain [k]: [k] occurs in [col]. *)
Lemma like_contains (k s : ustr) :
    plain_pattern k ->
    like_match ([37] ++ k ++ [37]) s = true <-> occurs k s.
  Proof.
    intros Hk. unfold occurs. simpl. rewrite existsb_exists. split.
    - intros (t & Ht & Hm). apply list_elem_of_In, elem_of_tails in Ht as [a ->].
      apply (like_plain k [37]) in Hm as (x & b & -> & Hx & _); [|done]. eauto.
    - intros (a & x & b & -> & Hx). exists (x ++ b). split.
      + apply list_elem_of_In, elem_of_tails. by exists a.
      + apply (like_plain k [37]); [done|]. exists x, b. split_and!; [done | done |].
        simpl. apply existsb_exists. exists []. split; [| done].
        apply list_elem_of_In, elem_of_tails. exists b. by rewrite app_nil_r.
  Qed.
End LikeLemmas.

(** ** Bounds of the aggregates *)

Lemma avg6_bounds (l : list Z) (lo hi a : Z) :
  0 <= lo -> Forall (fun g => lo <= g <= hi) l -> avg6 l = Some a -> lo * 10000 <= a <= hi * 10000.
Proof.
  intros Hlo Hl. destruct l as [|g l']; [discriminate|]. intros [= <-].
  pose proof (sum_Z_bounds lo hi (g :: l') Hl) as Hs.
  set (n := Z.of_nat (length (g :: l'))) in *.
  assert (0 < n) by (subst n; simpl; lia).
  apply round_half_away_div_within; [lia | lia |]. subst n. simpl in *. nia.
Qed.

Lemma round2_of6_bounds (lo hi x : Z) :
  0 <= lo -> lo * 10000 <= x <= hi * 10000 -> lo <= round2_of6 x <= hi.
Proof. intros Hlo Hx. unfold round2_of6. apply round_half_away_div_within; lia. Qed.

(** ** Joins *)

Section JoinLemmas.
  Context {A B : Type}.

Lemma left_join_cons (a : A) (l : list A) (r : A -> list B) :
    left_join (a :: l) r =
    match r a with [] => [(a, None)] | bs => (fun b => (a, Some b)) <$> bs end ++ left_join l r.
  Proof. done. Qed.

Lemma elem_of_left_join (l : list A) (r : A -> list B) (a : A) (ob : option B) :
    (a, ob) ∈ left_join l r <->
    a ∈ l /\ match ob with None => r a = [] | Some b => b ∈ r a end.
  Proof.
    induction l as [|a' l IH]; [simpl; rewrite elem_of_nil; split; [done | by intros [Hn _]; apply elem_of_nil in Hn]|].
    rewrite left_join_cons, elem_of_app, IH, elem_of_cons.
    destruct (r a') as [|b' bs] eqn:Er.
    - rewrite list_elem_of_singleton. split.
      + intros [[= -> ->]|[? ?]]; [split; [by left | done] | tauto].
      + intros [[->|?] ?]; [|tauto]. destruct ob; [rewrite Er in *; set_solver | by left].
    - rewrite list_elem_of_fmap. split.
      + intros [(b & [= -> ->] & Hb)|[? ?]]; [split; [by left | by rewrite Er] | tauto].
      + intros [[->|?] Hob]; [|tauto]. left. rewrite Er in Hob.
        destruct ob as [b|]; [by exists b | done].
  Qed.

Lemma filter_pairs (P : A -> Prop) `{!∀ a, Decision (P a)} (a : A) (bs : list (option B)) :
    filter (fun x => P x.1) ((fun b => (a, b)) <$> bs) =
    if decide (P a) then (fun b => (a, b)) <$> bs else [].
  Proof.
    induction bs as [|b bs IH]; [simpl; by destruct (decide (P a))|].
    rewrite fmap_cons, filter_cons, IH. simpl. by destruct (decide (P a)).
  Qed.

Lemma filter_left_join (P : A -> Prop) `{!∀ a, Decision (P a)}
    (Q : A * option B -> Prop) `{!∀ x, Decision (Q x)} (l : list A) (r : A -> list B) :
    (forall x, Q x <-> P x.1) ->
    filter Q (left_join l r) = left_join (filter P l) r.
  Proof.
    intros HQ. rewrite (list_filter_iff _ (fun x => P x.1)) by done. clear HQ.
    induction l as [|a l IH]; [done|].
    rewrite left_join_cons, filter_app, IH, filter_cons.
    assert (Hm : match r a with [] => [(a, None)] | bs => (fun b => (a, Some b)) <$> bs end =
                 (fun b => (a, b)) <$> match r a with [] => [None] | bs => Some <$> bs end).
    { destruct (r a); [done|]. simpl. by rewrite <-list_fmap_compose. }
    rewrite Hm, filter_pairs, <-Hm.
    by destruct (decide (P a)); rewrite ?left_join_cons.
  Qed.

Lemma length_left_join_le1 (l : list A) (r : A -> list B) :
    (forall a, a ∈ l -> length (r a) <= 1)%nat -> length (left_join l r) = length l.
  Proof.
    induction l as [|a l IH]; intros Hr; [done|].
    rewrite left_join_cons, length_app, IH by set_solver.
    specialize (Hr a ltac:(set_solver)).
    destruct (r a) as [|b [|b' bs]]; simpl in *; [done | done | lia].
  Qed.
Lemma left_join_single (a : A) (r : A -> list B) :
    left_join [a] r = match r a with [] => [(a, None)] | bs => (fun b => (a, Some b)) <$> bs end.
  Proof. unfold left_join. simpl. by rewrite app_nil_r. Qed.

Lemma length_left_join_single (a : A) (r : A -> list B) :
    length (left_join [a] r) = Nat.max 1 (length (r a)).
  Proof.
    rewrite left_join_single. destruct (r a) as [|b bs]; [done|].
    rewrite length_fmap. simpl. lia.
  Qed.

  (** The rows of a single left row that found a match are its matches. *)
Lemma left_join_single_matched (a : A) (r : A -> list B) :
    length (filter (fun y => is_Some y.2) (left_join [a] r)) = length (r a).
  Proof.
    rewrite left_join_single. destruct (r a) as [|b bs]; [done|].
    rewrite filter_all_true; [by rewrite length_fmap|].
    intros x Hx. apply list_elem_of_fmap in Hx as (b' & -> & _). simpl. eauto.
  Qed.
End JoinLemmas.

(** ** Grouping *)

Section GroupLemmas.
  Context {A : Type} `{!EqDecision A}.


Lemma occurrences_sum (l keys : list A) :
    NoDup keys -> (forall x, x ∈ l -> x ∈ keys) ->
    sum_Z (occurrences l <$> keys) = Z.of_nat (length l).
  Proof.
    intros Hk. induction l as [|x l IH]; intros Hl.
    - clear Hk Hl. induction keys as [|k keys IHk]; [done|]. by rewrite fmap_cons, sum_Z_cons, IHk.
    - assert (occurrences (x :: l) <$> keys =
              (fun g => (if decide (x = g) then 1 else 0) + occurrences l g) <$> keys) as ->.
      { apply list_fmap_ext. intros _ g _. unfold occurrences.
        rewrite filter_cons. destruct (decide (x = g)); simpl; lia. }
      rewrite sum_Z_fmap_add, sum_Z_indicator, IH by set_solver. rewrite length_cons. lia.
  Qed.
End GroupLemmas.

Lemma group_count_fst (labels : list ustr) : fst <$> group_count labels = remove_dups labels.
Proof. unfold group_count. rewrite <-list_fmap_compose. apply list_fmap_id. Qed.

(** The counts of [GROUP BY] add up to the number of rows. *)
Lemma group_count_sum (labels : list ustr) :
  sum_Z (snd <$> group_count labels) = Z.of_nat (length labels).
Proof.
  unfold group_count. rewrite <-list_fmap_compose.
  apply (occurrences_sum labels (remove_dups labels)); [apply NoDup_remove_dups|].
  intros x. by rewrite elem_of_remove_dups.
Qed.

Lemma group_count_pos (labels : list ustr) (r : ustr * Z) :
  r ∈ group_count labels -> 0 < r.2.
Proof.
  unfold group_count. intros (g & -> & Hg)%list_elem_of_fmap. simpl.
  rewrite elem_of_remove_dups in Hg.
  assert (g ∈ filter (fun x => x = g) labels) as Hf by (apply list_elem_of_filter; split; [reflexivity | exact Hg]).
  destruct (filter _ _); [by apply elem_of_nil in Hf | simpl; lia].
Qed.

Lemma Sorted_take {A} (R : relation A) (l : list A) (n : nat) :
  Sorted R l -> Sorted R (take n l).
Proof.
  intros Hl. revert n. induction Hl as [|x l Hl IH Hx]; intros [|n]; simpl; try constructor.
  - apply IH.
  - destruct Hx as [|y l' Hxy]; destruct n; simpl; constructor; done.
Qed.
