(* ===== verification/Validators.v ===== *)
(** * Validators: the class [Validators] of validators.py

    One definition per static method, in the order of the source.  The
    methods that read the database ([check_unique], [validate_email],
    [validate_subject_code], the three dataset validators) take the
    connection [c]; the methods that read the clock take the current
    year ([date.today().year], [datetime.now().year]) as an argument.
    A method that raises returns [Err]; the message of a
    [ValidationError] is the [vmsg] of its [raise] site. *)

From S2P Require Import Prelude PyModel Regex Storage.
From Stdlib Require Import QArith.
Local Open Scope Z_scope.
Local Open Scope res_scope.

(** ** Character classes of the patterns (Python's Unicode [re]) *)

Section Classes.
  Context `{PyUnicode}.

Definition re_word (c : Z) : bool := uc_isalnum c || (c =? 95).        (** [\w] *)
Definition re_digit (c : Z) : bool := bool_decide (is_Some (uc_digit c)). (** [\d] *)
Definition email_class (c : Z) : bool := re_word c || (c =? 46) || (c =? 45). (** [[\w\.-]] *)

  (** validators.py line 62: [^[\w\.-]+@[\w\.-]+\.\w+$] *)
Definition email_re : regex :=
    RSeq (RPlus email_class) (RSeq (RLit 64) (RSeq (RPlus email_class)
      (RSeq (RLit 46) (RSeq (RPlus re_word) RDollar)))).

  (** validators.py line 118: [^[A-Z]+\d+$] *)
Definition subject_code_re : regex :=
    RSeq (RPlus (in_range 65 90)) (RSeq (RPlus re_digit) RDollar).

  (** The directives of CPython's [_strptime.TimeRE] for "%Y-%m-%d":
      [\d\d\d\d], [1[0-2]|0[1-9]|[1-9]] and
      [3[01]|[12]\d|0[1-9]|[1-9]| [1-9]]. *)
Definition year_re : regex :=
    RSeq (RClass re_digit) (RSeq (RClass re_digit) (RSeq (RClass re_digit) (RClass re_digit))).
Definition month_re : regex :=
    RAlt (RSeq (RLit 49) (RClass (in_range 48 50)))
      (RAlt (RSeq (RLit 48) (RClass (in_range 49 57))) (RClass (in_range 49 57))).
Definition day_re : regex :=
    RAlt (RSeq (RLit 51) (RClass (in_range 48 49)))
      (RAlt (RSeq (RClass (in_range 49 50)) (RClass re_digit))
        (RAlt (RSeq (RLit 48) (RClass (in_range 49 57)))
          (RAlt (RClass (in_range 49 57)) (RSeq (RLit 32) (RClass (in_range 49 57)))))).
End Classes.

(** ** Calendar *)

Definition is_leap (y : Z) : bool := (y mod 4 =? 0) && negb (y mod 100 =? 0) || (y mod 400 =? 0).

Definition days_in_month (y m : Z) : Z :=
  if m =? 2 then (if is_leap y then 29 else 28)
  else if (m =? 4) || (m =? 6) || (m =? 9) || (m =? 11) then 30 else 31.

(** [datetime.date(year, month, day)]: [ValueError] outside the
    calendar (MINYEAR = 1, MAXYEAR = 9999). *)
Definition mk_date (y m d : Z) : result exc (Z * Z * Z) :=
  if (1 <=? y) && (y <=? 9999) && (1 <=? m) && (m <=? 12) && (1 <=? d) && (d <=? days_in_month y m)
  then Ok (y, m, d) else Err ValueError.

Section Validators.
  Context `{PyUnicode} `{Collation}.

  (** [datetime.strptime(s, "%Y-%m-%d").date()]: the compiled pattern is
      matched at the start of [s] (first match of the backtracking
      engine); the match must end at the end of [s]; the three groups go
      through [int()] and then through the [date] constructor. *)
Definition strptime_match (s : ustr) : option (ustr * ustr * ustr * ustr) :=
    let grp a b := take (length a - length b) a in
    bt year_re s (fun s1 =>
    bt (RLit 45) s1 (fun s2 =>
    bt month_re s2 (fun s3 =>
    bt (RLit 45) s3 (fun s4 =>
    bt day_re s4 (fun s5 => Some (grp s s1, grp s2 s3, grp s4 s5, s5)))))).

Definition strptime_ymd (v : pyval) : result exc (Z * Z * Z) :=
    match v with
    | PStr s =>
        match strptime_match s with
        | Some (ys, ms, ds, []) =>
            y <- parse_int ys;; m <- parse_int ms;; d <- parse_int ds;; mk_date y m d
        | _ => Err ValueError
        end
    | _ => Err TypeError
    end.

  (** [is_empty(value, field_name)] (lines 17-20) *)
Definition is_empty (value : pyval) (field : string) : result exc unit :=
    raise_if (match value with PNone => true | PStr s => bool_decide (py_strip s = []) | _ => false end)
      (ValidationError (MsgRequired field)).

  (** [check_unique(table, column, value, current_id, id_column)] (lines 23-41) *)
Definition check_unique (c : conn) (table column : string) (value current_id : pyval)
      (id_column : option string) : result exc unit :=
    if negb (py_truthy value) then Ok tt else
    let id_col := match id_column with
                  | Some ic => if String.eqb ic "" then (table ++ "ID")%string else ic
                  | None => (table ++ "ID")%string
                  end in
    let excl := match current_id with PNone => None | _ => Some (id_col, current_id) end in
    match execute_query_one c (select_unique table column value excl) with
    | Some _ => Err (ValidationError (MsgDuplicate column value))
    | None => Ok tt
    end.

  (** [validate_full_name(full_name)] (lines 47-56) *)
Definition validate_full_name (full_name : pyval) : result exc (ustr * ustr) :=
    is_empty full_name "Full Name";;;
    match full_name with
    | PStr s =>
        if bool_decide (32 ∉ py_strip s) then Err (ValidationError MsgFullName) else
        let parts := py_split (py_strip s) in
        match parts with
        | first :: rest => Ok (first, py_join (us " ") rest)
        | [] => Err (KeyError "0")
        end
    | _ => Err (AttributeError "strip")
    end.

  (** [validate_email(email, table, current_id)] (lines 59-69) *)
Definition validate_email (c : conn) (email : pyval) (table : string) (current_id : pyval)
      : result exc pyval :=
    is_empty email "Email";;;
    match email with
    | PStr s =>
        if re_match email_re s is Some _ then
          let id_col := if String.eqb table "students" then "StudentID" else "LecturerID" in
          check_unique c table "Email" email current_id (Some id_col);;;
          Ok email
        else Err (ValidationError MsgEmailFormat)
    | _ => Err TypeError
    end.

  (** [validate_dob(dob)] (lines 72-83) *)
Definition validate_dob (today_year : Z) (dob : pyval) : result exc pyval :=
    is_empty dob "Birthdate";;;
    dt <- catch_value_error (strptime_ymd dob) (ValidationError MsgDobFormat);;
    let '(y, _, _) := dt in
    let age := today_year - y in
    raise_if ((age <? 15) || (80 <? age)) (ValidationError MsgAge);;;
    Ok dob.

  (** The dictionary [gender_map] of line 91. *)
Definition gender_map : list (ustr * ustr) :=
    [(us "Male", us "M"); (us "Female", us "F"); (us "Other", us "O");
     (us "M", us "M"); (us "F", us "F"); (us "O", us "O")].

Definition gender_lookup (s : ustr) : option ustr :=
    (fun p : nat * (ustr * ustr) => p.2.2) <$> list_find (fun kv => kv.1 = s) gender_map.

  (** [validate_gender(gender)] (lines 86-96) *)
Definition validate_gender (gender : pyval) : result exc pyval :=
    is_empty gender "Gender";;;
    match gender with
    | PStr s =>
        let in_keys := bool_decide (is_Some (gender_lookup s)) in
        let in_values := bool_decide (s ∈ gender_map.*2) in
        if negb in_keys && negb in_values then Err (ValidationError MsgGender)
        else Ok (PStr (default s (gender_lookup s)))
    | _ => Err (ValidationError MsgGender)
    end.

  (** [validate_year(val)] (lines 99-109) *)
Definition validate_year (now_year : Z) (val : pyval) : result exc Z :=
    is_empty val "Year";;;
    year <- catch_value_error (py_int val) (ValidationError MsgYearNumber);;
    raise_if ((year <? 1990) || (now_year + 5 <? year)) (ValidationError MsgYearRange);;;
    Ok year.

  (** [validate_subject_code(code, is_new)] (lines 112-125) *)
Definition validate_subject_code (c : conn) (code : pyval) (is_new : bool) : result exc ustr :=
    is_empty code "Subject Code";;;
    match code with
    | PStr s =>
        let code' := py_upper (py_strip s) in
        if re_match subject_code_re code' is Some _ then
          (if is_new then check_unique c "subjects" "SubjectCode" (PStr code') PNone (Some "SubjectCode")
           else Ok tt);;;
          Ok code'
        else Err (ValidationError MsgSubjectCode)
    | _ => Err (AttributeError "strip")
    end.

Definition zero_f : pyfloat := FFin 0.
Definition ten_f : pyfloat := FFin 10.

  (** [validate_grade(grade, min_val=0.0, max_val=10.0)] (lines 128-141) *)
Definition validate_grade (grade : pyval) (min_val max_val : pyfloat) : result exc (option pyfloat) :=
    if (if grade is PNone then true else false) || py_str_blank grade then Ok None else
    g <- catch_value_error (py_float grade) (ValidationError MsgGradeNumber);;
    if float_lt g min_val || float_lt max_val g then Err (ValidationError MsgGradeRange)
    else Ok (Some (float_round2 g)).

  (** [validate_student_data(data, student_id)] (lines 148-178) *)
Definition validate_student_data (c : conn) (today_year : Z) (data : pydict) (student_id : pyval)
      : result exc pydict :=
    is_empty (dict_get data "FirstName") "First Name";;;
    is_empty (dict_get data "LastName") "Last Name";;;
    email <- (v <- dict_index data "Email";; validate_email c v "students" student_id);;
    dob <- (v <- dict_index data "DOB";; validate_dob today_year v);;
    gender <- (v <- dict_index data "Gender";; validate_gender v);;
    year <- (v <- dict_index data "EnrollmentYear";; validate_year today_year v);;
    first <- dict_index data "FirstName";;
    last <- dict_index data "LastName";;
    Ok (list_to_map [("FirstName", first); ("LastName", last); ("Email", email);
                     ("DOB", dob); ("Gender", gender); ("EnrollmentYear", PInt year);
                     ("Address", dict_get data "Address"); ("Phone", dict_get data "Phone");
                     ("Major", dict_get data "Major")]).

  (** [validate_subject_data(data, is_new)] (lines 181-207) *)
Definition validate_subject_data (c : conn) (data : pydict) (is_new : bool) : result exc pydict :=
    code <- (v <- dict_index data "SubjectCode";; validate_subject_code c v is_new);;
    match dict_get_or data "SubjectName" (PStr []) with
    | PStr raw =>
        let name := py_strip raw in
        is_empty (PStr name) "Subject Name";;;
        let credits := dict_get data "Credits" in
        is_empty credits "Credits";;;
        n <- catch_value_error (py_int credits) (ValidationError MsgCreditsInt);;
        raise_if ((n <=? 0) || (10 <? n)) (ValidationError MsgCreditsRange);;;
        Ok (list_to_map [("SubjectCode", PStr code); ("SubjectName", PStr name); ("Credits", PInt n)])
    | _ => Err (AttributeError "strip")
    end.

  (** [validate_enrollment_data(data, is_new)] (lines 210-240) *)
Definition validate_enrollment_data (c : conn) (data : pydict) (is_new : bool) : result exc pydict :=
    let sid := dict_get data "StudentID" in
    let cid := dict_get data "ClassID" in
    is_empty sid "Student ID";;;
    is_empty cid "Class ID";;;
    grade <- validate_grade (dict_get data "Grade") zero_f ten_f;;
    (if is_new then
       match execute_query_one c (select_enrollment_pair sid cid) with
       | Some _ => Err (ValidationError MsgAlreadyEnrolledVi)
       | None => Ok tt
       end
     else Ok tt);;;
    Ok (list_to_map [("StudentID", sid); ("ClassID", cid); ("Grade", from_option PFloat PNone grade);
                     ("GradeLetter", dict_get data "GradeLetter"); ("Note", dict_get data "Note")]).
End Validators.

(** ** Reference predicates of the properties *)

Section Specs.
  Context `{PyUnicode}.

  (** The strings the e-mail pattern accepts, stated without the engine. *)
Definition email_shape (s : ustr) : Prop :=
    exists l d t nl, s = l ++ 64 :: d ++ 46 :: t ++ nl /\
      l <> [] /\ Forall (fun c => email_class c = true) l /\
      d <> [] /\ Forall (fun c => email_class c = true) d /\
      t <> [] /\ Forall (fun c => re_word c = true) t /\
      (nl = [] \/ nl = [10]).

  (** What the database writes may rely on after [validate_student_data]. *)
Definition student_record_ok (today : Z) (out : pydict) : Prop :=
    (exists e, out !! "Email" = Some (PStr e) /\ email_shape e) /\
    (exists g, out !! "Gender" = Some (PStr g) /\ g ∈ [us "M"; us "F"; us "O"]) /\
    (exists y, out !! "EnrollmentYear" = Some (PInt y) /\ 1990 <= y <= today + 5) /\
    (exists dob y m d, out !! "DOB" = Some dob /\ strptime_ymd dob = Ok (y, m, d) /\ 15 <= today - y <= 80).

End Specs.

(** ** Example data, used to instantiate the properties *)

Definition ex_student : Student.t :=
  Student.mk 1 (us "An") (us "Le") (us "2004-01-01") (us "M") None None (Some (us "an@uni.edu")) 2022 None.
Definition ex_db : database := mkDb [ex_student] [Subject.mk (us "CS101") (us "Intro") 3] [] [] [] 2 1 1.
Definition ex_conn : conn := mkConn ex_db true.
Definition ex_student_data : pydict :=
  list_to_map [("FirstName", PStr (us "Binh")); ("LastName", PStr (us "Tran"));
               ("Email", PStr (us "binh@uni.edu")); ("DOB", PStr (us "2005-03-14"));
               ("Gender", PStr (us "Male")); ("EnrollmentYear", PInt 2024)].
Definition ex_bad_data : pydict :=
  list_to_map [("FirstName", PStr (us "Binh")); ("LastName", PStr (us "Tran"));
               ("Email", PStr (us "binh-at-uni")); ("DOB", PStr (us "14/03/2005"));
               ("Gender", PStr (us "?")); ("EnrollmentYear", PStr (us "soon"))].

(** * Properties of the validators *)

Section ValidatorProperties.
  Context `{PyUnicode} `{Collation}.

  (** ** Helper lemmas *)

Lemma catch_value_error_Ok {A} (m : result exc A) e a :
    catch_value_error m e = Ok a -> m = Ok a.
  Proof. destruct m as [|[]]; simpl; congruence. Qed.

Lemma py_truthy_str (s : ustr) : s <> [] -> py_truthy (PStr s) = true.
  Proof. intros Hs. simpl. by rewrite bool_decide_false. Qed.

Lemma lstrip_nil (s : ustr) : lstrip s = [] -> Forall (fun c => uc_isspace c = true) s.
  Proof.
    induction s as [|c s IH]; simpl; [done|].
    destruct (uc_isspace c) eqn:E; [|discriminate]. intros Hs. constructor; auto.
  Qed.

Lemma py_strip_nonempty (s : ustr) : py_strip s <> [] -> s <> [].
  Proof. intros Hs ->. by apply Hs. Qed.

Lemma is_empty_str_Ok (s : ustr) f : py_strip s <> [] -> is_empty (PStr s) f = Ok tt.
  Proof. intros Hs. unfold is_empty. by rewrite bool_decide_false. Qed.

  (** The SELECT of [check_unique] on the e-mail column of [students],
      excluding the record being updated. *)
Lemma select_unique_students_email (d : database) (s : ustr) (sid : Z) :
    select_unique "students" "Email" (PStr s) (Some ("StudentID", PInt sid)) d =
    Some (map (fun _ => tt) (filter (fun r => sql_eq (sql_opt_str (Student.Email r)) (SStr s) = Some true
                                               /\ Student.StudentID r <> sid) (students d))).
  Proof.
    unfold select_unique. simpl.
    rewrite (mapM_map_Some _ _ (fun r => bool_decide
      (sql_eq (sql_opt_str (Student.Email r)) (SStr s) = Some true /\
       negb <$> sql_eq (SInt (Student.StudentID r)) (SInt sid) = Some true))) by done.
    simpl. rewrite filter_true_bool_decide. do 2 f_equal. apply list_filter_iff.
    intros r. simpl. destruct (Z.eqb_spec (Student.StudentID r) sid); naive_solver.
  Qed.

  (** ** Grades *)

  (** C2. An accepted grade is NaN or lies in [0, 10] and is the input
      rounded to the nearest hundredth (within half a hundredth). *)
Theorem validate_grade_in_range (g : pyval) (r : pyfloat) :
    validate_grade g zero_f ten_f = Ok (Some r) ->
    r = FNaN \/
    exists q k, py_float g = Ok (FFin q) /\ r = FFin (Qmake k 100) /\ 0 <= k <= 1000 /\
      2 * Zpos (Qden q) * k - Zpos (Qden q) <= 100 * (2 * Qnum q) <= 2 * Zpos (Qden q) * k + Zpos (Qden q).
  Proof.
    unfold validate_grade. destruct (_ || _); [discriminate|].
    destruct (py_float g) as [f|[]] eqn:Hf; simpl; try discriminate.
    destruct f as [q| |[|]]; simpl; [|by intros [= <-]; left|discriminate|discriminate].
    unfold q_lt; simpl.
    repeat match goal with |- context [?a <? ?b] => destruct (Z.ltb_spec a b) end;
      simpl; try discriminate.
    intros Hr. inversion Hr; subst. right. eexists q, _. split; [done | split; [reflexivity|]].
    pose proof (round_half_even_div_bounds (Qnum q * 100) (Zpos (Qden q)) ltac:(lia)).
    split; nia.
  Qed.

  (** [validate_grade] accepts NaN: [nan < 0.0] and [nan > 10.0] are
      both false, so the range check lets it through. *)
Theorem validate_grade_accepts_nan : validate_grade (PFloat FNaN) zero_f ten_f = Ok (Some FNaN).
  Proof. reflexivity. Qed.

  (** ** Uniqueness checks *)

  (** C8. With the database unreachable, [check_unique] passes whatever
      the table holds: the failed SELECT is reported as "no row". *)
Theorem check_unique_unreachable_passes (c : conn) table column v cur idc :
    up c = false -> check_unique c table column v cur idc = Ok tt.
  Proof.
    intros Hup. unfold check_unique, execute_query_one, execute_query. rewrite Hup.
    by destruct (negb _).
  Qed.

  (** ** E-mail *)

  (** [re.match(email_re, s)] succeeds exactly on the strings of the e-mail shape. *)
Lemma email_re_match_iff (s : ustr) : is_Some (re_match email_re s) <-> email_shape s.
  Proof.
    rewrite re_match_spec. unfold email_re, RLit. split.
    - intros [s' M]. re_inv.
      repeat match goal with H : (_ =? _) = true |- _ => apply Z.eqb_eq in H; subst end.
      eexists _, _, _, _. split; [reflexivity | naive_solver].
    - intros (l & d & t & nl & -> & ? & ? & ? & ? & ? & ? & Hnl).
      exists nl.
      eapply m_seq; [apply matches_plus_iff; eauto|].
      eapply m_seq; [apply m_class, Z.eqb_refl|].
      eapply m_seq; [apply matches_plus_iff; eauto|].
      eapply m_seq; [apply m_class, Z.eqb_refl|].
      eapply m_seq; [apply matches_plus_iff; eauto|].
      apply matches_dollar_iff. split; [done | by apply at_end_iff].
  Qed.

  (** C3. The e-mail pattern accepts exactly the strings
      local@domain.tld, possibly followed by one newline (Python's [$]). *)
Theorem email_re_iff (s : ustr) : is_Some (re_match email_re s) <-> email_shape s.
  Proof. apply email_re_match_iff. Qed.

  (** A returned e-mail is the input, non-blank and of the shape
      local@domain.tld. *)
Theorem validate_email_sound (c : conn) (v : pyval) table cur r :
    validate_email c v table cur = Ok r ->
    exists s, v = PStr s /\ r = v /\ py_strip s <> [] /\ email_shape s.
  Proof.
    unfold validate_email, is_empty. intros Hv.
    destruct v as [| | | |s]; simpl in Hv; try discriminate. res_inv Hv.
    destruct (re_match email_re s) eqn:E; [|discriminate].
    res_inv Hv. injection Hv as <-. exists s.
    repeat split; [| by apply email_re_match_iff; rewrite E].
    by apply bool_decide_eq_false in Ha.
  Qed.

  (** Updating a student without changing the e-mail is accepted:
      the row with the student's own id is excluded from the check. *)
Theorem validate_email_keeps_own (c : conn) (s : ustr) (sid : Z) :
    up c = true -> email_shape s -> py_strip s <> [] ->
    (forall r, r ∈ students (db c) ->
       sql_eq (sql_opt_str (Student.Email r)) (SStr s) = Some true -> Student.StudentID r = sid) ->
    validate_email c (PStr s) "students" (PInt sid) = Ok (PStr s).
  Proof.
    intros Hup Hs Hne Hown. unfold validate_email. rewrite is_empty_str_Ok by done. simpl.
    destruct (re_match email_re s) eqn:E; [|by apply email_re_match_iff in Hs as [? Hm]; congruence].
    unfold check_unique. rewrite py_truthy_str by (by apply py_strip_nonempty). simpl.
    unfold execute_query_one, execute_query. rewrite Hup, select_unique_students_email.
    assert (filter (fun r => sql_eq (sql_opt_str (Student.Email r)) (SStr s) = Some true
                             /\ Student.StudentID r <> sid) (students (db c)) = []) as ->.
    { apply filter_empty_forall. intros r Hr [Heq Hid]. by apply Hid, Hown. }
    done.
  Qed.

Lemma select_unique_students_email_all (d : database) (s : ustr) :
    select_unique "students" "Email" (PStr s) None d =
    Some (map (fun _ => tt) (filter (fun r => sql_eq (sql_opt_str (Student.Email r)) (SStr s) = Some true)
                              (students d))).
  Proof.
    unfold select_unique. simpl.
    rewrite (mapM_map_Some _ _ (fun r => bool_decide
      (sql_eq (sql_opt_str (Student.Email r)) (SStr s) = Some true))) by done.
    simpl. by rewrite filter_true_bool_decide.
  Qed.

  (** A well-formed e-mail that some student holds is refused when no id
      is excluded. *)
Lemma validate_email_taken (c : conn) (s : ustr) (r : Student.t) :
    up c = true -> email_shape s -> py_strip s <> [] -> r ∈ students (db c) ->
    sql_eq (sql_opt_str (Student.Email r)) (SStr s) = Some true ->
    validate_email c (PStr s) "students" PNone = Err (ValidationError (MsgDuplicate "Email" (PStr s))).
  Proof.
    intros Hup Hs Hne Hr Heq. unfold validate_email. rewrite is_empty_str_Ok by done. simpl.
    destruct (re_match email_re s) eqn:E; [|by apply email_re_match_iff in Hs as [? Hm]; congruence].
    unfold check_unique. rewrite py_truthy_str by (by apply py_strip_nonempty). simpl.
    unfold execute_query_one, execute_query. rewrite Hup, select_unique_students_email_all.
    destruct (filter _ _) eqn:Ef; [|done].
    exfalso. eapply filter_nil_not_elem_of; [exact Ef | exact Heq | exact Hr].
  Qed.

Lemma check_unique_students_email (c : conn) (s : ustr) (sid : Z) :
    up c = true -> s <> [] ->
    check_unique c "students" "Email" (PStr s) (PInt sid) (Some "StudentID") =
    match filter (fun r => sql_eq (sql_opt_str (Student.Email r)) (SStr s) = Some true
                           /\ Student.StudentID r <> sid) (students (db c)) with
    | [] => Ok tt
    | _ => Err (ValidationError (MsgDuplicate "Email" (PStr s)))
    end.
  Proof.
    intros Hup Hs. unfold check_unique. rewrite py_truthy_str by done. simpl.
    unfold execute_query_one, execute_query. rewrite Hup, select_unique_students_email.
    by destruct (filter _ _).
  Qed.

  (** A syntactically valid e-mail held by another student is refused. *)
Theorem validate_email_rejects_duplicate (c : conn) (s : ustr) (sid : Z) (r : Student.t) :
    up c = true -> email_shape s -> py_strip s <> [] ->
    r ∈ students (db c) -> sql_eq (sql_opt_str (Student.Email r)) (SStr s) = Some true ->
    Student.StudentID r <> sid ->
    validate_email c (PStr s) "students" (PInt sid) = Err (ValidationError (MsgDuplicate "Email" (PStr s))).
  Proof.
    intros Hup Hs Hne Hr Heq Hid. unfold validate_email. rewrite is_empty_str_Ok by done. simpl.
    destruct (re_match email_re s) eqn:E; [|by apply email_re_match_iff in Hs as [? Hm]; congruence].
    rewrite check_unique_students_email by (done || by apply py_strip_nonempty).
    destruct (filter _ _) eqn:Ef; [|done].
    exfalso. eapply filter_nil_not_elem_of; [exact Ef | | exact Hr]. done.
  Qed.

  (** ** Subject codes *)

Lemma subject_code_re_iff (code : ustr) :
    is_Some (re_match subject_code_re code) <->
    exists l d nl, code = l ++ d ++ nl /\ l <> [] /\ Forall (fun c => in_range 65 90 c = true) l /\
      d <> [] /\ Forall (fun c => re_digit c = true) d /\ (nl = [] \/ nl = [10]).
  Proof.
    rewrite re_match_spec. unfold subject_code_re. split.
    - intros [s' M]. re_inv. eexists _, _, _. split; [reflexivity | naive_solver].
    - intros (l & d & nl & -> & ? & ? & ? & ? & Hnl). exists nl.
      eapply m_seq; [apply matches_plus_iff; eauto|].
      eapply m_seq; [apply matches_plus_iff; eauto|].
      apply matches_dollar_iff. split; [done | by apply at_end_iff].
  Qed.

Lemma letter_char_facts (c : Z) :
    in_range 65 90 c = true -> uc_isspace c = false /\ uc_upper c = [c].
  Proof.
    unfold in_range. intros Hc. apply andb_prop in Hc as [H1 H2].
    apply Z.leb_le in H1, H2.
    rewrite uc_isspace_ascii, uc_upper_ascii by lia.
    unfold ascii_isspace, ascii_upper, in_range.
    repeat match goal with |- context [?a <=? ?b] => destruct (Z.leb_spec a b) end; simpl;
      split; try done; lia.
  Qed.

Lemma digit_char_facts (c : Z) :
    re_digit c = true -> uc_isspace c = false /\ uc_upper c = [c].
  Proof.
    unfold re_digit. rewrite bool_decide_eq_true. intros [d Hd].
    split; [|by eapply uc_digit_upper].
    destruct (uc_isspace c) eqn:E; [|done].
    apply uc_space_not_alnum in E. by rewrite (uc_digit_alnum _ _ Hd) in E.
  Qed.

  (** C4. A code returned by [validate_subject_code] is upper-case
      letters followed by decimal digits, and validating it again returns
      it unchanged: the normalisation is idempotent. *)
Theorem validate_subject_code_normal (c : conn) (v : pyval) (is_new : bool) (code : ustr) :
    validate_subject_code c v is_new = Ok code ->
    (exists l d, code = l ++ d /\ l <> [] /\ Forall (fun c => in_range 65 90 c = true) l /\
                 d <> [] /\ Forall (fun c => re_digit c = true) d) /\
    validate_subject_code c (PStr code) false = Ok code.
  Proof.
    intros Hv. destruct v as [| | | |s]; unfold validate_subject_code, is_empty in Hv;
      simpl in Hv; try discriminate.
    res_inv Hv. apply bool_decide_eq_false in Ha.
    destruct (re_match subject_code_re (py_upper (py_strip s))) eqn:E; [|discriminate].
    res_inv Hv. injection Hv as <-.
    assert (Hm : is_Some (re_match subject_code_re (py_upper (py_strip s)))) by (rewrite E; eauto).
    apply subject_code_re_iff in Hm as (l & d & nl & Hcode & Hl & HlF & Hd & HdF & Hnl).
    assert (nl = []) as ->.
    { destruct Hnl as [-> | ->]; [done|]. exfalso.
      destruct (py_strip_last s Ha) as (p & ch & Hps & Hch).
      destruct (py_upper_last p ch Hch) as (q & u & Hq & Hu).
      rewrite Hps, Hq, !app_assoc in Hcode. apply app_inj_tail in Hcode as [_ Hu10].
      subst u. rewrite uc_isspace_ascii in Hu by lia. discriminate. }
    rewrite app_nil_r in Hcode. rewrite Hcode.
    assert (Hall : Forall (fun c => uc_isspace c = false /\ uc_upper c = [c]) (l ++ d)).
    { apply Forall_app; split; eapply Forall_impl; eauto using letter_char_facts, digit_char_facts. }
    split; [eauto 10|].
    unfold validate_subject_code.
    rewrite py_strip_id by (eapply Forall_impl; [exact Hall | naive_solver]).
    rewrite is_empty_str_Ok; [simpl | rewrite py_strip_id by (eapply Forall_impl; [exact Hall | naive_solver]);
                                       by destruct l].
    rewrite py_upper_id by (eapply Forall_impl; [exact Hall | naive_solver]).
    destruct (re_match subject_code_re (l ++ d)) eqn:E2; [done|].
    exfalso. assert (Hm : is_Some (re_match subject_code_re (l ++ d))).
    { apply subject_code_re_iff. exists l, d, []. rewrite app_nil_r. naive_solver. }
    rewrite E2 in Hm. by destruct Hm.
  Qed.

  (** ** Dates, years, genders *)

Lemma mk_date_Ok (y m d : Z) t :
    mk_date y m d = Ok t -> t = (y, m, d) /\ 1 <= y <= 9999 /\ 1 <= m <= 12 /\ 1 <= d <= days_in_month y m.
  Proof.
    unfold mk_date.
    repeat match goal with |- context [?a <=? ?b] => destruct (Z.leb_spec a b) end;
      simpl; intros Ht; try discriminate; injection Ht as <-; repeat split; lia.
  Qed.

Lemma strptime_ymd_Ok (v : pyval) (y m d : Z) :
    strptime_ymd v = Ok (y, m, d) -> 1 <= y <= 9999 /\ 1 <= m <= 12 /\ 1 <= d <= days_in_month y m.
  Proof.
    destruct v as [| | | |s]; simpl; try discriminate.
    destruct (strptime_match s) as [[[[ys ms] ds] [|]]|]; try discriminate.
    intros Hv. res_inv Hv. apply mk_date_Ok in Hv as ([= -> -> ->] & ?). done.
  Qed.

  (** What an accepted date of birth satisfies. *)
Lemma validate_dob_accepts (today : Z) (v r : pyval) :
    validate_dob today v = Ok r ->
    r = v /\ exists y m d, strptime_ymd v = Ok (y, m, d) /\ 1 <= y <= 9999 /\ 1 <= m <= 12 /\
      1 <= d <= days_in_month y m /\ 15 <= today - y <= 80.
  Proof.
    unfold validate_dob. intros Hv. res_inv Hv. destruct a0 as [[y m] d].
    res_inv Hv. injection Hv as <-. apply catch_value_error_Ok in Ha0.
    split; [done|]. exists y, m, d.
    pose proof (strptime_ymd_Ok _ _ _ _ Ha0).
    apply orb_false_iff in Ha1 as [Hlo Hhi]. apply Z.ltb_ge in Hlo, Hhi. naive_solver lia.
  Qed.

  (** C5. An accepted date of birth is returned unchanged; it parses as
      a calendar date whose year is 15 to 80 years before the current one. *)
Theorem validate_dob_sound (today : Z) (v r : pyval) :
    validate_dob today v = Ok r ->
    r = v /\ exists y m d, strptime_ymd v = Ok (y, m, d) /\ 1 <= y <= 9999 /\ 1 <= m <= 12 /\
      1 <= d <= days_in_month y m /\ 15 <= today - y <= 80.
  Proof. apply validate_dob_accepts. Qed.

  (** An accepted year lies between 1990 and five years from now. *)
Theorem validate_year_range (now : Z) (v : pyval) (y : Z) :
    validate_year now v = Ok y -> 1990 <= y <= now + 5.
  Proof.
    unfold validate_year. intros Hv. res_inv Hv. injection Hv as <-.
    apply orb_false_iff in Ha1 as [Hlo Hhi]. apply Z.ltb_ge in Hlo, Hhi. lia.
  Qed.

  (** [validate_gender] accepts exactly the six tokens of
      [gender_map] and returns its normalised value M, F or O. *)
Theorem validate_gender_sound (v r : pyval) :
    validate_gender v = Ok r ->
    exists s g, v = PStr s /\ r = PStr g /\ (s, g) ∈ gender_map /\ g ∈ [us "M"; us "F"; us "O"].
  Proof.
    unfold validate_gender. intros Hv. res_inv Hv.
    destruct v as [| | | |s]; try discriminate.
    destruct (gender_lookup s) as [g|] eqn:Hg.
    - unfold gender_lookup in Hg.
      destruct (list_find _ gender_map) as [[i [k g']]|] eqn:Hf; [|discriminate].
      simpl in Hg. injection Hg as ->.
      apply list_find_Some in Hf as (Hi & Hk & _). simpl in Hk. subst k.
      injection Hv as <-. apply list_elem_of_lookup_2 in Hi.
      exists s, g. split; [done|]. split; [done|]. split; [done|]. clear -Hi. unfold gender_map in Hi.
      repeat (apply elem_of_cons in Hi as [Hi|Hi];
              [injection Hi as _ ->; set_solver|]).
      by apply elem_of_nil in Hi.
    - destruct (bool_decide (s ∈ gender_map.*2)) eqn:Hin.
      + apply bool_decide_eq_true in Hin. exfalso. simpl in Hin.
        repeat (apply elem_of_cons in Hin as [->|Hin]; [vm_compute in Hg; discriminate|]).
        by apply elem_of_nil in Hin.
      + rewrite bool_decide_false in Hv by (intros [? Hx]; discriminate). discriminate.
  Qed.

  (** ** Whole records *)

  (** C1. A record accepted by [validate_student_data] has a well-formed
      e-mail, a normalised gender, an enrollment year in range and a date
      of birth giving an age between 15 and 80. *)
Theorem validate_student_data_ok (c : conn) (today : Z) (data : pydict) (sid : pyval) (out : pydict) :
    validate_student_data c today data sid = Ok out -> student_record_ok today out.
  Proof.
    unfold validate_student_data. intros Hv. res_inv Hv.
    repeat match goal with Hb : res_bind _ _ = Ok _ |- _ => res_inv Hb end.
    injection Hv as <-.
    match goal with H : validate_email _ _ _ _ = Ok _ |- _ =>
      apply validate_email_sound in H as (e & ? & ? & _ & He) end.
    match goal with H : validate_dob _ _ = Ok _ |- _ =>
      apply validate_dob_accepts in H as (? & y & m & d & Hd & _ & _ & _ & Hage) end.
    match goal with H : validate_gender _ = Ok _ |- _ =>
      apply validate_gender_sound in H as (s & g & ? & ? & _ & Hg) end.
    match goal with H : validate_year _ _ = Ok ?yy |- _ =>
      apply validate_year_range in H; rename yy into yr end.
    subst.
    repeat split; [exists e | exists g | exists yr | eexists _, y, m, d];
      (split; [by simpl; simplify_map_eq | naive_solver]).
  Qed.

  (** Validation fails fast in the order of the source: once the
      names are present, an e-mail error is reported whatever the date of
      birth, gender and year are. *)
Theorem validate_student_data_email_first (c : conn) (today : Z) (data : pydict) (sid v : pyval) (e : exc) :
    is_empty (dict_get data "FirstName") "First Name" = Ok tt ->
    is_empty (dict_get data "LastName") "Last Name" = Ok tt ->
    data !! "Email" = Some v -> validate_email c v "students" sid = Err e ->
    validate_student_data c today data sid = Err e.
  Proof.
    intros H1 H2 Hv He. unfold validate_student_data, dict_index.
    by rewrite H1, H2; simpl; rewrite Hv; simpl; rewrite He.
  Qed.
End ValidatorProperties.

(** Python's [$] also matches before a final newline, so an e-mail
    ending in a newline passes [validate_email] and is returned with the
    newline. *)
Theorem validate_email_accepts_trailing_newline :
  validate_email ex_conn (PStr (us "bo@uni.edu" ++ [10])) "students" PNone
  = Ok (PStr (us "bo@uni.edu" ++ [10])).
Proof. vm_compute. reflexivity. Qed.

(** The "%Y-%m-%d" directives of [strptime] accept one-digit months
    and days and a day written with a leading space, so [validate_dob]
    accepts "2005-1- 5" and returns it as it was typed. *)
Theorem validate_dob_accepts_unpadded :
  validate_dob 2025 (PStr (us "2005-1- 5")) = Ok (PStr (us "2005-1- 5")) /\
  strptime_ymd (PStr (us "2005-1- 5")) = Ok (2005, 1, 5).
Proof. split; vm_compute; reflexivity. Qed.

(** ** The properties at concrete inputs *)

Lemma validate_grade_in_range_witness :
  validate_grade (PStr (us "7.555")) zero_f ten_f = Ok (Some (FFin (756 # 100))) /\
  (FFin (756 # 100) = FNaN \/
   exists q k, py_float (PStr (us "7.555")) = Ok (FFin q) /\ FFin (756 # 100) = FFin (Qmake k 100) /\
     0 <= k <= 1000 /\
     2 * Zpos (Qden q) * k - Zpos (Qden q) <= 100 * (2 * Qnum q) <= 2 * Zpos (Qden q) * k + Zpos (Qden q)).
Proof.
  assert (H : validate_grade (PStr (us "7.555")) zero_f ten_f = Ok (Some (FFin (756 # 100))))
    by (vm_compute; reflexivity).
  split; [exact H | exact (validate_grade_in_range _ _ H)].
Defined.

Lemma check_unique_unreachable_passes_witness :
  up (mkConn ex_db false) = false /\
  check_unique (mkConn ex_db false) "students" "Email" (PStr (us "an@uni.edu")) PNone (Some "StudentID") = Ok tt.
Proof. split; [reflexivity | apply check_unique_unreachable_passes; reflexivity]. Defined.

Lemma validate_email_sound_witness :
  validate_email ex_conn (PStr (us "bo@uni.edu")) "students" PNone = Ok (PStr (us "bo@uni.edu")) /\
  exists s, PStr (us "bo@uni.edu") = PStr s /\ PStr (us "bo@uni.edu") = PStr (us "bo@uni.edu") /\
    py_strip s <> [] /\ email_shape s.
Proof.
  assert (H : validate_email ex_conn (PStr (us "bo@uni.edu")) "students" PNone = Ok (PStr (us "bo@uni.edu")))
    by (vm_compute; reflexivity).
  split; [exact H | exact (validate_email_sound _ _ _ _ _ H)].
Defined.

Lemma ex_email_shape : email_shape (us "an@uni.edu").
Proof. apply email_re_match_iff. vm_compute. eauto. Qed.

Lemma validate_email_keeps_own_witness :
  up ex_conn = true /\ email_shape (us "an@uni.edu") /\ py_strip (us "an@uni.edu") <> [] /\
  (forall r, r ∈ students (db ex_conn) ->
     sql_eq (sql_opt_str (Student.Email r)) (SStr (us "an@uni.edu")) = Some true -> Student.StudentID r = 1) /\
  validate_email ex_conn (PStr (us "an@uni.edu")) "students" (PInt 1) = Ok (PStr (us "an@uni.edu")).
Proof.
  assert (Hown : forall r, r ∈ students (db ex_conn) ->
     sql_eq (sql_opt_str (Student.Email r)) (SStr (us "an@uni.edu")) = Some true -> Student.StudentID r = 1).
  { intros r Hr _. apply list_elem_of_singleton in Hr. by subst. }
  assert (Hne : py_strip (us "an@uni.edu") <> []) by (vm_compute; discriminate).
  split; [reflexivity|]. split; [exact ex_email_shape|]. split; [exact Hne|]. split; [exact Hown|].
  exact (validate_email_keeps_own ex_conn _ 1 eq_refl ex_email_shape Hne Hown).
Defined.

Lemma validate_email_rejects_duplicate_witness :
  up ex_conn = true /\ email_shape (us "an@uni.edu") /\ py_strip (us "an@uni.edu") <> [] /\
  ex_student ∈ students (db ex_conn) /\
  sql_eq (sql_opt_str (Student.Email ex_student)) (SStr (us "an@uni.edu")) = Some true /\
  Student.StudentID ex_student <> 2 /\
  validate_email ex_conn (PStr (us "an@uni.edu")) "students" (PInt 2)
    = Err (ValidationError (MsgDuplicate "Email" (PStr (us "an@uni.edu")))).
Proof.
  assert (Hne : py_strip (us "an@uni.edu") <> []) by (vm_compute; discriminate).
  assert (Hin : ex_student ∈ students (db ex_conn)) by (simpl; left).
  assert (Heq : sql_eq (sql_opt_str (Student.Email ex_student)) (SStr (us "an@uni.edu")) = Some true)
    by (vm_compute; reflexivity).
  assert (Hid : Student.StudentID ex_student <> 2) by (simpl; lia).
  split; [reflexivity|]. split; [exact ex_email_shape|]. split; [exact Hne|].
  split; [exact Hin|]. split; [exact Heq|]. split; [exact Hid|].
  exact (validate_email_rejects_duplicate ex_conn _ 2 ex_student eq_refl ex_email_shape Hne Hin Heq Hid).
Defined.

Lemma validate_subject_code_normal_witness :
  validate_subject_code ex_conn (PStr (us " cs102 ")) true = Ok (us "CS102") /\
  (exists l d, us "CS102" = l ++ d /\ l <> [] /\ Forall (fun c => in_range 65 90 c = true) l /\
               d <> [] /\ Forall (fun c => re_digit c = true) d) /\
  validate_subject_code ex_conn (PStr (us "CS102")) false = Ok (us "CS102").
Proof.
  assert (H : validate_subject_code ex_conn (PStr (us " cs102 ")) true = Ok (us "CS102"))
    by (vm_compute; reflexivity).
  split; [exact H | exact (validate_subject_code_normal _ _ _ _ H)].
Defined.

Lemma validate_dob_sound_witness :
  validate_dob 2025 (PStr (us "2005-1- 5")) = Ok (PStr (us "2005-1- 5")) /\
  PStr (us "2005-1- 5") = PStr (us "2005-1- 5") /\
  exists y m d, strptime_ymd (PStr (us "2005-1- 5")) = Ok (y, m, d) /\ 1 <= y <= 9999 /\ 1 <= m <= 12 /\
    1 <= d <= days_in_month y m /\ 15 <= 2025 - y <= 80.
Proof.
  assert (H : validate_dob 2025 (PStr (us "2005-1- 5")) = Ok (PStr (us "2005-1- 5")))
    by (vm_compute; reflexivity).
  split; [exact H | exact (validate_dob_sound _ _ _ H)].
Defined.

Lemma validate_year_range_witness :
  validate_year 2025 (PStr (us " 2024 ")) = Ok 2024 /\ 1990 <= 2024 <= 2025 + 5.
Proof.
  assert (H : validate_year 2025 (PStr (us " 2024 ")) = Ok 2024) by (vm_compute; reflexivity).
  split; [exact H | exact (validate_year_range _ _ _ H)].
Defined.

Lemma validate_gender_sound_witness :
  validate_gender (PStr (us "Female")) = Ok (PStr (us "F")) /\
  exists s g, PStr (us "Female") = PStr s /\ PStr (us "F") = PStr g /\ (s, g) ∈ gender_map /\
    g ∈ [us "M"; us "F"; us "O"].
Proof.
  assert (H : validate_gender (PStr (us "Female")) = Ok (PStr (us "F"))) by (vm_compute; reflexivity).
  split; [exact H | exact (validate_gender_sound _ _ H)].
Defined.

Lemma validate_student_data_ok_witness :
  exists out, validate_student_data ex_conn 2025 ex_student_data PNone = Ok out /\
    student_record_ok 2025 out.
Proof.
  eexists. assert (H : validate_student_data ex_conn 2025 ex_student_data PNone = Ok _)
    by (vm_compute; reflexivity).
  split; [exact H | exact (validate_student_data_ok _ _ _ _ _ H)].
Defined.

Lemma validate_student_data_email_first_witness :
  is_empty (dict_get ex_bad_data "FirstName") "First Name" = Ok tt /\
  is_empty (dict_get ex_bad_data "LastName") "Last Name" = Ok tt /\
  ex_bad_data !! "Email" = Some (PStr (us "binh-at-uni")) /\
  validate_email ex_conn (PStr (us "binh-at-uni")) "students" PNone = Err (ValidationError MsgEmailFormat) /\
  validate_student_data ex_conn 2025 ex_bad_data PNone = Err (ValidationError MsgEmailFormat).
Proof.
  assert (H1 : is_empty (dict_get ex_bad_data "FirstName") "First Name" = Ok tt) by (vm_compute; reflexivity).
  assert (H2 : is_empty (dict_get ex_bad_data "LastName") "Last Name" = Ok tt) by (vm_compute; reflexivity).
  assert (H3 : ex_bad_data !! "Email" = Some (PStr (us "binh-at-uni"))) by (vm_compute; reflexivity).
  assert (H4 : validate_email ex_conn (PStr (us "binh-at-uni")) "students" PNone
               = Err (ValidationError MsgEmailFormat)) by (vm_compute; reflexivity).
  split; [exact H1|]. split; [exact H2|]. split; [exact H3|]. split; [exact H4|].
  exact (validate_student_data_email_first _ _ _ _ _ _ H1 H2 H3 H4).
Defined.
