(* ===== verification/Sql.v ===== *)
(** * Sql: the write statements of models.py, as functions on the database

    Each INSERT, UPDATE and DELETE string of models.py is a function
    [database -> option (database * Z)]: the new database with the
    [lastrowid] (INSERT) or the row count (UPDATE, DELETE), or [None]
    when MySQL refuses the statement.  The parameters arrive as Python
    values and are converted by mysql-connector ([p_str], [p_int], ...).

    The constraints MySQL enforces come from the schema, which is not in
    the repository; they are modelled from the spec's data model: e-mail
    unique among students, subject codes unique, one enrollment per
    (StudentID, ClassID), enrollment and class references existing,
    credits in 1..10, grades in 0..10 with two decimals; deleting a
    student or a class deletes its enrollments (ON DELETE CASCADE, which
    the GUI's confirmation messages announce); deleting a subject or a
    lecturer that a class still references is refused (MySQL's default
    RESTRICT). *)

From S2P Require Import Prelude PyModel Storage.
From Stdlib Require Import QArith.
Local Open Scope Z_scope.

(** ** Parameter conversion *)

Definition p_str (v : pyval) : option ustr :=
  match v with PStr s => Some s | _ => None end.
Definition p_opt_str (v : pyval) : option (option ustr) :=
  match v with PNone => Some None | PStr s => Some (Some s) | _ => None end.
Definition p_int (v : pyval) : option Z :=
  match v with PInt z => Some z | PBool b => Some (if b then 1 else 0) | _ => None end.
Definition p_opt_int (v : pyval) : option (option Z) :=
  match v with PNone => Some None | _ => Some <$> p_int v end.

(** A grade bound to a DECIMAL(4,2) column: rounded to hundredths, half
    away from zero; NaN and infinities are refused by the connector. *)
Definition p_grade (v : pyval) : option (option Z) :=
  match v with
  | PNone => Some None
  | PInt z => Some (Some (100 * z))
  | PFloat (FFin q) => Some (Some (round_half_away_div (Qnum q * 100) (Zpos (Qden q))))
  | _ => None
  end.

Definition grade_ok (g : option Z) : bool :=
  match g with None => true | Some h => (0 <=? h) && (h <=? 1000) end.

(** ** Updating one table of the database *)

Definition set_students (d : database) (l : list Student.t) : database :=
  mkDb l (subjects d) (lecturers d) (classes d) (enrollments d) (auto_student d) (auto_lecturer d) (auto_class d).
Definition set_subjects (d : database) (l : list Subject.t) : database :=
  mkDb (students d) l (lecturers d) (classes d) (enrollments d) (auto_student d) (auto_lecturer d) (auto_class d).
Definition set_lecturers (d : database) (l : list Lecturer.t) : database :=
  mkDb (students d) (subjects d) l (classes d) (enrollments d) (auto_student d) (auto_lecturer d) (auto_class d).
Definition set_classes (d : database) (l : list Class.t) : database :=
  mkDb (students d) (subjects d) (lecturers d) l (enrollments d) (auto_student d) (auto_lecturer d) (auto_class d).
Definition set_enrollments (d : database) (l : list Enrollment.t) : database :=
  mkDb (students d) (subjects d) (lecturers d) (classes d) l (auto_student d) (auto_lecturer d) (auto_class d).


Section Statements.
  Context `{Collation}.

  (** The UNIQUE index on students.Email, for a row other than [self]. *)
Definition email_taken (d : database) (e : option ustr) (self : option Z) : bool :=
    match e with
    | None => false
    | Some e =>
        existsb (fun r => match Student.Email r with
                          | Some e' => coll_eq e' e && negb (bool_decide (Some (Student.StudentID r) = self))
                          | None => false
                          end) (students d)
    end.

Definition student_exists (d : database) (sid : Z) : bool :=
    existsb (fun r => Student.StudentID r =? sid) (students d).
Definition class_exists (d : database) (cid : Z) : bool :=
    existsb (fun r => Class.ClassID r =? cid) (classes d).
Definition subject_exists (d : database) (code : ustr) : bool :=
    existsb (fun r => coll_eq (Subject.SubjectCode r) code) (subjects d).
Definition lecturer_exists (d : database) (lid : Z) : bool :=
    existsb (fun r => Lecturer.LecturerID r =? lid) (lecturers d).
Definition enrollment_exists (d : database) (sid cid : Z) : bool :=
    existsb (fun e => (Enrollment.StudentID e =? sid) && (Enrollment.ClassID e =? cid)) (enrollments d).

  (** [INSERT INTO students (...) VALUES (...)] (models.py 95-99) *)
Definition insert_student (first last dob gender address phone email year major : pyval)
      (d : database) : option (database * Z) :=
    f ← p_str first; l ← p_str last; b ← p_str dob; g ← p_str gender;
    a ← p_opt_str address; ph ← p_opt_str phone; e ← p_opt_str email;
    y ← p_int year; m ← p_opt_str major;
    if email_taken d e None then None else
    let id := auto_student d in
    let d' := set_students d (students d ++ [Student.mk id f l b g a ph e y m]) in
    Some (mkDb (students d') (subjects d') (lecturers d') (classes d') (enrollments d')
            (id + 1) (auto_lecturer d') (auto_class d'), id).

  (** [UPDATE students SET ... WHERE StudentID=%s] (models.py 139-144) *)
Definition update_student (first last dob gender address phone email year major : pyval) (sid : Z)
      (d : database) : option (database * Z) :=
    f ← p_str first; l ← p_str last; b ← p_str dob; g ← p_str gender;
    a ← p_opt_str address; ph ← p_opt_str phone; e ← p_opt_str email;
    y ← p_int year; m ← p_opt_str major;
    if email_taken d e (Some sid) then None else
    let hit r := Student.StudentID r =? sid in
    Some (set_students d ((fun r => if hit r then Student.mk sid f l b g a ph e y m else r) <$> students d),
          Z.of_nat (length (filter (fun r => hit r = true) (students d)))).

  (** [DELETE FROM students WHERE StudentID = %s] (models.py 166), with
      the enrollments of the student deleted by the cascade. *)
Definition delete_student (sid : Z) (d : database) : option (database * Z) :=
    let gone := filter (fun r => Student.StudentID r = sid) (students d) in
    Some (set_enrollments (set_students d (filter (fun r => Student.StudentID r <> sid) (students d)))
            (filter (fun e => Enrollment.StudentID e <> sid) (enrollments d)),
          Z.of_nat (length gone)).

  (** [INSERT INTO subjects (SubjectCode, SubjectName, Credits) ...] (models.py 259) *)
Definition insert_subject (code name credits : pyval) (d : database) : option (database * Z) :=
    c ← p_str code; n ← p_str name; k ← p_int credits;
    if subject_exists d c || (k <? 1) || (10 <? k) then None else
    Some (set_subjects d (subjects d ++ [Subject.mk c n k]), 1).

  (** [UPDATE subjects SET SubjectName=%s, Credits=%s WHERE SubjectCode=%s] (models.py 275) *)
Definition update_subject (name credits code : pyval) (d : database) : option (database * Z) :=
    n ← p_str name; k ← p_int credits; c ← p_str code;
    let hit r := coll_eq (Subject.SubjectCode r) c in
    if existsb hit (subjects d) && ((k <? 1) || (10 <? k)) then None else
    Some (set_subjects d ((fun r => if hit r then Subject.mk (Subject.SubjectCode r) n k else r) <$> subjects d),
          Z.of_nat (length (filter (fun r => hit r = true) (subjects d)))).

  (** [DELETE FROM subjects WHERE SubjectCode = %s] (models.py 282) *)
Definition delete_subject (code : pyval) (d : database) : option (database * Z) :=
    c ← p_str code;
    let hit r := coll_eq (Subject.SubjectCode r) c in
    if existsb (fun k => coll_eq (Class.SubjectCode k) c) (classes d) then None else
    Some (set_subjects d (filter (fun r => hit r = false) (subjects d)),
          Z.of_nat (length (filter (fun r => hit r = true) (subjects d)))).

  (** [INSERT INTO enrollments (StudentID, ClassID, Grade, GradeLetter, Note) ...] (models.py 504-515) *)
Definition insert_enrollment (sid cid grade letter note : pyval) (d : database) : option (database * Z) :=
    s ← p_int sid; c ← p_int cid; g ← p_grade grade; l ← p_opt_str letter; n ← p_opt_str note;
    if enrollment_exists d s c || negb (student_exists d s) || negb (class_exists d c) || negb (grade_ok g)
    then None else
    Some (set_enrollments d (enrollments d ++ [Enrollment.mk s c g l n]), 1).

  (** [UPDATE enrollments SET Grade=%s, GradeLetter=%s, Note=%s WHERE StudentID=%s AND ClassID=%s]
      (models.py 530-542) *)
Definition update_enrollment (grade letter note : pyval) (sid cid : Z) (d : database) : option (database * Z) :=
    g ← p_grade grade; l ← p_opt_str letter; n ← p_opt_str note;
    let hit e := (Enrollment.StudentID e =? sid) && (Enrollment.ClassID e =? cid) in
    if existsb hit (enrollments d) && negb (grade_ok g) then None else
    Some (set_enrollments d ((fun e => if hit e then Enrollment.mk sid cid g l n else e) <$> enrollments d),
          Z.of_nat (length (filter (fun e => hit e = true) (enrollments d)))).

  (** [DELETE FROM enrollments WHERE StudentID=%s AND ClassID=%s] (models.py 547) *)
Definition delete_enrollment (sid cid : Z) (d : database) : option (database * Z) :=
    let hit e := (Enrollment.StudentID e =? sid) && (Enrollment.ClassID e =? cid) in
    Some (set_enrollments d (filter (fun e => hit e = false) (enrollments d)),
          Z.of_nat (length (filter (fun e => hit e = true) (enrollments d)))).

  (** The UNIQUE index on lecturers.LecturerEmail, for a row other than [self]. *)
Definition lecturer_email_taken (d : database) (e : option ustr) (self : Z) : bool :=
    match e with
    | None => false
    | Some e =>
        existsb (fun r => match Lecturer.LecturerEmail r with
                          | Some e' => coll_eq e' e && negb (Lecturer.LecturerID r =? self)
                          | None => false
                          end) (lecturers d)
    end.

  (** [UPDATE lecturers SET LecturerFirstName=%s, LecturerLastName=%s,
      LecturerEmail=%s, Office=%s WHERE LecturerID=%s] (models.py 337-348) *)
Definition update_lecturer (first last email office : pyval) (lid : Z) (d : database) : option (database * Z) :=
    f ← p_str first; l ← p_str last; e ← p_opt_str email; o ← p_opt_str office;
    let hit r := Lecturer.LecturerID r =? lid in
    if existsb hit (lecturers d) && lecturer_email_taken d e lid then None else
    Some (set_lecturers d ((fun r => if hit r then Lecturer.mk lid f l e o else r) <$> lecturers d),
          Z.of_nat (length (filter (fun r => hit r = true) (lecturers d)))).

  (** [DELETE FROM lecturers WHERE LecturerID = %s] (models.py 354-355):
      refused while a class references the lecturer. *)
Definition delete_lecturer (lid : Z) (d : database) : option (database * Z) :=
    let hit r := Lecturer.LecturerID r =? lid in
    if existsb (fun k => bool_decide (Class.LecturerID k = Some lid)) (classes d) then None else
    Some (set_lecturers d (filter (fun r => hit r = false) (lecturers d)),
          Z.of_nat (length (filter (fun r => hit r = true) (lecturers d)))).

  (** [UPDATE classes SET SubjectCode=%s, LecturerID=%s, ClassName=%s,
      Semester=%s, Year=%s, MaxCapacity=%s WHERE ClassID=%s]
      (models.py 422-438): the subject, and the lecturer when given, must exist. *)
Definition update_class (code lecturer name semester year capacity : pyval) (cid : Z) (d : database)
      : option (database * Z) :=
    sc ← p_str code; li ← p_opt_int lecturer; n ← p_opt_str name; se ← p_str semester;
    y ← p_int year; m ← p_int capacity;
    let hit r := Class.ClassID r =? cid in
    let refs_ok := subject_exists d sc && match li with Some k => lecturer_exists d k | None => true end in
    if existsb hit (classes d) && negb refs_ok then None else
    Some (set_classes d ((fun r => if hit r then Class.mk cid sc li n se y m else r) <$> classes d),
          Z.of_nat (length (filter (fun r => hit r = true) (classes d)))).

  (** [DELETE FROM classes WHERE ClassID = %s] (models.py 442-443), with
      the enrollments of the class deleted by the cascade. *)
Definition delete_class (cid : Z) (d : database) : option (database * Z) :=
    let hit r := Class.ClassID r =? cid in
    Some (set_enrollments (set_classes d (filter (fun r => hit r = false) (classes d)))
            (filter (fun e => Enrollment.ClassID e <> cid) (enrollments d)),
          Z.of_nat (length (filter (fun r => hit r = true) (classes d)))).

End Statements.

(** * Tactics *)

(** Peel the binds of an option computation that returned [Some]. *)
Ltac opt_inv H :=
  repeat match type of H with
  | mbind _ ?m = Some _ => let E := fresh "E" in destruct m eqn:E; simpl in H; [|discriminate]
  | (if ?b then None else _) = Some _ => let E := fresh "E" in destruct b eqn:E; [discriminate|]
  | Some _ = Some _ => injection H as <- <-
  end.

Section Invariant.
  Context `{Collation}.


End Invariant.

(** ** Witness *)

