(* ===== verification/Models.v ===== *)
(** * Models: the model classes of models.py

    [StudentModel], [SubjectModel], [LecturerModel], [ClassModel] and
    [EnrollmentModel] are classes of static methods; each write method is
    a function from the connection to [result exc (conn * _)], composed
    the way the source composes it: the module-level wrapper of the
    validator (lines 16-23), the reads of the cleaned dictionary, then
    the statement of [Sql] through [execute_update].

    The dictionary keys the methods read ([clean_data['first_name']],
    [clean_data['code']], [clean_data['student_id']]) are not the keys
    the validators return ("FirstName", "SubjectCode", "StudentID"), and
    [LecturerModel.create] and [ClassModel.create] call
    [Validators.validate_required], which the class does not define.
    The model keeps these names as they are; the theorems below show
    what follows from them. *)

From S2P Require Import Prelude PyModel Storage Validators Sql.
Local Open Scope Z_scope.
Local Open Scope res_scope.

Section Models.
  Context `{PyUnicode} `{Collation}.

  (** The wrappers of lines 16-23: no [student_id], [is_new] left at its
      default [False]. *)
Definition models_validate_student_data (c : conn) (today : Z) (data : pydict) : result exc pydict :=
    validate_student_data c today data PNone.
Definition models_validate_subject_data (c : conn) (data : pydict) : result exc pydict :=
    validate_subject_data c data false.
Definition models_validate_enrollment_data (c : conn) (data : pydict) : result exc pydict :=
    validate_enrollment_data c data false.

  (** [StudentModel.create(data)] (lines 79-121): returns the new id. *)
Definition StudentModel_create (c : conn) (today : Z) (data : pydict) : result exc (conn * Z) :=
    clean <- models_validate_student_data c today data;;
    first <- dict_index clean "first_name";;
    last <- dict_index clean "last_name";;
    dob <- dict_index clean "dob";;
    gender <- dict_index clean "gender";;
    address <- dict_index clean "address";;
    phone <- dict_index clean "phone";;
    email <- dict_index clean "email";;
    year <- dict_index clean "enrollment_year";;
    major <- dict_index clean "major";;
    execute_update c (insert_student first last dob gender address phone email year major).

  (** [StudentModel.update(student_id, data)] (lines 130-161): returns
      the row count. *)
Definition StudentModel_update (c : conn) (today : Z) (student_id : Z) (data : pydict)
      : result exc (conn * Z) :=
    clean <- models_validate_student_data c today data;;
    first <- dict_index clean "first_name";;
    last <- dict_index clean "last_name";;
    dob <- dict_index clean "dob";;
    gender <- dict_index clean "gender";;
    address <- dict_index clean "address";;
    phone <- dict_index clean "phone";;
    email <- dict_index clean "email";;
    year <- dict_index clean "enrollment_year";;
    major <- dict_index clean "major";;
    execute_update c (update_student first last dob gender address phone email year major student_id).

  (** [StudentModel.delete(student_id)] (lines 164-169) *)
Definition StudentModel_delete (c : conn) (student_id : Z) : result exc (conn * Z) :=
    execute_update c (delete_student student_id).

  (** [SubjectModel.create(data)] (lines 255-264): returns the code. *)
Definition SubjectModel_create (c : conn) (data : pydict) : result exc (conn * pyval) :=
    clean <- models_validate_subject_data c data;;
    code <- dict_index clean "code";;
    name <- dict_index clean "name";;
    credits <- dict_index clean "credits";;
    r <- execute_update c (insert_subject code name credits);;
    code' <- dict_index clean "code";;
    Ok (r.1, code').

  (** [SubjectModel.update(code, data)] (lines 273-277): no validation. *)
Definition SubjectModel_update (c : conn) (code : pyval) (data : pydict) : result exc (conn * Z) :=
    name <- dict_index data "name";;
    credits <- dict_index data "credits";;
    execute_update c (update_subject name credits code).

  (** [SubjectModel.delete(code)] (lines 280-283) *)
Definition SubjectModel_delete (c : conn) (code : pyval) : result exc (conn * Z) :=
    execute_update c (delete_subject code).

  (** [LecturerModel.create(data)] (lines 305-326): the first statement
      looks up [Validators.validate_required] before evaluating its
      arguments, and the class has no such attribute. *)
Definition LecturerModel_create (c : conn) (data : pydict) : result exc (conn * Z) :=
    Err (AttributeError "validate_required").

  (** [ClassModel.create(data)] (lines 383-404): the same lookup. *)
Definition ClassModel_create (c : conn) (data : pydict) : result exc (conn * Z) :=
    Err (AttributeError "validate_required").

  (** [EnrollmentModel.exists(student_id, class_id)] (lines 521-525): a
      failed query reads as "not enrolled". *)
Definition EnrollmentModel_exists (c : conn) (student_id class_id : pyval) : bool :=
    bool_decide (is_Some (execute_query_one c (select_enrollment_pair student_id class_id))).

  (** [EnrollmentModel.create(data)] (lines 491-518) *)
Definition EnrollmentModel_create (c : conn) (data : pydict) : result exc (conn * bool) :=
    clean <- models_validate_enrollment_data c data;;
    sid <- dict_index clean "student_id";;
    cid <- dict_index clean "class_id";;
    (if EnrollmentModel_exists c sid cid then Err (ValidationError MsgAlreadyEnrolled) else Ok tt);;;
    sid' <- dict_index clean "student_id";;
    cid' <- dict_index clean "class_id";;
    r <- execute_update c (insert_enrollment sid' cid' (dict_get clean "grade")
                             (dict_get clean "grade_letter") (dict_get clean "note"));;
    Ok (r.1, true).

  (** [EnrollmentModel.update(student_id, class_id, data)] (lines 528-542) *)
Definition EnrollmentModel_update (c : conn) (student_id class_id : Z) (data : pydict)
      : result exc (conn * Z) :=
    execute_update c (update_enrollment (dict_get data "grade") (dict_get data "grade_letter")
                        (dict_get data "note") student_id class_id).

  (** [EnrollmentModel.delete(student_id, class_id)] (lines 545-548) *)
Definition EnrollmentModel_delete (c : conn) (student_id class_id : Z) : result exc (conn * Z) :=
    execute_update c (delete_enrollment student_id class_id).

  (** [LecturerModel.update(lecturer_id, data)] (lines 335-349): the
      parameters in the order of the tuple, [data['...']] raising on a
      missing key. *)
Definition LecturerModel_update (c : conn) (lecturer_id : Z) (data : pydict) : result exc (conn * Z) :=
    first <- dict_index data "first_name";;
    last <- dict_index data "last_name";;
    execute_update c (update_lecturer first last (dict_get data "email") (dict_get data "office") lecturer_id).

  (** [LecturerModel.delete(lecturer_id)] (lines 352-355) *)
Definition LecturerModel_delete (c : conn) (lecturer_id : Z) : result exc (conn * Z) :=
    execute_update c (delete_lecturer lecturer_id).

  (** [ClassModel.update(class_id, data)] (lines 420-438) *)
Definition ClassModel_update (c : conn) (class_id : Z) (data : pydict) : result exc (conn * Z) :=
    code <- dict_index data "subject_code";;
    semester <- dict_index data "semester";;
    year <- dict_index data "year";;
    execute_update c (update_class code (dict_get data "lecturer_id") (dict_get data "class_name")
                        semester year (dict_get_or data "max_capacity" (PInt 60)) class_id).

  (** [ClassModel.delete(class_id)] (lines 440-443) *)
Definition ClassModel_delete (c : conn) (class_id : Z) : result exc (conn * Z) :=
    execute_update c (delete_class class_id).

End Models.

(** Example data: the record of [Validators.ex_student], resubmitted
    unchanged for an update. *)
Definition ex_update_data : pydict :=
  list_to_map [("FirstName", PStr (us "An")); ("LastName", PStr (us "Le"));
               ("Email", PStr (us "an@uni.edu")); ("DOB", PStr (us "2004-01-01"));
               ("Gender", PStr (us "M")); ("EnrollmentYear", PInt 2022)].

(** * Properties of the model classes *)

Section ModelProperties.
  Context `{PyUnicode} `{Collation}.

  (** The dictionary [validate_student_data] returns has none of the
      keys [StudentModel] reads. *)
Lemma validate_student_data_keys (c : conn) (today : Z) (data : pydict) (sid : pyval) (out : pydict) :
    validate_student_data c today data sid = Ok out -> out !! "first_name" = None.
  Proof.
    unfold validate_student_data. intros Hv. res_inv Hv.
    repeat match goal with Hb : res_bind _ _ = Ok _ |- _ => res_inv Hb end.
    injection Hv as <-. by simpl; simplify_map_eq.
  Qed.

Lemma validate_subject_data_keys (c : conn) (data : pydict) (b : bool) (out : pydict) :
    validate_subject_data c data b = Ok out -> out !! "code" = None.
  Proof.
    unfold validate_subject_data. intros Hv. res_inv Hv.
    repeat match goal with Hb : res_bind _ _ = Ok _ |- _ => res_inv Hb end.
    destruct (dict_get_or _ _ _) as [| | | |raw]; try discriminate.
    res_inv Hv. injection Hv as <-. by simpl; simplify_map_eq.
  Qed.

Lemma validate_enrollment_data_keys (c : conn) (data : pydict) (b : bool) (out : pydict) :
    validate_enrollment_data c data b = Ok out -> out !! "student_id" = None.
  Proof.
    unfold validate_enrollment_data. intros Hv. res_inv Hv.
    injection Hv as <-. by simpl; simplify_map_eq.
  Qed.

Lemma dict_index_None (d : pydict) (k : string) : d !! k = None -> dict_index d k = Err (KeyError k).
  Proof. unfold dict_index. by intros ->. Qed.

  (** Reading a key that the validated dictionary never has: the whole
      method fails with the validation error or with [KeyError k]. *)
Lemma bind_missing_key {B} (m : result exc pydict) (k : string) (rest : pydict -> pyval -> result exc B) :
    (forall out, m = Ok out -> out !! k = None) ->
    res_bind m (fun clean => res_bind (dict_index clean k) (rest clean)) =
    match m with Ok _ => Err (KeyError k) | Err e => Err e end.
  Proof. destruct m as [out|e]; simpl; [|done]. intros Hk. by rewrite dict_index_None by (by apply Hk). Qed.

  (** [StudentModel.create] never inserts: it fails with the
      validation error, or, once validation passes, with
      [KeyError('first_name')]. *)
Theorem StudentModel_create_fails (c : conn) (today : Z) (data : pydict) :
    StudentModel_create c today data =
    match validate_student_data c today data PNone with
    | Ok _ => Err (KeyError "first_name")
    | Err e => Err e
    end.
  Proof.
    apply bind_missing_key. intros out. apply validate_student_data_keys.
  Qed.

  (** [StudentModel.update] never writes either. *)
Theorem StudentModel_update_fails (c : conn) (today sid : Z) (data : pydict) :
    StudentModel_update c today sid data =
    match validate_student_data c today data PNone with
    | Ok _ => Err (KeyError "first_name")
    | Err e => Err e
    end.
  Proof.
    apply bind_missing_key. intros out. apply validate_student_data_keys.
  Qed.

  (** C7. Because the wrapper of line 16 drops the student id,
      [StudentModel.update] refuses a student's own unchanged e-mail as a
      duplicate, before it reaches the key error. *)
Theorem StudentModel_update_rejects_own_email (c : conn) (today : Z) (r : Student.t) (data : pydict) (e : ustr) :
    up c = true -> r ∈ students (db c) -> Student.Email r = Some e ->
    is_empty (dict_get data "FirstName") "First Name" = Ok tt ->
    is_empty (dict_get data "LastName") "Last Name" = Ok tt ->
    data !! "Email" = Some (PStr e) -> email_shape e -> py_strip e <> [] ->
    StudentModel_update c today (Student.StudentID r) data
      = Err (ValidationError (MsgDuplicate "Email" (PStr e))).
  Proof.
    intros Hup Hr He H1 H2 Hd Hs Hne.
    unfold StudentModel_update, models_validate_student_data, validate_student_data, dict_index.
    rewrite H1, H2. simpl. rewrite Hd. simpl.
    rewrite (validate_email_taken c e r); [done..|].
    rewrite He. simpl. by rewrite coll_eq_refl.
  Qed.

  (** [SubjectModel.create] never inserts: after a successful
      validation it reads [clean_data['code']], which is not there. *)
Theorem SubjectModel_create_fails (c : conn) (data : pydict) :
    SubjectModel_create c data =
    match validate_subject_data c data false with
    | Ok _ => Err (KeyError "code")
    | Err e => Err e
    end.
  Proof.
    apply bind_missing_key. intros out. apply validate_subject_data_keys.
  Qed.

  (** [EnrollmentModel.create] never inserts: after a successful
      validation it reads [clean_data['student_id']], which is not there. *)
Theorem EnrollmentModel_create_fails (c : conn) (data : pydict) :
    EnrollmentModel_create c data =
    match validate_enrollment_data c data false with
    | Ok _ => Err (KeyError "student_id")
    | Err e => Err e
    end.
  Proof.
    apply bind_missing_key. intros out. apply validate_enrollment_data_keys.
  Qed.

  (** C6. No create method of models.py ever returns normally: the
      database is never written through them. *)
Theorem models_create_never_succeeds (c : conn) (today : Z) (data : pydict) :
    is_ok (StudentModel_create c today data) = false /\
    is_ok (SubjectModel_create c data) = false /\
    is_ok (LecturerModel_create c data) = false /\
    is_ok (ClassModel_create c data) = false /\
    is_ok (EnrollmentModel_create c data) = false.
  Proof.
    repeat split; try reflexivity; unfold StudentModel_create, SubjectModel_create, EnrollmentModel_create;
      rewrite bind_missing_key by (intros out; eauto using validate_student_data_keys,
                                     validate_subject_data_keys, validate_enrollment_data_keys);
      by case_match.
  Qed.


End ModelProperties.

Lemma StudentModel_update_rejects_own_email_witness :
  up ex_conn = true /\ ex_student ∈ students (db ex_conn) /\
  Student.Email ex_student = Some (us "an@uni.edu") /\
  is_empty (dict_get ex_update_data "FirstName") "First Name" = Ok tt /\
  is_empty (dict_get ex_update_data "LastName") "Last Name" = Ok tt /\
  ex_update_data !! "Email" = Some (PStr (us "an@uni.edu")) /\
  email_shape (us "an@uni.edu") /\ py_strip (us "an@uni.edu") <> [] /\
  StudentModel_update ex_conn 2025 (Student.StudentID ex_student) ex_update_data
    = Err (ValidationError (MsgDuplicate "Email" (PStr (us "an@uni.edu")))).
Proof.
  assert (Hin : ex_student ∈ students (db ex_conn)) by (simpl; left).
  assert (H1 : is_empty (dict_get ex_update_data "FirstName") "First Name" = Ok tt) by (vm_compute; reflexivity).
  assert (H2 : is_empty (dict_get ex_update_data "LastName") "Last Name" = Ok tt) by (vm_compute; reflexivity).
  assert (H3 : ex_update_data !! "Email" = Some (PStr (us "an@uni.edu"))) by (vm_compute; reflexivity).
  assert (Hne : py_strip (us "an@uni.edu") <> []) by (vm_compute; discriminate).
  split; [reflexivity|]. split; [exact Hin|]. split; [reflexivity|]. split; [exact H1|].
  split; [exact H2|]. split; [exact H3|]. split; [exact ex_email_shape|]. split; [exact Hne|].
  exact (StudentModel_update_rejects_own_email ex_conn 2025 ex_student ex_update_data _
           eq_refl Hin eq_refl H1 H2 H3 ex_email_shape Hne).
Defined.

