(* ===== verification/Reports.v ===== *)
(** * Reports: the reporting queries of query_models.py

    Each method of [QueryModels] runs one SELECT through
    [db.execute_query].  The SELECT is modelled as a function of the
    database ([sql_*], returning [None] when MySQL refuses it, e.g. on a
    parameter the connector cannot bind), and the method as a function of
    the connection that does what the Python code does with the result:
    the four numbered queries call [len(results)] to log the row count,
    which raises [TypeError] when [execute_query] has swallowed an error
    and returned [None]; the other methods return the [None].

    The rows are records named after the SELECT's column aliases.  Joins
    are written with the list monad, one binder per joined table in the
    order of the FROM clause; [ORDER BY] is [Query.order_by]. *)

From S2P Require Import Prelude PyModel Storage Query.
From stdpp Require Import sorting.
Local Open Scope Z_scope.

(** ** Row types *)

Module GradeRow.
Record t := mk {
    StudentID : Z; FirstName : ustr; LastName : ustr; SubjectCode : ustr; SubjectName : ustr;
    ClassID : Z; ClassName : option ustr; Semester : ustr; Year : Z;
    Grade : option Z; GradeLetter : option ustr }.
End GradeRow.

Module StudentGradeRow.
Record t := mk {
    StudentID : Z; FirstName : ustr; LastName : ustr; Email : option ustr; Major : option ustr;
    ClassID : option Z; ClassName : option ustr; Semester : option ustr; Year : option Z;
    Grade : option Z; GradeLetter : option ustr; TotalEnrollments : Z }.
End StudentGradeRow.

Module CompleteRow.
Record t := mk {
    StudentID : Z; StudentFirstName : ustr; StudentLastName : ustr; StudentEmail : option ustr;
    Major : option ustr; SubjectCode : ustr; SubjectName : ustr; Credits : Z;
    ClassID : Z; ClassName : option ustr; Semester : ustr; Year : Z;
    LecturerID : option Z; LecturerFirstName : option ustr; LecturerLastName : option ustr;
    LecturerName : option ustr; Office : option ustr;
    Grade : option Z; GradeLetter : option ustr; Note : option ustr }.
End CompleteRow.

Module AboveAvgRow.
Record t := mk {
    StudentID : Z; FirstName : ustr; LastName : ustr; Email : option ustr; Major : option ustr;
    StudentAvg : Z; GlobalAvg : option Z; TotalClasses : Z; DifferenceFromAvg : option Z }.
End AboveAvgRow.

Module TopRow.
Record t := mk {
    StudentID : Z; FirstName : ustr; LastName : ustr; AvgGrade : Z; TotalClasses : Z;
    MinGrade : Z; MaxGrade : Z }.
End TopRow.

Module SubjectPerfRow.
Record t := mk {
    SubjectCode : ustr; SubjectName : ustr; Credits : Z; TotalStudents : Z; AvgGrade : Z;
    MinGrade : Z; MaxGrade : Z; PassCount : Z; FailCount : Z }.
End SubjectPerfRow.

Module LecturerPerfRow.
Record t := mk {
    LecturerID : Z; LecturerName : ustr; Office : option ustr; TotalClasses : Z;
    TotalStudents : Z; AvgGrade : Z; ExcellentCount : Z }.
End LecturerPerfRow.

Module Kpis.
Record t := mk {
    total_students : Z; total_subjects : Z; total_classes : Z; total_enrollments : Z;
    avg_grade : option Z;     (** hundredths *)
    pass_rate : option Z }.   (** hundredths of a percent *)
End Kpis.

Section Reports.
  Context `{Collation}.

  (** An optional filter [if p: sql += " AND col = %s"]: Python's truth
      value decides whether the condition is added, SQL's [=] whether a
      row satisfies it. *)
Definition opt_filter {R} (p : pyval) (col : R -> sqlval) (rows : list R) : option (list R) :=
    if py_truthy p then
      v ← sql_param p; Some (filter (fun r => sql_eq (col r) v = Some true) rows)
    else Some rows.

  (** *** Query 1: [query_student_grades_by_subject(subject_code)] (lines 35-84) *)

Definition grades_join (d : database) : list (Enrollment.t * Student.t * Class.t * Subject.t) :=
    e ← enrollments d;
    s ← filter (fun s => Student.StudentID s = Enrollment.StudentID e) (students d);
    c ← filter (fun c => Class.ClassID c = Enrollment.ClassID e) (classes d);
    sub ← filter (fun sub => coll_eq (Subject.SubjectCode sub) (Class.SubjectCode c) = true) (subjects d);
    [(e, s, c, sub)].

  (** The primary key of subjects under the column's collation: two
      subjects whose codes compare equal are the same row. *)
Definition subject_codes_unique (d : database) : Prop :=
    NoDup (Subject.SubjectCode <$> subjects d) /\
    forall s1 s2, s1 ∈ subjects d -> s2 ∈ subjects d ->
      coll_eq (Subject.SubjectCode s1) (Subject.SubjectCode s2) = true -> Subject.SubjectCode s1 = Subject.SubjectCode s2.

Definition grade_row (x : Enrollment.t * Student.t * Class.t * Subject.t) : GradeRow.t :=
    let '(e, s, c, sub) := x in
    GradeRow.mk (Student.StudentID s) (Student.FirstName s) (Student.LastName s)
      (Subject.SubjectCode sub) (Subject.SubjectName sub) (Class.ClassID c) (Class.ClassName c)
      (Class.Semester c) (Class.Year c) (Enrollment.Grade e) (Enrollment.GradeLetter e).

Definition grade_row_key (r : GradeRow.t) : list sqlval :=
    [SStr (GradeRow.SubjectName r); SStr (GradeRow.LastName r); SStr (GradeRow.FirstName r)].

Definition sql_student_grades_by_subject (subject_code : pyval) (d : database) : option (list GradeRow.t) :=
    rows ← opt_filter subject_code (fun x => let '(_, _, _, sub) := x in SStr (Subject.SubjectCode sub))
             (grades_join d);
    Some (order_by [Asc; Asc; Asc] grade_row_key (grade_row <$> rows)).

Definition query_student_grades_by_subject (c : conn) (subject_code : pyval) : result exc (list GradeRow.t) :=
    match execute_query c (sql_student_grades_by_subject subject_code) with
    | Some rows => Ok rows
    | None => Err TypeError
    end.

  (** *** [get_grade_distribution()] (lines 87-111) *)

Definition grade_range_4 (g : Z) : ustr :=
    if g <? 500 then us "0 - 5"
    else if g <? 700 then us "5 - 7"
    else if g <? 850 then us "7 - 8.5"
    else us "8.5 - 10".

Definition sql_grade_distribution_4 (d : database) : option (list (ustr * Z)) :=
    let graded := omap Enrollment.Grade (enrollments d) in
    Some (order_by [Asc] (fun r => [SStr r.1]) (group_count (grade_range_4 <$> graded))).

Definition get_grade_distribution (c : conn) : option (list (ustr * Z)) :=
    execute_query c sql_grade_distribution_4.

  (** *** Query 2: [query_all_students_with_grades()] (lines 117-159) *)

Definition enrollments_of (d : database) (s : Student.t) : list Enrollment.t :=
    filter (fun e => Enrollment.StudentID e = Student.StudentID s) (enrollments d).

Definition class_of (d : database) (se : Student.t * option Enrollment.t) : list Class.t :=
    match se.2 with
    | Some e => filter (fun c => Class.ClassID c = Enrollment.ClassID e) (classes d)
    | None => []
    end.

  (** [FROM students s LEFT JOIN enrollments e ON s.StudentID = e.StudentID
      LEFT JOIN classes c ON e.ClassID = c.ClassID] *)
Definition students_left_join (d : database) : list (Student.t * option Enrollment.t * option Class.t) :=
    left_join (left_join (students d) (enrollments_of d)) (class_of d).

  (** [COUNT(e.ClassID) OVER (PARTITION BY s.StudentID)]: the rows of the
      same student whose enrollment is not NULL. *)
Definition total_enrollments (rows : list (Student.t * option Enrollment.t * option Class.t)) (sid : Z) : Z :=
    Z.of_nat (length (filter (fun x => is_Some x.1.2 /\ Student.StudentID x.1.1 = sid) rows)).

Definition student_grade_row (rows : list (Student.t * option Enrollment.t * option Class.t))
      (x : Student.t * option Enrollment.t * option Class.t) : StudentGradeRow.t :=
    let '(s, e, c) := x in
    StudentGradeRow.mk (Student.StudentID s) (Student.FirstName s) (Student.LastName s)
      (Student.Email s) (Student.Major s) (Class.ClassID <$> c) (c ≫= Class.ClassName)
      (Class.Semester <$> c) (Class.Year <$> c) (e ≫= Enrollment.Grade) (e ≫= Enrollment.GradeLetter)
      (total_enrollments rows (Student.StudentID s)).

Definition student_grade_key (r : StudentGradeRow.t) : list sqlval :=
    [SInt (StudentGradeRow.StudentID r); sql_opt_int (StudentGradeRow.Year r);
     sql_opt_str (StudentGradeRow.Semester r)].

Definition sql_all_students_with_grades (d : database) : option (list StudentGradeRow.t) :=
    let rows := students_left_join d in
    Some (order_by [Asc; Desc; Asc] student_grade_key (student_grade_row rows <$> rows)).

Definition query_all_students_with_grades (c : conn) : result exc (list StudentGradeRow.t) :=
    match execute_query c sql_all_students_with_grades with
    | Some rows => Ok rows
    | None => Err TypeError
    end.
  (** *** Query 3: [query_complete_enrollment_info(...)] (lines 166-271) *)

Definition complete_join (d : database) : list (Enrollment.t * Student.t * Class.t * Subject.t * option Lecturer.t) :=
    left_join (grades_join d)
      (fun x => let '(_, _, c, _) := x in
                filter (fun l => Class.LecturerID c = Some (Lecturer.LecturerID l)) (lecturers d)).

Definition complete_row (x : Enrollment.t * Student.t * Class.t * Subject.t * option Lecturer.t) : CompleteRow.t :=
    let '(e, s, c, sub, l) := x in
    CompleteRow.mk (Student.StudentID s) (Student.FirstName s) (Student.LastName s) (Student.Email s)
      (Student.Major s) (Subject.SubjectCode sub) (Subject.SubjectName sub) (Subject.Credits sub)
      (Class.ClassID c) (Class.ClassName c) (Class.Semester c) (Class.Year c)
      (Lecturer.LecturerID <$> l) (Lecturer.LecturerFirstName <$> l) (Lecturer.LecturerLastName <$> l)
      ((fun l => Lecturer.LecturerFirstName l ++ us " " ++ Lecturer.LecturerLastName l) <$> l)
      (l ≫= Lecturer.Office) (Enrollment.Grade e) (Enrollment.GradeLetter e) (Enrollment.Note e).

Definition complete_key (r : CompleteRow.t) : list sqlval :=
    [SInt (CompleteRow.Year r); SStr (CompleteRow.Semester r); SStr (CompleteRow.SubjectName r);
     SStr (CompleteRow.StudentLastName r)].

  (** The five optional filters, in the order the source appends them. *)
Definition sql_complete_enrollment_info (student_id subject_code lecturer_id semester year : pyval)
      (d : database) : option (list CompleteRow.t) :=
    rows ← opt_filter student_id (fun r => SInt (CompleteRow.StudentID r)) (complete_row <$> complete_join d);
    rows ← opt_filter subject_code (fun r => SStr (CompleteRow.SubjectCode r)) rows;
    rows ← opt_filter lecturer_id (fun r => sql_opt_int (CompleteRow.LecturerID r)) rows;
    rows ← opt_filter semester (fun r => SStr (CompleteRow.Semester r)) rows;
    rows ← opt_filter year (fun r => SInt (CompleteRow.Year r)) rows;
    Some (order_by [Desc; Asc; Asc; Asc] complete_key rows).

Definition query_complete_enrollment_info (c : conn) (student_id subject_code lecturer_id semester year : pyval)
      : result exc (list CompleteRow.t) :=
    match execute_query c (sql_complete_enrollment_info student_id subject_code lecturer_id semester year) with
    | Some rows => Ok rows
    | None => Err TypeError
    end.

  (** *** Query 4: [query_students_above_average(min_classes)] (lines 278-337) *)

  (** The non-NULL grades of all enrollments, and of one student's. *)
Definition all_grades (d : database) : list Z := omap Enrollment.Grade (enrollments d).
Definition student_grades (d : database) (s : Student.t) : list Z := omap Enrollment.Grade (enrollments_of d s).

  (** [WITH GlobalAvg AS (SELECT ROUND(AVG(Grade), 2) ...)]: hundredths. *)
Definition global_avg (d : database) : option Z := round2_of6 <$> avg6 (all_grades d).

  (** [JOIN enrollments ... WHERE e.Grade IS NOT NULL GROUP BY s.StudentID]:
      the students with a graded enrollment, with their grades. *)
Definition graded_groups (d : database) : list (Student.t * list Z) :=
    filter (fun g => g.2 <> []) ((fun s => (s, student_grades d s)) <$> students d).

  (** [HAVING COUNT( * ) >= %s AND AVG(e.Grade) > (SELECT AvgGrade FROM GlobalAvg)]:
      the student's average (six decimals) against the rounded global one;
      a comparison with NULL is not TRUE. *)
Definition above_average (min_classes : Z) (glob : option Z) (gs : list Z) : bool :=
    (min_classes <=? Z.of_nat (length gs)) &&
    match avg6 gs, glob with Some a, Some g => g * 10000 <? a | _, _ => false end.

Definition above_avg_row (glob : option Z) (g : Student.t * list Z) : AboveAvgRow.t :=
    let '(s, gs) := g in
    let a := default 0 (avg6 gs) in
    AboveAvgRow.mk (Student.StudentID s) (Student.FirstName s) (Student.LastName s) (Student.Email s)
      (Student.Major s) (round2_of6 a) glob (Z.of_nat (length gs))
      ((fun g => round2_of6 (a - g * 10000)) <$> glob).

Definition above_avg_key (r : AboveAvgRow.t) : list sqlval :=
    [SDec (AboveAvgRow.StudentAvg r); SInt (AboveAvgRow.TotalClasses r)].

Definition sql_students_above_average (min_classes : Z) (d : database) : option (list AboveAvgRow.t) :=
    let glob := global_avg d in
    Some (order_by [Desc; Desc] above_avg_key
            (above_avg_row glob <$> filter (fun g => above_average min_classes glob g.2 = true) (graded_groups d))).

Definition query_students_above_average (c : conn) (min_classes : Z) : result exc (list AboveAvgRow.t) :=
    match execute_query c (sql_students_above_average min_classes) with
    | Some rows => Ok rows
    | None => Err TypeError
    end.

  (** *** [query_top_students(limit, min_classes)] (lines 346-382) *)

Definition top_row (g : Student.t * list Z) : TopRow.t :=
    let '(s, gs) := g in
    TopRow.mk (Student.StudentID s) (Student.FirstName s) (Student.LastName s)
      (round2_of6 (default 0 (avg6 gs))) (Z.of_nat (length gs))
      (default 0 (sql_min gs)) (default 0 (sql_max gs)).

Definition sql_top_students (limit min_classes : Z) (d : database) : option (list TopRow.t) :=
    let groups := filter (fun g => min_classes <= Z.of_nat (length g.2)) (graded_groups d) in
    sql_limit limit (order_by [Desc] (fun r => [SDec (TopRow.AvgGrade r)]) (top_row <$> groups)).

Definition query_top_students (c : conn) (limit min_classes : Z) : option (list TopRow.t) :=
    execute_query c (sql_top_students limit min_classes).
  (** *** [query_grade_distribution()] (lines 385-418) *)

Definition grade_range_6 (g : Z) : ustr :=
    if 900 <=? g then us "A (9-10)"
    else if 800 <=? g then us "B (8-9)"
    else if 700 <=? g then us "C (7-8)"
    else if 600 <=? g then us "D (6-7)"
    else if 500 <=? g then us "E (5-6)"
    else us "F (0-5)".

  (** [ORDER BY CASE GradeRange WHEN 'A (9-10)' THEN 1 ... ELSE 6 END] *)
Definition grade_range_rank (label : ustr) : Z :=
    if bool_decide (label = us "A (9-10)") then 1
    else if bool_decide (label = us "B (8-9)") then 2
    else if bool_decide (label = us "C (7-8)") then 3
    else if bool_decide (label = us "D (6-7)") then 4
    else if bool_decide (label = us "E (5-6)") then 5
    else 6.

  (** One row per non-empty range: label, [COUNT( * )], [ROUND(AVG(Grade), 2)]. *)
Definition sql_grade_distribution_6 (d : database) : option (list (ustr * Z * Z)) :=
    let graded := all_grades d in
    let groups := (fun lc => let gs := filter (fun g => grade_range_6 g = lc.1) graded in
                             (lc.1, lc.2, round2_of6 (default 0 (avg6 gs))))
                  <$> group_count (grade_range_6 <$> graded) in
    Some (order_by [Asc] (fun r => [SInt (grade_range_rank r.1.1)]) groups).

Definition query_grade_distribution (c : conn) : option (list (ustr * Z * Z)) :=
    execute_query c sql_grade_distribution_6.

  (** *** [query_subject_performance()] (lines 421-446) *)

  (** [FROM subjects sub JOIN classes c ON sub.SubjectCode = c.SubjectCode
      JOIN enrollments e ON c.ClassID = e.ClassID WHERE e.Grade IS NOT NULL]:
      the graded enrollments of one subject. *)
Definition subject_enrollments (d : database) (sub : Subject.t) : list (Enrollment.t * Z) :=
    c ← filter (fun c => coll_eq (Subject.SubjectCode sub) (Class.SubjectCode c) = true) (classes d);
    e ← filter (fun e => Class.ClassID c = Enrollment.ClassID e) (enrollments d);
    match Enrollment.Grade e with Some g => [(e, g)] | None => [] end.

Definition subject_perf_row (sub : Subject.t) (es : list (Enrollment.t * Z)) : SubjectPerfRow.t :=
    let gs := snd <$> es in
    SubjectPerfRow.mk (Subject.SubjectCode sub) (Subject.SubjectName sub) (Subject.Credits sub)
      (count_distinct (Enrollment.StudentID ∘ fst <$> es)) (round2_of6 (default 0 (avg6 gs)))
      (default 0 (sql_min gs)) (default 0 (sql_max gs))
      (Z.of_nat (length (filter (fun g => 500 <= g) gs))) (Z.of_nat (length (filter (fun g => g < 500) gs))).

  (** [GROUP BY sub.SubjectCode]: one group per subject with a graded
      enrollment (subject codes are the primary key). *)
Definition sql_subject_performance (d : database) : option (list SubjectPerfRow.t) :=
    let groups := filter (fun g => g.2 <> []) ((fun sub => (sub, subject_enrollments d sub)) <$> subjects d) in
    Some (order_by [Desc] (fun r => [SDec (SubjectPerfRow.AvgGrade r)])
            ((fun g => subject_perf_row g.1 g.2) <$> groups)).

Definition query_subject_performance (c : conn) : option (list SubjectPerfRow.t) :=
    execute_query c sql_subject_performance.

  (** *** [query_lecturer_performance()] (lines 449-472) *)

Definition lecturer_enrollments (d : database) (l : Lecturer.t) : list (Class.t * Enrollment.t * Z) :=
    c ← filter (fun c => Class.LecturerID c = Some (Lecturer.LecturerID l)) (classes d);
    e ← filter (fun e => Class.ClassID c = Enrollment.ClassID e) (enrollments d);
    match Enrollment.Grade e with Some g => [(c, e, g)] | None => [] end.

Definition lecturer_perf_row (l : Lecturer.t) (es : list (Class.t * Enrollment.t * Z)) : LecturerPerfRow.t :=
    let gs := snd <$> es in
    LecturerPerfRow.mk (Lecturer.LecturerID l)
      (Lecturer.LecturerFirstName l ++ us " " ++ Lecturer.LecturerLastName l) (Lecturer.Office l)
      (count_distinct ((fun x => Class.ClassID x.1.1) <$> es))
      (count_distinct ((fun x => Enrollment.StudentID x.1.2) <$> es))
      (round2_of6 (default 0 (avg6 gs))) (Z.of_nat (length (filter (fun g => 800 <= g) gs))).

Definition sql_lecturer_performance (d : database) : option (list LecturerPerfRow.t) :=
    let groups := filter (fun g => g.2 <> []) ((fun l => (l, lecturer_enrollments d l)) <$> lecturers d) in
    Some (order_by [Desc] (fun r => [SDec (LecturerPerfRow.AvgGrade r)])
            ((fun g => lecturer_perf_row g.1 g.2) <$> groups)).

Definition query_lecturer_performance (c : conn) : option (list LecturerPerfRow.t) :=
    execute_query c sql_lecturer_performance.

  (** *** [get_dashboard_kpis()] (lines 479-507) *)

  (** [ROUND(100.0 * COUNT(CASE WHEN Grade >= 5 THEN 1 END) / COUNT( * ), 2)]:
      [100.0 * p] has one decimal, the quotient five (one plus
      [div_precision_increment]); a division by zero is NULL. *)
Definition pass_rate_of (gs : list Z) : option Z :=
    let p := Z.of_nat (length (filter (fun g => 500 <= g) gs)) in
    let n := Z.of_nat (length gs) in
    if n =? 0 then None
    else Some (round_half_away_div (round_half_away_div (p * 10000000) n) 1000).

Definition sql_dashboard_kpis (d : database) : option (list Kpis.t) :=
    Some [Kpis.mk (Z.of_nat (length (students d))) (Z.of_nat (length (subjects d)))
            (Z.of_nat (length (classes d))) (Z.of_nat (length (enrollments d)))
            (global_avg d) (pass_rate_of (all_grades d))].

  (** [result if result else {}]: [None] stands for the empty dict. *)
Definition get_dashboard_kpis (c : conn) : option Kpis.t :=
    execute_query_one c sql_dashboard_kpis.
End Reports.

(** ** Example databases *)

Definition mk_student (id : Z) (name : string) : Student.t :=
  Student.mk id (us name) (us name) (us "2004-01-01") (us "M") None None None 2022 None.
Definition mk_class (id : Z) : Class.t :=
  Class.mk id (us "CS101") None None (us "S1") 2024 60.
Definition mk_enrollment (sid cid g : Z) : Enrollment.t := Enrollment.mk sid cid (Some g) None None.

(** The example of the spec: A has 9, 9, 9; B has 4, 4; C has 6, 6, 6. *)
Definition spec_avg_db : database :=
  mkDb [mk_student 1 "A"; mk_student 2 "B"; mk_student 3 "C"] [Subject.mk (us "CS101") (us "Intro") 3] []
       [mk_class 1; mk_class 2; mk_class 3]
       [mk_enrollment 1 1 900; mk_enrollment 1 2 900; mk_enrollment 1 3 900;
        mk_enrollment 2 1 400; mk_enrollment 2 2 400;
        mk_enrollment 3 1 600; mk_enrollment 3 2 600; mk_enrollment 3 3 600] 4 1 4.

(** One student, graded 7.12, 7.13 and 7.12: the only student is the
    whole population, so their average is the global average. *)
Definition borderline_db : database :=
  mkDb [mk_student 1 "A"] [] [] [mk_class 1; mk_class 2; mk_class 3]
       [mk_enrollment 1 1 712; mk_enrollment 1 2 713; mk_enrollment 1 3 712] 2 1 4.

(** * Properties of the reports *)

Section Query2.
  Context `{Collation}.

Lemma class_of_le1 (d : database) (se : Student.t * option Enrollment.t) :
    NoDup (Class.ClassID <$> classes d) -> (length (class_of d se) <= 1)%nat.
  Proof.
    intros Hc. unfold class_of. destruct se.2 as [e|]; simpl; [|lia].
    by apply (filter_key_le1 Class.ClassID).
  Qed.

  (** The rows of one student in the two left joins. *)
Lemma students_left_join_student (d : database) (st : Student.t) :
    keys_unique d -> st ∈ students d ->
    filter (fun x => Student.StudentID x.1.1 = Student.StudentID st) (students_left_join d) =
    left_join (left_join [st] (enrollments_of d)) (class_of d).
  Proof.
    intros (Hs & _ & _ & _) Hst. unfold students_left_join.
    rewrite (filter_left_join (fun y : Student.t * option Enrollment.t =>
                                 Student.StudentID y.1 = Student.StudentID st)) by done.
    rewrite (filter_left_join (fun s => Student.StudentID s = Student.StudentID st)) by done.
    by rewrite (filter_key_unique Student.StudentID).
  Qed.

  (** The window count of a student is the number of their enrollments. *)
Lemma total_enrollments_student (d : database) (st : Student.t) :
    keys_unique d -> st ∈ students d ->
    total_enrollments (students_left_join d) (Student.StudentID st) =
    Z.of_nat (length (enrollments_of d st)).
  Proof.
    intros Hk Hst. unfold total_enrollments. f_equal.
    rewrite <-(list_filter_filter (fun x : Student.t * option Enrollment.t * option Class.t => is_Some x.1.2)).
    rewrite students_left_join_student by done.
    rewrite (filter_left_join (fun y : Student.t * option Enrollment.t => is_Some y.2)) by done.
    rewrite length_left_join_le1; [apply left_join_single_matched|].
    intros a _. apply class_of_le1. apply Hk.
  Qed.

  (** The rows of one student, up to order. *)
Lemma all_students_rows_perm (c : conn) (rows : list StudentGradeRow.t) (st : Student.t) :
    keys_unique (db c) -> st ∈ students (db c) ->
    query_all_students_with_grades c = Ok rows ->
    filter (fun r => StudentGradeRow.StudentID r = Student.StudentID st) rows ≡ₚ
    student_grade_row (students_left_join (db c)) <$>
      left_join (left_join [st] (enrollments_of (db c))) (class_of (db c)).
  Proof.
    intros Hk Hst Hq. unfold query_all_students_with_grades, execute_query in Hq.
    destruct (up c); [|discriminate]. injection Hq as <-.
    rewrite order_by_perm, filter_fmap_comm, <-students_left_join_student by done.
    f_equiv. erewrite list_filter_iff; [done|]. by intros [[? ?] ?].
  Qed.

  (** C28. [query_all_students_with_grades] lists every student: a student
      without enrollments on exactly one row, with NULL class and grade
      and [TotalEnrollments] 0; a student with [n] enrollments on [n]
      rows, each with [TotalEnrollments] = [n]. *)
Theorem all_students_with_grades_per_student (c : conn) (rows : list StudentGradeRow.t) (st : Student.t) :
    keys_unique (db c) -> st ∈ students (db c) ->
    query_all_students_with_grades c = Ok rows ->
    let mine := filter (fun r => StudentGradeRow.StudentID r = Student.StudentID st) rows in
    let n := length (enrollments_of (db c) st) in
    length mine = Nat.max 1 n /\
    Forall (fun r => StudentGradeRow.TotalEnrollments r = Z.of_nat n) mine /\
    (n = 0%nat -> mine = [StudentGradeRow.mk (Student.StudentID st) (Student.FirstName st)
                            (Student.LastName st) (Student.Email st) (Student.Major st)
                            None None None None None None 0]).
  Proof.
    intros Hk Hst Hq mine n. pose proof (all_students_rows_perm c rows st Hk Hst Hq) as Hp.
    fold mine in Hp. split_and!.
    - rewrite Hp, length_fmap, length_left_join_le1, length_left_join_single; [done|].
      intros a _. apply class_of_le1, Hk.
    - rewrite Hp, Forall_fmap, Forall_forall. intros [[s e] cl] Hx.
      apply elem_of_left_join in Hx as [Hx _]. apply elem_of_left_join in Hx as [Hx _].
      apply list_elem_of_singleton in Hx as ->. by apply total_enrollments_student.
    - intros Hn. apply nil_length_inv in Hn.
      rewrite left_join_single, Hn, left_join_single in Hp. simpl in Hp.
      apply Permutation_singleton_r in Hp as ->. simpl.
      by rewrite total_enrollments_student, Hn.
  Qed.
End Query2.

Section Query1.
  Context `{Collation}.

Lemma elem_of_grades_join (d : database) e s c sub :
    (e, s, c, sub) ∈ grades_join d <->
    e ∈ enrollments d /\ s ∈ students d /\ Student.StudentID s = Enrollment.StudentID e /\
    c ∈ classes d /\ Class.ClassID c = Enrollment.ClassID e /\
    sub ∈ subjects d /\ coll_eq (Subject.SubjectCode sub) (Class.SubjectCode c) = true.
  Proof.
    unfold grades_join. repeat setoid_rewrite list_elem_of_bind.
    repeat setoid_rewrite list_elem_of_filter. setoid_rewrite list_elem_of_singleton. naive_solver.
  Qed.


  (** [WHERE sub.SubjectCode = %s] when a code is given. *)
Lemma opt_filter_PStr {R} (code : ustr) (col : R -> ustr) (col' : R -> sqlval) (rows : list R) :
    (forall r, col' r = SStr (col r)) ->
    opt_filter (PStr code) col' rows = Some (filter (fun r => code = [] \/ coll_eq (col r) code = true) rows).
  Proof.
    intros Hcol. unfold opt_filter. simpl. case_bool_decide as Hc; simpl.
    - f_equal. symmetry. apply filter_all_true. intros r _. by left.
    - f_equal. apply list_filter_iff. intros r. rewrite Hcol. simpl.
      split; [intros [= ->]; by right|]. intros [Hn|Hn]; [done|by rewrite Hn].
  Qed.

  (** With distinct keys, the join gives each enrollment at most one row,
      keyed by the enrollment's (StudentID, ClassID). *)
Lemma grades_join_keys (d : database) :
    keys_unique d -> subject_codes_unique d ->
    NoDup ((fun x => (Student.StudentID x.1.1.2, Class.ClassID x.1.2)) <$> grades_join d).
  Proof.
    intros (Hs & _ & Hc & He) [Hsub Hsub']. unfold grades_join.
    apply (NoDup_bind_keys (fun e => (Enrollment.StudentID e, Enrollment.ClassID e))); [done| |].
    - intros e _. apply length_bind_le1; [by apply filter_key_le1|]. intros st _.
      apply length_bind_le1; [by apply filter_key_le1|]. intros cl _.
      apply length_bind_le1; [|intros; simpl; lia].
      apply (filter_le1_keys Subject.SubjectCode); [done|]. intros x y Hx Hy Px Py. apply Hsub'; [done..|].
      eapply coll_eq_trans; [exact Px|]. by rewrite coll_eq_sym.
    - intros e x Hx. repeat (apply list_elem_of_bind in Hx as (? & Hx & Hf); apply list_elem_of_filter in Hf as [? _]).
      apply list_elem_of_singleton in Hx as ->. simpl. by f_equal.
  Qed.

  (** C29. [query_student_grades_by_subject(code)]: the rows, counted
      with their multiplicity, are those of the inner join of
      enrollments, students, classes and subjects, restricted to the
      subject when a code is given, in the order SubjectName, LastName,
      FirstName; so every enrollment whose student, class and subject
      exist gives a row, and, the keys of the tables being distinct, no
      enrollment gives two. *)
Theorem student_grades_by_subject_spec (c : conn) (code : ustr) (rows : list GradeRow.t) :
    query_student_grades_by_subject c (PStr code) = Ok rows ->
    Sorted (row_le [Asc; Asc; Asc] grade_row_key) rows /\
    rows ≡ₚ grade_row <$> filter (fun x => code = [] \/ coll_eq (Subject.SubjectCode x.2) code = true)
                                 (grades_join (db c)) /\
    (forall r, r ∈ rows <->
      exists e s cl sub, r = grade_row (e, s, cl, sub) /\
        e ∈ enrollments (db c) /\ s ∈ students (db c) /\ Student.StudentID s = Enrollment.StudentID e /\
        cl ∈ classes (db c) /\ Class.ClassID cl = Enrollment.ClassID e /\
        sub ∈ subjects (db c) /\ coll_eq (Subject.SubjectCode sub) (Class.SubjectCode cl) = true /\
        (code = [] \/ coll_eq (Subject.SubjectCode sub) code = true)) /\
    (keys_unique (db c) -> subject_codes_unique (db c) ->
     NoDup ((fun r => (GradeRow.StudentID r, GradeRow.ClassID r)) <$> rows)).
  Proof.
    unfold query_student_grades_by_subject, execute_query, sql_student_grades_by_subject.
    destruct (up c); [|discriminate].
    rewrite (opt_filter_PStr code (fun x => Subject.SubjectCode x.2)); [|by intros [[[? ?] ?] ?]].
    simpl. intros [= <-].
    set (P := fun x : Enrollment.t * Student.t * Class.t * Subject.t =>
                code = [] \/ coll_eq (Subject.SubjectCode x.2) code = true).
    assert (Hp : order_by [Asc; Asc; Asc] grade_row_key (grade_row <$> filter P (grades_join (db c)))
                   ≡ₚ grade_row <$> filter P (grades_join (db c))) by apply order_by_perm.
    split_and!; [apply order_by_sorted|exact Hp| |].
    - intros r. rewrite elem_of_order_by, list_elem_of_fmap. split.
      + intros ([[[e s] cl] sub] & -> & Hj). apply list_elem_of_filter in Hj as [Hc Hj].
        apply elem_of_grades_join in Hj. exists e, s, cl, sub. naive_solver.
      + intros (e & s & cl & sub & -> & He & Hs & Hse & Hcl & Hce & Hsub & Hss & Hc).
        exists (e, s, cl, sub). split; [done|]. apply list_elem_of_filter. split; [done|].
        by apply elem_of_grades_join.
    - intros Hk Hsu. rewrite Hp, <-list_fmap_compose.
      assert (Heq : ((fun r => (GradeRow.StudentID r, GradeRow.ClassID r)) ∘ grade_row) <$> filter P (grades_join (db c))
                    = (fun x => (Student.StudentID x.1.1.2, Class.ClassID x.1.2)) <$> filter P (grades_join (db c))).
      { apply list_fmap_ext. by intros i [[[e s] cl] sub] _. }
      rewrite Heq. apply NoDup_fmap_filter. by apply grades_join_keys.
  Qed.
End Query1.

Section Query4.
  Context `{Collation}.

Lemma elem_of_graded_groups (d : database) (s : Student.t) (gs : list Z) :
    (s, gs) ∈ graded_groups d <-> s ∈ students d /\ gs = student_grades d s /\ gs <> [].
  Proof.
    unfold graded_groups. rewrite list_elem_of_filter, list_elem_of_fmap. naive_solver.
  Qed.

  (** C25. A student is listed by [query_students_above_average(m)]
      exactly when they have at least [m] graded enrollments and their
      average (six decimals) exceeds the global average rounded to two
      decimals. *)
Theorem students_above_average_member (c : conn) (m : Z) (rows : list AboveAvgRow.t) (st : Student.t) :
    keys_unique (db c) -> st ∈ students (db c) ->
    query_students_above_average c m = Ok rows ->
    (exists r, r ∈ rows /\ AboveAvgRow.StudentID r = Student.StudentID st) <->
    (m <= Z.of_nat (length (student_grades (db c) st)) /\
     exists g a, global_avg (db c) = Some g /\ avg6 (student_grades (db c) st) = Some a /\ g * 10000 < a).
  Proof.
    intros (Hs & _) Hst. unfold query_students_above_average, execute_query, sql_students_above_average.
    destruct (up c); [|discriminate]. intros [= <-].
    setoid_rewrite elem_of_order_by. setoid_rewrite list_elem_of_fmap.
    setoid_rewrite list_elem_of_filter. unfold above_average. split.
    - intros (r & ([s gs] & -> & Habove & Hg) & Hid). simpl in Hid, Habove.
      apply elem_of_graded_groups in Hg as (Hs' & -> & _).
      assert (s = st) as -> by (by apply (key_inj Student.StudentID (students (db c)))).
      apply andb_true_iff in Habove as [Hm Ha]. split; [lia|].
      destruct (avg6 _), (global_avg _); try discriminate. apply Z.ltb_lt in Ha. eauto.
    - intros (Hm & g & a & Hg & Ha & Hlt).
      exists (above_avg_row (global_avg (db c)) (st, student_grades (db c) st)).
      split; [|done]. exists (st, student_grades (db c) st). split; [done|]. split.
      + simpl. rewrite Hg, Ha. apply andb_true_iff. split; [lia | by apply Z.ltb_lt].
      + apply elem_of_graded_groups. split_and!; [done | done |].
        intros Hn. by rewrite Hn in Ha.
  Qed.
End Query4.

(** On the spec's example, with [min_classes] = 3, only student A
    is listed: average 9.00 against a global average of 6.63 (6.625
    rounded half away from zero), difference 2.37. *)
Example students_above_average_spec_example :
  query_students_above_average (mkConn spec_avg_db true) 3 =
  Ok [AboveAvgRow.mk 1 (us "A") (us "A") None None 900 (Some 663) 3 (Some 237)].
Proof. vm_compute. reflexivity. Qed.

(** Because the global average is rounded to two decimals before the
    comparison, a student whose average equals the global average
    (7.123333...) is listed as above it (7.12). *)
Example students_above_average_borderline :
  avg6 (student_grades borderline_db (mk_student 1 "A")) = avg6 (all_grades borderline_db) /\
  query_students_above_average (mkConn borderline_db true) 1 =
  Ok [AboveAvgRow.mk 1 (us "A") (us "A") None None 712 (Some 712) 3 (Some 0)].
Proof. split; vm_compute; reflexivity. Qed.

Section Aggregates.
  Context `{Collation}.

  (** [query_grade_distribution()] returns one row per non-empty
      grade range: the ranges are distinct, each count is positive, and
      the counts add up to the number of graded enrollments. *)
Theorem grade_distribution_partition (c : conn) (rows : list (ustr * Z * Z)) :
    query_grade_distribution c = Some rows ->
    NoDup ((fun r => r.1.1) <$> rows) /\ Forall (fun r => 0 < r.1.2) rows /\
    sum_Z ((fun r => r.1.2) <$> rows) = Z.of_nat (length (all_grades (db c))).
  Proof.
    unfold query_grade_distribution, execute_query, sql_grade_distribution_6.
    destruct (up c); [|discriminate]. intros [= <-].
    set (L := grade_range_6 <$> all_grades (db c)).
    set (f := fun lc : ustr * Z => (lc.1, lc.2,
                round2_of6 (default 0 (avg6 (filter (fun g => grade_range_6 g = lc.1) (all_grades (db c))))))).
    pose proof (order_by_perm [Asc] (fun r : ustr * Z * Z => [SInt (grade_range_rank r.1.1)])
                  (f <$> group_count L)) as Hp.
    split_and!.
    - rewrite Hp, <-list_fmap_compose. change ((fun r : ustr * Z * Z => r.1.1) ∘ f) with (@fst ustr Z).
      rewrite group_count_fst. apply NoDup_remove_dups.
    - rewrite Hp, Forall_fmap, Forall_forall. intros r Hr. simpl. by apply (group_count_pos L).
    - rewrite (sum_Z_Permutation _ ((fun r : ustr * Z * Z => r.1.2) <$> (f <$> group_count L))) by (by rewrite Hp).
      rewrite <-list_fmap_compose. change ((fun r : ustr * Z * Z => r.1.2) ∘ f) with (@snd ustr Z).
      rewrite group_count_sum. unfold L. by rewrite length_fmap.
  Qed.

  (** [query_top_students(limit, min_classes)] returns at most
      [limit] rows, in decreasing order of average grade, each for a
      student with at least [min_classes] graded enrollments. *)
Theorem top_students_spec (c : conn) (limit m : Z) (rows : list TopRow.t) :
    query_top_students c limit m = Some rows ->
    (length rows <= Z.to_nat limit)%nat /\
    Sorted (row_le [Desc] (fun r => [SDec (TopRow.AvgGrade r)])) rows /\
    Forall (fun r => m <= TopRow.TotalClasses r) rows.
  Proof.
    unfold query_top_students, execute_query, sql_top_students.
    destruct (up c); [|discriminate]. intros Hl. apply sql_limit_Some in Hl as [_ ->].
    split_and!.
    - rewrite length_take. lia.
    - apply Sorted_take, order_by_sorted.
    - apply Forall_take, Forall_forall. intros r Hr.
      apply elem_of_order_by, list_elem_of_fmap in Hr as ([s gs] & -> & Hg).
      apply list_elem_of_filter in Hg as [Hm _]. done.
  Qed.

Lemma pass_rate_of_bounds (gs : list Z) (p : Z) : pass_rate_of gs = Some p -> 0 <= p <= 10000.
  Proof.
    unfold pass_rate_of. destruct (Z.eqb_spec (Z.of_nat (length gs)) 0); [discriminate|].
    intros [= <-]. pose proof (length_filter (fun g => 500 <= g) gs).
    apply round_half_away_div_within; [lia | lia |].
    assert (0 <= round_half_away_div (Z.of_nat (length (filter (fun g => 500 <= g) gs)) * 10000000)
                   (Z.of_nat (length gs)) <= 10000000); [|lia].
    apply round_half_away_div_within; nia.
  Qed.

  (** The dashboard's average grade lies in [0, 10] and its pass
      rate in [0, 100] percent when the stored grades are in [0, 10]. *)
Theorem dashboard_kpis_bounds (c : conn) (k : Kpis.t) :
    Forall (fun g => 0 <= g <= 1000) (all_grades (db c)) ->
    get_dashboard_kpis c = Some k ->
    (forall a, Kpis.avg_grade k = Some a -> 0 <= a <= 1000) /\
    (forall p, Kpis.pass_rate k = Some p -> 0 <= p <= 10000).
  Proof.
    intros Hg. unfold get_dashboard_kpis, execute_query_one, execute_query.
    destruct (up c); [|discriminate]. intros [= <-]. simpl. split.
    - unfold global_avg. intros a. destruct (avg6 _) as [x|] eqn:Hx; [|discriminate].
      intros [= <-]. apply round2_of6_bounds; [lia|]. by apply (avg6_bounds (all_grades (db c))).
    - apply pass_rate_of_bounds.
  Qed.

  (** On a database without any grade the dashboard reports no
      average and no pass rate (NULL), not a division by zero. *)
Theorem dashboard_kpis_no_grades (c : conn) :
    up c = true -> all_grades (db c) = [] ->
    get_dashboard_kpis c =
    Some (Kpis.mk (Z.of_nat (length (students (db c)))) (Z.of_nat (length (subjects (db c))))
            (Z.of_nat (length (classes (db c)))) (Z.of_nat (length (enrollments (db c)))) None None).
  Proof.
    intros Hup Hg. unfold get_dashboard_kpis, execute_query_one, execute_query, sql_dashboard_kpis.
    rewrite Hup. simpl. unfold global_avg. by rewrite Hg.
  Qed.

  (** With the database unreachable, the numbered queries fail with
      [TypeError] ([len(None)]) and the other reports return [None]
      (an empty dict for the dashboard): no storage error reaches the
      caller. *)
Theorem reports_unreachable (c : conn) (p1 p2 p3 p4 p5 p6 : pyval) (m n : Z) :
    up c = false ->
    query_student_grades_by_subject c p1 = Err TypeError /\
    query_all_students_with_grades c = Err TypeError /\
    query_complete_enrollment_info c p2 p3 p4 p5 p6 = Err TypeError /\
    query_students_above_average c m = Err TypeError /\
    get_grade_distribution c = None /\ query_top_students c n m = None /\
    query_grade_distribution c = None /\ query_subject_performance c = None /\
    query_lecturer_performance c = None /\ get_dashboard_kpis c = None.
  Proof.
    intros Hup. unfold query_student_grades_by_subject, query_all_students_with_grades,
      query_complete_enrollment_info, query_students_above_average, get_grade_distribution,
      query_top_students, query_grade_distribution, query_subject_performance,
      query_lecturer_performance, get_dashboard_kpis, execute_query_one, execute_query.
    by rewrite Hup.
  Qed.
End Aggregates.

(** ** Witnesses *)

Definition spec_avg_conn : conn := mkConn spec_avg_db true.

Lemma all_students_with_grades_per_student_witness :
  let rows := match query_all_students_with_grades spec_avg_conn with Ok r => r | Err _ => [] end in
  let st := mk_student 2 "B" in
  let mine := filter (fun r => StudentGradeRow.StudentID r = Student.StudentID st) rows in
  let n := length (enrollments_of (db spec_avg_conn) st) in
  length mine = Nat.max 1 n /\
  Forall (fun r => StudentGradeRow.TotalEnrollments r = Z.of_nat n) mine /\
  (n = 0%nat -> mine = [StudentGradeRow.mk (Student.StudentID st) (Student.FirstName st)
                          (Student.LastName st) (Student.Email st) (Student.Major st)
                          None None None None None None 0]).
Proof.
  intros rows st. apply (all_students_with_grades_per_student spec_avg_conn rows st).
  - apply (bool_decide_unpack _). vm_compute. exact I.
  - apply (bool_decide_unpack _). vm_compute. exact I.
  - unfold rows. vm_compute. reflexivity.
Defined.

Lemma student_grades_by_subject_spec_witness :
  let rows := match query_student_grades_by_subject spec_avg_conn (PStr (us "CS101")) with
              | Ok r => r | Err _ => [] end in
  keys_unique (db spec_avg_conn) /\ subject_codes_unique (db spec_avg_conn) /\
  length rows = 8%nat /\ NoDup ((fun r => (GradeRow.StudentID r, GradeRow.ClassID r)) <$> rows).
Proof.
  intros rows.
  assert (Hq : query_student_grades_by_subject spec_avg_conn (PStr (us "CS101")) = Ok rows)
    by (unfold rows; vm_compute; reflexivity).
  assert (Hk : keys_unique (db spec_avg_conn))
    by (unfold keys_unique; split_and!; apply (bool_decide_unpack _); vm_compute; exact I).
  assert (Hs : subject_codes_unique (db spec_avg_conn)).
  { split; [apply (bool_decide_unpack _); vm_compute; exact I|].
    intros s1 s2 H1 H2 _. simpl in H1, H2. apply list_elem_of_singleton in H1 as ->.
    by apply list_elem_of_singleton in H2 as ->. }
  destruct (student_grades_by_subject_spec spec_avg_conn (us "CS101") rows Hq) as (_ & _ & _ & Hn).
  split_and!; [exact Hk|exact Hs|unfold rows; vm_compute; reflexivity|exact (Hn Hk Hs)].
Defined.

Lemma students_above_average_member_witness :
  let rows := match query_students_above_average spec_avg_conn 3 with Ok r => r | Err _ => [] end in
  let st := mk_student 1 "A" in
  (exists r, r ∈ rows /\ AboveAvgRow.StudentID r = Student.StudentID st) <->
  (3 <= Z.of_nat (length (student_grades (db spec_avg_conn) st)) /\
   exists g a, global_avg (db spec_avg_conn) = Some g /\
     avg6 (student_grades (db spec_avg_conn) st) = Some a /\ g * 10000 < a).
Proof.
  intros rows st. apply (students_above_average_member spec_avg_conn 3 rows st).
  - apply (bool_decide_unpack _). vm_compute. exact I.
  - apply (bool_decide_unpack _). vm_compute. exact I.
  - unfold rows. vm_compute. reflexivity.
Defined.

Lemma grade_distribution_partition_witness :
  let rows := default [] (query_grade_distribution spec_avg_conn) in
  NoDup ((fun r => r.1.1) <$> rows) /\ Forall (fun r => 0 < r.1.2) rows /\
  sum_Z ((fun r => r.1.2) <$> rows) = Z.of_nat (length (all_grades (db spec_avg_conn))).
Proof.
  intros rows. apply grade_distribution_partition. unfold rows. vm_compute. reflexivity.
Defined.

Lemma top_students_spec_witness :
  let rows := default [] (query_top_students spec_avg_conn 2 1) in
  (length rows <= Z.to_nat 2)%nat /\
  Sorted (row_le [Desc] (fun r => [SDec (TopRow.AvgGrade r)])) rows /\
  Forall (fun r => 1 <= TopRow.TotalClasses r) rows.
Proof.
  intros rows. apply (top_students_spec spec_avg_conn 2 1). unfold rows. vm_compute. reflexivity.
Defined.

Lemma dashboard_kpis_bounds_witness :
  let k := default (Kpis.mk 0 0 0 0 None None) (get_dashboard_kpis spec_avg_conn) in
  (forall a, Kpis.avg_grade k = Some a -> 0 <= a <= 1000) /\
  (forall p, Kpis.pass_rate k = Some p -> 0 <= p <= 10000).
Proof.
  intros k. apply (dashboard_kpis_bounds spec_avg_conn k).
  - apply (bool_decide_unpack _). vm_compute. exact I.
  - unfold k. vm_compute. reflexivity.
Defined.

Lemma dashboard_kpis_no_grades_witness :
  get_dashboard_kpis (mkConn (mkDb [mk_student 1 "A"] [] [] [] [] 2 1 1) true) =
  Some (Kpis.mk 1 0 0 0 None None).
Proof. apply (dashboard_kpis_no_grades (mkConn (mkDb [mk_student 1 "A"] [] [] [] [] 2 1 1) true)); reflexivity. Defined.

Lemma reports_unreachable_witness :
  let c := mkConn spec_avg_db false in
  query_student_grades_by_subject c PNone = Err TypeError /\
  query_all_students_with_grades c = Err TypeError /\
  query_complete_enrollment_info c PNone PNone PNone PNone PNone = Err TypeError /\
  query_students_above_average c 3 = Err TypeError /\
  get_grade_distribution c = None /\ query_top_students c 10 3 = None /\
  query_grade_distribution c = None /\ query_subject_performance c = None /\
  query_lecturer_performance c = None /\ get_dashboard_kpis c = None.
Proof. intros c. apply reports_unreachable. reflexivity. Defined.
