(* ===== verification/Reads.v ===== *)
(** * Reads: the read methods of models.py

    [BaseModel._format_where_clause] builds SQL text; it is modelled on
    Rocq strings, with the placeholders it writes counted against the
    parameters it returns.  The SELECT methods of the model classes are
    modelled like the reports of [Reports]: a function of the database
    for the statement, and a function of the connection for the method
    ([db.execute_query] returns [None] on any error, and the [count]
    methods turn that [None] into 0).

    [StudentModel.list] interpolates its [order_by] argument into the
    statement; the model accepts a column name of the students table (the
    only value the program passes is the default "StudentID") and treats
    any other text as refused by MySQL. *)

From S2P Require Import Prelude PyModel Storage Query.
From stdpp Require Import sorting.
From Stdlib Require Import Ascii.
Local Open Scope Z_scope.

(** ** [BaseModel._format_where_clause(filters)] (models.py 37-58) *)

Section WhereClause.
Local Open Scope string_scope.

(** [" AND ".join(parts)] *)
Fixpoint join_and (parts : list string) : string :=
  match parts with
  | [] => ""
  | [p] => p
  | p :: ps => p ++ " AND " ++ join_and ps
  end.

(** The filters as a Python dict: an association list in insertion order. *)
Definition format_where_clause (filters : list (string * pyval)) : string * list pyval :=
  match filters with
  | [] => ("", [])
  | _ => (" WHERE " ++ join_and ((fun fv => fv.1 ++ " = %s") <$> filters), snd <$> filters)
  end.

(** The [%s] placeholders of a statement, as the connector finds them. *)
Fixpoint placeholders (s : string) : nat :=
  match s with
  | EmptyString => O
  | String c r =>
      if bool_decide (c = "%"%char) then
        match r with
        | String c' r' => if bool_decide (c' = "s"%char) then S (placeholders r') else placeholders r
        | EmptyString => O
        end
      else placeholders r
  end.
End WhereClause.

(** ** Row types of the joins *)

Module ClassDetail.
Record t := mk {
    cls : Class.t; SubjectName : ustr; Credits : Z;
    LecturerFirstName : option ustr; LecturerLastName : option ustr }.
End ClassDetail.

Module ClassListRow.
Record t := mk {
    cls : Class.t; SubjectName : ustr;
    LecturerFirstName : option ustr; LecturerLastName : option ustr; EnrolledCount : Z }.
End ClassListRow.

Module LecturerClassRow.
Record t := mk { cls : Class.t; SubjectName : ustr }.
End LecturerClassRow.

Module StudentEnrollmentRow.
Record t := mk {
    enr : Enrollment.t; ClassName : option ustr; Semester : ustr; Year : Z;
    SubjectName : ustr; Credits : Z }.
End StudentEnrollmentRow.

Module ClassEnrollmentRow.
Record t := mk { enr : Enrollment.t; FirstName : ustr; LastName : ustr; Email : option ustr }.
End ClassEnrollmentRow.

Module AvgGradeRow.
Record t := mk { StudentID : Z; FirstName : ustr; LastName : ustr; AvgGrade : Z; TotalClasses : Z }.
End AvgGradeRow.

Section Reads.
  Context `{Collation}.

  (** [WHERE col = %s] with the parameter bound by the connector. *)
Definition where_eq {R} (col : R -> sqlval) (p : pyval) (rows : list R) : option (list R) :=
    v ← sql_param p; Some (filter (fun r => sql_eq (col r) v = Some true) rows).

  (** [SELECT COUNT( * ) as count ...] read with [fetch_one], then
      [result['count'] if result else 0]. *)
Definition count_or_zero {R} (c : conn) (q : database -> option (list R)) : Z :=
    match execute_query_one c (fun d => (fun rows => [Z.of_nat (length rows)]) <$> q d) with
    | Some n => n
    | None => 0
    end.

  (** *** StudentModel (lines 124-248) *)

Definition StudentModel_get_by_id (c : conn) (student_id : pyval) : option Student.t :=
    execute_query_one c (where_eq (fun r => SInt (Student.StudentID r)) student_id ∘ students).

Definition student_columns : list string :=
    ["StudentID"; "FirstName"; "LastName"; "DOB"; "Gender"; "Address"; "Phone"; "Email";
     "EnrollmentYear"; "Major"].

  (** [SELECT * FROM students ORDER BY {order_by} LIMIT %s OFFSET %s] *)
Definition sql_student_list (limit offset : Z) (order_by_col : string) (d : database) : option (list Student.t) :=
    if bool_decide (order_by_col ∈ student_columns) then
      sql_limit_offset limit offset
        (order_by [Asc] (fun r => [default SNull (Student.col order_by_col r)]) (students d))
    else None.

Definition StudentModel_list (c : conn) (limit offset : Z) (order_by_col : string) : option (list Student.t) :=
    execute_query c (sql_student_list limit offset order_by_col).

  (** [search(keyword, fields)]: [f"{field} LIKE %s"] joined with OR, the
      parameter [f"%{keyword}%"] repeated once per field, rows in
      StudentID order.  A NULL column does not match. *)
Definition search_fields_default : list string := ["FirstName"; "LastName"; "Email"].

Definition sql_student_search (keyword : ustr) (fields : list string) (d : database) : option (list Student.t) :=
    let pat := [37] ++ keyword ++ [37] in
    let hit r := existsb (fun f => match Student.col f r with
                                   | Some (SStr v) => like_match pat v
                                   | _ => false
                                   end) fields in
    if bool_decide (Forall (fun f => f ∈ student_columns) fields) && negb (bool_decide (fields = []))
    then Some (order_by [Asc] (fun r => [SInt (Student.StudentID r)]) (filter (fun r => hit r = true) (students d)))
    else None.

Definition StudentModel_search (c : conn) (keyword : ustr) (fields : option (list string)) : option (list Student.t) :=
    execute_query c (sql_student_search keyword (default search_fields_default fields)).

Definition StudentModel_count (c : conn) : Z := count_or_zero c (fun d => Some (students d)).

  (** [get_with_avg_grade(min_classes)]: students with at least
      [min_classes] graded enrollments, with [ROUND(AVG(e.Grade), 2)]. *)
Definition sql_with_avg_grade (min_classes : Z) (d : database) : option (list AvgGradeRow.t) :=
    let groups := filter (fun g => g.2 <> [] /\ min_classes <= Z.of_nat (length g.2))
                    ((fun s => (s, omap Enrollment.Grade
                                      (filter (fun e => Enrollment.StudentID e = Student.StudentID s) (enrollments d))))
                     <$> students d) in
    Some (order_by [Desc] (fun r => [SDec (AvgGradeRow.AvgGrade r)])
            ((fun g => AvgGradeRow.mk (Student.StudentID g.1) (Student.FirstName g.1) (Student.LastName g.1)
                          (round2_of6 (default 0 (avg6 g.2))) (Z.of_nat (length g.2))) <$> groups)).

Definition StudentModel_get_with_avg_grade (c : conn) (min_classes : Z) : option (list AvgGradeRow.t) :=
    execute_query c (sql_with_avg_grade min_classes).

  (** *** SubjectModel (lines 267-293) *)

Definition SubjectModel_get_by_code (c : conn) (code : pyval) : option Subject.t :=
    execute_query_one c (where_eq (fun r => SStr (Subject.SubjectCode r)) code ∘ subjects).

Definition SubjectModel_list (c : conn) : option (list Subject.t) :=
    execute_query c (fun d => Some (order_by [Asc] (fun r => [SStr (Subject.SubjectCode r)]) (subjects d))).

Definition SubjectModel_count (c : conn) : Z := count_or_zero c (fun d => Some (subjects d)).
  (** *** LecturerModel (lines 329-377) *)

Definition LecturerModel_get_by_id (c : conn) (lecturer_id : pyval) : option Lecturer.t :=
    execute_query_one c (where_eq (fun r => SInt (Lecturer.LecturerID r)) lecturer_id ∘ lecturers).

Definition LecturerModel_list (c : conn) : option (list Lecturer.t) :=
    execute_query c (fun d => Some (order_by [Asc] (fun r => [SInt (Lecturer.LecturerID r)]) (lecturers d))).

  (** [SELECT c.*, s.SubjectName FROM classes c JOIN subjects s ON
      c.SubjectCode = s.SubjectCode WHERE c.LecturerID = %s
      ORDER BY c.Year DESC, c.Semester] *)
Definition sql_lecturer_classes (lecturer_id : pyval) (d : database) : option (list LecturerClassRow.t) :=
    let rows := (cl ← classes d;
                 s ← filter (fun s => coll_eq (Class.SubjectCode cl) (Subject.SubjectCode s) = true) (subjects d);
                 [LecturerClassRow.mk cl (Subject.SubjectName s)]) in
    rows ← where_eq (fun r => sql_opt_int (Class.LecturerID (LecturerClassRow.cls r))) lecturer_id rows;
    Some (order_by [Desc; Asc] (fun r => [SInt (Class.Year (LecturerClassRow.cls r));
                                         SStr (Class.Semester (LecturerClassRow.cls r))]) rows).

Definition LecturerModel_get_with_classes (c : conn) (lecturer_id : pyval) : option (list LecturerClassRow.t) :=
    execute_query c (sql_lecturer_classes lecturer_id).

  (** *** ClassModel (lines 407-483) *)

  (** [FROM classes c JOIN subjects s ON c.SubjectCode = s.SubjectCode
      LEFT JOIN lecturers l ON c.LecturerID = l.LecturerID] *)
Definition class_subject_lecturer (d : database) : list (Class.t * Subject.t * option Lecturer.t) :=
    left_join (cl ← classes d;
               s ← filter (fun s => coll_eq (Class.SubjectCode cl) (Subject.SubjectCode s) = true) (subjects d);
               [(cl, s)])
      (fun cs => filter (fun l => Class.LecturerID cs.1 = Some (Lecturer.LecturerID l)) (lecturers d)).

Definition class_detail (x : Class.t * Subject.t * option Lecturer.t) : ClassDetail.t :=
    ClassDetail.mk x.1.1 (Subject.SubjectName x.1.2) (Subject.Credits x.1.2)
      (Lecturer.LecturerFirstName <$> x.2) (Lecturer.LecturerLastName <$> x.2).

Definition sql_class_by_id (class_id : pyval) (d : database) : option (list ClassDetail.t) :=
    match where_eq (fun x => SInt (Class.ClassID x.1.1)) class_id (class_subject_lecturer d) with
    | Some rows => Some (class_detail <$> rows)
    | None => None
    end.

Definition ClassModel_get_by_id (c : conn) (class_id : pyval) : option ClassDetail.t :=
    execute_query_one c (sql_class_by_id class_id).

  (** [ClassModel.list(year, semester)]: the optional filters, then
      [GROUP BY c.ClassID] with [COUNT(e.StudentID)] over the left join
      with enrollments, [ORDER BY c.Year DESC, c.Semester]. *)
Definition sql_class_list (year semester : pyval) (d : database) : option (list ClassListRow.t) :=
    let rows := class_subject_lecturer d in
    rows ← (if py_truthy year then where_eq (fun x => SInt (Class.Year x.1.1)) year rows else Some rows);
    rows ← (if py_truthy semester then where_eq (fun x => SStr (Class.Semester x.1.1)) semester rows else Some rows);
    let count cl := Z.of_nat (length (filter (fun e => Enrollment.ClassID e = Class.ClassID cl) (enrollments d))) in
    Some (order_by [Desc; Asc] (fun r => [SInt (Class.Year (ClassListRow.cls r)); SStr (Class.Semester (ClassListRow.cls r))])
            ((fun x : Class.t * Subject.t * option Lecturer.t => ClassListRow.mk x.1.1 (Subject.SubjectName x.1.2) (Lecturer.LecturerFirstName <$> x.2)
                         (Lecturer.LecturerLastName <$> x.2) (count x.1.1)) <$> rows)).

Definition ClassModel_list (c : conn) (year semester : pyval) : option (list ClassListRow.t) :=
    execute_query c (sql_class_list year semester).

Definition ClassModel_get_enrollment_count (c : conn) (class_id : pyval) : Z :=
    count_or_zero c (fun d => where_eq (fun e => SInt (Enrollment.ClassID e)) class_id (enrollments d)).

  (** *** EnrollmentModel (lines 551-574) *)

Definition sql_enrollments_by_student (student_id : pyval) (d : database) : option (list StudentEnrollmentRow.t) :=
    let rows := (e ← enrollments d;
                 cl ← filter (fun cl => Enrollment.ClassID e = Class.ClassID cl) (classes d);
                 s ← filter (fun s => coll_eq (Class.SubjectCode cl) (Subject.SubjectCode s) = true) (subjects d);
                 [StudentEnrollmentRow.mk e (Class.ClassName cl) (Class.Semester cl) (Class.Year cl)
                    (Subject.SubjectName s) (Subject.Credits s)]) in
    rows ← where_eq (fun r => SInt (Enrollment.StudentID (StudentEnrollmentRow.enr r))) student_id rows;
    Some (order_by [Desc; Asc] (fun r => [SInt (StudentEnrollmentRow.Year r); SStr (StudentEnrollmentRow.Semester r)]) rows).

Definition EnrollmentModel_get_by_student (c : conn) (student_id : pyval) : option (list StudentEnrollmentRow.t) :=
    execute_query c (sql_enrollments_by_student student_id).

Definition sql_enrollments_by_class (class_id : pyval) (d : database) : option (list ClassEnrollmentRow.t) :=
    let rows := (e ← enrollments d;
                 s ← filter (fun s => Enrollment.StudentID e = Student.StudentID s) (students d);
                 [ClassEnrollmentRow.mk e (Student.FirstName s) (Student.LastName s) (Student.Email s)]) in
    rows ← where_eq (fun r => SInt (Enrollment.ClassID (ClassEnrollmentRow.enr r))) class_id rows;
    Some (order_by [Asc; Asc] (fun r => [SStr (ClassEnrollmentRow.LastName r); SStr (ClassEnrollmentRow.FirstName r)]) rows).

Definition EnrollmentModel_get_by_class (c : conn) (class_id : pyval) : option (list ClassEnrollmentRow.t) :=
    execute_query c (sql_enrollments_by_class class_id).
End Reads.

(** Field names without a [%] character. *)
Section NoPercent.
Local Open Scope string_scope.
Fixpoint no_percent (s : string) : bool :=
  match s with EmptyString => true | String c r => negb (bool_decide (c = "%"%char)) && no_percent r end.

End NoPercent.

(** The search keyword is not escaped: a keyword [%] matches every
    student. *)
Definition search_db : database :=
  mkDb [Student.mk 1 (us "An") (us "Le") (us "2004-01-01") (us "M") None None None 2022 None;
        Student.mk 2 (us "Binh") (us "Tran") (us "2003-05-05") (us "F") None None (Some (us "b@u.edu")) 2021 None]
       [] [] [] [] 3 1 1.

(** * Properties of the read methods *)

Section WhereClauseProps.
Local Open Scope string_scope.

Lemma string_app_assoc (a b c : string) : (a ++ b) ++ c = a ++ (b ++ c).
Proof. induction a as [|x a IH]; [done|]. change (String x ((a +:+ b) +:+ c) = String x (a +:+ b +:+ c)). by rewrite IH. Qed.

Lemma placeholders_no_percent (f r : string) :
  no_percent f = true -> placeholders (f ++ r) = placeholders r.
Proof.
  induction f as [|c f IH]; [done|]. intros [Hc Hf]%andb_true_iff.
  change (placeholders (String c (f ++ r)) = placeholders r).
  apply negb_true_iff, bool_decide_eq_false in Hc. simpl. rewrite bool_decide_false by done. by apply IH.
Qed.

Lemma placeholders_join (fs : list string) :
  Forall (fun f => no_percent f = true) fs ->
  placeholders (join_and ((fun f => f ++ " = %s") <$> fs)) = length fs.
Proof.
  induction 1 as [|f fs Hf Hfs IH]; [done|].
  destruct fs as [|f' fs].
  - simpl. rewrite placeholders_no_percent by done. done.
  - change (join_and ((fun f => f ++ " = %s") <$> f :: f' :: fs))
      with ((f ++ " = %s") ++ " AND " ++ join_and ((fun f => f ++ " = %s") <$> f' :: fs)).
    rewrite string_app_assoc, placeholders_no_percent by done.
    change (S (placeholders (join_and ((fun f => f ++ " = %s") <$> f' :: fs))) = length (f :: f' :: fs)).
    by rewrite IH.
Qed.

(** The WHERE clause built by [_format_where_clause] has exactly one
    [%s] placeholder per returned parameter, in the order of the filters,
    when no field name contains a [%]. *)
Theorem format_where_clause_placeholders (filters : list (string * pyval)) :
  forallb (fun fv => no_percent fv.1) filters = true ->
  placeholders (format_where_clause filters).1 = length (format_where_clause filters).2 /\
  (format_where_clause filters).2 = snd <$> filters.
Proof.
  intros Hf. destruct filters as [|fv fs]; [done|]. split; [|done].
  change (placeholders (join_and ((fun fv => fv.1 ++ " = %s") <$> fv :: fs)) = length (snd <$> fv :: fs)).
  assert (E : (fun fv : string * pyval => fv.1 ++ " = %s") <$> fv :: fs =
              (fun f => f ++ " = %s") <$> (fst <$> fv :: fs)) by (by rewrite <-list_fmap_compose).
  rewrite E, length_fmap, placeholders_join; [by rewrite length_fmap|].
  apply Forall_fmap, Forall_forall. intros x Hx.
  apply forallb_forall with (x := x) in Hf; [done | by apply list_elem_of_In].
Qed.
End WhereClauseProps.

Section SearchProps.
  Context `{Collation}.

Lemma like_contains_unfolded (k s : ustr) :
    plain_pattern k -> existsb (like_match (k ++ [37])) (tails s) = true <-> occurs k s.
  Proof. apply like_contains. Qed.

  (** C26. [StudentModel.search(keyword)] with a keyword free of [%], [_]
      and [\] returns, in StudentID order, exactly the students whose
      first name, last name or e-mail contains the keyword. *)
Theorem student_search_plain (c : conn) (k : ustr) (rows : list Student.t) :
    plain_pattern k -> StudentModel_search c k None = Some rows ->
    Sorted (row_le [Asc] (fun r => [SInt (Student.StudentID r)])) rows /\
    forall s, s ∈ rows <-> s ∈ students (db c) /\
      (occurs k (Student.FirstName s) \/ occurs k (Student.LastName s) \/
       exists e, Student.Email s = Some e /\ occurs k e).
  Proof.
    intros Hk. unfold StudentModel_search, execute_query, sql_student_search.
    destruct (up c); [|discriminate]. simpl. intros [= <-].
    split; [apply order_by_sorted|]. intros s.
    rewrite elem_of_order_by, list_elem_of_filter, !orb_true_iff, !like_contains_unfolded by done.
    destruct (Student.Email s) as [e|]; simpl; rewrite ?like_contains_unfolded by done; naive_solver.
  Qed.
End SearchProps.

(** [StudentModel.search("%")] returns every student: the keyword is
    pasted into the LIKE pattern with its wildcards. *)
Example student_search_wildcard :
  StudentModel_search (mkConn search_db true) (us "%") None = Some (students search_db).
Proof. vm_compute. reflexivity. Qed.

(** ** Witnesses *)

Lemma format_where_clause_placeholders_witness :
  let filters := [("FirstName", PStr (us "An")); ("Major", PNone)] in
  placeholders (format_where_clause filters).1 = length (format_where_clause filters).2 /\
  (format_where_clause filters).2 = snd <$> filters.
Proof. intros filters. apply format_where_clause_placeholders. vm_compute. reflexivity. Defined.

Lemma student_search_plain_witness :
  let rows := default [] (StudentModel_search (mkConn search_db true) (us "an") None) in
  Sorted (row_le [Asc] (fun r => [SInt (Student.StudentID r)])) rows /\
  forall s, s ∈ rows <-> s ∈ students search_db /\
    (occurs (us "an") (Student.FirstName s) \/ occurs (us "an") (Student.LastName s) \/
     exists e, Student.Email s = Some e /\ occurs (us "an") e).
Proof.
  intros rows. apply (student_search_plain (mkConn search_db true) (us "an") rows).
  - apply (bool_decide_unpack _). vm_compute. exact I.
  - unfold rows. vm_compute. reflexivity.
Defined.
