(* ===== verification/Widgets.v ===== *)
(** * Widgets: the Qt behaviour the GUI handlers rely on

    The slots of studentdialog_logic.py, dialogs_complete.py and
    main_win.py read widget values, call the models and show message
    boxes.  This file models the parts of PyQt6 they use, from Qt's
    documentation (they are not code of the repository):
    - a message box as its icon and title ([shown]);
    - the result of a slot ([slot_result]): the connection after the
      call, the boxes shown in order and whether the dialog was closed
      by [accept()]; or an exception that escapes the slot, which makes
      PyQt6 abort the application;
    - [QDate] with [isValid()] and [toString("yyyy-MM-dd")];
    - the selected row of a [QTableWidget] as the texts of its cells. *)
From S2P Require Import Prelude PyModel Storage.
Local Open Scope Z_scope.

Inductive box := Information | Warning | Critical.

Record shown := Shown { sh_box : box; sh_title : string }.

Inductive slot_result :=
| Done (c : conn) (msgs : list shown) (accepted : bool)
| Escaped (c : conn) (e : exc).

(** The connection a slot leaves behind. *)
Definition slot_conn (r : slot_result) : conn :=
  match r with Done c _ _ => c | Escaped c _ => c end.

(** ** QDate *)

Record qdate := QDate { qd_year : Z; qd_month : Z; qd_day : Z }.

(** [QGregorianCalendar::isLeapYear]: there is no year 0, so the years
    before 1 are shifted by one. *)
Definition qdate_leap (y : Z) : bool :=
  let y' := if y <? 1 then y + 1 else y in
  (y' mod 4 =? 0) && negb (y' mod 100 =? 0) || (y' mod 400 =? 0).

Definition qdays_in_month (y m : Z) : Z :=
  if m =? 2 then (if qdate_leap y then 29 else 28)
  else if (m =? 4) || (m =? 6) || (m =? 9) || (m =? 11) then 30 else 31.

(** [QDate::isValid()] *)
Definition qdate_isValid (d : qdate) : bool :=
  negb (qd_year d =? 0) && in_range 1 12 (qd_month d) && in_range 1 (qdays_in_month (qd_year d) (qd_month d)) (qd_day d).

(** The decimal digits of a natural number. *)
Fixpoint digits_go (fuel : nat) (n : Z) (acc : ustr) : ustr :=
  match fuel with
  | O => acc
  | S f => let acc' := (48 + n mod 10) :: acc in
           if n <? 10 then acc' else digits_go f (n / 10) acc'
  end.
Definition nat_digits (n : Z) : ustr := digits_go (S (Z.to_nat (Z.log2 n))) n [].

(** [QString::number(n).rightJustified(w, '0')] for [n >= 0], and a
    minus sign before the justified absolute value for [n < 0]. *)
Definition right_justified (w : nat) (s : ustr) : ustr := replicate (w - length s) 48 ++ s.
Definition zero_padded (w : nat) (n : Z) : ustr :=
  if n <? 0 then 45 :: right_justified w (nat_digits (- n)) else right_justified w (nat_digits n).

(** [date.toString("yyyy-MM-dd")] *)
Definition qdate_iso (d : qdate) : ustr :=
  zero_padded 4 (qd_year d) ++ [45] ++ zero_padded 2 (qd_month d) ++ [45] ++ zero_padded 2 (qd_day d).

(** ** Table selection

    [table.selectedItems()] and [table.item(row, col)] as the cells of
    the first selected row ([None] when nothing is selected, a cell
    [None] when the row has no item there). *)
Definition selection := option (list (option ustr)).

(** [BaseTablePage.get_selected_row_data(column)] (main_win.py 228-235) *)
Definition get_selected_row_data (sel : selection) (column : nat) : option ustr :=
  match sel with
  | None => None
  | Some row => mjoin (row !! column)
  end.

(** ** Spin boxes and combo boxes *)

(** [QSpinBox.setValue(v)] after [setRange(lo, hi)]: the value is
    clamped to the range. *)
Definition spin_set (lo hi v : Z) : Z := Z.max lo (Z.min hi v).

(** A [QComboBox]: its items (text and data) and the current index
    ([None] is Qt's -1, no current item). *)
Record combo (A : Type) := Combo { cb_items : list (ustr * A); cb_current : option nat }.
Arguments Combo {A}.
Arguments cb_items {A}.
Arguments cb_current {A}.

(** [addItem(text, data)] / [addItems(texts)]: the first item added to an
    empty box becomes current. *)
Definition combo_add {A} (cb : combo A) (t : ustr) (x : A) : combo A :=
  Combo (cb_items cb ++ [(t, x)]) (match cb_current cb with None => Some 0%nat | i => i end).

Definition combo_of {A} (l : list (ustr * A)) : combo A :=
  foldl (fun cb tx => combo_add cb tx.1 tx.2) (Combo [] None) l.

(** [currentData()] (the data of the current item, [None] without one) *)
Definition combo_currentData {A} (cb : combo (option A)) : option A :=
  i ← cb_current cb; x ← cb_items cb !! i; x.2.

(** [currentText()] *)
Definition combo_currentText {A} (cb : combo A) : ustr :=
  default [] (i ← cb_current cb; x ← cb_items cb !! i; Some x.1).

(** [findData(x)]: the first index holding [x], [None] for -1. *)
Definition combo_findData {A} `{EqDecision A} (cb : combo (option A)) (x : A) : option nat :=
  fst <$> list_find (fun tx => tx.2 = Some x) (cb_items cb).

(** [setCurrentIndex(i)] for [i >= 0] *)
Definition combo_setCurrentIndex {A} (cb : combo A) (i : nat) : combo A :=
  Combo (cb_items cb) (if decide (i < length (cb_items cb))%nat then Some i else None).

(** [setCurrentText(t)] of a non-editable box: selects the first item
    with that text, and does nothing when there is none. *)
Definition combo_setCurrentText {A} (cb : combo A) (t : ustr) : combo A :=
  match list_find (fun tx => tx.1 = t) (cb_items cb) with
  | Some (i, _) => Combo (cb_items cb) (Some i)
  | None => cb
  end.
