(* ===== verification/Csv.v ===== *)
(** * Csv: the CSV exports of main_win.py and query_models.py

    Both exports write with Python's [csv] module in its default dialect
    (excel: delimiter ',' (44), quote character 34, quotes doubled
    inside a quoted field, QUOTE_MINIMAL, line terminator CR LF):
    - [BaseTablePage.on_export] (main_win.py 188-226) writes the header
      texts of a table and the texts of its cells;
    - [export_query_to_csv] (query_models.py 514-541) writes the rows of a
      query with a [csv.DictWriter] whose field names are the keys of the
      first row.

    [csv_row] is the encoding of one record by [_csv.writer.writerow];
    [csv_read] is a reference reader of such files (what [csv.reader]
    returns for them), against which [csv_roundtrip] proves that a file
    written by the exports reads back as the rows written. *)
From S2P Require Import Prelude PyModel Storage Widgets.
Local Open Scope Z_scope.

(** ** Writing *)

(** A field is quoted when it holds the delimiter, the quote character
    or a character of the line terminator. *)
Definition csv_special (c : Z) : bool := (c =? 44) || (c =? 34) || (c =? 13) || (c =? 10).

Definition csv_quote_body (s : ustr) : ustr := s ≫= (fun c => if c =? 34 then [34; 34] else [c]).

Definition csv_field (s : ustr) : ustr :=
  if existsb csv_special s then 34 :: csv_quote_body s ++ [34] else s.

(** [writer.writerow(fields)]: the fields joined by ','; a record made of
    one empty field is written as two quote characters so that it is not
    read back as an empty line. *)
Definition csv_row (fields : list ustr) : ustr :=
  match fields with
  | [[]] => [34; 34]
  | _ => py_join [44] (csv_field <$> fields)
  end ++ [13; 10].

Definition csv_write (rows : list (list ustr)) : ustr := rows ≫= csv_row.

(** ** Reading *)

(** The states of the reader: at the start of a record, at the start of
    a field, in an unquoted field, in a quoted field, after a quote in a
    quoted field. *)
Inductive rstate := RecStart | FieldStart | Unq | Quo | QuoQuo.

(** [cur] is the current field reversed, [fs] the fields of the current
    record reversed.  Records end with CR LF; a lone CR or LF outside
    quotes, or the end of the data inside quotes, is an error. *)
Fixpoint csv_read_go (st : rstate) (cur : ustr) (fs : list ustr) (s : ustr) {struct s}
    : option (list (list ustr)) :=
  match s with
  | [] =>
      match st with
      | RecStart => Some []
      | Quo => None
      | _ => Some [reverse (reverse cur :: fs)]
      end
  | c :: s' =>
      match st with
      | Quo => if c =? 34 then csv_read_go QuoQuo cur fs s' else csv_read_go Quo (c :: cur) fs s'
      | _ =>
          if c =? 34 then
            match st with
            | RecStart | FieldStart => csv_read_go Quo [] fs s'
            | QuoQuo => csv_read_go Quo (34 :: cur) fs s'
            | _ => csv_read_go Unq (c :: cur) fs s'
            end
          else if c =? 44 then csv_read_go FieldStart [] (reverse cur :: fs) s'
          else if c =? 13 then
            match s' with
            | 10 :: s'' =>
                rows ← csv_read_go RecStart [] [] s'';
                Some ((match st with RecStart => [] | _ => reverse (reverse cur :: fs) end) :: rows)
            | _ => None
            end
          else if c =? 10 then None
          else csv_read_go Unq (c :: cur) fs s'
      end
  end.

Definition csv_read (s : ustr) : option (list (list ustr)) := csv_read_go RecStart [] [] s.

(** ** Values as the writer prints them *)

(** [str(n)] of an integer. *)
Definition py_str_int (n : Z) : ustr := if n <? 0 then 45 :: nat_digits (- n) else nat_digits n.

(** [str(x)] of the value of a column as mysql-connector returns it:
    NULL as '' (the writer's rule for [None]), an integer, a string, a
    DECIMAL(4,2) as its [Decimal] text with two decimals. *)
Definition sql_text (v : sqlval) : ustr :=
  match v with
  | SNull => []
  | SInt z => py_str_int z
  | SStr s => s
  | SDec h => (if h <? 0 then [45] else []) ++ nat_digits (Z.abs h / 100) ++ [46] ++
              right_justified 2 (nat_digits (Z.abs h mod 100))
  end.

(** ** The exports *)

(** A [QTableWidget] as its header items and the items of its rows
    ([None] where a cell or header has no item). *)
Record table := { tbl_headers : list (option ustr); tbl_rows : list (list (option ustr)) }.

(** Lines 209-213: the header text, or "Column{col}" without an item. *)
Definition table_header_texts (t : table) : list ustr :=
  imap (fun col h => default (us "Column" ++ py_str_int (Z.of_nat col)) h) (tbl_headers t).

(** Lines 216-221: the text of each column of the row, '' without an item. *)
Definition table_row_texts (t : table) (row : list (option ustr)) : list ustr :=
  (fun col => default [] (mjoin (row !! col))) <$> seq 0 (length (tbl_headers t)).

(** [BaseTablePage.on_export] (main_win.py 188-226): the file written
    (when one is) and the boxes shown.  [filename] is the answer of the
    save dialog ('' when cancelled); [can_write] whether [open] succeeds. *)
Definition BaseTablePage_on_export (t : table) (filename : ustr) (can_write : bool) : option ustr * list shown :=
  if bool_decide (tbl_rows t = []) then (None, [Shown Warning "Warning"]) else
  if bool_decide (filename = []) then (None, []) else
  if negb can_write then (None, [Shown Critical "Error"]) else
  (Some (csv_write (table_header_texts t :: (table_row_texts t <$> tbl_rows t))), [Shown Information "Success"]).

(** A row of a query as the dictionary the cursor returns: its columns
    in order with their values. *)
Definition dict_row := list (string * sqlval).

(** [DictWriter._dict_to_list]: the values in the order of the field
    names, [restval] '' for a missing key. *)
Definition row_values (keys : list string) (r : dict_row) : list ustr :=
  (fun k => default [] (sql_text <$> assoc k r)) <$> keys.

(** [writer.writerows(data)]: row after row; a row with a key outside the
    field names raises [ValueError] and stops the writing, the rows
    before it written. *)
Fixpoint dict_rows_csv (keys : list string) (rows : list dict_row) : ustr * bool :=
  match rows with
  | [] => ([], true)
  | r :: rs =>
      if forallb (fun kv => bool_decide (kv.1 ∈ keys)) r then
        let '(out, ok) := dict_rows_csv keys rs in (csv_row (row_values keys r) ++ out, ok)
      else ([], false)
  end.

(** [export_query_to_csv(data, filename)] (query_models.py 514-541): the
    file written and the result; nothing is written for empty data. *)
Definition export_query_to_csv (data : list dict_row) (can_write : bool) : option ustr * bool :=
  match data with
  | [] => (None, false)
  | r0 :: _ =>
      if negb can_write then (None, false) else
      let keys := r0.*1 in
      let '(body, ok) := dict_rows_csv keys data in
      (Some (csv_row (us <$> keys) ++ body), ok)
  end.

(** An example table: one row, the second header and cell missing. *)
Definition ex_table : table := {| tbl_headers := [Some (us "ID"); None]; tbl_rows := [[Some (us "1"); None]] |}.

(** * Reading back what the writer wrote *)

Section CsvLemmas.

Definition csv_start (st : rstate) (fs : list ustr) : Prop := st = FieldStart \/ (st = RecStart /\ fs = []).

(** The state the reader is in after a written field. *)
Definition field_state (st : rstate) (f : ustr) : rstate :=
  if existsb csv_special f then QuoQuo else match f with [] => st | _ => Unq end.

Lemma csv_special_false (c : Z) :
  csv_special c = false -> (c =? 34) = false /\ (c =? 44) = false /\ (c =? 13) = false /\ (c =? 10) = false.
Proof. unfold csv_special. rewrite !orb_false_iff. tauto. Qed.

Lemma read_quoted_body (f cur : ustr) (fs : list ustr) (rest : ustr) :
  csv_read_go Quo cur fs (csv_quote_body f ++ 34 :: rest) = csv_read_go QuoQuo (reverse f ++ cur) fs rest.
Proof.
  revert cur. induction f as [|c f IH]; intros cur; [done|].
  rewrite reverse_cons, <- app_assoc. simpl. destruct (Z.eqb_spec c 34) as [->|Hc]; simpl.
  - by rewrite IH.
  - apply Z.eqb_neq in Hc. rewrite Hc. by rewrite IH.
Qed.

Lemma read_unquoted_run (g cur : ustr) (fs : list ustr) (rest : ustr) :
  Forall (fun c => csv_special c = false) g ->
  csv_read_go Unq cur fs (g ++ rest) = csv_read_go Unq (reverse g ++ cur) fs rest.
Proof.
  revert cur. induction g as [|c g IH]; intros cur Hg; [done|]. apply Forall_cons in Hg as [Hc Hg].
  destruct (csv_special_false c Hc) as (H1 & H2 & H3 & H4). simpl. rewrite H1, H2, H3, H4, IH by done.
  by rewrite reverse_cons, <- app_assoc.
Qed.

Lemma read_field (st : rstate) (fs : list ustr) (f rest : ustr) :
  csv_start st fs ->
  csv_read_go st [] fs (csv_field f ++ rest) = csv_read_go (field_state st f) (reverse f) fs rest.
Proof.
  intros Hst. unfold csv_field, field_state. destruct (existsb csv_special f) eqn:E.
  - simpl. rewrite <- app_assoc. simpl.
    destruct Hst as [->|[-> ->]]; simpl; by rewrite read_quoted_body, app_nil_r.
  - apply not_true_iff_false in E. rewrite existsb_exists in E.
    assert (Hf : Forall (fun c => csv_special c = false) f).
    { apply Forall_forall. intros c Hc%list_elem_of_In. apply not_true_iff_false. eauto. }
    destruct f as [|c g]; [done|]. apply Forall_cons in Hf as [Hc Hg].
    destruct (csv_special_false c Hc) as (H1 & H2 & H3 & H4). simpl.
    destruct Hst as [->|[-> ->]]; rewrite H1, H2, H3, H4, read_unquoted_run by done;
      by rewrite reverse_cons.
Qed.

Lemma field_state_not_Quo (st : rstate) (f : ustr) : st <> Quo -> field_state st f <> Quo.
Proof. unfold field_state. destruct (existsb _ _), f; congruence. Qed.

Lemma read_sep (st : rstate) (cur : ustr) (fs : list ustr) (rest : ustr) :
  st <> Quo -> csv_read_go st cur fs (44 :: rest) = csv_read_go FieldStart [] (reverse cur :: fs) rest.
Proof. by destruct st. Qed.

Lemma read_crlf (st : rstate) (cur : ustr) (fs : list ustr) (rest : ustr) :
  st <> Quo ->
  csv_read_go st cur fs (13 :: 10 :: rest) =
    rows ← csv_read_go RecStart [] [] rest;
    Some ((match st with RecStart => [] | _ => reverse (reverse cur :: fs) end) :: rows).
Proof. by destruct st. Qed.

Lemma read_fields (fields : list ustr) (st : rstate) (fs : list ustr) (rest : ustr) :
  fields <> [] -> csv_start st fs -> (st = RecStart -> fields <> [[]]) ->
  csv_read_go st [] fs (py_join [44] (csv_field <$> fields) ++ 13 :: 10 :: rest) =
    rows ← csv_read_go RecStart [] [] rest; Some ((reverse fs ++ fields) :: rows).
Proof.
  revert st fs. induction fields as [|f [|f2 fields'] IH]; intros st fs Hne Hst Hrec; [done| |].
  - simpl. rewrite read_field, read_crlf by (done || (apply field_state_not_Quo; destruct Hst as [->|[-> _]]; done)).
    assert (Hs : field_state st f <> RecStart).
    { unfold field_state. destruct (existsb _ _), f; try done. destruct Hst as [->|[-> _]]; [done|].
      by specialize (Hrec eq_refl). }
    destruct (field_state st f); try done; by rewrite reverse_involutive, reverse_cons.
  - change (py_join [44] (csv_field <$> f :: f2 :: fields'))
      with (csv_field f ++ [44] ++ py_join [44] (csv_field <$> f2 :: fields')).
    rewrite <- !app_assoc. rewrite read_field by done. cbn [app].
    rewrite read_sep by (apply field_state_not_Quo; destruct Hst as [->|[-> _]]; done).
    rewrite reverse_involutive, IH by (done || by left). by rewrite reverse_cons, <- app_assoc.
Qed.

Lemma read_row (r : list ustr) (rest : ustr) :
  csv_read_go RecStart [] [] (csv_row r ++ rest) = rows ← csv_read_go RecStart [] [] rest; Some (r :: rows).
Proof.
  destruct r as [|f [|f2 r']]; [done| |].
  - destruct f as [|c f]; [done|].
    change (csv_row [c :: f]) with (py_join [44] (csv_field <$> [c :: f]) ++ [13; 10]). rewrite <- app_assoc.
    change ([13; 10] ++ rest) with (13 :: 10 :: rest).
    by rewrite (read_fields [c :: f] RecStart [] rest) by (done || by right).
  - replace (csv_row (f :: f2 :: r')) with (py_join [44] (csv_field <$> f :: f2 :: r') ++ [13; 10])
      by (destruct f; reflexivity).
    rewrite <- app_assoc. change ([13; 10] ++ rest) with (13 :: 10 :: rest).
    by rewrite (read_fields (f :: f2 :: r') RecStart [] rest) by (done || by right).
Qed.
End CsvLemmas.

Section CsvProperties.

Lemma csv_write_cons (r : list ustr) (rows : list (list ustr)) :
  csv_write (r :: rows) = csv_row r ++ csv_write rows.
Proof. done. Qed.

(** A table whose headers are all items shows their texts. *)
Lemma table_header_texts_some (hs : list ustr) (rows : list (list (option ustr))) :
  table_header_texts {| tbl_headers := Some <$> hs; tbl_rows := rows |} = hs.
Proof.
  unfold table_header_texts. simpl. rewrite imap_fmap.
  rewrite (imap_ext _ (const id)) by done. by rewrite imap_const, list_fmap_id.
Qed.

(** A row with an item in every column shows their texts. *)
Lemma table_row_texts_some (t : table) (l : list ustr) :
  length l = length (tbl_headers t) -> table_row_texts t (Some <$> l) = l.
Proof.
  intros Hl. unfold table_row_texts. rewrite <- Hl. apply list_eq. intros i.
  rewrite list_lookup_fmap. destruct (decide (i < length l)%nat) as [Hi|Hi].
  - rewrite lookup_seq_lt by done. simpl. rewrite list_lookup_fmap.
    destruct (lookup_lt_is_Some_2 l i Hi) as [x Hx]. by rewrite Hx.
  - rewrite lookup_seq_ge, lookup_ge_None_2 by lia. done.
Qed.


(** The writer and the reader: every file the CSV writer produces reads
    back as the rows written, commas, quotes and line breaks inside a
    field, empty fields, empty rows and rows of one empty field
    included. *)
Lemma csv_roundtrip (rows : list (list ustr)) : csv_read (csv_write rows) = Some rows.
Proof.
  unfold csv_read. induction rows as [|r rows IH]; [done|].
  rewrite csv_write_cons, read_row, IH. done.
Qed.

Lemma dict_rows_csv_ok (keys : list string) (rows : list dict_row) :
  Forall (fun r => Forall (fun kv => kv.1 ∈ keys) r) rows ->
  dict_rows_csv keys rows = (csv_write (row_values keys <$> rows), true).
Proof.
  induction rows as [|r rows IH]; intros Hall; [done|]. apply Forall_cons in Hall as [Hr Hall].
  simpl. rewrite (proj2 (forallb_forall _ _)).
  - by rewrite IH.
  - intros kv Hkv%list_elem_of_In. apply bool_decide_eq_true. by eapply Forall_forall in Hr.
Qed.

(** [export_query_to_csv] on rows whose keys are all keys of the
    first row writes a file that reads back as the header (the keys of
    the first row) followed by each row's values in that order, NULL as
    the empty text, and returns [True]. *)
Theorem export_query_to_csv_roundtrip (data : list dict_row) (r0 : dict_row) (rest : list dict_row) :
  data = r0 :: rest ->
  Forall (fun r => Forall (fun kv => kv.1 ∈ r0.*1) r) data ->
  exists file, export_query_to_csv data true = (Some file, true) /\
    csv_read file = Some ((us <$> r0.*1) :: (row_values (r0.*1) <$> data)).
Proof.
  intros -> Hall. unfold export_query_to_csv. simpl negb. cbv zeta.
  rewrite dict_rows_csv_ok by done. eexists. split; [reflexivity|].
  rewrite <- csv_write_cons. apply csv_roundtrip.
Qed.

(** What [on_export] writes and shows for a non-empty table. *)
Lemma on_export_reads_back (t : table) (filename : ustr) :
  tbl_rows t <> [] -> filename <> [] ->
  exists file, BaseTablePage_on_export t filename true = (Some file, [Shown Information "Success"]) /\
    csv_read file = Some (table_header_texts t :: (table_row_texts t <$> tbl_rows t)) /\
    Forall (fun r => length r = length (tbl_headers t)) (table_row_texts t <$> tbl_rows t).
Proof.
  intros Hr Hf. unfold BaseTablePage_on_export.
  rewrite !bool_decide_eq_false_2 by done. simpl negb. eexists. split; [reflexivity|]. split.
  - apply csv_roundtrip.
  - apply Forall_forall. intros r (row & -> & _)%list_elem_of_fmap.
    unfold table_row_texts. by rewrite length_fmap, length_seq.
Qed.

(** C18. [on_export] of a non-empty table to a chosen file writes a file
    that reads back as the header texts ("Column{n}" for a missing
    header) followed by the cell texts of every row, one text per column
    ('' for a missing item), and shows a success box. *)
Theorem BaseTablePage_on_export_roundtrip (t : table) (filename : ustr) :
  tbl_rows t <> [] -> filename <> [] ->
  exists file, BaseTablePage_on_export t filename true = (Some file, [Shown Information "Success"]) /\
    csv_read file = Some (table_header_texts t :: (table_row_texts t <$> tbl_rows t)) /\
    Forall (fun r => length r = length (tbl_headers t)) (table_row_texts t <$> tbl_rows t).
Proof. apply on_export_reads_back. Qed.
End CsvProperties.

(** ** The ids shown in the tables are read back by [int()] *)

Section IdText.
  Context `{PyUnicode}.

Lemma digits_go_S (f : nat) (n : Z) (acc : ustr) :
  digits_go (S f) n acc = if n <? 10 then (48 + n mod 10) :: acc else digits_go f (n / 10) ((48 + n mod 10) :: acc).
Proof. done. Qed.

Lemma digits_go_spec (f : nat) (n : Z) (acc : ustr) :
  0 <= n < 10 ^ Z.of_nat (S f) ->
  exists ds, digits_go (S f) n acc = ((fun d => 48 + d) <$> ds) ++ acc /\ ds <> [] /\
    Forall (fun d => 0 <= d <= 9) ds /\ digits_value ds = n /\ (length ds <= S f)%nat.
Proof.
  revert n acc. induction f as [|f IH]; intros n acc Hn.
  - simpl in Hn. exists [n]. rewrite digits_go_S. destruct (Z.ltb_spec n 10); [|lia].
    rewrite Z.mod_small by lia. split; [done|]. split; [done|]. split; [repeat constructor; lia|].
    unfold digits_value; simpl; lia.
  - rewrite digits_go_S. destruct (Z.ltb_spec n 10).
    + exists [n]. rewrite Z.mod_small by lia. split; [done|]. split; [done|]. split; [repeat constructor; lia|].
      unfold digits_value; simpl; lia.
    + assert (Hq : 0 <= n / 10 < 10 ^ Z.of_nat (S f)).
      { split; [apply Z.div_pos; lia|]. apply Z.div_lt_upper_bound; [lia|].
        rewrite Nat2Z.inj_succ, Z.pow_succ_r in Hn by lia. lia. }
      destruct (IH (n / 10) ((48 + n mod 10) :: acc) Hq) as (ds & -> & Hne & Hds & Hv & Hl).
      exists (ds ++ [n mod 10]). rewrite fmap_app, <- app_assoc. split; [done|].
      split; [by destruct ds|]. split.
      * apply Forall_app; split; [done|]. constructor; [|done]. pose proof (Z.mod_pos_bound n 10). lia.
      * unfold digits_value in *. rewrite foldl_app. simpl. rewrite Hv, length_app. simpl.
        split; [pose proof (Z.div_mod n 10); lia | lia].
Qed.

(** The fuel [nat_digits] gives is one more than the binary logarithm,
    which bounds the number of decimal digits. *)
Lemma log2_digits_bound (n : Z) : 0 <= n -> 0 <= n < 10 ^ Z.of_nat (S (Z.to_nat (Z.log2 n))).
Proof.
  intros Hn. split; [lia|]. rewrite Nat2Z.inj_succ, Z2Nat.id by apply Z.log2_nonneg.
  destruct (Z.eq_dec n 0) as [->|Hn0]; [simpl; lia|].
  apply Z.lt_le_trans with (2 ^ Z.succ (Z.log2 n)); [apply Z.log2_spec; lia|].
  apply Z.pow_le_mono_l. pose proof (Z.log2_nonneg n). lia.
Qed.


Lemma scan_digits_tail_digits (ds : list Z) :
  Forall (fun d => 0 <= d <= 9) ds -> scan_digits_tail ((fun d => 48 + d) <$> ds) = (ds, []).
Proof.
  induction ds as [|d ds IH]; intros Hds; [done|]. apply Forall_cons in Hds as [Hd Hds].
  rewrite fmap_cons. cbn [scan_digits_tail]. rewrite uc_digit_ascii by lia. unfold ascii_digit, in_range.
  rewrite (proj2 (Z.leb_le 48 (48 + d))), (proj2 (Z.leb_le (48 + d) 57)) by lia. simpl andb. cbv iota.
  rewrite IH by done. do 2 f_equal. lia.
Qed.

Lemma py_strip_digits (ds : list Z) :
  Forall (fun d => 0 <= d <= 9) ds -> py_strip ((fun d => 48 + d) <$> ds) = (fun d => 48 + d) <$> ds.
Proof.
  intros Hds. set (s := (fun d => 48 + d) <$> ds).
  assert (Hns : Forall (fun c => uc_isspace c = false) s).
  { apply Forall_fmap. eapply Forall_impl; [exact Hds|]. intros d Hd. simpl in Hd |- *.
    rewrite (uc_isspace_ascii (48 + d)) by lia. unfold ascii_isspace, in_range.
    repeat match goal with |- context [?a <=? ?b] => destruct (Z.leb_spec a b) end; simpl; lia. }
  assert (Hl : forall t, Forall (fun c => uc_isspace c = false) t -> lstrip t = t).
  { intros [|c t] Ht; [done|]. apply Forall_cons in Ht as [Hc _]. simpl. by rewrite Hc. }
  unfold py_strip. rewrite (Hl s Hns). rewrite Hl; [apply reverse_involutive|].
  by apply Forall_reverse.
Qed.

Lemma parse_int_str (n : Z) : 0 <= n < 2 ^ 63 -> parse_int (py_str_int n) = Ok n.
Proof.
  intros Hn. unfold py_str_int. destruct (Z.ltb_spec n 0); [lia|]. unfold nat_digits.
  destruct (digits_go_spec (Z.to_nat (Z.log2 n)) n [] ) as (ds & Heq & Hne & Hds & Hv & Hl);
    [apply log2_digits_bound; lia|].
  rewrite Heq, app_nil_r. unfold parse_int. rewrite py_strip_digits by done.
  destruct ds as [|d ds']; [done|]. apply Forall_cons in Hds as [Hd Hds'].
  assert (Hts : take_sign ((fun d => 48 + d) <$> d :: ds') = (1, (fun d => 48 + d) <$> d :: ds')).
  { assert (d = 0 \/ d = 1 \/ d = 2 \/ d = 3 \/ d = 4 \/ d = 5 \/ d = 6 \/ d = 7 \/ d = 8 \/ d = 9) as Hd10 by lia.
    by repeat destruct Hd10 as [->|Hd10]; [..|subst d]. }
  rewrite Hts. unfold scan_digits. cbn [fmap list_fmap]. rewrite uc_digit_ascii by lia.
  unfold ascii_digit, in_range.
  rewrite (proj2 (Z.leb_le 48 (48 + d))), (proj2 (Z.leb_le (48 + d) 57)) by lia. simpl andb. cbv iota.
  rewrite scan_digits_tail_digits by done. replace (48 + d - 48) with d by lia.
  rewrite (bool_decide_eq_false_2 (d :: ds' = [])), (bool_decide_eq_true_2 ([] = [])) by done. simpl.
  assert (Hlen : (Z.to_nat (Z.log2 n) < 63)%nat).
  { destruct (Z.eq_dec n 0) as [->|]; [simpl; lia|]. pose proof (Z.log2_lt_pow2 n 63). lia. }
  destruct (Nat.ltb_spec max_str_digits (S (length ds'))); [unfold max_str_digits in *; simpl in Hl; lia|].
  by rewrite Z.mul_1_l, Hv.
Qed.

Lemma py_str_int_nonempty (n : Z) : 0 <= n < 2 ^ 63 -> py_str_int n <> [].
Proof. intros Hn Hnil. pose proof (parse_int_str n Hn) as Hp. rewrite Hnil in Hp. discriminate. Qed.

(** [int(str(n))] is [n] for every id an INT or BIGINT column holds:
    the id a page shows in its first column is the id its Edit and
    Delete buttons pass to the models. *)
Theorem py_int_str_roundtrip (n : Z) : 0 <= n < 2 ^ 63 -> py_int (PStr (py_str_int n)) = Ok n.
Proof. apply parse_int_str. Qed.
End IdText.

(** A row with a key the first row lacks makes [DictWriter] raise
    [ValueError] in the middle of [writerows]: the function returns
    [False] and leaves a file with the header and the rows before it. *)
Example export_query_to_csv_extra_key :
  export_query_to_csv [[("a", SInt 1)]; [("a", SInt 2); ("b", SNull)]; [("a", SInt 3)]] true
    = (Some (csv_write [[us "a"]; [us "1"]]), false).
Proof. vm_compute. reflexivity. Qed.

(** ** Witnesses *)

Lemma export_query_to_csv_roundtrip_witness :
  exists file, export_query_to_csv [[("Grade", SDec 850); ("Name", SStr (us "Le, An"))]] true = (Some file, true) /\
    csv_read file = Some ((us <$> ["Grade"; "Name"]) ::
                          (row_values ["Grade"; "Name"] <$> [[("Grade", SDec 850); ("Name", SStr (us "Le, An"))]])).
Proof.
  apply (export_query_to_csv_roundtrip _ [("Grade", SDec 850); ("Name", SStr (us "Le, An"))] []); [reflexivity|].
  apply (bool_decide_unpack _). vm_compute. exact I.
Defined.

Lemma BaseTablePage_on_export_roundtrip_witness :
  exists file, BaseTablePage_on_export ex_table (us "out.csv") true = (Some file, [Shown Information "Success"]) /\
    csv_read file = Some (table_header_texts ex_table :: (table_row_texts ex_table <$> tbl_rows ex_table)) /\
    Forall (fun r => length r = length (tbl_headers ex_table)) (table_row_texts ex_table <$> tbl_rows ex_table).
Proof. apply BaseTablePage_on_export_roundtrip; vm_compute; discriminate. Defined.

Lemma py_int_str_roundtrip_witness : 0 <= 42 < 2 ^ 63 /\ py_int (PStr (py_str_int 42)) = Ok 42.
Proof. split; [lia | apply py_int_str_roundtrip; lia]. Defined.

