(* ===== verification/StudentDialog.v ===== *)
(** * StudentDialog: the add/edit student dialog of studentdialog_logic.py

    The Students page of main_win.py opens [StudentDialog] of
    studentdialog_logic.py, not a dialog built on models.py: the dialog
    opens its own connection (lines 31-43), checks the form with its own
    rules (lines 66-118) and runs its own INSERT or UPDATE (lines 121-128,
    217-227).  validators.py is never called on this path.

    The dialog is a record of its mode, the student id it edits and
    whether [__init__] connected; the form is the record of the widget
    texts.  [StudentDialog_add_student] and [StudentDialog_update_student]
    return the [slot_result] of [Widgets]: the connection after the call,
    the message boxes shown, and whether the dialog was accepted. *)
From S2P Require Import Prelude PyModel Regex Storage Validators Sql Widgets.
Local Open Scope Z_scope.

(** [str.isdigit()] on one character: the decimal digits and the other
    characters of numeric type Digit (superscripts, circled digits). *)
Class PyDigit `{PyUnicode} := {
  uc_isdigit : Z -> bool;
  uc_isdigit_ascii c : 0 <= c < 128 -> uc_isdigit c = in_range 48 57 c;
  uc_isdigit_decimal c d : uc_digit c = Some d -> uc_isdigit c = true;
}.

#[export] Program Instance ascii_digit_class : PyDigit (H := ascii_unicode) := {
  uc_isdigit c := (c <? 128) && in_range 48 57 c;
}.
Next Obligation. intros c Hc; cbn; destruct (Z.ltb_spec c 128); [reflexivity | lia]. Qed.
Next Obligation.
  intros c d; cbn. destruct (c <? 128); [|discriminate]. unfold ascii_digit.
  destruct (in_range 48 57 c); [done | discriminate].
Qed.

Section StudentDialog.
  Context `{PyUnicode} `{!PyDigit} `{Collation}.

  (** [s.isdigit()]: at least one character, all digits. *)
Definition py_isdigit (s : ustr) : bool := negb (bool_decide (s = [])) && forallb uc_isdigit s.

  (** [s.replace(ch, '')] for a one-character [ch]. *)
Definition py_remove (ch : Z) (s : ustr) : ustr := List.filter (fun c => negb (c =? ch)) s.

  (** The e-mail pattern of lines 81 and 175:
      [^[a-zA-Z0-9._%+-]+@[a-zA-Z0-9.-]+\.[a-zA-Z]{2,}$]. *)
Definition ascii_alpha (c : Z) : bool := in_range 65 90 c || in_range 97 122 c.
Definition local_class (c : Z) : bool :=
    ascii_isalnum c || (c =? 46) || (c =? 95) || (c =? 37) || (c =? 43) || (c =? 45).
Definition domain_class (c : Z) : bool := ascii_isalnum c || (c =? 46) || (c =? 45).
Definition dialog_email_re : regex :=
    RSeq (RPlus local_class) (RSeq (RLit 64) (RSeq (RPlus domain_class)
      (RSeq (RLit 46) (RSeq (RClass ascii_alpha) (RSeq (RPlus ascii_alpha) RDollar))))).

  (** Lines 88 and 182: an empty phone passes; otherwise what is left
      after removing '+', '-' and ' ' must be digits. *)
Definition phone_ok (phone : ustr) : bool :=
    bool_decide (phone = []) || py_isdigit (py_remove 32 (py_remove 45 (py_remove 43 phone))).

  (** Lines 94-100: the first word, and the other words joined by one
      space; a one-word name is the first name, the last name empty. *)
Definition split_full_name (full_name : ustr) : ustr * ustr :=
    match py_split (py_strip full_name) with
    | first :: ((_ :: _) as rest) => (first, py_join [32] rest)
    | _ => (full_name, [])
    end.

  (** [gender_map.get(gender_text, gender_text[0] if gender_text else 'M')] *)
Definition map_gender (m : list (ustr * ustr)) (gender_text : ustr) : ustr :=
    match list_find (fun kv => kv.1 = gender_text) m with
    | Some (_, (_, g)) => g
    | None => match gender_text with c :: _ => [c] | [] => us "M" end
    end.

  (** The map of lines 103-108 ("Nữ" is N, U+1EEF). *)
Definition add_gender_map : list (ustr * ustr) :=
    [(us "Male", us "M"); (us "Female", us "F"); (us "Nam", us "M"); ([78; 7919], us "F")].

  (** The map of lines 197-204. *)
Definition update_gender_map : list (ustr * ustr) :=
    add_gender_map ++ [(us "M", us "M"); (us "F", us "F")].

  (** Line 112 and 208: [not major or major == "New Item"]. *)
Definition major_ok (major : ustr) : bool :=
    negb (bool_decide (major = [])) && negb (bool_decide (major = us "New Item")).

Record StudentDialog := {
  edit_mode : bool;
  student_id : option Z;
  connected : bool;     (** [self.conn] was set by [__init__] *)
}.

  (** [StudentDialog.__init__] (lines 9-43): the connection attempt; on
      failure a critical box and no [self.conn]. *)
Definition StudentDialog_init (edit : bool) (sid : option Z) (c : conn) : StudentDialog * list shown :=
    ({| edit_mode := edit; student_id := sid; connected := up c |},
     if up c then [] else [Shown Critical "Database Error"]).

  (** The widget values the slots read. *)
Record student_form := {
  f_student_id : ustr;   (** lineEdit, read and not used *)
  f_full_name : ustr;    (** lineEdit_4 *)
  f_address : ustr;      (** lineEdit_3 *)
  f_phone : ustr;        (** lineEdit_5 *)
  f_email : ustr;        (** lineEdit_6 *)
  f_dob : qdate;         (** dateEdit *)
  f_gender : ustr;       (** comboBox *)
  f_major : ustr;        (** comboBox_2 *)
}.

Definition validation_warning (c : conn) : slot_result := Done c [Shown Warning "Validation Error"] false.

  (** The except clauses (lines 137-148): without [self.conn] the
      rollback raises [AttributeError] out of the slot; a lost server
      makes [execute] raise and the rollback raise again; an
      IntegrityError ("Duplicate entry" on the e-mail index) is rolled
      back and shown as a warning. *)
Definition run_student_write (dlg : StudentDialog) (c : conn)
      (u : database -> option (database * Z)) : slot_result :=
    if negb (connected dlg) then Escaped c (AttributeError "conn") else
    if negb (up c) then Escaped c DbError else
    match execute_update c u with
    | Ok (c', _) => Done c' [Shown Information "Success"] true
    | Err _ => Done c [Shown Warning "Error"] false
    end.

  (** [StudentDialog.add_student] (lines 52-148) *)
Definition StudentDialog_add_student (dlg : StudentDialog) (f : student_form) (c : conn) : slot_result :=
    let full_name := py_strip (f_full_name f) in
    let address := py_strip (f_address f) in
    let phone := py_strip (f_phone f) in
    let email := py_strip (f_email f) in
    let major := py_strip (f_major f) in
    if bool_decide (full_name = []) || bool_decide (email = []) then validation_warning c else
    if negb (qdate_isValid (f_dob f)) then validation_warning c else
    let dob := qdate_iso (f_dob f) in
    if negb (bool_decide (is_Some (re_match dialog_email_re email))) then validation_warning c else
    if negb (phone_ok phone) then validation_warning c else
    let '(first, last) := split_full_name full_name in
    let gender := map_gender add_gender_map (f_gender f) in
    if negb (major_ok major) then validation_warning c else
    let year := qd_year (f_dob f) + 18 in
    run_student_write dlg c
      (insert_student (PStr first) (PStr last) (PStr dob) (PStr gender) (PStr address)
         (PStr phone) (PStr email) (PInt year) (PStr major)).

  (** [StudentDialog.update_student] (lines 150-245): the UPDATE of
      lines 217-227; with no [student_id], [WHERE StudentID = NULL]
      selects no row. *)
Definition StudentDialog_update_student (dlg : StudentDialog) (f : student_form) (c : conn) : slot_result :=
    let full_name := py_strip (f_full_name f) in
    let address := py_strip (f_address f) in
    let phone := py_strip (f_phone f) in
    let email := py_strip (f_email f) in
    let major := py_strip (f_major f) in
    if bool_decide (full_name = []) || bool_decide (email = []) then validation_warning c else
    if negb (qdate_isValid (f_dob f)) then validation_warning c else
    let dob := qdate_iso (f_dob f) in
    if negb (bool_decide (is_Some (re_match dialog_email_re email))) then validation_warning c else
    if negb (phone_ok phone) then validation_warning c else
    let '(first, last) := split_full_name full_name in
    let gender := map_gender update_gender_map (f_gender f) in
    if negb (major_ok major) then validation_warning c else
    let year := qd_year (f_dob f) + 18 in
    run_student_write dlg c
      (match student_id dlg with
       | Some sid => update_student (PStr first) (PStr last) (PStr dob) (PStr gender) (PStr address)
                       (PStr phone) (PStr email) (PInt year) (PStr major) sid
       | None => fun d => Some (d, 0)
       end).

  (** [StudentDialog.save_student] (lines 45-50) *)
Definition StudentDialog_save_student (dlg : StudentDialog) (f : student_form) (c : conn) : slot_result :=
    if edit_mode dlg then StudentDialog_update_student dlg f c else StudentDialog_add_student dlg f c.

  (** [clear_form()] (lines 247-255), called by [add_student] before
      [accept()]: the five line edits emptied and both combo boxes back
      on their first item ([gender0] and [major0], from the generated
      UI); the date edit keeps its date. *)
Definition StudentDialog_clear_form (gender0 major0 : ustr) (f : student_form) : student_form :=
    {| f_student_id := []; f_full_name := []; f_address := []; f_phone := []; f_email := [];
       f_dob := f_dob f; f_gender := gender0; f_major := major0 |}.
End StudentDialog.

(** ** Example forms *)

Definition young_form : student_form :=
  {| f_student_id := []; f_full_name := us " Binh  Tran "; f_address := us "Hanoi";
     f_phone := us "+84 90-123"; f_email := us "binh@uni.edu"; f_dob := QDate 2020 5 1;
     f_gender := us "Male"; f_major := us "CS" |}.

Definition one_word_form : student_form :=
  {| f_student_id := []; f_full_name := us "Binh"; f_address := [];
     f_phone := []; f_email := us "binh@uni.edu"; f_dob := QDate 2004 2 29;
     f_gender := us "Other"; f_major := us "CS" |}.

Definition add_dialog : StudentDialog := {| edit_mode := false; student_id := None; connected := true |}.
Definition offline_dialog : StudentDialog := {| edit_mode := false; student_id := None; connected := false |}.
Definition edit_dialog : StudentDialog := {| edit_mode := true; student_id := Some 7; connected := true |}.

(** * Properties of the student dialog *)

Section StudentDialogProperties.
  Context `{PyUnicode} `{!PyDigit} `{Collation}.

(** A cleared form cannot be saved: Save shows the validation warning
    (empty name and e-mail) and writes nothing, in both modes. *)
Lemma StudentDialog_save_cleared (dlg : StudentDialog) (gender0 major0 : ustr) (f : student_form) (c : conn) :
  StudentDialog_save_student dlg (StudentDialog_clear_form gender0 major0 f) c = validation_warning c.
Proof. unfold StudentDialog_save_student. by destruct (edit_mode dlg). Qed.


Lemma phone_strip_cons (c : Z) (s : ustr) :
    py_remove 32 (py_remove 45 (py_remove 43 (c :: s))) =
    if (c =? 43) || (c =? 45) || (c =? 32) then py_remove 32 (py_remove 45 (py_remove 43 s))
    else c :: py_remove 32 (py_remove 45 (py_remove 43 s)).
  Proof.
    unfold py_remove; simpl. destruct (c =? 43) eqn:?; simpl; [done|].
    destruct (c =? 45) eqn:?; simpl; [done|]. by destruct (c =? 32) eqn:?.
  Qed.

Lemma update_student_absent (d : database) (sid : Z) a1 a2 a3 a4 a5 a6 a7 a8 a9 :
    student_exists d sid = false ->
    update_student a1 a2 a3 a4 a5 a6 a7 a8 a9 sid d = None \/
    update_student a1 a2 a3 a4 a5 a6 a7 a8 a9 sid d = Some (d, 0).
  Proof.
    intros Hex. destruct (update_student a1 a2 a3 a4 a5 a6 a7 a8 a9 sid d) as [[d' k]|] eqn:E;
      [right | by left].
    unfold update_student in E. opt_inv E.
    unfold student_exists in Hex. apply not_true_iff_false in Hex. rewrite existsb_exists in Hex.
    assert (Hall : forall r, In r (students d) -> (Student.StudentID r =? sid) = false).
    { intros r Hr. apply not_true_iff_false. intros Hs. apply Hex. eauto. }
    rewrite filter_empty_forall; cycle 1.
    { intros r Hr%list_elem_of_In. rewrite Hall; done. }
    destruct d as [ss ? ? ? ? ? ? ?]; unfold set_students; simpl in *. do 3 f_equal.
    rewrite <- (list_fmap_id ss) at 2. apply list_fmap_ext. intros i r Hi.
    rewrite Hall; [done|]. by eapply list_elem_of_In, list_elem_of_lookup_2.
  Qed.

Lemma special_not_digit (c : Z) : c = 43 \/ c = 45 \/ c = 32 -> uc_isdigit c = false.
  Proof. intros Hc. rewrite uc_isdigit_ascii by lia. destruct Hc as [->|[->| ->]]; done. Qed.

Lemma phone_special_spec (c : Z) : (c =? 43) || (c =? 45) || (c =? 32) = true <-> c = 43 \/ c = 45 \/ c = 32.
  Proof. rewrite !orb_true_iff, !Z.eqb_eq. tauto. Qed.

Lemma phone_digits_all (s : ustr) :
    forallb uc_isdigit (py_remove 32 (py_remove 45 (py_remove 43 s))) = true <->
    Forall (fun c => uc_isdigit c = true \/ c = 43 \/ c = 45 \/ c = 32) s.
  Proof.
    induction s as [|c s IH]; [split; auto|]. rewrite phone_strip_cons, Forall_cons.
    destruct ((c =? 43) || (c =? 45) || (c =? 32)) eqn:E.
    - apply phone_special_spec in E. rewrite IH. tauto.
    - simpl. rewrite andb_true_iff, IH. rewrite <- (not_true_iff_false _), phone_special_spec in E. tauto.
  Qed.

Lemma phone_digits_some (s : ustr) :
    negb (bool_decide (py_remove 32 (py_remove 45 (py_remove 43 s)) = [])) &&
      forallb uc_isdigit (py_remove 32 (py_remove 45 (py_remove 43 s))) = true <->
    Exists (fun c => uc_isdigit c = true) s /\
    Forall (fun c => uc_isdigit c = true \/ c = 43 \/ c = 45 \/ c = 32) s.
  Proof.
    induction s as [|c s IH]; [split; [done | intros [Hx _]; inversion Hx]|].
    rewrite phone_strip_cons, Exists_cons, Forall_cons.
    destruct ((c =? 43) || (c =? 45) || (c =? 32)) eqn:E.
    - apply phone_special_spec in E. rewrite IH. pose proof (special_not_digit c E). intuition congruence.
    - simpl. rewrite andb_true_iff, phone_digits_all. rewrite <- (not_true_iff_false _), phone_special_spec in E.
      tauto.
  Qed.
  (** The phone check of lines 88 and 182 accepts exactly the empty
      phone and the phones made of digits, '+', '-' and spaces with at
      least one digit. *)
Theorem phone_ok_spec (p : ustr) :
    phone_ok p = true <->
    p = [] \/ (Exists (fun c => uc_isdigit c = true) p /\
               Forall (fun c => uc_isdigit c = true \/ c = 43 \/ c = 45 \/ c = 32) p).
  Proof.
    unfold phone_ok, py_isdigit. rewrite orb_true_iff, bool_decide_eq_true, phone_digits_some. done.
  Qed.


  (** C32. When [__init__] could not connect, the Save button never
      writes: it shows a validation warning, or the [except] clause's
      [self.conn.rollback()] raises [AttributeError] out of the slot. *)
Theorem StudentDialog_unconnected_never_saves (dlg : StudentDialog) (f : student_form) (c : conn) :
    connected dlg = false ->
    StudentDialog_save_student dlg f c = validation_warning c \/
    StudentDialog_save_student dlg f c = Escaped c (AttributeError "conn").
  Proof.
    intros Hc. unfold StudentDialog_save_student, StudentDialog_add_student, StudentDialog_update_student,
      run_student_write. rewrite Hc. destruct (edit_mode dlg); repeat case_match; simpl in *; try discriminate; auto.
  Qed.

  (** C14. When the form passes the dialog's checks and the e-mail is
      free, [add_student] appends the student with the next
      AUTO_INCREMENT id, the stripped texts (empty address, phone and
      major stored as empty strings, not NULL), the date as
      "yyyy-MM-dd", the enrollment year [year of birth + 18], and
      accepts the dialog. *)
Theorem StudentDialog_add_student_inserts (dlg : StudentDialog) (f : student_form) (c : conn)
      (first last : ustr) :
    connected dlg = true -> up c = true ->
    py_strip (f_full_name f) <> [] -> qdate_isValid (f_dob f) = true ->
    is_Some (re_match dialog_email_re (py_strip (f_email f))) ->
    phone_ok (py_strip (f_phone f)) = true -> major_ok (py_strip (f_major f)) = true ->
    email_taken (db c) (Some (py_strip (f_email f))) None = false ->
    split_full_name (py_strip (f_full_name f)) = (first, last) ->
    StudentDialog_add_student dlg f c =
      Done (mkConn (mkDb (students (db c) ++
              [Student.mk (auto_student (db c)) first last (qdate_iso (f_dob f))
                 (map_gender add_gender_map (f_gender f)) (Some (py_strip (f_address f)))
                 (Some (py_strip (f_phone f))) (Some (py_strip (f_email f)))
                 (qd_year (f_dob f) + 18) (Some (py_strip (f_major f)))])
              (subjects (db c)) (lecturers (db c)) (classes (db c)) (enrollments (db c))
              (auto_student (db c) + 1) (auto_lecturer (db c)) (auto_class (db c))) true)
        [Shown Information "Success"] true.
  Proof.
    intros Hconn Hup Hname Hdob [n Hre] Hph Hmaj Htaken Hsplit.
    unfold StudentDialog_add_student. rewrite Hre, Hdob, Hph, Hmaj, Hsplit.
    rewrite bool_decide_eq_false_2 by done.
    assert (py_strip (f_email f) <> []) as Hne.
    { intros Heq. rewrite Heq in Hre. discriminate. }
    rewrite (bool_decide_eq_false_2 (py_strip (f_email f) = [])) by done. simpl.
    unfold run_student_write, execute_update, insert_student. rewrite Hconn, Hup.
    cbn -[email_taken]. rewrite Htaken. done.
  Qed.

  (** [update_student] reports success and accepts the dialog when
      the student it edits no longer exists: the UPDATE changes no row
      and the row count is not looked at. *)
Theorem StudentDialog_update_missing_reports_success (dlg : StudentDialog) (f : student_form)
      (c : conn) (sid : Z) :
    connected dlg = true -> up c = true -> student_id dlg = Some sid ->
    student_exists (db c) sid = false ->
    StudentDialog_update_student dlg f c = validation_warning c \/
    StudentDialog_update_student dlg f c = Done c [Shown Warning "Error"] false \/
    StudentDialog_update_student dlg f c = Done c [Shown Information "Success"] true.
  Proof.
    intros Hconn Hup Hsid Hex. unfold StudentDialog_update_student, run_student_write.
    rewrite Hconn, Hup, Hsid. repeat case_match; simpl in *; try discriminate; auto.
    right; right. simplify_eq. unfold execute_update in *. rewrite Hup in *.
    lazymatch goal with
    | H : context [update_student ?a1 ?a2 ?a3 ?a4 ?a5 ?a6 ?a7 ?a8 ?a9 sid (db c)] |- _ =>
        destruct (update_student_absent (db c) sid a1 a2 a3 a4 a5 a6 a7 a8 a9 Hex) as [E|E]
    end; rewrite E in *; simplify_eq.
    by destruct c as [d u]; simpl in *; subst u.
  Qed.
End StudentDialogProperties.

(** ** The dialog and validators.py disagree *)

  (** The dialog stores a student born in 2020 (four years old in
      2024) with [EnrollmentYear] 2038, while [Validators.validate_dob]
      rejects that birth date: the age rule of validators.py is not
      applied on the path the GUI uses. *)
Example StudentDialog_add_skips_age_check :
  exists c', StudentDialog_add_student add_dialog young_form ex_conn = Done c' [Shown Information "Success"] true /\
    Student.mk 2 (us "Binh") (us "Tran") (us "2020-05-01") (us "M") (Some (us "Hanoi"))
      (Some (us "+84 90-123")) (Some (us "binh@uni.edu")) 2038 (Some (us "CS")) ∈ students (db c') /\
    validate_dob 2024 (PStr (us "2020-05-01")) = Err (ValidationError MsgAge).
Proof.
  eexists. split; [vm_compute; reflexivity|]. split; [|vm_compute; reflexivity].
  apply (bool_decide_unpack _). vm_compute. exact I.
Qed.

  (** A one-word name is stored with an empty last name, and a
      gender text outside the map is stored as its first letter, where
      validators.py rejects both. *)
Example StudentDialog_one_word_name :
  exists c', StudentDialog_add_student add_dialog one_word_form ex_conn = Done c' [Shown Information "Success"] true /\
    Student.mk 2 (us "Binh") [] (us "2004-02-29") (us "O") (Some []) (Some []) (Some (us "binh@uni.edu"))
      2022 (Some (us "CS")) ∈ students (db c') /\
    validate_full_name (PStr (us "Binh")) = Err (ValidationError MsgFullName).
Proof.
  eexists. split; [vm_compute; reflexivity|]. split; [|vm_compute; reflexivity].
  apply (bool_decide_unpack _). vm_compute. exact I.
Qed.

(** ** Witnesses *)


Lemma StudentDialog_unconnected_never_saves_witness :
  connected offline_dialog = false /\
  (StudentDialog_save_student offline_dialog young_form ex_conn = validation_warning ex_conn \/
   StudentDialog_save_student offline_dialog young_form ex_conn = Escaped ex_conn (AttributeError "conn")).
Proof. split; [reflexivity | apply StudentDialog_unconnected_never_saves; reflexivity]. Defined.

Lemma StudentDialog_add_student_inserts_witness :
  split_full_name (py_strip (f_full_name young_form)) = (us "Binh", us "Tran") /\
  StudentDialog_add_student add_dialog young_form ex_conn =
    Done (mkConn (mkDb (students ex_db ++
            [Student.mk (auto_student ex_db) (us "Binh") (us "Tran") (qdate_iso (f_dob young_form))
               (map_gender add_gender_map (f_gender young_form)) (Some (py_strip (f_address young_form)))
               (Some (py_strip (f_phone young_form))) (Some (py_strip (f_email young_form)))
               (qd_year (f_dob young_form) + 18) (Some (py_strip (f_major young_form)))])
            (subjects ex_db) (lecturers ex_db) (classes ex_db) (enrollments ex_db)
            (auto_student ex_db + 1) (auto_lecturer ex_db) (auto_class ex_db)) true)
      [Shown Information "Success"] true.
Proof.
  split; [vm_compute; reflexivity|].
  apply (StudentDialog_add_student_inserts add_dialog young_form ex_conn);
    vm_compute; first [reflexivity | discriminate | eexists; reflexivity].
Defined.

Lemma StudentDialog_update_missing_reports_success_witness :
  student_exists (db ex_conn) 7 = false /\
  (StudentDialog_update_student edit_dialog young_form ex_conn = validation_warning ex_conn \/
   StudentDialog_update_student edit_dialog young_form ex_conn = Done ex_conn [Shown Warning "Error"] false \/
   StudentDialog_update_student edit_dialog young_form ex_conn = Done ex_conn [Shown Information "Success"] true).
Proof.
  split; [vm_compute; reflexivity|].
  apply (StudentDialog_update_missing_reports_success edit_dialog young_form ex_conn 7); vm_compute; reflexivity.
Defined.
