(* ===== verification/Dialogs.v ===== *)
(** * Dialogs: the subject, lecturer, class and enrollment dialogs of dialogs_complete.py

    Each dialog of dialogs_complete.py is a record of its mode and the
    key it edits, its widgets a record of widget states, and its methods
    functions of [Widgets]: [__init__] with [load_dropdowns] and the
    [load_*_data] of the edit mode build the widget state from the
    database; [save_*] builds the dictionary of the form, calls the model
    method of models.py ([Models]) and shows the boxes of its [except]
    clauses ([dialog_save_outcome]).

    The dictionaries keep the keys of the source ('code', 'first_name',
    'student_id', ...).  The create methods of models.py read other keys
    or raise [AttributeError] ([Models]), so in add mode no dialog of this
    file ever writes. *)
From Stdlib Require Import QArith.
From S2P Require Import Prelude PyModel Storage Query Validators Sql Models Reads Widgets Csv.
Local Open Scope Z_scope.


Section Dialogs.
  Context `{PyUnicode} `{Collation}.

  (** The end of every save method (e.g. lines 146-162): success box and
      [accept()]; [ValidationError] as a warning; any other exception as a
      critical box.  The dialog stays open on failure. *)
Definition dialog_save_outcome {A} (c : conn) (r : result exc (conn * A)) : slot_result :=
    match r with
    | Ok (c', _) => Done c' [Shown Information "Success"] true
    | Err (ValidationError _) => Done c [Shown Warning "Validation Error"] false
    | Err _ => Done c [Shown Critical "Error"] false
    end.

  (** An UPDATE whose [WHERE id = %s] is bound to [None]: [= NULL]
      selects no row. *)
Definition update_no_row (d : database) : option (database * Z) := Some (d, 0).

  (** ** SubjectDialog (lines 24-162) *)

Record SubjectDialog := { subj_edit_mode : bool; subj_code : pyval }.

Record subject_form := { txt_code : ustr; txt_name : ustr; spin_credits : Z }.

  (** [setup_ui] (lines 48-124): empty texts, credits 3 in [1, 10]. *)
Definition subject_form_init : subject_form := {| txt_code := []; txt_name := []; spin_credits := 3 |}.

  (** [load_subject_data] (lines 126-135) *)
Definition SubjectDialog_load_subject_data (dlg : SubjectDialog) (c : conn) (f : subject_form) : subject_form :=
    match SubjectModel_get_by_code c (subj_code dlg) with
    | Some s => {| txt_code := Subject.SubjectCode s; txt_name := Subject.SubjectName s;
                   spin_credits := spin_set 1 10 (Subject.Credits s) |}
    | None => f
    end.

  (** [__init__] (lines 34-46) *)
Definition SubjectDialog_init (edit : bool) (code : pyval) (c : conn) : SubjectDialog * subject_form :=
    let dlg := {| subj_edit_mode := edit; subj_code := code |} in
    (dlg, if edit && py_truthy code then SubjectDialog_load_subject_data dlg c subject_form_init
          else subject_form_init).

  (** [save_subject] (lines 137-162) *)
Definition SubjectDialog_save_subject (dlg : SubjectDialog) (f : subject_form) (c : conn) : slot_result :=
    let data : pydict := list_to_map [("code", PStr (txt_code f)); ("name", PStr (txt_name f));
                                      ("credits", PInt (spin_credits f))] in
    if subj_edit_mode dlg then dialog_save_outcome c (SubjectModel_update c (subj_code dlg) data)
    else dialog_save_outcome c (SubjectModel_create c data).

  (** ** LecturerDialog (lines 165-302) *)

Record LecturerDialog := { lect_edit_mode : bool; lect_id : option Z }.

Record lecturer_form := { txt_first_name : ustr; txt_last_name : ustr; txt_email : ustr; txt_office : ustr }.

Definition lecturer_form_init : lecturer_form :=
    {| txt_first_name := []; txt_last_name := []; txt_email := []; txt_office := [] |}.

  (** [load_lecturer_data] (lines 264-274): [lecturer.get('LecturerEmail', '')]
      is [None] for a NULL column, and [setText(None)] clears the line
      edit. *)
Definition LecturerDialog_load_lecturer_data (dlg : LecturerDialog) (c : conn) (f : lecturer_form) : lecturer_form :=
    match LecturerModel_get_by_id c (from_option PInt PNone (lect_id dlg)) with
    | Some l => {| txt_first_name := Lecturer.LecturerFirstName l; txt_last_name := Lecturer.LecturerLastName l;
                   txt_email := default [] (Lecturer.LecturerEmail l); txt_office := default [] (Lecturer.Office l) |}
    | None => f
    end.

  (** [__init__] (lines 176-188) *)
Definition LecturerDialog_init (edit : bool) (lid : option Z) (c : conn) : LecturerDialog * lecturer_form :=
    let dlg := {| lect_edit_mode := edit; lect_id := lid |} in
    (dlg, if edit && py_truthy (from_option PInt PNone lid) then LecturerDialog_load_lecturer_data dlg c lecturer_form_init
          else lecturer_form_init).

  (** [save_lecturer] (lines 276-302) *)
Definition LecturerDialog_save_lecturer (dlg : LecturerDialog) (f : lecturer_form) (c : conn) : slot_result :=
    let data : pydict := list_to_map [("first_name", PStr (txt_first_name f)); ("last_name", PStr (txt_last_name f));
                                      ("email", PStr (txt_email f)); ("office", PStr (txt_office f))] in
    if lect_edit_mode dlg then
      match lect_id dlg with
      | Some lid => dialog_save_outcome c (LecturerModel_update c lid data)
      | None => dialog_save_outcome c (execute_update c update_no_row)
      end
    else dialog_save_outcome c (LecturerModel_create c data).

  (** ** ClassDialog (lines 305-496) *)

Record ClassDialog := { cls_edit_mode : bool; cls_id : option Z }.

Record class_form := {
  combo_subject : combo (option ustr);
  combo_lecturer : combo (option Z);
  txt_class_name : ustr;
  combo_semester : combo (option unit);
  spin_year : Z;        (** range [2000, 2035] *)
  spin_capacity : Z;    (** range [10, 200] *)
}.

Definition semesters : list ustr := [us "S1"; us "S2"; us "S3"; us "SUMMER"].

  (** [setup_ui] (lines 333-420) *)
Definition class_form_init : class_form :=
    {| combo_subject := Combo [] None; combo_lecturer := Combo [] None; txt_class_name := [];
       combo_semester := combo_of ((fun s => (s, None)) <$> semesters);
       spin_year := 2024; spin_capacity := 60 |}.

Definition set_class_combos (f : class_form) (cs : combo (option ustr)) (cl : combo (option Z)) : class_form :=
    {| combo_subject := cs; combo_lecturer := cl; txt_class_name := txt_class_name f;
       combo_semester := combo_semester f; spin_year := spin_year f; spin_capacity := spin_capacity f |}.

  (** [load_dropdowns] (lines 422-441): a failed read is [None], and
      iterating over it raises [TypeError]: a warning, with the boxes
      filled so far. *)
Definition ClassDialog_load_dropdowns (c : conn) (f : class_form) : class_form * list shown :=
    match SubjectModel_list c with
    | None => (f, [Shown Warning "Warning"])
    | Some subjects =>
        let cs := foldl (fun cb s => combo_add cb (Subject.SubjectCode s ++ us " - " ++ Subject.SubjectName s)
                                       (Some (Subject.SubjectCode s))) (combo_subject f) subjects in
        let cl := combo_add (combo_lecturer f) (us "None") None in
        match LecturerModel_list c with
        | None => (set_class_combos f cs cl, [Shown Warning "Warning"])
        | Some lecturers =>
            let cl' := foldl (fun cb l => combo_add cb (Lecturer.LecturerFirstName l ++ us " " ++ Lecturer.LecturerLastName l)
                                            (Some (Lecturer.LecturerID l))) cl lecturers in
            (set_class_combos f cs cl', [])
        end
    end.

  (** [load_class_data] (lines 443-466) *)
Definition ClassDialog_load_class_data (dlg : ClassDialog) (c : conn) (f : class_form) : class_form :=
    match ClassModel_get_by_id c (from_option PInt PNone (cls_id dlg)) with
    | Some cd =>
        let k := ClassDetail.cls cd in
        let cs := match combo_findData (combo_subject f) (Class.SubjectCode k) with
                  | Some i => combo_setCurrentIndex (combo_subject f) i
                  | None => combo_subject f
                  end in
        let cl := match Class.LecturerID k with
                  | Some lid => if py_truthy (PInt lid) then
                                  match combo_findData (combo_lecturer f) lid with
                                  | Some i => combo_setCurrentIndex (combo_lecturer f) i
                                  | None => combo_lecturer f
                                  end
                                else combo_lecturer f
                  | None => combo_lecturer f
                  end in
        {| combo_subject := cs; combo_lecturer := cl;
           txt_class_name := default [] (Class.ClassName k);
           combo_semester := combo_setCurrentText (combo_semester f) (Class.Semester k);
           spin_year := spin_set 2000 2035 (Class.Year k);
           spin_capacity := spin_set 10 200 (Class.MaxCapacity k) |}
    | None => f
    end.

  (** [__init__] (lines 318-331) *)
Definition ClassDialog_init (edit : bool) (cid : option Z) (c : conn) : ClassDialog * class_form * list shown :=
    let dlg := {| cls_edit_mode := edit; cls_id := cid |} in
    let '(f, msgs) := ClassDialog_load_dropdowns c class_form_init in
    (dlg, if edit && py_truthy (from_option PInt PNone cid) then ClassDialog_load_class_data dlg c f else f, msgs).

  (** [save_class] (lines 468-493) *)
Definition ClassDialog_save_class (dlg : ClassDialog) (f : class_form) (c : conn) : slot_result :=
    let data : pydict := list_to_map
      [("subject_code", from_option PStr PNone (combo_currentData (combo_subject f)));
       ("lecturer_id", from_option PInt PNone (combo_currentData (combo_lecturer f)));
       ("class_name", PStr (txt_class_name f));
       ("semester", PStr (combo_currentText (combo_semester f)));
       ("year", PInt (spin_year f)); ("max_capacity", PInt (spin_capacity f))] in
    if cls_edit_mode dlg then
      match cls_id dlg with
      | Some cid => dialog_save_outcome c (ClassModel_update c cid data)
      | None => dialog_save_outcome c (execute_update c update_no_row)
      end
    else dialog_save_outcome c (ClassModel_create c data).

  (** ** EnrollmentDialog (lines 499-696) *)

Record EnrollmentDialog := { enr_edit_mode : bool; enr_student_id : option Z; enr_class_id : option Z }.

Record enrollment_form := {
  combo_student : combo (option Z);
  combo_class : combo (option Z);
  spin_grade : Z;         (** hundredths, range [0, 1000], two decimals *)
  combo_letter : combo (option unit);
  txt_note : ustr;
}.

Definition grade_letters : list ustr := [[]; us "A"; us "B"; us "C"; us "D"; us "F"].

  (** [setup_ui] (lines 527-616) *)
Definition enrollment_form_init : enrollment_form :=
    {| combo_student := Combo [] None; combo_class := Combo [] None; spin_grade := 0;
       combo_letter := combo_of ((fun s => (s, None)) <$> grade_letters); txt_note := [] |}.

Definition set_enrollment_combos (f : enrollment_form) (cs cc : combo (option Z)) : enrollment_form :=
    {| combo_student := cs; combo_class := cc; spin_grade := spin_grade f;
       combo_letter := combo_letter f; txt_note := txt_note f |}.

  (** [load_dropdowns] (lines 618-634) *)
Definition EnrollmentDialog_load_dropdowns (c : conn) (f : enrollment_form) : enrollment_form * list shown :=
    match StudentModel_list c 500 0 "StudentID" with
    | None => (f, [Shown Warning "Warning"])
    | Some students =>
        let cs := foldl (fun cb s => combo_add cb (py_str_int (Student.StudentID s) ++ us " - " ++
                                                   Student.FirstName s ++ us " " ++ Student.LastName s)
                                       (Some (Student.StudentID s))) (combo_student f) students in
        match ClassModel_list c PNone PNone with
        | None => (set_enrollment_combos f cs (combo_class f), [Shown Warning "Warning"])
        | Some classes =>
            let cc := foldl (fun cb r => let k := ClassListRow.cls r in
                              combo_add cb (py_str_int (Class.ClassID k) ++ us " - " ++ ClassListRow.SubjectName r ++
                                            us " (" ++ Class.Semester k ++ us " " ++ py_str_int (Class.Year k) ++ us ")")
                                (Some (Class.ClassID k))) (combo_class f) classes in
            (set_enrollment_combos f cs cc, [])
        end
    end.

  (** [load_enrollment_data] (lines 636-666): the first row of the
      student with the class id; a failed read raises [TypeError] in the
      generator, shown as a critical box.  [if enrollment.get('Grade')]
      is false for a grade of 0.00, which is then not loaded. *)
Definition EnrollmentDialog_load_enrollment_data (dlg : EnrollmentDialog) (c : conn) (f : enrollment_form)
      : enrollment_form * list shown :=
    match EnrollmentModel_get_by_student c (from_option PInt PNone (enr_student_id dlg)) with
    | None => (f, [Shown Critical "Error"])
    | Some rows =>
        match list_find (fun r => Some (Enrollment.ClassID (StudentEnrollmentRow.enr r)) = enr_class_id dlg) rows with
        | None => (f, [])
        | Some (_, r) =>
            let e := StudentEnrollmentRow.enr r in
            let sel {A} `{EqDecision A} (cb : combo (option A)) (x : option A) :=
              match x with
              | Some x => match combo_findData cb x with Some i => combo_setCurrentIndex cb i | None => cb end
              | None => cb
              end in
            ({| combo_student := sel (combo_student f) (enr_student_id dlg);
                combo_class := sel (combo_class f) (enr_class_id dlg);
                spin_grade := match Enrollment.Grade e with
                              | Some g => if g =? 0 then spin_grade f else spin_set 0 1000 g
                              | None => spin_grade f
                              end;
                combo_letter := match Enrollment.GradeLetter e with
                                | Some l => if bool_decide (l = []) then combo_letter f
                                            else combo_setCurrentText (combo_letter f) l
                                | None => combo_letter f
                                end;
                txt_note := match Enrollment.Note e with
                            | Some n => if bool_decide (n = []) then txt_note f else n
                            | None => txt_note f
                            end |}, [])
        end
    end.

  (** [__init__] (lines 511-525) *)
Definition EnrollmentDialog_init (edit : bool) (sid cid : option Z) (c : conn)
      : EnrollmentDialog * enrollment_form * list shown :=
    let dlg := {| enr_edit_mode := edit; enr_student_id := sid; enr_class_id := cid |} in
    let '(f, msgs) := EnrollmentDialog_load_dropdowns c enrollment_form_init in
    if edit && py_truthy (from_option PInt PNone sid) && py_truthy (from_option PInt PNone cid) then
      let '(f', msgs') := EnrollmentDialog_load_enrollment_data dlg c f in (dlg, f', msgs ++ msgs')
    else (dlg, f, msgs).

  (** [save_enrollment] (lines 668-693): a grade of 0 is saved as NULL;
      the empty letter and the blank note as [None]. *)
Definition EnrollmentDialog_save_enrollment (dlg : EnrollmentDialog) (f : enrollment_form) (c : conn) : slot_result :=
    let grade := if 0 <? spin_grade f then PFloat (FFin (Qmake (spin_grade f) 100%positive)) else PNone in
    let letter := combo_currentText (combo_letter f) in
    let note := py_strip (txt_note f) in
    let data : pydict := list_to_map
      [("student_id", from_option PInt PNone (combo_currentData (combo_student f)));
       ("class_id", from_option PInt PNone (combo_currentData (combo_class f)));
       ("grade", grade);
       ("grade_letter", if bool_decide (letter = []) then PNone else PStr letter);
       ("note", if bool_decide (note = []) then PNone else PStr note)] in
    if enr_edit_mode dlg then
      match enr_student_id dlg, enr_class_id dlg with
      | Some sid, Some cid => dialog_save_outcome c (EnrollmentModel_update c sid cid data)
      | _, _ => dialog_save_outcome c (execute_update c update_no_row)
      end
    else dialog_save_outcome c (EnrollmentModel_create c data).
End Dialogs.

(** ** An example database for the edit dialogs: a class of 1999 with
    five seats, two lecturers without e-mail, a grade of 0.00. *)

Definition gui_db : database :=
  mkDb [ex_student] [Subject.mk (us "CS101") (us "Intro") 3]
    [Lecturer.mk 1 (us "Binh") (us "Pham") None None; Lecturer.mk 2 (us "Chi") (us "Vu") None None]
    [Class.mk 1 (us "CS101") (Some 1) None (us "S1") 1999 5]
    [Enrollment.mk 1 1 (Some 0) (Some (us "F")) None] 2 3 2.
Definition gui_conn : conn := mkConn gui_db true.
Definition edit_enrollment_dialog : EnrollmentDialog :=
  {| enr_edit_mode := true; enr_student_id := Some 1; enr_class_id := Some 1 |}.

(** * Properties of the dialogs *)

Section DialogProperties.
  Context `{PyUnicode} `{Collation}.

  (** C33. In add mode no dialog of dialogs_complete.py writes: the
      subject dialog's dictionary has no "SubjectCode" key
      ([KeyError], a critical box), the lecturer and class dialogs call
      [Validators.validate_required], which does not exist, and the
      enrollment dialog's dictionary has no "StudentID" ("Student ID is
      required").  The connection is returned unchanged and the dialog
      stays open. *)
Theorem add_dialogs_never_write (c : conn) (sf : subject_form) (lf : lecturer_form) (kf : class_form)
      (ef : enrollment_form) (code : pyval) (lid cid sid : option Z) :
    SubjectDialog_save_subject {| subj_edit_mode := false; subj_code := code |} sf c
      = Done c [Shown Critical "Error"] false /\
    LecturerDialog_save_lecturer {| lect_edit_mode := false; lect_id := lid |} lf c
      = Done c [Shown Critical "Error"] false /\
    ClassDialog_save_class {| cls_edit_mode := false; cls_id := cid |} kf c
      = Done c [Shown Critical "Error"] false /\
    EnrollmentDialog_save_enrollment {| enr_edit_mode := false; enr_student_id := sid; enr_class_id := cid |} ef c
      = Done c [Shown Warning "Validation Error"] false.
  Proof. repeat split; reflexivity. Qed.

(** Read a literal dictionary: [list_to_map] as inserts, each lookup
    resolved on the literal keys. *)
Ltac dict_simpl :=
  unfold dict_get, dict_get_or, dict_index, list_to_map; cbn [fold_right foldr fst snd];
  repeat first [ rewrite lookup_insert_eq | rewrite lookup_insert_ne by done | rewrite lookup_empty ];
  cbn [default]; try unfold id.


  (** Saving the enrollment dialog in edit mode rewrites the
      enrollment (student, class) with the spin box's grade when it is
      positive and with NULL when it is 0: a grade of 0.00 (shown as
      "Not graded") can never be stored, and an existing 0.00 is erased
      by any save.  The empty letter and a blank note are stored as
      NULL, the note stripped. *)
Theorem EnrollmentDialog_save_edit (dlg : EnrollmentDialog) (f : enrollment_form) (c : conn) (sid cid : Z) :
    enr_edit_mode dlg = true -> enr_student_id dlg = Some sid -> enr_class_id dlg = Some cid ->
    up c = true -> 0 <= spin_grade f <= 1000 ->
    let hit e := (Enrollment.StudentID e =? sid) && (Enrollment.ClassID e =? cid) in
    let letter := combo_currentText (combo_letter f) in
    let note := py_strip (txt_note f) in
    EnrollmentDialog_save_enrollment dlg f c =
      Done (mkConn (set_enrollments (db c)
              ((fun e => if hit e then
                           Enrollment.mk sid cid (if 0 <? spin_grade f then Some (spin_grade f) else None)
                             (if bool_decide (letter = []) then None else Some letter)
                             (if bool_decide (note = []) then None else Some note)
                         else e) <$> enrollments (db c))) true)
        [Shown Information "Success"] true.
  Proof.
    intros Hedit Hsid Hcid Hup Hg hit letter note.
    unfold EnrollmentDialog_save_enrollment. rewrite Hedit, Hsid, Hcid.
    unfold EnrollmentModel_update, execute_update. rewrite Hup.
    assert (Hgrade : p_grade (if 0 <? spin_grade f then PFloat (FFin (Qmake (spin_grade f) 100%positive)) else PNone)
                     = Some (if 0 <? spin_grade f then Some (spin_grade f) else None)).
    { destruct (0 <? spin_grade f); simpl; [|done]. by rewrite round_half_away_div_exact by lia. }
    assert (Hok : grade_ok (if 0 <? spin_grade f then Some (spin_grade f) else None) = true).
    { destruct (Z.ltb_spec 0 (spin_grade f)); simpl; [|done]. apply andb_true_iff; split; apply Z.leb_le; lia. }
    unfold update_enrollment. dict_simpl. rewrite Hgrade. simpl mbind.
    subst hit letter note. rewrite Hok, andb_false_r.
    by destruct (bool_decide (combo_currentText (combo_letter f) = [])), (bool_decide (py_strip (txt_note f) = [])).
  Qed.
Lemma filter_singleton_elem {A} (P : A -> Prop) `{!forall x, Decision (P x)} (l : list A) (s r : A) :
    filter P l = [s] -> r ∈ l -> P r -> r = s.
  Proof.
    intros Hf Hr HP. assert (Hin : r ∈ filter P l) by (apply list_elem_of_filter; done).
    rewrite Hf in Hin. by apply list_elem_of_singleton in Hin.
  Qed.

Lemma SubjectModel_get_by_code_single (c : conn) (s : Subject.t) :
    up c = true ->
    filter (fun r => coll_eq (Subject.SubjectCode r) (Subject.SubjectCode s) = true) (subjects (db c)) = [s] ->
    SubjectModel_get_by_code c (PStr (Subject.SubjectCode s)) = Some s.
  Proof.
    intros Hup Hf. unfold SubjectModel_get_by_code, execute_query_one, execute_query. rewrite Hup.
    unfold where_eq. simpl.
    rewrite (list_filter_iff _ (fun r => coll_eq (Subject.SubjectCode r) (Subject.SubjectCode s) = true));
      [by rewrite Hf|].
    intros r. simpl. split; [by intros [= ->] | by intros ->].
  Qed.

  (** C30. Opening a subject in the edit dialog and saving it without
      changes leaves the database as it was, when the code identifies one
      subject under the collation and its credits are in the spin box's
      range [1, 10]. *)
Theorem SubjectDialog_edit_roundtrip (c : conn) (s : Subject.t) :
    up c = true -> Subject.SubjectCode s <> [] -> 1 <= Subject.Credits s <= 10 ->
    filter (fun r => coll_eq (Subject.SubjectCode r) (Subject.SubjectCode s) = true) (subjects (db c)) = [s] ->
    SubjectDialog_save_subject (SubjectDialog_init true (PStr (Subject.SubjectCode s)) c).1
      (SubjectDialog_init true (PStr (Subject.SubjectCode s)) c).2 c = Done c [Shown Information "Success"] true.
  Proof.
    intros Hup Hne Hcr Hf. unfold SubjectDialog_init. cbn [fst snd subj_edit_mode].
    rewrite py_truthy_str by done. simpl andb. unfold SubjectDialog_load_subject_data. cbn [subj_code].
    rewrite SubjectModel_get_by_code_single by done.
    unfold SubjectDialog_save_subject, SubjectModel_update. cbn [subj_edit_mode subj_code txt_name spin_credits].
    dict_simpl. simpl res_bind. unfold execute_update, update_subject. rewrite Hup. simpl mbind.
    assert (Hsp : spin_set 1 10 (Subject.Credits s) = Subject.Credits s) by (unfold spin_set; lia).
    rewrite Hsp. destruct (Z.ltb_spec (Subject.Credits s) 1), (Z.ltb_spec 10 (Subject.Credits s)); try lia.
    rewrite andb_false_r. simpl.
    assert (Hmap : (fun r => if coll_eq (Subject.SubjectCode r) (Subject.SubjectCode s)
                             then Subject.mk (Subject.SubjectCode r) (Subject.SubjectName s) (Subject.Credits s) else r)
                   <$> subjects (db c) = subjects (db c)).
    { rewrite <- (list_fmap_id (subjects (db c))) at 2. apply list_fmap_ext. intros i r Hi.
      destruct (coll_eq _ _) eqn:E; [|done].
      rewrite (filter_singleton_elem _ _ s r Hf); [by destruct s | by eapply list_elem_of_lookup_2 | done]. }
    rewrite Hmap. destruct c as [[] u]; simpl in *. by subst u.
  Qed.
End DialogProperties.

(** ** Opening an edit dialog and saving it unchanged *)

(** Opening the enrollment of a student graded 0.00 in the edit
    dialog and pressing Save without touching anything erases the
    grade: the stored grade becomes NULL. *)
Example EnrollmentDialog_roundtrip_erases_zero :
  let '(dlg, f, _) := EnrollmentDialog_init true (Some 1) (Some 1) gui_conn in
  exists c', EnrollmentDialog_save_enrollment dlg f gui_conn = Done c' [Shown Information "Success"] true /\
    enrollments (db c') = [Enrollment.mk 1 1 None (Some (us "F")) None].
Proof. vm_compute. eexists. split; reflexivity. Qed.

(** Opening a lecturer without e-mail and saving it unchanged stores
    the empty string as e-mail; the same round trip on a second lecturer
    without e-mail then fails on the UNIQUE index of LecturerEmail. *)
Example LecturerDialog_roundtrip_null_email :
  let '(dlg1, f1) := LecturerDialog_init true (Some 1) gui_conn in
  exists c1, LecturerDialog_save_lecturer dlg1 f1 gui_conn = Done c1 [Shown Information "Success"] true /\
    lecturers (db c1) = [Lecturer.mk 1 (us "Binh") (us "Pham") (Some []) (Some []);
                         Lecturer.mk 2 (us "Chi") (us "Vu") None None] /\
    let '(dlg2, f2) := LecturerDialog_init true (Some 2) c1 in
    LecturerDialog_save_lecturer dlg2 f2 c1 = Done c1 [Shown Critical "Error"] false.
Proof. vm_compute. eexists. split; [reflexivity | split; reflexivity]. Qed.

(** Opening a class of 1999 with five seats and saving it unchanged
    moves it to 2000 with ten seats (the spin boxes clamp to
    [2000, 2035] and [10, 200]) and turns its NULL name into ''. *)
Example ClassDialog_roundtrip_clamps :
  let '(dlg, f, _) := ClassDialog_init true (Some 1) gui_conn in
  exists c', ClassDialog_save_class dlg f gui_conn = Done c' [Shown Information "Success"] true /\
    classes (db c') = [Class.mk 1 (us "CS101") (Some 1) (Some []) (us "S1") 2000 10].
Proof. vm_compute. eexists. split; reflexivity. Qed.

(** ** Witnesses *)


Lemma EnrollmentDialog_save_edit_witness :
  enr_edit_mode edit_enrollment_dialog = true /\
  EnrollmentDialog_save_enrollment edit_enrollment_dialog enrollment_form_init gui_conn =
    Done (mkConn (set_enrollments gui_db
            ((fun e => if (Enrollment.StudentID e =? 1) && (Enrollment.ClassID e =? 1) then
                         Enrollment.mk 1 1 (if 0 <? spin_grade enrollment_form_init then Some (spin_grade enrollment_form_init) else None)
                           (if bool_decide (combo_currentText (combo_letter enrollment_form_init) = []) then None
                            else Some (combo_currentText (combo_letter enrollment_form_init)))
                           (if bool_decide (py_strip (txt_note enrollment_form_init) = []) then None
                            else Some (py_strip (txt_note enrollment_form_init)))
                       else e) <$> enrollments gui_db)) true)
      [Shown Information "Success"] true.
Proof.
  split; [reflexivity|].
  apply (EnrollmentDialog_save_edit edit_enrollment_dialog enrollment_form_init gui_conn 1 1);
    first [reflexivity | simpl; lia].
Defined.

Lemma SubjectDialog_edit_roundtrip_witness :
  up gui_conn = true /\
  SubjectDialog_save_subject (SubjectDialog_init true (PStr (us "CS101")) gui_conn).1
    (SubjectDialog_init true (PStr (us "CS101")) gui_conn).2 gui_conn = Done gui_conn [Shown Information "Success"] true.
Proof.
  split; [reflexivity|].
  apply (SubjectDialog_edit_roundtrip gui_conn (Subject.mk (us "CS101") (us "Intro") 3));
    first [reflexivity | simpl; lia | vm_compute; discriminate].
Defined.
