(* ===== verification/Pages.v ===== *)
(** * Pages: the table pages of main_win.py

    [BaseTablePage] and its five subclasses (Students, Subjects,
    Lecturers, Classes, Enrollments) show a table read from the models
    and run the Add, Edit and Delete buttons.  Each [load_data] is a
    function from the connection to the table it shows (or [None] when
    the read fails and a critical box is shown); each button is a slot
    returning a [slot_result] of [Widgets]:
    - Add and Edit open a modal dialog ([StudentDialog] or a dialog of
      [Dialogs]); [run_dialog] is [dialog.exec()]: the user edits the
      widgets and presses Save until the dialog accepts, or closes it;
    - Delete asks for confirmation and calls the model's [delete].

    [gui_action] lists what a user can do on the pages and
    [run_gui_action] runs one (the main window of [MainWindow] composes
    them); an exception escaping a slot aborts the application.  The initial widget values of
    [StudentDialog] come from StudentDialogUI.py, which is not in the
    repository: they are the parameter [student_form0]. *)
From Stdlib Require Import QArith.
From S2P Require Import Prelude PyModel Storage Query Validators Sql Models Reads Reports Widgets Csv StudentDialog Dialogs.
Local Open Scope Z_scope.

Section Pages.
  Context `{PyUnicode} `{!PyDigit} `{Collation}.
  Context (student_form0 : student_form).

  (** [dialog.exec()] for a dialog whose Save button runs [save]: each
      element of [edits] is what the user changes in the widgets before
      pressing Save; the dialog closes when a save accepts it; the user
      closes it (Cancel) after the last press. *)
Fixpoint run_dialog {F} (save : F -> conn -> slot_result) (f : F) (edits : list (F -> F)) (c : conn)
      (msgs : list shown) : slot_result :=
    match edits with
    | [] => Done c msgs false
    | e :: es =>
        let f' := e f in
        match save f' c with
        | Done c' m true => Done c' (msgs ++ m) true
        | Done c' m false => run_dialog save f' es c' (msgs ++ m)
        | Escaped c' x => Escaped c' x
        end
    end.

  (** The selected cell as the slots test it: [if not student_id]. *)
Definition selected_text (sel : selection) (column : nat) : option ustr :=
    match get_selected_row_data sel column with
    | Some t => if bool_decide (t = []) then None else Some t
    | None => None
    end.

  (** The end of every Delete slot (e.g. lines 324-329): success box and
      refresh, or a critical box. *)
Definition delete_outcome {A} (c : conn) (r : result exc (conn * A)) : slot_result :=
    match r with
    | Ok (c', _) => Done c' [Shown Information "Success"] false
    | Err _ => Done c [Shown Critical "Error"] false
    end.

Definition select_warning (c : conn) : slot_result := Done c [Shown Warning "Warning"] false.

  (** ** StudentsPage (lines 246-329) *)

Definition student_headers : list ustr :=
    us <$> ["ID"; "First Name"; "Last Name"; "DOB"; "Gender"; "Email"; "Phone"; "Enrollment Year"; "Major"].

  (** Lines 268-277: the cells of one student; [student.get('Email', '')]
      is [None] for NULL, shown as an empty item. *)
Definition student_cells (s : Student.t) : list (option ustr) :=
    Some <$> [py_str_int (Student.StudentID s); Student.FirstName s; Student.LastName s; Student.DOB s;
              Student.Gender s; default [] (Student.Email s); default [] (Student.Phone s);
              py_str_int (Student.EnrollmentYear s); default [] (Student.Major s)].

  (** [load_data(search_term)] (lines 261-285): a failed read is [None],
      and [len(None)] raises [TypeError] (a critical box, the table left
      as it was). *)
Definition StudentsPage_load_data (c : conn) (search_term : ustr) : option table :=
    let q := if bool_decide (search_term = []) then StudentModel_list c 500 0 "StudentID"
             else StudentModel_search c search_term None in
    (fun ss => {| tbl_headers := Some <$> student_headers; tbl_rows := student_cells <$> ss |}) <$> q.

  (** [on_add] (lines 291-295) *)
Definition StudentsPage_on_add (edits : list (student_form -> student_form)) (c : conn) : slot_result :=
    let '(dlg, msgs) := StudentDialog_init false None c in
    run_dialog (StudentDialog_save_student dlg) student_form0 edits c msgs.

  (** [on_edit] (lines 297-306): [int(student_id)] is outside any [try]. *)
Definition StudentsPage_on_edit (sel : selection) (edits : list (student_form -> student_form)) (c : conn)
      : slot_result :=
    match selected_text sel 0 with
    | None => select_warning c
    | Some t =>
        match py_int (PStr t) with
        | Err e => Escaped c e
        | Ok sid =>
            let '(dlg, msgs) := StudentDialog_init true (Some sid) c in
            run_dialog (StudentDialog_save_student dlg) student_form0 edits c msgs
        end
    end.

  (** [on_delete] (lines 308-329) *)
Definition StudentsPage_on_delete (sel : selection) (yes : bool) (c : conn) : slot_result :=
    match selected_text sel 0 with
    | None => select_warning c
    | Some t =>
        if negb yes then Done c [] false else
        delete_outcome c (sid <- py_int (PStr t);; StudentModel_delete c sid)
    end.

  (** ** SubjectsPage (lines 337-409) *)

Definition subject_cells (s : Subject.t) : list (option ustr) :=
    Some <$> [Subject.SubjectCode s; Subject.SubjectName s; py_str_int (Subject.Credits s)].

  (** [setup_table_columns] (lines 345-349) *)
Definition subject_headers : list ustr := us <$> ["Subject Code"; "Subject Name"; "Credits"].

  (** [load_data] (lines 351-365) *)
Definition SubjectsPage_load_data (c : conn) : option table :=
    (fun ss => {| tbl_headers := Some <$> subject_headers;
                  tbl_rows := subject_cells <$> ss |}) <$> SubjectModel_list c.

  (** [on_add] (lines 371-375) *)
Definition SubjectsPage_on_add (edits : list (subject_form -> subject_form)) (c : conn) : slot_result :=
    let '(dlg, f) := SubjectDialog_init false PNone c in
    run_dialog (SubjectDialog_save_subject dlg) f edits c [].

  (** [on_edit] (lines 377-386) *)
Definition SubjectsPage_on_edit (sel : selection) (edits : list (subject_form -> subject_form)) (c : conn)
      : slot_result :=
    match selected_text sel 0 with
    | None => select_warning c
    | Some code =>
        let '(dlg, f) := SubjectDialog_init true (PStr code) c in
        run_dialog (SubjectDialog_save_subject dlg) f edits c []
    end.

  (** [on_delete] (lines 388-409) *)
Definition SubjectsPage_on_delete (sel : selection) (yes : bool) (c : conn) : slot_result :=
    match selected_text sel 0 with
    | None => select_warning c
    | Some code => if negb yes then Done c [] false else delete_outcome c (SubjectModel_delete c (PStr code))
    end.

  (** ** LecturersPage (lines 417-490) *)

Definition lecturer_cells (l : Lecturer.t) : list (option ustr) :=
    Some <$> [py_str_int (Lecturer.LecturerID l); Lecturer.LecturerFirstName l; Lecturer.LecturerLastName l;
              default [] (Lecturer.LecturerEmail l); default [] (Lecturer.Office l)].

  (** [setup_table_columns] (lines 425-429) *)
Definition lecturer_headers : list ustr := us <$> ["ID"; "First Name"; "Last Name"; "Email"; "Office"].

  (** [load_data] (lines 431-447) *)
Definition LecturersPage_load_data (c : conn) : option table :=
    (fun ls => {| tbl_headers := Some <$> lecturer_headers;
                  tbl_rows := lecturer_cells <$> ls |}) <$> LecturerModel_list c.

  (** [on_add] (lines 452-456) *)
Definition LecturersPage_on_add (edits : list (lecturer_form -> lecturer_form)) (c : conn) : slot_result :=
    let '(dlg, f) := LecturerDialog_init false None c in
    run_dialog (LecturerDialog_save_lecturer dlg) f edits c [].

  (** [on_edit] (lines 458-467) *)
Definition LecturersPage_on_edit (sel : selection) (edits : list (lecturer_form -> lecturer_form)) (c : conn)
      : slot_result :=
    match selected_text sel 0 with
    | None => select_warning c
    | Some t =>
        match py_int (PStr t) with
        | Err e => Escaped c e
        | Ok lid =>
            let '(dlg, f) := LecturerDialog_init true (Some lid) c in
            run_dialog (LecturerDialog_save_lecturer dlg) f edits c []
        end
    end.

  (** [on_delete] (lines 469-490) *)
Definition LecturersPage_on_delete (sel : selection) (yes : bool) (c : conn) : slot_result :=
    match selected_text sel 0 with
    | None => select_warning c
    | Some t =>
        if negb yes then Done c [] false else
        delete_outcome c (lid <- py_int (PStr t);; LecturerModel_delete c lid)
    end.

  (** ** ClassesPage (lines 498-595) *)

  (** Lines 519-530: the lecturer's name when [LecturerFirstName] is set. *)
Definition class_cells (r : ClassListRow.t) : list (option ustr) :=
    let k := ClassListRow.cls r in
    let lecturer_name := match ClassListRow.LecturerFirstName r with
                         | Some f => if bool_decide (f = []) then []
                                     else f ++ [32] ++ default [] (ClassListRow.LecturerLastName r)
                         | None => []
                         end in
    Some <$> [py_str_int (Class.ClassID k); ClassListRow.SubjectName r; lecturer_name;
              default [] (Class.ClassName k); Class.Semester k; py_str_int (Class.Year k);
              py_str_int (Class.MaxCapacity k); py_str_int (ClassListRow.EnrolledCount r)].

  (** [setup_table_columns] (lines 506-511) *)
Definition class_headers : list ustr :=
    us <$> ["Class ID"; "Subject"; "Lecturer"; "Class Name"; "Semester"; "Year"; "Capacity"; "Enrolled"].

  (** [load_data] (lines 513-536) *)
Definition ClassesPage_load_data (c : conn) : option table :=
    (fun rs => {| tbl_headers := Some <$> class_headers;
                  tbl_rows := class_cells <$> rs |}) <$> ClassModel_list c PNone PNone.

  (** [on_add] (lines 541-545) *)
Definition ClassesPage_on_add (edits : list (class_form -> class_form)) (c : conn) : slot_result :=
    let '(dlg, f, msgs) := ClassDialog_init false None c in
    run_dialog (ClassDialog_save_class dlg) f edits c msgs.

  (** [on_edit] (lines 547-556) *)
Definition ClassesPage_on_edit (sel : selection) (edits : list (class_form -> class_form)) (c : conn)
      : slot_result :=
    match selected_text sel 0 with
    | None => select_warning c
    | Some t =>
        match py_int (PStr t) with
        | Err e => Escaped c e
        | Ok cid =>
            let '(dlg, f, msgs) := ClassDialog_init true (Some cid) c in
            run_dialog (ClassDialog_save_class dlg) f edits c msgs
        end
    end.

  (** [on_delete] (lines 558-580) *)
Definition ClassesPage_on_delete (sel : selection) (yes : bool) (c : conn) : slot_result :=
    match selected_text sel 0 with
    | None => select_warning c
    | Some t =>
        if negb yes then Done c [] false else
        delete_outcome c (cid <- py_int (PStr t);; ClassModel_delete c cid)
    end.

  (** ** EnrollmentsPage (lines 603-697) *)

  (** Lines 627-636: [str(enr.get('Grade', ''))] of a NULL grade is the
      text 'None'. *)
Definition enrollment_cells (r : CompleteRow.t) : list (option ustr) :=
    Some <$> [py_str_int (CompleteRow.StudentID r);
              CompleteRow.StudentFirstName r ++ [32] ++ CompleteRow.StudentLastName r;
              py_str_int (CompleteRow.ClassID r); CompleteRow.SubjectName r; CompleteRow.Semester r;
              py_str_int (CompleteRow.Year r);
              match CompleteRow.Grade r with Some g => sql_text (SDec g) | None => us "None" end;
              default [] (CompleteRow.GradeLetter r)].

  (** [setup_table_columns] (lines 611-616) *)
Definition enrollment_headers : list ustr :=
    us <$> ["Student ID"; "Student Name"; "Class ID"; "Subject"; "Semester"; "Year"; "Grade"; "Grade Letter"].

  (** [load_data] (lines 618-641) *)
Definition EnrollmentsPage_load_data (c : conn) : option table :=
    match query_complete_enrollment_info c PNone PNone PNone PNone PNone with
    | Ok rs => Some {| tbl_headers := Some <$> enrollment_headers;
                       tbl_rows := enrollment_cells <$> rs |}
    | Err _ => None
    end.

  (** [on_add] (lines 646-650) *)
Definition EnrollmentsPage_on_add (edits : list (enrollment_form -> enrollment_form)) (c : conn) : slot_result :=
    let '(dlg, f, msgs) := EnrollmentDialog_init false None None c in
    run_dialog (EnrollmentDialog_save_enrollment dlg) f edits c msgs.

  (** [on_edit] (lines 652-665) *)
Definition EnrollmentsPage_on_edit (sel : selection) (edits : list (enrollment_form -> enrollment_form))
      (c : conn) : slot_result :=
    match selected_text sel 0, selected_text sel 2 with
    | Some ts, Some tc =>
        match py_int (PStr ts), py_int (PStr tc) with
        | Ok sid, Ok cid =>
            let '(dlg, f, msgs) := EnrollmentDialog_init true (Some sid) (Some cid) c in
            run_dialog (EnrollmentDialog_save_enrollment dlg) f edits c msgs
        | Err e, _ | _, Err e => Escaped c e
        end
    | _, _ => select_warning c
    end.

  (** [on_delete] (lines 667-694) *)
Definition EnrollmentsPage_on_delete (sel : selection) (yes : bool) (c : conn) : slot_result :=
    match selected_text sel 0, selected_text sel 2 with
    | Some ts, Some tc =>
        if negb yes then Done c [] false else
        delete_outcome c (sid <- py_int (PStr ts);; cid <- py_int (PStr tc);; EnrollmentModel_delete c sid cid)
    | _, _ => select_warning c
    end.

  (** ** Sessions of the GUI *)

Inductive gui_action :=
| AStudentsAdd (edits : list (student_form -> student_form))
| AStudentsEdit (sel : selection) (edits : list (student_form -> student_form))
| AStudentsDelete (sel : selection) (yes : bool)
| ASubjectsAdd (edits : list (subject_form -> subject_form))
| ASubjectsEdit (sel : selection) (edits : list (subject_form -> subject_form))
| ASubjectsDelete (sel : selection) (yes : bool)
| ALecturersAdd (edits : list (lecturer_form -> lecturer_form))
| ALecturersEdit (sel : selection) (edits : list (lecturer_form -> lecturer_form))
| ALecturersDelete (sel : selection) (yes : bool)
| AClassesAdd (edits : list (class_form -> class_form))
| AClassesEdit (sel : selection) (edits : list (class_form -> class_form))
| AClassesDelete (sel : selection) (yes : bool)
| AEnrollmentsAdd (edits : list (enrollment_form -> enrollment_form))
| AEnrollmentsEdit (sel : selection) (edits : list (enrollment_form -> enrollment_form))
| AEnrollmentsDelete (sel : selection) (yes : bool).

Definition run_gui_action (a : gui_action) (c : conn) : slot_result :=
    match a with
    | AStudentsAdd es => StudentsPage_on_add es c
    | AStudentsEdit sel es => StudentsPage_on_edit sel es c
    | AStudentsDelete sel y => StudentsPage_on_delete sel y c
    | ASubjectsAdd es => SubjectsPage_on_add es c
    | ASubjectsEdit sel es => SubjectsPage_on_edit sel es c
    | ASubjectsDelete sel y => SubjectsPage_on_delete sel y c
    | ALecturersAdd es => LecturersPage_on_add es c
    | ALecturersEdit sel es => LecturersPage_on_edit sel es c
    | ALecturersDelete sel y => LecturersPage_on_delete sel y c
    | AClassesAdd es => ClassesPage_on_add es c
    | AClassesEdit sel es => ClassesPage_on_edit sel es c
    | AClassesDelete sel y => ClassesPage_on_delete sel y c
    | AEnrollmentsAdd es => EnrollmentsPage_on_add es c
    | AEnrollmentsEdit sel es => EnrollmentsPage_on_edit sel es c
    | AEnrollmentsDelete sel y => EnrollmentsPage_on_delete sel y c
    end.

End Pages.

(** * Properties of the pages *)


Section PagesProperties.
  Context `{PyUnicode} `{!PyDigit} `{Collation}.
  Context (student_form0 : student_form).




  (** C15. The Delete buttons of the five pages change nothing unless a
      row is selected and the user answers Yes: without a selection they
      warn, on No they return. *)
Theorem pages_delete_needs_confirmation (sel : selection) (yes : bool) (c : conn) :
    (selected_text sel 0 = None \/ yes = false) ->
    slot_conn (StudentsPage_on_delete sel yes c) = c /\
    slot_conn (SubjectsPage_on_delete sel yes c) = c /\
    slot_conn (LecturersPage_on_delete sel yes c) = c /\
    slot_conn (ClassesPage_on_delete sel yes c) = c /\
    slot_conn (EnrollmentsPage_on_delete sel yes c) = c.
  Proof.
    intros [Hs| ->];
      unfold StudentsPage_on_delete, SubjectsPage_on_delete, LecturersPage_on_delete, ClassesPage_on_delete,
        EnrollmentsPage_on_delete; [rewrite Hs | ]; repeat case_match; done.
  Qed.


  (** C17. Loading the Students page and exporting it writes a CSV file
      that reads back as the column titles followed by the texts of the
      students [StudentModel.list] returned, one row per student in the
      order shown: [load_data], [on_export] and the CSV reader compose. *)
Theorem StudentsPage_export_roundtrip (c : conn) (ss : list Student.t) (filename : ustr) :
    StudentModel_list c 500 0 "StudentID" = Some ss -> ss <> [] -> filename <> [] ->
    exists t file, StudentsPage_load_data c [] = Some t /\
      BaseTablePage_on_export t filename true = (Some file, [Shown Information "Success"]) /\
      csv_read file = Some (student_headers :: ((fun s => default [] <$> student_cells s) <$> ss)).
  Proof.
    intros Hl Hss Hf. unfold StudentsPage_load_data. rewrite bool_decide_eq_true_2 by done. rewrite Hl.
    eexists. destruct (on_export_reads_back
                         {| tbl_headers := Some <$> student_headers; tbl_rows := student_cells <$> ss |} filename)
      as (file & Hexp & Hread & _); [by destruct ss | done |].
    exists file. split; [done|]. split; [done|]. rewrite Hread, table_header_texts_some.
    f_equal. f_equal. cbn [tbl_rows]. rewrite <- list_fmap_compose. apply list_fmap_ext. intros _ s _. simpl.
    unfold student_cells. rewrite table_row_texts_some by done.
    reflexivity.
  Qed.
End PagesProperties.

(** ** The Enrollments page shows the text None for a missing grade *)

(** [str(enr.get('Grade', ''))] of an ungraded enrollment is the
    text 'None' in the Grade column, where the letter column shows an
    empty cell. *)
Example EnrollmentsPage_shows_None :
  exists t, EnrollmentsPage_load_data
              (mkConn (mkDb [ex_student] [Subject.mk (us "CS101") (us "Intro") 3] []
                         [Class.mk 1 (us "CS101") None None (us "S1") 2024 60]
                         [Enrollment.mk 1 1 None None None] 2 1 2) true) = Some t /\
    tbl_rows t = [[Some (us "1"); Some (us "An Le"); Some (us "1"); Some (us "Intro"); Some (us "S1");
                   Some (us "2024"); Some (us "None"); Some []]].
Proof. eexists. split; [vm_compute; reflexivity | vm_compute; reflexivity]. Qed.

(** ** Witnesses *)



Lemma pages_delete_needs_confirmation_witness :
  (selected_text None 0 = None \/ true = false) /\
  (slot_conn (StudentsPage_on_delete None true ex_conn) = ex_conn /\
   slot_conn (SubjectsPage_on_delete None true ex_conn) = ex_conn /\
   slot_conn (LecturersPage_on_delete None true ex_conn) = ex_conn /\
   slot_conn (ClassesPage_on_delete None true ex_conn) = ex_conn /\
   slot_conn (EnrollmentsPage_on_delete None true ex_conn) = ex_conn).
Proof. split; [left; reflexivity | apply pages_delete_needs_confirmation; left; reflexivity]. Defined.


Lemma StudentsPage_export_roundtrip_witness :
  StudentModel_list gui_conn 500 0 "StudentID" = Some [ex_student] /\
  exists t file, StudentsPage_load_data gui_conn [] = Some t /\
    BaseTablePage_on_export t (us "students.csv") true = (Some file, [Shown Information "Success"]) /\
    csv_read file = Some (student_headers :: ((fun s => default [] <$> student_cells s) <$> [ex_student])).
Proof.
  split; [vm_compute; reflexivity|].
  apply StudentsPage_export_roundtrip; [vm_compute; reflexivity | discriminate | discriminate].
Defined.
