(* ===== verification/QueryPages.v ===== *)
(** * QueryPages: the query pages and the dashboard of main_win.py

    [Query1Page] to [Query4Page] each show the result of one method of
    [QueryModels] in a [QTableWidget] and export it with
    [export_query_to_csv]; [DashboardPage] shows the KPIs, a bar chart
    of the grade distribution and the ten best students.

    A query row reaches the page as the dictionary mysql-connector builds
    ([dict_row] of [Csv]): the column names of the SELECT list zipped
    with the row's values.  The table of a page is state: [load_data]
    rewrites it only when the query returned rows, and a cell shows
    [str(value) if value else ''].  Widget signals are explicit: a combo
    box or spin box reloads the page only when its index or value
    changes, as Qt emits [currentIndexChanged] and [valueChanged] only
    then.  Colours (the green of positive differences on Query 4) and
    the layout are not modelled. *)
From S2P Require Import Prelude PyModel Storage Query Validators Reads Reports Widgets Csv.
Local Open Scope Z_scope.

Section QueryPages.
  Context `{PyUnicode} `{Collation}.

  (** ** Rows as dictionaries *)

  (** [cursor(dictionary=True)]: the column names zipped with the
      values. *)
Definition grade_columns : list string :=
    ["StudentID"; "FirstName"; "LastName"; "SubjectCode"; "SubjectName"; "ClassID"; "ClassName";
     "Semester"; "Year"; "Grade"; "GradeLetter"].

Definition grade_values (r : GradeRow.t) : list sqlval :=
    [SInt (GradeRow.StudentID r); SStr (GradeRow.FirstName r); SStr (GradeRow.LastName r);
      SStr (GradeRow.SubjectCode r); SStr (GradeRow.SubjectName r); SInt (GradeRow.ClassID r);
      sql_opt_str (GradeRow.ClassName r); SStr (GradeRow.Semester r); SInt (GradeRow.Year r);
      sql_opt_dec (GradeRow.Grade r); sql_opt_str (GradeRow.GradeLetter r)].

Definition grade_row_dict (r : GradeRow.t) : dict_row := zip grade_columns (grade_values r).

Definition student_grade_columns : list string :=
    ["StudentID"; "FirstName"; "LastName"; "Email"; "Major"; "ClassID"; "ClassName"; "Semester";
     "Year"; "Grade"; "GradeLetter"; "TotalEnrollments"].

Definition student_grade_values (r : StudentGradeRow.t) : list sqlval :=
    [SInt (StudentGradeRow.StudentID r); SStr (StudentGradeRow.FirstName r);
      SStr (StudentGradeRow.LastName r); sql_opt_str (StudentGradeRow.Email r);
      sql_opt_str (StudentGradeRow.Major r); sql_opt_int (StudentGradeRow.ClassID r);
      sql_opt_str (StudentGradeRow.ClassName r); sql_opt_str (StudentGradeRow.Semester r);
      sql_opt_int (StudentGradeRow.Year r); sql_opt_dec (StudentGradeRow.Grade r);
      sql_opt_str (StudentGradeRow.GradeLetter r); SInt (StudentGradeRow.TotalEnrollments r)].

Definition student_grade_row_dict (r : StudentGradeRow.t) : dict_row := zip student_grade_columns (student_grade_values r).

Definition complete_columns : list string :=
    ["StudentID"; "StudentFirstName"; "StudentLastName"; "StudentEmail"; "Major"; "SubjectCode";
     "SubjectName"; "Credits"; "ClassID"; "ClassName"; "Semester"; "Year"; "LecturerID";
     "LecturerFirstName"; "LecturerLastName"; "LecturerName"; "Office"; "Grade"; "GradeLetter"; "Note"].

Definition complete_values (r : CompleteRow.t) : list sqlval :=
    [SInt (CompleteRow.StudentID r); SStr (CompleteRow.StudentFirstName r);
      SStr (CompleteRow.StudentLastName r); sql_opt_str (CompleteRow.StudentEmail r);
      sql_opt_str (CompleteRow.Major r); SStr (CompleteRow.SubjectCode r);
      SStr (CompleteRow.SubjectName r); SInt (CompleteRow.Credits r); SInt (CompleteRow.ClassID r);
      sql_opt_str (CompleteRow.ClassName r); SStr (CompleteRow.Semester r); SInt (CompleteRow.Year r);
      sql_opt_int (CompleteRow.LecturerID r); sql_opt_str (CompleteRow.LecturerFirstName r);
      sql_opt_str (CompleteRow.LecturerLastName r); sql_opt_str (CompleteRow.LecturerName r);
      sql_opt_str (CompleteRow.Office r); sql_opt_dec (CompleteRow.Grade r);
      sql_opt_str (CompleteRow.GradeLetter r); sql_opt_str (CompleteRow.Note r)].

Definition complete_row_dict (r : CompleteRow.t) : dict_row := zip complete_columns (complete_values r).

Definition above_avg_columns : list string :=
    ["StudentID"; "FirstName"; "LastName"; "Email"; "Major"; "StudentAvg"; "GlobalAvg";
     "TotalClasses"; "DifferenceFromAvg"].

Definition above_avg_values (r : AboveAvgRow.t) : list sqlval :=
    [SInt (AboveAvgRow.StudentID r); SStr (AboveAvgRow.FirstName r); SStr (AboveAvgRow.LastName r);
      sql_opt_str (AboveAvgRow.Email r); sql_opt_str (AboveAvgRow.Major r);
      SDec (AboveAvgRow.StudentAvg r); sql_opt_dec (AboveAvgRow.GlobalAvg r);
      SInt (AboveAvgRow.TotalClasses r); sql_opt_dec (AboveAvgRow.DifferenceFromAvg r)].

Definition above_avg_row_dict (r : AboveAvgRow.t) : dict_row := zip above_avg_columns (above_avg_values r).

  (** ** The table of a query page *)

  (** Python's truth value of a column value: NULL, 0, 0.00 and '' are
      false. *)
Definition sql_truthy (v : sqlval) : bool :=
    match v with
    | SNull => false
    | SInt z => negb (z =? 0)
    | SStr s => negb (bool_decide (s = []))
    | SDec h => negb (h =? 0)
    end.

  (** [str(value)], with [str(None)] = 'None'. *)
Definition py_str_sql (v : sqlval) : ustr :=
    match v with SNull => us "None" | _ => sql_text v end.

  (** [QTableWidgetItem(str(value) if value else '')] *)
Definition query_cell (v : sqlval) : ustr := if sql_truthy v then py_str_sql v else [].

Record qtable := QTable { qt_headers : list ustr; qt_rows : list (list ustr) }.

  (** Lines 802-810: with rows, the columns are the keys of the first
      row and every row is written; without rows the table is left as
      it was. *)
Definition fill_table (t : qtable) (results : list dict_row) : qtable :=
    match results with
    | [] => t
    | r0 :: _ => QTable (us <$> r0.*1) ((fun r => query_cell <$> r.*2) <$> results)
    end.

  (** A page's table and its status label. *)
Record query_view := QueryView { qv_table : qtable; qv_status : ustr }.

Definition query_view0 : query_view := QueryView (QTable [] []) [].

Definition found_text (n : nat) : ustr := us "Found " ++ py_str_int (Z.of_nat n) ++ us " records".

  (** The end of the [try] of [load_data] on the query's result: the
      table and the label, or a critical box when the query raised. *)
Definition show_query (v : query_view) (r : result exc (list dict_row)) : query_view * list shown :=
    match r with
    | Ok rows => (QueryView (fill_table (qv_table v) rows) (found_text (length rows)), [])
    | Err _ => (v, [Shown Critical "Error"])
    end.

  (** [export_csv] of a query page: no [try]; the query is run again and
      an exception it raises escapes the slot.  Returns the file written
      and the outcome; [filename] is the answer of the save dialog. *)
Definition query_export (c : conn) (r : result exc (list dict_row)) (filename : ustr) (can_write : bool)
      : option ustr * slot_result :=
    if bool_decide (filename = []) then (None, Done c [] false) else
    match r with
    | Err e => (None, Escaped c e)
    | Ok rows =>
        let '(file, ok) := export_query_to_csv rows can_write in
        (file, Done c (if ok then [Shown Information "Success"] else []) false)
    end.

  (** ** Query1Page (lines 699-833): grades by subject *)

Record Query1Page := { q1_subject : combo (option ustr); q1_view : query_view }.

  (** Lines 789-793: the item of a subject in the filter box. *)
Definition subject_item (s : Subject.t) : ustr * option ustr :=
    (Subject.SubjectCode s ++ us " - " ++ Subject.SubjectName s, Some (Subject.SubjectCode s)).

  (** The filter: [currentData()], [None] for All Subjects. *)
Definition q1_filter (p : Query1Page) : pyval := from_option PStr PNone (combo_currentData (q1_subject p)).

  (** [load_data] (lines 782-815): the subjects are added once, while the
      box holds only All Subjects; [for subject in None] raises when
      the list fails. *)
Definition Query1Page_load_data (c : conn) (p : Query1Page) : Query1Page * list shown :=
    let cb := q1_subject p in
    let cb' := if bool_decide (length (cb_items cb) = 1%nat)
               then foldl (fun cb s => combo_add cb (subject_item s).1 (subject_item s).2) cb <$> SubjectModel_list c
               else Some cb in
    match cb' with
    | None => (p, [Shown Critical "Error"])
    | Some cb' =>
        let p' := {| q1_subject := cb'; q1_view := q1_view p |} in
        let '(v, msgs) := show_query (q1_view p) (res_map (fmap grade_row_dict) (query_student_grades_by_subject c (q1_filter p'))) in
        ({| q1_subject := cb'; q1_view := v |}, msgs)
    end.

  (** [__init__]: the box with All Subjects, then [load_data()]. *)
Definition Query1Page_init (c : conn) : Query1Page * list shown :=
    Query1Page_load_data c {| q1_subject := combo_of [(us "All Subjects", None)]; q1_view := query_view0 |}.

  (** Choosing the [i]-th subject: [currentIndexChanged] runs
      [load_data] when the index changes. *)
Definition Query1Page_select (c : conn) (p : Query1Page) (i : nat) : Query1Page * list shown :=
    let cb := combo_setCurrentIndex (q1_subject p) i in
    if bool_decide (cb_current cb = cb_current (q1_subject p)) then (p, [])
    else Query1Page_load_data c {| q1_subject := cb; q1_view := q1_view p |}.

  (** [export_csv] (lines 817-833) *)
Definition Query1Page_export_csv (c : conn) (p : Query1Page) (filename : ustr) (can_write : bool)
      : option ustr * slot_result :=
    query_export c (res_map (fmap grade_row_dict) (query_student_grades_by_subject c (q1_filter p))) filename can_write.

  (** ** Query2Page (lines 836-940): all students with their grades *)

Definition Query2Page_load_data (c : conn) (v : query_view) : query_view * list shown :=
    show_query v (res_map (fmap student_grade_row_dict) (query_all_students_with_grades c)).

  (** [__init__] and [setup_ui] (lines 846-903): the empty table and
      status label, then [load_data()]. *)
Definition Query2Page_init (c : conn) : query_view * list shown := Query2Page_load_data c query_view0.

Definition Query2Page_export_csv (c : conn) (filename : ustr) (can_write : bool) : option ustr * slot_result :=
    query_export c (res_map (fmap student_grade_row_dict) (query_all_students_with_grades c)) filename can_write.

  (** ** Query3Page (lines 943-1068): complete enrollment information *)

Record Query3Page := { q3_semester : combo unit; q3_year : Z; q3_view : query_view }.

  (** Lines 1031-1032: All and the spin box's minimum 2020 (shown as
      All) mean no filter. *)
Definition q3_filters (p : Query3Page) : pyval * pyval :=
    let t := combo_currentText (q3_semester p) in
    (if bool_decide (t = us "All") then PNone else PStr t,
     if q3_year p =? 2020 then PNone else PInt (q3_year p)).

  (** [load_data] (lines 1028-1049) *)
Definition Query3Page_load_data (c : conn) (p : Query3Page) : Query3Page * list shown :=
    let '(sem, year) := q3_filters p in
    let '(v, msgs) := show_query (q3_view p)
                        (res_map (fmap complete_row_dict) (query_complete_enrollment_info c PNone PNone PNone sem year)) in
    ({| q3_semester := q3_semester p; q3_year := q3_year p; q3_view := v |}, msgs).

  (** Line 978: the items of the semester box. *)
Definition semester_items : list (ustr * unit) := (fun t => (us t, tt)) <$> ["All"; "S1"; "S2"; "S3"; "SUMMER"].

  (** [__init__]: the semesters, the year set to 2024 before the signal
      is connected, then [load_data()]. *)
Definition Query3Page_init (c : conn) : Query3Page * list shown :=
    Query3Page_load_data c {| q3_semester := combo_of semester_items;
                              q3_year := spin_set 2020 2030 2024; q3_view := query_view0 |}.

Definition Query3Page_select_semester (c : conn) (p : Query3Page) (i : nat) : Query3Page * list shown :=
    let cb := combo_setCurrentIndex (q3_semester p) i in
    if bool_decide (cb_current cb = cb_current (q3_semester p)) then (p, [])
    else Query3Page_load_data c {| q3_semester := cb; q3_year := q3_year p; q3_view := q3_view p |}.

Definition Query3Page_set_year (c : conn) (p : Query3Page) (y : Z) : Query3Page * list shown :=
    let y' := spin_set 2020 2030 y in
    if y' =? q3_year p then (p, [])
    else Query3Page_load_data c {| q3_semester := q3_semester p; q3_year := y'; q3_view := q3_view p |}.

  (** [export_csv] (lines 1051-1068) *)
Definition Query3Page_export_csv (c : conn) (p : Query3Page) (filename : ustr) (can_write : bool)
      : option ustr * slot_result :=
    let '(sem, year) := q3_filters p in
    query_export c (res_map (fmap complete_row_dict) (query_complete_enrollment_info c PNone PNone PNone sem year))
      filename can_write.

  (** ** Query4Page (lines 1071-1195): students above the global average *)

Record Query4Page := { q4_min_classes : Z; q4_view : query_view }.

  (** Line 1172: [results[0]['GlobalAvg'] if results else 0]. *)
Definition q4_status (rows : list dict_row) : ustr :=
    let g := match rows with r :: _ => default (us "None") (py_str_sql <$> assoc "GlobalAvg" r) | [] => us "0" end in
    us "Found " ++ py_str_int (Z.of_nat (length rows)) ++ us " students above global average (" ++ g ++ us ")".

  (** [load_data] (lines 1149-1175) *)
Definition Query4Page_load_data (c : conn) (p : Query4Page) : Query4Page * list shown :=
    match res_map (fmap above_avg_row_dict) (query_students_above_average c (q4_min_classes p)) with
    | Ok rows => ({| q4_min_classes := q4_min_classes p;
                     q4_view := QueryView (fill_table (qv_table (q4_view p)) rows) (q4_status rows) |}, [])
    | Err _ => (p, [Shown Critical "Error"])
    end.

Definition Query4Page_init (c : conn) : Query4Page * list shown :=
    Query4Page_load_data c {| q4_min_classes := spin_set 1 20 3; q4_view := query_view0 |}.

Definition Query4Page_set_min_classes (c : conn) (p : Query4Page) (n : Z) : Query4Page * list shown :=
    let n' := spin_set 1 20 n in
    if n' =? q4_min_classes p then (p, [])
    else Query4Page_load_data c {| q4_min_classes := n'; q4_view := q4_view p |}.

  (** [export_csv] (lines 1177-1195) *)
Definition Query4Page_export_csv (c : conn) (p : Query4Page) (filename : ustr) (can_write : bool)
      : option ustr * slot_result :=
    query_export c (res_map (fmap above_avg_row_dict) (query_students_above_average c (q4_min_classes p)))
      filename can_write.

  (** ** DashboardPage (lines 1200-1369) *)

  (** The five KPI labels, the bars of the chart ([None] when no plot is
      shown) and the rows of the Top 10 table. *)
Record Dashboard := {
    kpi_students : ustr; kpi_subjects : ustr; kpi_classes : ustr; kpi_avg_grade : ustr; kpi_pass_rate : ustr;
    chart : option (list (ustr * Z)); top_students : list (list ustr) }.

  (** [setup_ui] (lines 1220-1224): the initial card values. *)
Definition Dashboard0 : Dashboard :=
    {| kpi_students := us "0"; kpi_subjects := us "0"; kpi_classes := us "0"; kpi_avg_grade := us "0.00";
       kpi_pass_rate := us "0%"; chart := None; top_students := [] |}.

  (** [load_top_students] (lines 1353-1369): rank, name, average and
      number of classes; a failed query ([len(None)]) is caught and the
      table is left as it was. *)
Definition top_student_cells (i : nat) (r : TopRow.t) : list ustr :=
    [py_str_int (Z.of_nat i + 1); TopRow.FirstName r ++ [32] ++ TopRow.LastName r;
     sql_text (SDec (TopRow.AvgGrade r)); py_str_int (TopRow.TotalClasses r)].

Definition Dashboard_load_top_students (c : conn) (old : list (list ustr)) : list (list ustr) :=
    match query_top_students c 10 1 with
    | Some rows => imap top_student_cells rows
    | None => old
    end.

  (** [load_data] (lines 1288-1307): [kpis.get(key, 0)] on the dict of
      [get_dashboard_kpis], which is [{}] when the query failed; a NULL
      average or pass rate is the text 'None'.  The chart
      ([load_grade_distribution_chart], lines 1314-1351) deletes the old
      plot and draws one bar per (GradeRange, Count) row; with [None]
      the loop raises, which the function catches, leaving no plot. *)
Definition Dashboard_load_data (c : conn) (d : Dashboard) : Dashboard :=
    let k := get_dashboard_kpis c in
    let kpi (f : Kpis.t -> sqlval) := default (us "0") ((fun k => py_str_sql (f k)) <$> k) in
    {| kpi_students := kpi (fun k => SInt (Kpis.total_students k));
       kpi_subjects := kpi (fun k => SInt (Kpis.total_subjects k));
       kpi_classes := kpi (fun k => SInt (Kpis.total_classes k));
       kpi_avg_grade := kpi (fun k => sql_opt_dec (Kpis.avg_grade k));
       kpi_pass_rate := kpi (fun k => sql_opt_dec (Kpis.pass_rate k)) ++ us "%";
       chart := get_grade_distribution c;
       top_students := Dashboard_load_top_students c (top_students d) |}.

Definition Dashboard_init (c : conn) : Dashboard := Dashboard_load_data c Dashboard0.

  (** ** What a user does on Query 3 *)

  (** The filters of Query 3 are connected to [load_data] (lines 979
      and 987): choosing a semester or a year. *)
Inductive q3_action := Q3Semester (i : nat) | Q3Year (y : Z).

Definition Query3Page_step (c : conn) (p : Query3Page) (a : q3_action) : Query3Page :=
    match a with
    | Q3Semester i => (Query3Page_select_semester c p i).1
    | Q3Year y => (Query3Page_set_year c p y).1
    end.

Definition Query3Page_session (c : conn) (acts : list q3_action) : Query3Page :=
    foldl (Query3Page_step c) (Query3Page_init c).1 acts.
End QueryPages.

(** ** Example data *)

(** One student with one enrollment graded 0.00 in a class of 2024 (S1);
    the server up or down. *)
Definition qp_db : database :=
  mkDb [ex_student] [Subject.mk (us "CS101") (us "Intro") 3] []
    [Class.mk 1 (us "CS101") None None (us "S1") 2024 60]
    [Enrollment.mk 1 1 (Some 0) (Some (us "F")) None] 2 1 2.
Definition qp_conn : conn := mkConn qp_db true.
Definition qp_down : conn := mkConn qp_db false.

(** * Properties of the query pages *)

Section QueryPagesProperties.
  Context `{PyUnicode} `{Collation}.

(** The values of a cursor dictionary in the order of its columns. *)
Lemma row_values_zip (cols : list string) (vs : list sqlval) :
  NoDup cols -> length vs = length cols -> row_values cols (zip cols vs) = sql_text <$> vs.
Proof.
  unfold row_values. revert vs. induction cols as [|k cols IH]; intros [|v vs] Hnd Hl; simplify_eq/=; [done|].
  apply NoDup_cons in Hnd as [Hk Hnd]. rewrite String.eqb_refl. f_equal.
  rewrite <- (IH vs Hnd) by lia. apply list_fmap_ext. intros i k' Hi. simpl.
  destruct (String.eqb_spec k' k) as [->|]; [|done].
  destruct Hk. by eapply list_elem_of_lookup_2.
Qed.

(** Exporting the rows of a query whose SELECT list has distinct column
    names writes a file that reads back as the names and each row's
    values. *)
Lemma export_rows_roundtrip {A} (cols : list string) (vals : A -> list sqlval) (rs : list A)
    (c : conn) (filename : ustr) :
  NoDup cols -> (forall r, length (vals r) = length cols) -> rs <> [] -> filename <> [] ->
  exists file, query_export c (Ok ((fun r => zip cols (vals r)) <$> rs)) filename true
                 = (Some file, Done c [Shown Information "Success"] false) /\
    csv_read file = Some ((us <$> cols) :: ((fun r => sql_text <$> vals r) <$> rs)).
Proof.
  intros Hnd Hlen Hrs Hf. destruct rs as [|r0 rs']; [done|].
  assert (Hk : forall r, (zip cols (vals r)).*1 = cols) by (intros r; apply fst_zip; rewrite Hlen; lia).
  destruct (export_query_to_csv_roundtrip ((fun r => zip cols (vals r)) <$> r0 :: rs') (zip cols (vals r0))
              ((fun r => zip cols (vals r)) <$> rs')) as (file & Hexp & Hread); [done| |].
  - apply Forall_fmap, Forall_forall. intros r _. apply Forall_forall. intros kv Hkv.
    rewrite Hk, <- (Hk r). by apply list_elem_of_fmap_2.
  - exists file. unfold query_export. rewrite bool_decide_eq_false_2 by done. rewrite Hexp.
    split; [done|]. rewrite Hread, Hk. do 2 f_equal. rewrite <- list_fmap_compose.
    apply list_fmap_ext. intros _ r _. by apply row_values_zip.
Qed.

(** C19. Exporting Query 1 to a chosen file writes a CSV file that reads
    back as the eleven column names of the SELECT list followed by the
    values of every row [query_student_grades_by_subject] returns for
    the selected subject, in order, NULL as the empty text and a grade
    with its two decimals, and shows a success box. *)
Theorem Query1Page_export_roundtrip (c : conn) (p : Query1Page) (filename : ustr) (rs : list GradeRow.t) :
  query_student_grades_by_subject c (q1_filter p) = Ok rs -> rs <> [] -> filename <> [] ->
  exists file, Query1Page_export_csv c p filename true = (Some file, Done c [Shown Information "Success"] false) /\
    csv_read file = Some ((us <$> grade_columns) :: ((fun r => sql_text <$> grade_values r) <$> rs)).
Proof.
  intros Hq Hrs Hf. unfold Query1Page_export_csv. rewrite Hq.
  apply export_rows_roundtrip; [|done..]. apply (bool_decide_unpack _). vm_compute. exact I.
Qed.

(** C35. With the server unreachable, the Export CSV button of every query
    page lets [TypeError] escape the slot (the query raises on
    [len(None)] and [export_csv] has no [try]), which aborts the
    application, while [load_data] of the same page catches it and
    shows a critical box. *)
Theorem query_pages_export_unreachable (c : conn) (p1 : Query1Page) (p3 : Query3Page) (p4 : Query4Page)
    (v : query_view) (filename : ustr) (can_write : bool) :
  up c = false -> filename <> [] ->
  Query1Page_export_csv c p1 filename can_write = (None, Escaped c TypeError) /\
  Query2Page_export_csv c filename can_write = (None, Escaped c TypeError) /\
  Query3Page_export_csv c p3 filename can_write = (None, Escaped c TypeError) /\
  Query4Page_export_csv c p4 filename can_write = (None, Escaped c TypeError) /\
  Query2Page_load_data c v = (v, [Shown Critical "Error"]).
Proof.
  intros Hup Hf.
  unfold Query1Page_export_csv, Query2Page_export_csv, Query3Page_export_csv, Query4Page_export_csv,
    Query2Page_load_data, query_export, query_student_grades_by_subject, query_all_students_with_grades,
    query_complete_enrollment_info, query_students_above_average, execute_query.
  destruct (q3_filters p3). rewrite Hup, bool_decide_eq_false_2 by done. done.
Qed.

(** [QSpinBox.setValue] keeps the value in the range. *)
Lemma spin_set_range (lo hi v : Z) : lo <= hi -> lo <= spin_set lo hi v <= hi.
Proof. unfold spin_set. lia. Qed.

Lemma Query3Page_load_data_year (c : conn) (p : Query3Page) : q3_year (Query3Page_load_data c p).1 = q3_year p.
Proof. unfold Query3Page_load_data. destruct (q3_filters p), (show_query _ _). done. Qed.

Lemma Query3Page_steps_year (c : conn) (acts : list q3_action) (p : Query3Page) :
  2020 <= q3_year p <= 2030 -> 2020 <= q3_year (foldl (Query3Page_step c) p acts) <= 2030.
Proof.
  revert p. induction acts as [|[i|y] acts IH]; intros p Hy; simpl; [done| |]; apply IH.
  - unfold Query3Page_select_semester. case_bool_decide; [done|]. by rewrite Query3Page_load_data_year.
  - unfold Query3Page_set_year. case_match; [done|]. rewrite Query3Page_load_data_year. by apply spin_set_range.
Qed.

Lemma Query3Page_load_data_semester (c : conn) (p : Query3Page) :
  q3_semester (Query3Page_load_data c p).1 = q3_semester p.
Proof. unfold Query3Page_load_data. destruct (q3_filters p), (show_query _ _). done. Qed.

(** A reload with a successful query shows its rows and their number. *)
Lemma Query3Page_load_data_Ok (c : conn) (p : Query3Page) (rows : list dict_row) :
  res_map (fmap complete_row_dict)
    (query_complete_enrollment_info c PNone PNone PNone (q3_filters p).1 (q3_filters p).2) = Ok rows ->
  q3_view (Query3Page_load_data c p).1 = QueryView (fill_table (qv_table (q3_view p)) rows) (found_text (length rows)).
Proof. unfold Query3Page_load_data. destruct (q3_filters p). simpl. by intros ->. Qed.

(** The filters never change the items of the semester box. *)
Lemma Query3Page_step_items (c : conn) (p : Query3Page) (a : q3_action) :
  cb_items (q3_semester (Query3Page_step c p a)) = cb_items (q3_semester p).
Proof.
  destruct a as [i|y]; simpl.
  - unfold Query3Page_select_semester. case_bool_decide; [done|]. by rewrite Query3Page_load_data_semester.
  - unfold Query3Page_set_year. case_match; [done|]. by rewrite Query3Page_load_data_semester.
Qed.

(** Choosing the [i]-th semester selects it. *)
Lemma Query3Page_select_semester_current (c : conn) (p : Query3Page) (i : nat) :
  (i < length (cb_items (q3_semester p)))%nat ->
  let p' := (Query3Page_select_semester c p i).1 in
  q3_semester p' = combo_setCurrentIndex (q3_semester p) i /\ q3_year p' = q3_year p.
Proof.
  intros Hi. unfold Query3Page_select_semester. case_bool_decide as Hc.
  - destruct (q3_semester p) as [its cur] eqn:E. simpl in *. rewrite decide_True in Hc by done. subst cur. rewrite E. unfold combo_setCurrentIndex. simpl. by rewrite decide_True.
  - by rewrite Query3Page_load_data_semester, Query3Page_load_data_year.
Qed.

(** Setting a year of the range sets it; the page reloads when the year
    changes. *)
Lemma Query3Page_set_year_spec (c : conn) (p : Query3Page) (y : Z) :
  2020 <= y <= 2030 ->
  (Query3Page_set_year c p y).1 =
    if y =? q3_year p then p
    else (Query3Page_load_data c {| q3_semester := q3_semester p; q3_year := y; q3_view := q3_view p |}).1.
Proof.
  intros Hy. unfold Query3Page_set_year. replace (spin_set 2020 2030 y) with y by (unfold spin_set; lia).
  by destruct (y =? q3_year p).
Qed.

(** From any state of Query 3 whose box holds the semesters, choosing
    the semester, another year and then the year reaches those filters
    with the table and label of a fresh [load_data]. *)
Lemma Query3Page_reach_filters (c : conn) (p : Query3Page) (i : nat) (y : Z) :
  cb_items (q3_semester p) = semester_items -> (i < 5)%nat -> 2020 <= y <= 2030 ->
  let p' := foldl (Query3Page_step c) p [Q3Semester i; Q3Year (if y =? 2030 then 2020 else 2030); Q3Year y] in
  cb_current (q3_semester p') = Some i /\ q3_year p' = y /\
  forall rows, res_map (fmap complete_row_dict)
                 (query_complete_enrollment_info c PNone PNone PNone (q3_filters p').1 (q3_filters p').2) = Ok rows ->
    exists t, q3_view p' = QueryView (fill_table t rows) (found_text (length rows)).
Proof.
  intros Hits Hi Hy. simpl.
  destruct (Query3Page_select_semester_current c p i) as [Hs1 Hy1]; [by rewrite Hits|].
  set (p1 := (Query3Page_select_semester c p i).1) in *.
  set (y' := if y =? 2030 then 2020 else 2030).
  assert (Hy' : 2020 <= y' <= 2030 /\ y <> y') by (subst y'; destruct (Z.eqb_spec y 2030); lia).
  assert (Hp2 : q3_semester (Query3Page_set_year c p1 y').1 = q3_semester p1 /\ q3_year (Query3Page_set_year c p1 y').1 = y').
  { rewrite Query3Page_set_year_spec by lia. destruct (Z.eqb_spec y' (q3_year p1)) as [->|]; [done|].
    by rewrite Query3Page_load_data_semester, Query3Page_load_data_year. }
  set (p2 := (Query3Page_set_year c p1 y').1) in *. destruct Hp2 as [Hs2 Hy2].
  rewrite Query3Page_set_year_spec by lia. rewrite Hy2, (proj2 (Z.eqb_neq _ _)) by lia.
  rewrite Query3Page_load_data_semester, Query3Page_load_data_year. simpl.
  split; [rewrite Hs2, Hs1; unfold combo_setCurrentIndex; rewrite Hits; simpl; by rewrite decide_True by lia|]. split; [done|].
  intros rows Hq. eexists. by apply Query3Page_load_data_Ok.
Qed.

(** C20. Whatever the user chooses on Query 3, the year filter passed to
    [query_complete_enrollment_info] is None (the spin box at its
    minimum, shown as All) or a year from 2021 to 2030: the year 2020
    can never be selected as a filter. *)
Theorem Query3Page_year_filter (c : conn) (acts : list q3_action) :
  (q3_filters (Query3Page_session c acts)).2 = PNone \/
  exists y, (q3_filters (Query3Page_session c acts)).2 = PInt y /\ 2021 <= y <= 2030.
Proof.
  assert (Hy : 2020 <= q3_year (Query3Page_session c acts) <= 2030).
  { apply Query3Page_steps_year. unfold Query3Page_init. rewrite Query3Page_load_data_year. simpl. unfold spin_set. lia. }
  unfold q3_filters. simpl.
  destruct (Z.eqb_spec (q3_year (Query3Page_session c acts)) 2020); [by left|].
  right. eexists. split; [reflexivity|]. lia.
Qed.

End QueryPagesProperties.

(** ** Behaviour on the example data *)

(** Query 3 opens on the year 2024 and shows the enrollment of S1;
    choosing the semester S2, which has none, leaves that row in the
    table while the label says Found 0 records. *)
Example Query3Page_empty_keeps_rows :
  qt_rows (qv_table (q3_view (Query3Page_init qp_conn).1)) = [query_cell <$> complete_values
    (CompleteRow.mk 1 (us "An") (us "Le") (Some (us "an@uni.edu")) None (us "CS101") (us "Intro") 3 1 None
       (us "S1") 2024 None None None None None (Some 0) (Some (us "F")) None)] /\
  let p := Query3Page_session qp_conn [Q3Semester 2] in
  (q3_filters p).1 = PStr (us "S2") /\
  qt_rows (qv_table (q3_view p)) = qt_rows (qv_table (q3_view (Query3Page_init qp_conn).1)) /\
  qv_status (q3_view p) = found_text 0.
Proof. vm_compute. split_and!; reflexivity. Qed.

(** A grade of 0.00 is shown as an empty cell on Query 1 (the
    falsy [Decimal('0.00')] fails [str(value) if value else '']), as is
    the missing class name, while the exported CSV file holds 0.00. *)
Example Query1Page_zero_grade_blank :
  let p := (Query1Page_init qp_conn).1 in
  qt_rows (qv_table (q1_view p)) =
    [[us "1"; us "An"; us "Le"; us "CS101"; us "Intro"; us "1"; []; us "S1"; us "2024"; []; us "F"]] /\
  exists file, Query1Page_export_csv qp_conn p (us "q1.csv") true = (Some file, Done qp_conn [Shown Information "Success"] false) /\
    csv_read file = Some [us <$> grade_columns;
                          [us "1"; us "An"; us "Le"; us "CS101"; us "Intro"; us "1"; []; us "S1"; us "2024"; us "0.00"; us "F"]].
Proof. vm_compute. split; [reflexivity|]. eexists. split; reflexivity. Qed.

(** The dashboard of a database whose only enrollment is graded 0.00
    shows the average 0.00 and the pass rate 0.00%; without any grade
    it shows the texts None and None%; with the server down every card
    shows 0 and the pass rate 0%, and the Top 10 table keeps its rows. *)
Example Dashboard_kpi_texts :
  kpi_avg_grade (Dashboard_init qp_conn) = us "0.00" /\ kpi_pass_rate (Dashboard_init qp_conn) = us "0.00%" /\
  (let c := mkConn (mkDb (students qp_db) (subjects qp_db) [] (classes qp_db)
                          [Enrollment.mk 1 1 None None None] 2 1 2) true in
   kpi_avg_grade (Dashboard_init c) = us "None" /\ kpi_pass_rate (Dashboard_init c) = us "None%") /\
  (let d := Dashboard_init qp_conn in
   Dashboard_load_data qp_down d =
     {| kpi_students := us "0"; kpi_subjects := us "0"; kpi_classes := us "0"; kpi_avg_grade := us "0";
        kpi_pass_rate := us "0%"; chart := None; top_students := top_students d |}).
Proof. vm_compute. split_and!; reflexivity. Qed.

(** ** Witnesses *)

Lemma Query1Page_export_roundtrip_witness :
  exists file, Query1Page_export_csv qp_conn (Query1Page_init qp_conn).1 (us "q1.csv") true
                 = (Some file, Done qp_conn [Shown Information "Success"] false) /\
    csv_read file = Some ((us <$> grade_columns) :: ((fun r => sql_text <$> grade_values r)
      <$> [GradeRow.mk 1 (us "An") (us "Le") (us "CS101") (us "Intro") 1 None (us "S1") 2024 (Some 0) (Some (us "F"))])).
Proof.
  apply Query1Page_export_roundtrip; [vm_compute; reflexivity | discriminate | discriminate].
Defined.

Lemma query_pages_export_unreachable_witness :
  let p1 := (Query1Page_init qp_conn).1 in let p3 := (Query3Page_init qp_conn).1 in
  let p4 := (Query4Page_init qp_conn).1 in
  up qp_down = false /\ us "out.csv" <> [] /\
  (Query1Page_export_csv qp_down p1 (us "out.csv") true = (None, Escaped qp_down TypeError) /\
   Query2Page_export_csv qp_down (us "out.csv") true = (None, Escaped qp_down TypeError) /\
   Query3Page_export_csv qp_down p3 (us "out.csv") true = (None, Escaped qp_down TypeError) /\
   Query4Page_export_csv qp_down p4 (us "out.csv") true = (None, Escaped qp_down TypeError) /\
   Query2Page_load_data qp_down query_view0 = (query_view0, [Shown Critical "Error"])).
Proof.
  split; [reflexivity|]. split; [discriminate|].
  apply query_pages_export_unreachable; [reflexivity | discriminate].
Defined.

