(* ===== verification/MainWindow.v ===== *)
(** * MainWindow: the window of main.py and the pages composed in it

    [MainWindow] (main.py 25-173) creates the ten pages of main_win.py
    once, in [setup_ui], keeps them in the dictionary [self.pages] and in
    a [QStackedWidget], and shows one of them at a time: each button of
    the sidebar calls [show_page(name)], which only switches the widget
    on screen.  [main()] (lines 176-209) tests the connection first and
    exits with status 1 when it fails.

    The window is the dictionary of pages (the state of each page
    widget: [Dashboard], the table of a table page and the text of its
    search box, the state of a query page) and the name of the page on
    screen.  A user action is a click on a sidebar button or an action
    on the page on screen: a slot of a table page ([gui_action] of
    [Pages]), typing in the search box of a table page, or a filter of a
    query page.  A slot of a page acts on that page only: [on_add],
    [on_edit] and [on_delete] reload their own table
    ([refresh_table]) and no other, and nothing reloads the dashboard or
    Query 2 after [__init__].  [mw_reachable] is the step relation of the
    window; [mw_session] runs a list of actions.  The CSV exports leave
    the window as it is and are not actions here; the message boxes are
    output, not state, and the status labels of the table pages are not
    modelled. *)
From S2P Require Import Prelude PyModel Storage DbConnection Query Validators Sql Models Reads Reports Widgets Csv StudentDialog Dialogs Pages QueryPages.
Local Open Scope Z_scope.

Section MainWindow.
  Context `{PyUnicode} `{!PyDigit} `{Collation}.
  Context (student_form0 : student_form).

  (** ** The sidebar ([create_sidebar], lines 80-162) *)

  (** Lines 122-135: the label and the page name of each entry. *)
Definition nav_items : list (string * string) :=
    [("📊 Dashboard", "Dashboard");
     ("👨‍🎓 Students", "Students");
     ("📖 Subjects", "Subjects");
     ("👨‍🏫 Lecturers", "Lecturers");
     ("🏫 Classes", "Classes");
     ("📝 Enrollments", "Enrollments");
     ("", "");
     ("📋 QUERIES", "");
     ("Q1: INNER JOIN", "Query 1: INNER JOIN");
     ("Q2: LEFT JOIN", "Query 2: LEFT JOIN");
     ("Q3: Multi-table", "Query 3: Multi-table");
     ("Q4: Above Avg", "Query 4: Above Avg")].

Inductive sidebar_entry :=
| Separator
| SectionHeader (label : string)
| NavButton (label : string) (page_name : string).

  (** Lines 137-151: an empty label is a separator, an empty page name a
      section header, anything else a button calling
      [show_page(page_name)]. *)
Definition sidebar_entry_of (item : string * string) : sidebar_entry :=
    let '(label, page_name) := item in
    if String.eqb label "" then Separator
    else if String.eqb page_name "" then SectionHeader label
    else NavButton label page_name.

Definition create_sidebar : list sidebar_entry := sidebar_entry_of <$> nav_items.

  (** ** The pages *)

Inductive table_kind := KStudents | KSubjects | KLecturers | KClasses | KEnrollments.

#[export] Instance table_kind_eq_dec : EqDecision table_kind.
Proof. solve_decision. Defined.

  (** The state of a page widget: the dashboard's cards, chart and Top
      10; a table page's search text and table; a query page's
      filters and table. *)
Inductive page :=
| PDashboard (d : Dashboard)
| PTable (k : table_kind) (search : ustr) (t : table)
| PQuery1 (p : Query1Page)
| PQuery2 (v : query_view)
| PQuery3 (p : Query3Page)
| PQuery4 (p : Query4Page).

  (** [setup_table_columns] of each table page (main_win.py 254-259,
      345-349, 425-429, 506-511, 611-616): the headers and no rows. *)
Definition table_headers (k : table_kind) : list ustr :=
    match k with
    | KStudents => student_headers
    | KSubjects => subject_headers
    | KLecturers => lecturer_headers
    | KClasses => class_headers
    | KEnrollments => enrollment_headers
    end.

Definition setup_table (k : table_kind) : table := {| tbl_headers := Some <$> table_headers k; tbl_rows := [] |}.

  (** [load_data()] of a table page, as [refresh_table] and [__init__]
      call it (no search term). *)
Definition table_load (k : table_kind) (c : conn) : option table :=
    match k with
    | KStudents => StudentsPage_load_data c []
    | KSubjects => SubjectsPage_load_data c
    | KLecturers => LecturersPage_load_data c
    | KClasses => ClassesPage_load_data c
    | KEnrollments => EnrollmentsPage_load_data c
    end.

  (** A failed [load_data] shows a critical box and leaves the table as
      it was. *)
Definition reload (t : table) (r : option table) : table := default t r.

  (** [__init__] of a table page: [setup_table_columns()] then
      [load_data()]. *)
Definition table_page_init (k : table_kind) (c : conn) : page :=
    PTable k [] (reload (setup_table k) (table_load k c)).

  (** ** The window ([setup_ui] and [add_page], lines 49-78 and 164-167) *)

  (** [self.pages] in insertion order and the current widget of the
      stack ([None] while it is empty). *)
Record MainWindow := MW { mw_pages : list (string * page); mw_current : option string }.

Definition MainWindow0 : MainWindow := MW [] None.

  (** [add_page(name, widget)]: [QStackedWidget.addWidget] makes the
      first widget added the current one. *)
Definition add_page (w : MainWindow) (name : string) (p : page) : MainWindow :=
    MW (mw_pages w ++ [(name, p)]) (match mw_current w with None => Some name | cur => cur end).

  (** [show_page(page_name)] (lines 169-173) *)
Definition show_page (w : MainWindow) (page_name : string) : MainWindow :=
    match assoc page_name (mw_pages w) with
    | Some _ => MW (mw_pages w) (Some page_name)
    | None => w
    end.

  (** Lines 68-78: the pages, each built (and loaded) in this order. *)
Definition setup_ui (c : conn) : MainWindow :=
    let w := add_page MainWindow0 "Dashboard" (PDashboard (Dashboard_init c)) in
    let w := add_page w "Students" (table_page_init KStudents c) in
    let w := add_page w "Subjects" (table_page_init KSubjects c) in
    let w := add_page w "Lecturers" (table_page_init KLecturers c) in
    let w := add_page w "Classes" (table_page_init KClasses c) in
    let w := add_page w "Enrollments" (table_page_init KEnrollments c) in
    let w := add_page w "Query 1: INNER JOIN" (PQuery1 (Query1Page_init c).1) in
    let w := add_page w "Query 2: LEFT JOIN" (PQuery2 (Query2Page_init c).1) in
    let w := add_page w "Query 3: Multi-table" (PQuery3 (Query3Page_init c).1) in
    add_page w "Query 4: Above Avg" (PQuery4 (Query4Page_init c).1).

  (** [MainWindow.__init__] (lines 39-47) *)
Definition MainWindow_init (c : conn) : MainWindow := show_page (setup_ui c) "Dashboard".

  (** ** What a user does *)

  (** The page of a slot of [Pages]. *)
Definition gui_action_kind (a : gui_action) : table_kind :=
    match a with
    | AStudentsAdd _ | AStudentsEdit _ _ | AStudentsDelete _ _ => KStudents
    | ASubjectsAdd _ | ASubjectsEdit _ _ | ASubjectsDelete _ _ => KSubjects
    | ALecturersAdd _ | ALecturersEdit _ _ | ALecturersDelete _ _ => KLecturers
    | AClassesAdd _ | AClassesEdit _ _ | AClassesDelete _ _ => KClasses
    | AEnrollmentsAdd _ | AEnrollmentsEdit _ _ | AEnrollmentsDelete _ _ => KEnrollments
    end.

  (** The selected row a slot reads ([None] for Add). *)
Definition gui_action_sel (a : gui_action) : selection :=
    match a with
    | AStudentsEdit sel _ | AStudentsDelete sel _ | ASubjectsEdit sel _ | ASubjectsDelete sel _
    | ALecturersEdit sel _ | ALecturersDelete sel _ | AClassesEdit sel _ | AClassesDelete sel _
    | AEnrollmentsEdit sel _ | AEnrollmentsDelete sel _ => sel
    | _ => None
    end.

Definition gui_action_is_delete (a : gui_action) : bool :=
    match a with
    | AStudentsDelete _ _ | ASubjectsDelete _ _ | ALecturersDelete _ _ | AClassesDelete _ _
    | AEnrollmentsDelete _ _ => true
    | _ => false
    end.

Definition is_success_box (m : shown) : bool :=
    match sh_box m with Information => String.eqb (sh_title m) "Success" | _ => false end.

  (** When a slot calls [refresh_table()]: Add and Edit when
      [dialog.exec()] accepted, Delete after its success box. *)
Definition refreshes (a : gui_action) (msgs : list shown) (accepted : bool) : bool :=
    if gui_action_is_delete a then existsb is_success_box msgs else accepted.

  (** A selection is a row of the table on screen, or nothing. *)
Definition selectable (t : table) (sel : selection) : bool :=
    match sel with
    | None => true
    | Some row => bool_decide (row ∈ tbl_rows t)
    end.

  (** A button of the sidebar shows [name]. *)
Definition nav_button (name : string) : bool :=
    existsb (fun e => match e with NavButton _ p => String.eqb p name | _ => false end) create_sidebar.

Inductive page_action :=
| TableSlot (a : gui_action)
| TypeSearch (text : ustr)
| Q1Select (i : nat)
| Q3Filter (a : q3_action)
| Q4SetMinClasses (n : Z).

Inductive mw_action :=
| Click (page_name : string)
| OnPage (a : page_action).

Inductive step_result :=
| Continue (c : conn) (p : page)
| Abort (c : conn) (e : exc).

  (** An action on a page: [None] when the page has no such control (or
      the selection is not a row it shows).  Typing emits [textChanged]
      only when the text changes; [on_search] reloads the Students page
      with the text and does nothing on the other pages. *)
Definition page_step (c : conn) (a : page_action) (p : page) : option step_result :=
    match a, p with
    | TableSlot g, PTable k s t =>
        if bool_decide (gui_action_kind g = k) && selectable t (gui_action_sel g) then
          Some (match run_gui_action student_form0 g c with
                | Done c' msgs acc =>
                    Continue c' (PTable k s (if refreshes g msgs acc then reload t (table_load k c') else t))
                | Escaped c' e => Abort c' e
                end)
        else None
    | TypeSearch s', PTable k s t =>
        Some (Continue c (PTable k s'
          (if bool_decide (s' = s) then t
           else match k with KStudents => reload t (StudentsPage_load_data c s') | _ => t end)))
    | Q1Select i, PQuery1 q => Some (Continue c (PQuery1 (Query1Page_select c q i).1))
    | Q3Filter a, PQuery3 q => Some (Continue c (PQuery3 (Query3Page_step c q a)))
    | Q4SetMinClasses n, PQuery4 q => Some (Continue c (PQuery4 (Query4Page_set_min_classes c q n).1))
    | _, _ => None
    end.

  (** Replacing the state of the page [name] (the widget object the
      dictionary refers to). *)
Definition set_page (name : string) (p : page) (pages : list (string * page)) : list (string * page) :=
    (fun np => if String.eqb np.1 name then (name, p) else np) <$> pages.

  (** One action: a sidebar button calls [show_page]; a page action acts
      on the page on screen.  [None] when the action cannot happen;
      [Abort] when an exception escapes a slot, which aborts the
      application. *)
Definition mw_step (c : conn) (w : MainWindow) (a : mw_action) : option (conn * MainWindow + conn * exc) :=
    match a with
    | Click name => if nav_button name then Some (inl (c, show_page w name)) else None
    | OnPage pa =>
        cur ← mw_current w;
        p ← assoc cur (mw_pages w);
        r ← page_step c pa p;
        Some (match r with
              | Continue c' p' => inl (c', MW (set_page cur p' (mw_pages w)) (mw_current w))
              | Abort c' e => inr (c', e)
              end)
    end.

  (** The windows a session can reach from a connection [c0]. *)
Inductive mw_reachable (c0 : conn) : conn -> MainWindow -> Prop :=
| mw_reach_init : mw_reachable c0 c0 (MainWindow_init c0)
| mw_reach_step c w a c' w' :
    mw_reachable c0 c w -> mw_step c w a = Some (inl (c', w')) -> mw_reachable c0 c' w'.

  (** [app.exec()] on a list of actions: an action that cannot happen
      is skipped; an exception escaping a slot ends the session. *)
Fixpoint mw_session (acts : list mw_action) (c : conn) (w : MainWindow) : conn * MainWindow * option exc :=
    match acts with
    | [] => (c, w, None)
    | a :: acts' =>
        match mw_step c w a with
        | None => mw_session acts' c w
        | Some (inl (c', w')) => mw_session acts' c' w'
        | Some (inr (c', e)) => (c', w, Some e)
        end
    end.

  (** ** [main()] (lines 176-209) *)

  (** [test_connection()] (db_connection.py 172-181): [SELECT 1 as test]
      with [fetch_one=True]; [execute_query] returns [None] on an
      error. *)
Definition test_connection (c : conn) : bool :=
    match execute_query_one c (fun _ => Some [1]) with
    | Some v => v =? 1
    | None => false
    end.

Inductive app_exit := ExitCode (n : Z) | AbortedBy (e : exc).

  (** [sys.exit(1)] after the critical box when the test fails (the
      [SystemExit] it raises is not an [Exception] and leaves the
      [try]); otherwise the window and [sys.exit(app.exec())]. *)
Definition main (c : conn) (acts : list mw_action) : conn * option MainWindow * app_exit :=
    if test_connection c then
      let '(c', w, e) := mw_session acts c (MainWindow_init c) in
      (c', Some w, match e with None => ExitCode 0 | Some e => AbortedBy e end)
    else (c, None, ExitCode 1).

  (** [python main.py]: line 17 imports main_win, which imports
      models.py and so db_connection.py, whose module-level
      [db = DatabaseConnection()] (db_connection.py 165) opens the pool;
      an error there ends the program with a traceback before [main()]
      runs. *)
Definition run_main_py (c : conn) (acts : list mw_action) : result exc (conn * option MainWindow * app_exit) :=
    _ <- DatabaseConnection_init c;; Ok (main c acts).
End MainWindow.

(** * Properties of the main window *)

Section MainWindowProperties.
  Context `{PyUnicode} `{!PyDigit} `{Collation}.
  Context (student_form0 : student_form).

(** ** The dictionary of pages *)

Lemma set_page_names (n : string) (p : page) (ps : list (string * page)) : (set_page n p ps).*1 = ps.*1.
Proof.
  unfold set_page. rewrite <- list_fmap_compose. apply list_fmap_ext. intros _ [m q] _. simpl.
  by destruct (String.eqb_spec m n) as [->|].
Qed.

Lemma assoc_set_page (n m : string) (p : page) (ps : list (string * page)) :
  assoc m (set_page n p ps) = if String.eqb m n then (fun _ => p) <$> assoc m ps else assoc m ps.
Proof.
  induction ps as [|[k q] ps IH]; simpl; [by destruct (String.eqb m n)|].
  destruct (String.eqb_spec k n) as [->|Hkn]; simpl;
    destruct (String.eqb_spec m n) as [->|Hmn]; rewrite ?String.eqb_refl; simpl; try done.
  - destruct (String.eqb_spec n k); [congruence|]. exact IH.
  - destruct (String.eqb_spec m k); [done|]. rewrite IH. by destruct (String.eqb_spec m n).
Qed.

Lemma set_page_set_page (n : string) (p p' : page) (ps : list (string * page)) :
  set_page n p' (set_page n p ps) = set_page n p' ps.
Proof.
  unfold set_page. rewrite <- list_fmap_compose. apply list_fmap_ext. intros _ [m q] _. simpl.
  destruct (String.eqb_spec m n) as [->|]; simpl; rewrite ?String.eqb_refl; [done|].
  by destruct (String.eqb_spec m n).
Qed.

Lemma assoc_names (m : string) (ps : list (string * page)) : is_Some (assoc m ps) <-> m ∈ ps.*1.
Proof.
  induction ps as [|[k q] ps IH]; simpl; [split; [by intros []|by intros ?%elem_of_nil]|].
  rewrite elem_of_cons, <- IH. destruct (String.eqb_spec m k) as [->|Hmk]; [split; [by left|by eexists]|].
  split; [by right|]. intros [->|?]; [congruence|done].
Qed.

(** ** One step of the window *)

(** An action on the page on screen replaces that page by its new
    state and keeps the page on screen. *)
Lemma mw_step_OnPage (c c' : conn) (w w' : MainWindow) (pa : page_action) :
  mw_step student_form0 c w (OnPage pa) = Some (inl (c', w')) ->
  exists n p p', mw_current w = Some n /\ assoc n (mw_pages w) = Some p /\
    page_step student_form0 c pa p = Some (Continue c' p') /\ w' = MW (set_page n p' (mw_pages w)) (Some n).
Proof.
  unfold mw_step. destruct (mw_current w) as [n|]; simpl; [|done].
  destruct (assoc n (mw_pages w)) as [p|] eqn:Ep; simpl; [|done].
  destruct (page_step student_form0 c pa p) as [[c1 p1|c1 e]|] eqn:E; simpl; intros; simplify_eq.
  by exists n, p, p1.
Qed.

Lemma show_page_pages (w : MainWindow) (name : string) : mw_pages (show_page w name) = mw_pages w.
Proof. unfold show_page. by destruct (assoc name (mw_pages w)). Qed.

(** A step changes the state of the page on screen and no other. *)
Lemma mw_step_other_page (c c' : conn) (w w' : MainWindow) (a : mw_action) (n : string) :
  mw_step student_form0 c w a = Some (inl (c', w')) -> mw_current w <> Some n ->
  assoc n (mw_pages w') = assoc n (mw_pages w).
Proof.
  destruct a as [name|pa]; intros Hs Hn.
  - simpl in Hs. destruct (nav_button name); simplify_eq. by rewrite show_page_pages.
  - apply mw_step_OnPage in Hs as (m & p & p' & Hm & _ & _ & ->). simpl. rewrite assoc_set_page.
    destruct (String.eqb_spec n m) as [->|]; congruence.
Qed.

Lemma mw_step_names (c c' : conn) (w w' : MainWindow) (a : mw_action) :
  mw_step student_form0 c w a = Some (inl (c', w')) ->
  (mw_pages w').*1 = (mw_pages w).*1 /\
  (forall n, mw_current w' = Some n -> n ∈ (mw_pages w').*1 \/ mw_current w = Some n).
Proof.
  destruct a as [name|pa]; intros Hs.
  - simpl in Hs. destruct (nav_button name); simplify_eq. rewrite show_page_pages. split; [done|].
    intros n. unfold show_page. destruct (assoc name (mw_pages w)) eqn:E; simpl; intros Hn; simplify_eq; [|by right].
    left. apply assoc_names. by eexists.
  - apply mw_step_OnPage in Hs as (m & p & p' & Hm & _ & _ & ->). simpl. rewrite set_page_names.
    split; [done|]. intros n Hn. simplify_eq. by right.
Qed.

(** The names of the pages, in the order [setup_ui] adds them. *)
Lemma MainWindow_init_names (c : conn) :
  (mw_pages (MainWindow_init c)).*1 =
    ["Dashboard"; "Students"; "Subjects"; "Lecturers"; "Classes"; "Enrollments"; "Query 1: INNER JOIN";
     "Query 2: LEFT JOIN"; "Query 3: Multi-table"; "Query 4: Above Avg"].
Proof. reflexivity. Qed.

(** ** Invariants of a page, by induction on the steps *)

Section PageInvariant.
  Variable (c0 : conn) (name : string) (P : page -> Prop).
  Hypothesis P_init : exists p, assoc name (mw_pages (MainWindow_init c0)) = Some p /\ P p.
  Hypothesis P_step : forall c c' pa p p', P p -> page_step student_form0 c pa p = Some (Continue c' p') -> P p'.

Lemma mw_reachable_page_inv (c : conn) (w : MainWindow) :
  mw_reachable student_form0 c0 c w -> exists p, assoc name (mw_pages w) = Some p /\ P p.
Proof.
  induction 1 as [|c w a c' w' _ IH Hs]; [done|].
  destruct IH as (p & Hp & HP).
  destruct (decide (mw_current w = Some name)) as [Hn|Hn]; [|exists p; by erewrite mw_step_other_page by eassumption].
  destruct a as [b|pa].
  - simpl in Hs. destruct (nav_button b); simplify_eq. exists p. by rewrite show_page_pages.
  - apply mw_step_OnPage in Hs as (m & q & q' & Hm & Hq & Hstep & ->). simplify_eq.
    exists q'. simpl. rewrite assoc_set_page, String.eqb_refl, Hq. split; [done|]. eauto.
Qed.
End PageInvariant.

Lemma mw_reachable_names (c0 c : conn) (w : MainWindow) :
  mw_reachable student_form0 c0 c w ->
  (mw_pages w).*1 = (mw_pages (MainWindow_init c0)).*1 /\ exists n, mw_current w = Some n /\ n ∈ (mw_pages w).*1.
Proof.
  induction 1 as [|c w a c' w' _ [IHn (n & Hn & Hin)] Hs].
  - split; [done|]. exists "Dashboard". split; [done|]. rewrite MainWindow_init_names. by left.
  - destruct (mw_step_names _ _ _ _ _ Hs) as [Hnames Hcur]. rewrite Hnames. split; [done|].
    destruct (mw_current w') as [n'|] eqn:E.
    + exists n'. split; [done|]. destruct (Hcur n' eq_refl) as [?|Hn']; [by rewrite <- Hnames|congruence].
    + destruct a as [b|pa].
      * simpl in Hs. destruct (nav_button b); simplify_eq. unfold show_page in E.
        destruct (assoc b (mw_pages w)); simplify_eq/=; congruence.
      * apply mw_step_OnPage in Hs as (m & q & q' & Hm & Hq & Hst & Hw). by rewrite Hw in E.
Qed.

(** Every button of the sidebar names a page of the window. *)
Lemma create_sidebar_targets (label name : string) :
  NavButton label name ∈ create_sidebar ->
  name ∈ ["Dashboard"; "Students"; "Subjects"; "Lecturers"; "Classes"; "Enrollments"; "Query 1: INNER JOIN";
          "Query 2: LEFT JOIN"; "Query 3: Multi-table"; "Query 4: Above Avg"].
Proof.
  rewrite !list_elem_of_In. unfold create_sidebar, nav_items. simpl.
  intros Hb. repeat (destruct Hb as [Hb|Hb]; [first [discriminate | injection Hb as <- <-; auto 12]|]). done.
Qed.

Lemma nav_button_elem_of (label name : string) : NavButton label name ∈ create_sidebar -> nav_button name = true.
Proof.
  intros Hb. apply existsb_exists. exists (NavButton label name). split; [by apply list_elem_of_In|].
  apply String.eqb_refl.
Qed.

(** ** The sidebar *)

(** C11. In every window a session reaches, the pages are the ten pages
    [setup_ui] added, in that order, one of them is on screen, and every
    button of the sidebar shows the page it names: [show_page] finds it
    in [self.pages] and switches to it. *)
Theorem sidebar_buttons_work (c0 c : conn) (w : MainWindow) :
  mw_reachable student_form0 c0 c w ->
  (mw_pages w).*1 = (mw_pages (MainWindow_init c0)).*1 /\
  (exists n, mw_current w = Some n /\ n ∈ (mw_pages w).*1) /\
  forall label name, NavButton label name ∈ create_sidebar ->
    mw_step student_form0 c w (Click name) = Some (inl (c, MW (mw_pages w) (Some name))).
Proof.
  intros Hr. destruct (mw_reachable_names _ _ _ Hr) as [Hn Hcur]. split_and!; [done..|].
  intros label name Hb. simpl. rewrite (nav_button_elem_of label name Hb). unfold show_page.
  destruct (proj2 (assoc_names name (mw_pages w))) as [p ->]; [|done].
  rewrite Hn, MainWindow_init_names. by eapply create_sidebar_targets.
Qed.

(** ** Pages that are never reloaded *)

(** C10. Whatever a session does (adding, editing or deleting records on
    the table pages, changing the filters of the query pages, moving
    between pages), the dashboard and Query 2 keep what they showed when
    the window was created: their [load_data] runs once, in [__init__],
    and neither [show_page] nor any slot of another page calls it. *)
Theorem dashboard_never_reloaded (c0 c : conn) (w : MainWindow) :
  mw_reachable student_form0 c0 c w ->
  assoc "Dashboard" (mw_pages w) = Some (PDashboard (Dashboard_init c0)) /\
  assoc "Query 2: LEFT JOIN" (mw_pages w) = Some (PQuery2 (Query2Page_init c0).1).
Proof.
  intros Hr. split.
  - destruct (mw_reachable_page_inv c0 "Dashboard" (fun p => p = PDashboard (Dashboard_init c0))) with c w
      as (p & Hp & ->); [by eexists|intros ???? p' -> Hs; by destruct pa|done|done].
  - destruct (mw_reachable_page_inv c0 "Query 2: LEFT JOIN" (fun p => p = PQuery2 (Query2Page_init c0).1))
      with c w as (p & Hp & ->); [by eexists|intros ???? p' -> Hs; by destruct pa|done|done].
Qed.

(** ** Reaching any filters of Query 3 *)

Lemma mw_session_step (c c' : conn) (w w' : MainWindow) (a : mw_action) (acts : list mw_action) :
  mw_step student_form0 c w a = Some (inl (c', w')) ->
  mw_session student_form0 (a :: acts) c w = mw_session student_form0 acts c' w'.
Proof. simpl. by intros ->. Qed.

(** The filters of Query 3, while it is on screen, run
    [Query3Page_step] on it. *)
Lemma mw_session_q3 (c : conn) (n : string) (q : Query3Page) (qas : list q3_action) (w : MainWindow) :
  mw_current w = Some n -> assoc n (mw_pages w) = Some (PQuery3 q) ->
  exists w', mw_session student_form0 ((fun a => OnPage (Q3Filter a)) <$> qas) c w = (c, w', None) /\
    mw_current w' = Some n /\ assoc n (mw_pages w') = Some (PQuery3 (foldl (Query3Page_step c) q qas)).
Proof.
  revert q w. induction qas as [|a qas IH]; intros q w Hc Hp; [by exists w|].
  simpl fmap. rewrite (mw_session_step c c w (MW (set_page n (PQuery3 (Query3Page_step c q a)) (mw_pages w)) (Some n))).
  - apply IH; [done|]. simpl. by rewrite assoc_set_page, String.eqb_refl, Hp.
  - unfold mw_step. rewrite Hc. simpl. by rewrite Hp.
Qed.

(** C12. From every window a session reaches, four actions show Query 3
    with any semester of its box and any year of its spin box and, when
    [query_complete_enrollment_info] succeeds on these filters, its
    table and label show the rows it returns now: clicking Q3 in the
    sidebar, choosing the semester, another year and then the year
    (the spin box emits [valueChanged], and the page reloads, only when
    the value changes). *)
Theorem query3_filters_reachable (c0 c : conn) (w : MainWindow) (i : nat) (y : Z) :
  mw_reachable student_form0 c0 c w -> (i < 5)%nat -> 2020 <= y <= 2030 ->
  let acts := Click "Query 3: Multi-table" ::
                ((fun a => OnPage (Q3Filter a)) <$> [Q3Semester i; Q3Year (if y =? 2030 then 2020 else 2030); Q3Year y]) in
  exists w', mw_session student_form0 acts c w = (c, w', None) /\ mw_current w' = Some "Query 3: Multi-table" /\
  exists q, assoc "Query 3: Multi-table" (mw_pages w') = Some (PQuery3 q) /\
    cb_current (q3_semester q) = Some i /\ q3_year q = y /\
    forall rows, res_map (fmap complete_row_dict)
                   (query_complete_enrollment_info c PNone PNone PNone (q3_filters q).1 (q3_filters q).2) = Ok rows ->
      exists t, q3_view q = QueryView (fill_table t rows) (found_text (length rows)).
Proof.
  intros Hr Hi Hy acts.
  destruct (mw_reachable_page_inv c0 "Query 3: Multi-table"
              (fun p => exists q, p = PQuery3 q /\ cb_items (q3_semester q) = semester_items)) with c w
    as (p & Hp & q & -> & Hits); [eexists; split; [done|]; eexists; split; [done|];
                                  by unfold Query3Page_init; rewrite Query3Page_load_data_semester| |done|].
  { intros c1 c1' pa p1 p1' (q1 & -> & Hq1) Hs. destruct pa; simplify_eq/=. eexists. split; [done|].
    by rewrite Query3Page_step_items. }
  subst acts. rewrite (mw_session_step c c w (MW (mw_pages w) (Some "Query 3: Multi-table"))).
  2:{ simpl. unfold show_page. by rewrite Hp. }
  destruct (mw_session_q3 c "Query 3: Multi-table" q [Q3Semester i; Q3Year (if y =? 2030 then 2020 else 2030); Q3Year y]
              (MW (mw_pages w) (Some "Query 3: Multi-table"))) as (w' & -> & Hc' & Hp'); [done|done|].
  exists w'. split_and!; [done|done|]. eexists. split; [exact Hp'|]. by apply Query3Page_reach_filters.
Qed.

(** A session that no exception ended stays among the reachable
    windows. *)
Lemma mw_session_reachable (c0 c : conn) (w : MainWindow) (acts : list mw_action) :
  mw_reachable student_form0 c0 c w -> (mw_session student_form0 acts c w).2 = None ->
  mw_reachable student_form0 c0 (mw_session student_form0 acts c w).1.1 (mw_session student_form0 acts c w).1.2.
Proof.
  revert c w. induction acts as [|a acts IH]; intros c w Hr; simpl; [done|].
  destruct (mw_step student_form0 c w a) as [[[c' w']|[c' e]]|] eqn:E; [|done|by apply IH].
  intros Hn. apply IH; [|done]. by eapply mw_reach_step.
Qed.

(** ** The refresh of a table page *)

(** C22. When the Add dialog of the Students page is accepted, the page
    reloads its table with [load_data()], without the search term: the
    table lists every student (the first 500) while the search box still
    shows the text the user typed. *)
Theorem StudentsPage_add_drops_search (c c' : conn) (es : list (student_form -> student_form))
    (msgs : list shown) (s : ustr) (t : table) (ss : list Student.t) :
  run_gui_action student_form0 (AStudentsAdd es) c = Done c' msgs true ->
  StudentModel_list c' 500 0 "StudentID" = Some ss ->
  page_step student_form0 c (TableSlot (AStudentsAdd es)) (PTable KStudents s t) =
    Some (Continue c' (PTable KStudents s {| tbl_headers := Some <$> student_headers;
                                              tbl_rows := student_cells <$> ss |})).
Proof.
  intros Hrun Hl. cbn -[run_gui_action StudentsPage_load_data]. rewrite Hrun. simpl.
  unfold StudentsPage_load_data. by rewrite Hl.
Qed.

(** ** [main()] *)

Lemma test_connection_up (c : conn) : test_connection c = up c.
Proof. unfold test_connection, execute_query_one, execute_query. by destruct (up c). Qed.

(** [main()] exits with status 1, without creating the window, when
    the server cannot be reached; otherwise it creates the window, runs
    the session and exits with status 0, or aborts with the exception
    that escaped a slot. *)
Theorem main_spec (c : conn) (acts : list mw_action) :
  main student_form0 c acts =
    if up c then
      let '(c', w, e) := mw_session student_form0 acts c (MainWindow_init c) in
      (c', Some w, match e with None => ExitCode 0 | Some e => AbortedBy e end)
    else (c, None, ExitCode 1).
Proof. unfold main. by rewrite test_connection_up. Qed.

(** C13. Running main.py either dies at import, when the server cannot
    be reached (the pool of db_connection.py is opened while main_win
    is imported), or opens the window: the critical box of [main()]
    ("Cannot connect to database!") is never shown, since the import
    succeeds only when [test_connection] does. *)
Theorem run_main_py_spec (c : conn) (acts : list mw_action) :
  run_main_py student_form0 c acts =
    if up c then
      Ok (let '(c', w, e) := mw_session student_form0 acts c (MainWindow_init c) in
          (c', Some w, match e with None => ExitCode 0 | Some e => AbortedBy e end))
    else Err DbError.
Proof. unfold run_main_py, DatabaseConnection_init. destruct (up c) eqn:Hup; [|done]. simpl. by rewrite main_spec, Hup. Qed.
End MainWindowProperties.

(** ** Sessions on the example data *)

(** Opening the Students page and adding a student through the dialog. *)
Definition demo_window_acts : list mw_action :=
  [Click "Students"; OnPage (TableSlot (AStudentsAdd [fun f => f]))].

(** After a student is added, the Students page lists both students
    while the dashboard, still on screen in the stack, shows 1 student:
    the count of the database when the window was created. *)
Example dashboard_stale_after_add :
  let '(c, w, e) := mw_session young_form demo_window_acts ex_conn (MainWindow_init ex_conn) in
  e = None /\ kpi_students (Dashboard_init ex_conn) = us "1" /\ kpi_students (Dashboard_init c) = us "2" /\
  assoc "Dashboard" (mw_pages w) = Some (PDashboard (Dashboard_init ex_conn)) /\
  (fun p => match p with PTable _ _ t => length (tbl_rows t) | _ => 0%nat end) <$> assoc "Students" (mw_pages w) = Some 2%nat.
Proof. vm_compute. split_and!; reflexivity. Qed.

(** ** Witnesses *)

Lemma sidebar_buttons_work_witness :
  mw_reachable young_form ex_conn ex_conn (MainWindow_init ex_conn) /\
  ((mw_pages (MainWindow_init ex_conn)).*1 = (mw_pages (MainWindow_init ex_conn)).*1 /\
   (exists n, mw_current (MainWindow_init ex_conn) = Some n /\ n ∈ (mw_pages (MainWindow_init ex_conn)).*1) /\
   forall label name, NavButton label name ∈ create_sidebar ->
     mw_step young_form ex_conn (MainWindow_init ex_conn) (Click name) =
       Some (inl (ex_conn, MW (mw_pages (MainWindow_init ex_conn)) (Some name)))).
Proof. split; [constructor|]. apply (sidebar_buttons_work young_form ex_conn ex_conn). constructor. Defined.

Lemma dashboard_never_reloaded_witness :
  let r := mw_session young_form demo_window_acts ex_conn (MainWindow_init ex_conn) in
  r.2 = None /\ mw_reachable young_form ex_conn r.1.1 r.1.2 /\
  (assoc "Dashboard" (mw_pages r.1.2) = Some (PDashboard (Dashboard_init ex_conn)) /\
   assoc "Query 2: LEFT JOIN" (mw_pages r.1.2) = Some (PQuery2 (Query2Page_init ex_conn).1)).
Proof.
  intros r. assert (Hn : r.2 = None) by (vm_compute; reflexivity).
  assert (Hr : mw_reachable young_form ex_conn r.1.1 r.1.2) by (apply mw_session_reachable; [constructor|exact Hn]).
  split; [exact Hn|]. split; [exact Hr|]. apply (dashboard_never_reloaded young_form ex_conn r.1.1). exact Hr.
Defined.

Lemma query3_filters_reachable_witness :
  mw_reachable young_form ex_conn ex_conn (MainWindow_init ex_conn) /\ (1 < 5)%nat /\ 2020 <= 2024 <= 2030 /\
  exists w', mw_session young_form (Click "Query 3: Multi-table" ::
                ((fun a => OnPage (Q3Filter a)) <$> [Q3Semester 1; Q3Year 2030; Q3Year 2024])) ex_conn
                (MainWindow_init ex_conn) = (ex_conn, w', None) /\ mw_current w' = Some "Query 3: Multi-table" /\
  exists q, assoc "Query 3: Multi-table" (mw_pages w') = Some (PQuery3 q) /\
    cb_current (q3_semester q) = Some 1%nat /\ q3_year q = 2024 /\
    forall rows, res_map (fmap complete_row_dict)
                   (query_complete_enrollment_info ex_conn PNone PNone PNone (q3_filters q).1 (q3_filters q).2) = Ok rows ->
      exists t, q3_view q = QueryView (fill_table t rows) (found_text (length rows)).
Proof.
  split; [constructor|]. split; [lia|]. split; [lia|].
  apply (query3_filters_reachable young_form ex_conn ex_conn (MainWindow_init ex_conn) 1 2024); [constructor|lia|lia].
Defined.

Lemma StudentsPage_add_drops_search_witness :
  exists c' msgs ss,
    run_gui_action young_form (AStudentsAdd [fun f => f]) ex_conn = Done c' msgs true /\
    StudentModel_list c' 500 0 "StudentID" = Some ss /\
    page_step young_form ex_conn (TableSlot (AStudentsAdd [fun f => f])) (PTable KStudents (us "zz") (setup_table KStudents)) =
      Some (Continue c' (PTable KStudents (us "zz") {| tbl_headers := Some <$> student_headers;
                                                        tbl_rows := student_cells <$> ss |})).
Proof.
  eexists _, _, _. split; [vm_compute; reflexivity|]. split; [vm_compute; reflexivity|].
  eapply StudentsPage_add_drops_search; vm_compute; reflexivity.
Defined.
