(* ===== verification/Tinker.v ===== *)
(** * Tinker: the Tkinter window of tinker.py

    tinker.py is a script: at import it builds a form (first name, last
    name, date of birth, gender, major), an Add Student button and a
    [Treeview] of the students, fills the tree with [refresh_tree()] and
    enters [root.mainloop()].  [fetch_students] opens its own connection
    and reads [SELECT * FROM students ORDER BY StudentID];
    [add_student] checks the form and calls [get_connection()], a name
    the script never defines: the call raises [NameError] before the
    INSERT.  Tkinter reports an exception raised in a button callback
    ([Tk.report_callback_exception]) and the main loop goes on; an
    exception at import ends the script before the window appears.

    The state is the connection and the rows of the tree (the values
    tuples given to [tree.insert]); [tk_box] is a message box. *)
From S2P Require Import Prelude PyModel Regex Storage Query Validators Sql.
Local Open Scope Z_scope.

Inductive tk_box := TkWarning | TkError | TkInfo.

Section Tinker.
  Context `{PyUnicode} `{Collation}.

  (** The five entries of the form ([Entry.get()], [gender_var.get()]). *)
Record tk_form := TkForm {
    entry_fname : ustr; entry_lname : ustr; entry_dob : ustr; gender_var : ustr; entry_major : ustr }.

  (** [fetch_students()] (lines 9-23): [mysql.connector.connect] raises
      when the server cannot be reached (the test [conn is None] never
      holds). *)
Definition fetch_students (c : conn) : result exc (list Student.t) :=
    if up c then Ok (order_by [Asc] (fun r => [SInt (Student.StudentID r)]) (students (db c))) else Err DbError.

  (** Line 58: the values of a row of the tree. *)
Definition tree_values (s : Student.t) : list sqlval :=
    [SInt (Student.StudentID s); SStr (Student.FirstName s); SStr (Student.LastName s); SStr (Student.DOB s);
     SStr (Student.Gender s); sql_opt_str (Student.Major s)].

  (** [refresh_tree()] (lines 54-58): the tree is emptied first, so a
      failed fetch leaves it empty. *)
Definition refresh_tree (c : conn) : list (list sqlval) * result exc unit :=
    match fetch_students c with
    | Ok ss => (tree_values <$> ss, Ok tt)
    | Err e => ([], Err e)
    end.

  (** [get_connection] is not defined in tinker.py. *)
Definition tinker_get_connection : result exc conn := Err (NameError "get_connection").

  (** [add_student()] (lines 26-51): the connection, the tree, the boxes
      shown and the exception the callback raised.  The statement after
      [get_connection()] is the INSERT with the year 2024, committed,
      then a success box and [refresh_tree()]. *)
Definition add_student (c : conn) (tree : list (list sqlval)) (f : tk_form)
    : conn * list (list sqlval) * list tk_box * option exc :=
    if bool_decide (entry_fname f = []) || bool_decide (entry_lname f = []) || bool_decide (entry_dob f = [])
    then (c, tree, [TkWarning], None) else
    match strptime_ymd (PStr (entry_dob f)) with
    | Err ValueError => (c, tree, [TkError], None)
    | Err e => (c, tree, [], Some e)
    | Ok _ =>
        match tinker_get_connection with
        | Err e => (c, tree, [], Some e)
        | Ok c1 =>
            match execute_update c1 (insert_student (PStr (entry_fname f)) (PStr (entry_lname f)) (PStr (entry_dob f))
                                       (PStr (gender_var f)) PNone PNone PNone (PInt 2024) (PStr (entry_major f))) with
            | Err e => (c1, tree, [], Some e)
            | Ok (c2, _) =>
                let '(tree', r) := refresh_tree c2 in
                (c2, tree', [TkInfo], match r with Ok _ => None | Err e => Some e end)
            end
        end
    end.

  (** The script (lines 61-99): [refresh_tree()] at import, then the
      main loop on the presses of Add Student, each with the form as the
      user filled it; an exception of a callback is reported and the
      loop goes on.  [None] when the script dies at import. *)
Definition tinker_main (c : conn) (presses : list tk_form) : option (conn * list (list sqlval)) :=
    match refresh_tree c with
    | (_, Err _) => None
    | (tree, Ok _) =>
        Some (foldl (fun st f => let '(c', tree', _, _) := add_student st.1 st.2 f in (c', tree')) (c, tree) presses)
    end.
End Tinker.

(** * Properties *)

Section TinkerProperties.
  Context `{PyUnicode} `{Collation}.

(** [int()] of a text raises only [ValueError]. *)
Lemma parse_int_Err (s : ustr) (e : exc) : parse_int s = Err e -> e = ValueError.
Proof. unfold parse_int. destruct (take_sign _), (scan_digits _). repeat case_match; congruence. Qed.

(** [datetime.strptime] of a text raises only [ValueError], which the
    [except ValueError] of [add_student] catches. *)
Lemma strptime_ymd_Err (s : ustr) (e : exc) : strptime_ymd (PStr s) = Err e -> e = ValueError.
Proof.
  unfold strptime_ymd. destruct (strptime_match s) as [[[[ys ms] ds] [|]]|]; [|congruence..].
  intros H1. apply res_bind_Err_inv in H1 as [H1|(y & _ & H1)]; [by eapply parse_int_Err|].
  apply res_bind_Err_inv in H1 as [H1|(m & _ & H1)]; [by eapply parse_int_Err|].
  apply res_bind_Err_inv in H1 as [H1|(d & _ & H1)]; [by eapply parse_int_Err|].
  unfold mk_date in H1. case_match; congruence.
Qed.

(** One press of Add Student: a warning for a missing field, an error
    box for a date that is not YYYY-MM-DD, or [NameError]; never a
    write, and the tree stays as it was. *)
Lemma add_student_outcome (c : conn) (tree : list (list sqlval)) (f : tk_form) :
  add_student c tree f = (c, tree, [TkWarning], None) \/ add_student c tree f = (c, tree, [TkError], None) \/
  add_student c tree f = (c, tree, [], Some (NameError "get_connection")).
Proof.
  unfold add_student. case_match; [by left|]. right.
  destruct (strptime_ymd (PStr (entry_dob f))) as [ymd|e] eqn:E; [by right|].
  rewrite (strptime_ymd_Err _ _ E). by left.
Qed.

(** C23. Whatever the user types and however often Add Student is
    pressed, tinker.py never writes to the database and its tree keeps
    the students read at start-up: every press ends with a warning, an
    error box, or the [NameError] of the undefined [get_connection]
    before the INSERT, which Tkinter reports while the window stays
    open.  With the server down the script dies at import. *)
Theorem tinker_never_inserts (c : conn) (presses : list tk_form) :
  tinker_main c presses =
    if up c then Some (c, tree_values <$> order_by [Asc] (fun r => [SInt (Student.StudentID r)]) (students (db c)))
    else None.
Proof.
  unfold tinker_main, refresh_tree, fetch_students. destruct (up c); [f_equal|done].
  generalize (tree_values <$> order_by [Asc] (fun r => [SInt (Student.StudentID r)]) (students (db c))) as tree.
  induction presses as [|f presses IH]; intros tree; [done|]. simpl.
  destruct (add_student_outcome c tree f) as [-> | [-> | ->]]; apply IH.
Qed.
End TinkerProperties.

(** ** Example data *)

Definition tk_conn : conn :=
  mkConn (mkDb [Student.mk 1 (us "An") (us "Le") (us "2003-05-01") (us "F") None None None 2021 None] [] [] [] [] 2 1 1) true.

(** Pressing Add Student with a complete form raises [NameError]; with a
    date of February 30 it shows the error box. *)
Example add_student_name_error :
  add_student tk_conn [] (TkForm (us "Binh") (us "Tran") (us "2004-02-10") (us "M") (us "CS"))
    = (tk_conn, [], [], Some (NameError "get_connection")) /\
  add_student tk_conn [] (TkForm (us "Binh") (us "Tran") (us "2004-02-30") (us "M") (us "CS"))
    = (tk_conn, [], [TkError], None).
Proof. split; vm_compute; reflexivity. Qed.
