(* ===== verification/LegacyDialogs.v ===== *)
(** * LegacyDialogs: the four Add dialogs of dialog.py

    dialog.py defines [db()] (lines 6-12), a function returning a new
    mysql-connector connection, and four dialogs (subject, lecturer,
    class, enrollment) whose methods call [db.execute_insert(...)] and
    [db.execute_query(...)] on the function itself.  A function object
    has no such attributes: every such call raises [AttributeError].
    So [SubjectDialog.save_subject] and [LecturerDialog.save_lecturer]
    show a validation warning or let [AttributeError] escape the slot,
    and [ClassDialog()] and [EnrollmentDialog()] raise in [__init__]
    ([load_subjects], [load_students]) and cannot be opened.

    The widgets are the records of [Dialogs] (same widgets as
    dialogs_complete.py: line edits, spin boxes and combo boxes); a row a
    query returns is a cursor dictionary ([dict_row] of [Csv]) read with
    [row['key']]. *)
From S2P Require Import Prelude PyModel Storage Query Validators Sql Models Reads Widgets Csv Dialogs QueryPages.
Local Open Scope Z_scope.

Section LegacyDialogs.
  Context `{PyUnicode} `{Collation}.

  (** [db.execute_insert] and [db.execute_query] where [db] is the
      function of lines 6-12: attribute lookup on a function object
      raises [AttributeError]. *)
Definition db_execute_insert : result exc sqlval := Err (AttributeError "execute_insert").

Definition db_execute_query : result exc (list dict_row) := Err (AttributeError "execute_query").

  (** [row['key']] on a cursor dictionary. *)
Definition row_get (r : dict_row) (k : string) : result exc sqlval :=
    match assoc k r with Some v => Ok v | None => Err (KeyError k) end.

  (** [for row in rows: combo.addItem(text, data)] *)
Fixpoint add_rows {A} (item : dict_row -> result exc (ustr * A)) (cb : combo A) (rows : list dict_row)
    : result exc (combo A) :=
    match rows with
    | [] => Ok cb
    | r :: rs => x <- item r;; add_rows item (combo_add cb x.1 x.2) rs
    end.

  (** The end of a save method: success box and [accept()] when the
      result of [execute_insert] is true, a warning otherwise. *)
Definition insert_outcome (c : conn) (failed : string) (r : result exc sqlval) : slot_result :=
    match r with
    | Err e => Escaped c e
    | Ok v => if sql_truthy v then Done c [Shown Information "Success"] true else Done c [Shown Warning failed] false
    end.

  (** ** SubjectDialog (lines 15-68) *)

  (** [__init__] (lines 16-50): empty code and name, credits 3 in
      [1, 10]. *)
Definition LegacySubjectDialog_init : subject_form :=
    {| txt_code := []; txt_name := []; spin_credits := spin_set 1 10 3 |}.

  (** [save_subject] (lines 52-68) *)
Definition LegacySubjectDialog_save_subject (f : subject_form) (c : conn) : slot_result :=
    let code := py_strip (txt_code f) in
    let name := py_strip (txt_name f) in
    if bool_decide (code = []) || bool_decide (name = []) then Done c [Shown Warning "Validation Error"] false
    else insert_outcome c "Error" db_execute_insert.

  (** ** LecturerDialog (lines 71-130) *)

  (** [__init__] (lines 72-108): four empty line edits. *)
Definition LegacyLecturerDialog_init : lecturer_form :=
    {| txt_first_name := []; txt_last_name := []; txt_email := []; txt_office := [] |}.

  (** [save_lecturer] (lines 110-130) *)
Definition LegacyLecturerDialog_save_lecturer (f : lecturer_form) (c : conn) : slot_result :=
    let first_name := py_strip (txt_first_name f) in
    let last_name := py_strip (txt_last_name f) in
    if bool_decide (first_name = []) || bool_decide (last_name = []) then
      Done c [Shown Warning "Validation Error"] false
    else insert_outcome c "Error" db_execute_insert.

  (** ** ClassDialog (lines 133-228) *)

  (** [load_subjects] (lines 190-195): [if rows:] adds nothing for an
      empty list. *)
Definition legacy_load_subjects (cb : combo (option ustr)) : result exc (combo (option ustr)) :=
    rows <- db_execute_query;;
    add_rows (fun r => code <- row_get r "SubjectCode";; name <- row_get r "SubjectName";;
                       Ok (py_str_sql code ++ us " - " ++ py_str_sql name, Some (py_str_sql code))) cb rows.

  (** [load_lecturers] (lines 197-204) *)
Definition legacy_load_lecturers (cb : combo (option Z)) : result exc (combo (option Z)) :=
    let cb := combo_add cb (us "None") None in
    rows <- db_execute_query;;
    add_rows (fun r => fn <- row_get r "LecturerFirstName";; ln <- row_get r "LecturerLastName";;
                       lid <- row_get r "LecturerID";;
                       Ok (py_str_sql fn ++ [32] ++ py_str_sql ln, match lid with SInt z => Some z | _ => None end))
      cb rows.

  (** [__init__] (lines 134-188) *)
Definition LegacyClassDialog_init : result exc class_form :=
    subj <- legacy_load_subjects (Combo [] None);;
    lect <- legacy_load_lecturers (Combo [] None);;
    Ok {| combo_subject := subj; combo_lecturer := lect; txt_class_name := [];
          combo_semester := combo_of ((fun s => (us s, None)) <$> ["S1"; "S2"; "S3"; "Summer"]);
          spin_year := spin_set 2000 2030 2024; spin_capacity := spin_set 10 200 60 |}.

  (** [save_class] (lines 206-228): [if not subject_code]. *)
Definition LegacyClassDialog_save_class (f : class_form) (c : conn) : slot_result :=
    match combo_currentData (combo_subject f) with
    | None => Done c [Shown Warning "Validation Error"] false
    | Some code =>
        if bool_decide (code = []) then Done c [Shown Warning "Validation Error"] false
        else insert_outcome c "Error" db_execute_insert
    end.

  (** ** EnrollmentDialog (lines 231-339) *)

  (** [load_students] (lines 284-290) *)
Definition legacy_load_students (cb : combo (option Z)) : result exc (combo (option Z)) :=
    rows <- db_execute_query;;
    add_rows (fun r => sid <- row_get r "StudentID";; fn <- row_get r "FirstName";; ln <- row_get r "LastName";;
                       Ok (py_str_sql sid ++ us " - " ++ py_str_sql fn ++ [32] ++ py_str_sql ln,
                           match sid with SInt z => Some z | _ => None end)) cb rows.

  (** [load_classes] (lines 292-303) *)
Definition legacy_load_classes (cb : combo (option Z)) : result exc (combo (option Z)) :=
    rows <- db_execute_query;;
    add_rows (fun r => cid <- row_get r "ClassID";; sn <- row_get r "SubjectName";; sem <- row_get r "Semester";;
                       yr <- row_get r "Year";;
                       Ok (py_str_sql cid ++ us " - " ++ py_str_sql sn ++ us " (" ++ py_str_sql sem ++ [32] ++
                             py_str_sql yr ++ us ")", match cid with SInt z => Some z | _ => None end)) cb rows.

  (** [__init__] (lines 232-282) *)
Definition LegacyEnrollmentDialog_init : result exc enrollment_form :=
    st <- legacy_load_students (Combo [] None);;
    cl <- legacy_load_classes (Combo [] None);;
    Ok {| combo_student := st; combo_class := cl; spin_grade := 0;
          combo_letter := combo_of ((fun s => (s, None)) <$> grade_letters); txt_note := [] |}.

  (** [save_enrollment] (lines 305-339): a grade of 0 is [None]; [not
      student_id] also holds for the id 0. *)
Definition LegacyEnrollmentDialog_save_enrollment (f : enrollment_form) (c : conn) : slot_result :=
    let grade := if 0 <? spin_grade f then Some (spin_grade f) else None in
    let sid := combo_currentData (combo_student f) in
    let cid := combo_currentData (combo_class f) in
    if negb (default false ((fun z => negb (z =? 0)) <$> sid)) || negb (default false ((fun z => negb (z =? 0)) <$> cid))
    then Done c [Shown Warning "Validation Error"] false
    else if default false ((fun g => (g <? 0) || (1000 <? g)) <$> grade)
    then Done c [Shown Warning "Validation Error"] false
    else match db_execute_query with
         | Err e => Escaped c e
         | Ok rows =>
             if bool_decide (rows <> []) then Done c [Shown Warning "Duplicate Entry"] false
             else insert_outcome c "Error" db_execute_insert
         end.
End LegacyDialogs.

(** * Properties *)

Section LegacyDialogsProperties.
  Context `{PyUnicode} `{Collation}.

(** C24. No dialog of dialog.py can write: Add Subject and Add Lecturer
    show a validation warning or let [AttributeError] (no attribute
    [execute_insert] on the function [db]) escape the slot, which aborts
    a PyQt6 application; the class and enrollment dialogs raise
    [AttributeError] while they are built, and their Save buttons,
    whatever their widgets hold, warn or raise before any write. *)
Theorem legacy_dialogs_never_write (c : conn) (fs : subject_form) (fl : lecturer_form)
    (fc : class_form) (fe : enrollment_form) :
  (LegacySubjectDialog_save_subject fs c = Done c [Shown Warning "Validation Error"] false \/
   LegacySubjectDialog_save_subject fs c = Escaped c (AttributeError "execute_insert")) /\
  (LegacyLecturerDialog_save_lecturer fl c = Done c [Shown Warning "Validation Error"] false \/
   LegacyLecturerDialog_save_lecturer fl c = Escaped c (AttributeError "execute_insert")) /\
  LegacyClassDialog_init = Err (AttributeError "execute_query") /\
  LegacyEnrollmentDialog_init = Err (AttributeError "execute_query") /\
  (LegacyClassDialog_save_class fc c = Done c [Shown Warning "Validation Error"] false \/
   LegacyClassDialog_save_class fc c = Escaped c (AttributeError "execute_insert")) /\
  (LegacyEnrollmentDialog_save_enrollment fe c = Done c [Shown Warning "Validation Error"] false \/
   LegacyEnrollmentDialog_save_enrollment fe c = Escaped c (AttributeError "execute_query")).
Proof.
  unfold LegacySubjectDialog_save_subject, LegacyLecturerDialog_save_lecturer, LegacyClassDialog_save_class,
    LegacyEnrollmentDialog_save_enrollment.
  split_and!; [case_match; auto..|done|done| |].
  - destruct (combo_currentData _); [case_match|]; auto.
  - unfold db_execute_query. repeat case_match; auto.
Qed.
End LegacyDialogsProperties.

(** ** Example *)

(** Add Subject and Add Lecturer, opened and saved as they open, show
    the validation warning. *)
Example legacy_dialogs_open_empty :
  let c := mkConn ex_db true in
  LegacySubjectDialog_save_subject LegacySubjectDialog_init c = Done c [Shown Warning "Validation Error"] false /\
  LegacyLecturerDialog_save_lecturer LegacyLecturerDialog_init c = Done c [Shown Warning "Validation Error"] false.
Proof. split; reflexivity. Qed.
