(* ===== verification/Frontend.v ===== *)
(** * Frontend: the window of Frontend.py

    [MyApp] (Frontend.py 11-229) is a main window built from the
    generated module design.py ([Ui_MainWindow]), which is not in the
    repository.  It opens one connection through its [DatabaseManager]
    (lines 233-281) and keeps its cursor for the whole session; a table
    of students ([tableWidget]) shows [str(value)] of every column of a
    tuple row, so a NULL column reads 'None'.  Its buttons open the
    [StudentDialog] of studentdialog_logic.py ([StudentDialog]) to add or
    edit a student, delete the selected student with their enrollments,
    search as the user types and export the table.  The Students page
    reloads the table each time it is shown.

    The parts of design.py and StudentDialogUI.py the code relies on are
    parameters: the header items of [tableWidget] (which is assumed to
    have the ten columns of the SELECT), the page shown at start, the
    initial widget values of the dialog and the items of its gender and
    major boxes.  The state is the [DatabaseManager] (whether it holds a
    connection and a cursor), the page on screen and the texts of the
    table's rows. *)
From S2P Require Import Prelude PyModel Regex Storage Query Validators Sql Models Reads Widgets Csv StudentDialog Dialogs Pages QueryPages.
Local Open Scope Z_scope.

Inductive fe_page := StudentsPage | TeachersPage | ClassesPage | SubjectsPage.

Section Frontend.
  Context `{PyUnicode} `{!PyDigit} `{Collation}.
  Context (design_headers : list (option ustr)) (page0 : fe_page).
  Context (student_form0 : student_form) (gender_items major_items : list ustr).

  (** ** DatabaseManager (lines 233-281) *)

  (** [self.connection] and [self.cursor]: set together by
      [create_connect], both [None] otherwise. *)
Record dbman := DBMan { dm_connection : bool; dm_cursor : bool }.

Definition DatabaseManager0 : dbman := DBMan false false.

  (** [create_connect()] (lines 238-255) *)
Definition create_connect (c : conn) : dbman * bool :=
    if up c then (DBMan true true, true) else (DBMan false false, false).

  (** [fetch_query(query, params)] (lines 257-267) *)
Definition fetch_query {R} (dm : dbman) (c : conn) (q : database -> option (list R)) : option (list R) :=
    if dm_cursor dm then execute_query c q else None.

  (** [execute_update(query, params)] (lines 269-281): [False] without a
      cursor or when the statement fails (after a rollback); a rollback
      on a lost connection raises. *)
Definition dm_execute_update (dm : dbman) (c : conn) (u : database -> option (database * Z))
    : result exc (conn * bool) :=
    if negb (dm_cursor dm) then Ok (c, false) else
    if negb (up c) then Err DbError else
    match execute_update c u with
    | Ok (c', _) => Ok (c', true)
    | Err _ => Ok (c, false)
    end.

  (** ** The students table *)

  (** Lines 68-84: the ten columns, all students or those whose first
      name, last name or e-mail is LIKE [%term%], by id. *)
Definition frontend_select (search_term : ustr) (d : database) : option (list Student.t) :=
    if bool_decide (search_term = []) then Some (order_by [Asc] (fun r => [SInt (Student.StudentID r)]) (students d))
    else sql_student_search search_term search_fields_default d.

  (** Line 92: [str(value)] of each column of the tuple. *)
Definition frontend_cells (s : Student.t) : list ustr :=
    py_str_sql <$> [SInt (Student.StudentID s); SStr (Student.FirstName s); SStr (Student.LastName s);
                    sql_opt_str (Student.Address s); sql_opt_str (Student.Email s); sql_opt_str (Student.Phone s);
                    SStr (Student.DOB s); SInt (Student.EnrollmentYear s); SStr (Student.Gender s);
                    sql_opt_str (Student.Major s)].

Record MyApp := { app_db : dbman; app_page : fe_page; app_rows : list (list ustr) }.

  (** [load_students_table(search_term)] (lines 64-100): without a
      cursor, [None.execute] raises [AttributeError]; a lost server makes
      [execute] raise; both are caught and shown. *)
Definition MyApp_load_students_table (app : MyApp) (c : conn) (search_term : ustr) : MyApp * list shown :=
    if negb (dm_cursor (app_db app)) || negb (up c) then (app, [Shown Critical "Error"]) else
    match frontend_select search_term (db c) with
    | Some rows => ({| app_db := app_db app; app_page := app_page app; app_rows := frontend_cells <$> rows |}, [])
    | None => (app, [Shown Critical "Error"])
    end.

  (** [__init__] (lines 12-40) *)
Definition MyApp_init (c : conn) : MyApp * list shown :=
    let '(dm, _) := create_connect c in
    MyApp_load_students_table {| app_db := dm; app_page := page0; app_rows := [] |} c [].

  (** The page buttons (lines 50-61): only the Students page reloads. *)
Definition MyApp_show_page (app : MyApp) (c : conn) (p : fe_page) : MyApp * list shown :=
    let app' := {| app_db := app_db app; app_page := p; app_rows := app_rows app |} in
    match p with StudentsPage => MyApp_load_students_table app' c [] | _ => (app', []) end.

  (** [search_students()] (lines 102-106) *)
Definition MyApp_search_students (app : MyApp) (c : conn) (text : ustr) : MyApp * list shown :=
    MyApp_load_students_table app c (py_strip text).

  (** MySQL compares the INT column with the text of the id cell
      converted to a number: the decimal text of an id converts back to
      the id; a text that is no integer is taken as 0, which no
      AUTO_INCREMENT id equals. *)
Definition mysql_id (s : ustr) : Z := match parse_int s with Ok z => z | Err _ => 0 end.

  (** [delete_student()] (lines 108-135) on the selected row ([None]
      when nothing is selected) and the answer to the question.  The
      [except] clause calls [self.db.connection.rollback()], which raises
      [AttributeError] when there is no connection. *)
Definition MyApp_delete_student (app : MyApp) (c : conn) (sel : option nat) (yes : bool)
    : MyApp * conn * list shown * option exc :=
    match sel ≫= (fun r => app_rows app !! r) with
    | None => (app, c, [Shown Warning "Warning"], None)
    | Some row =>
        let student_id := default [] (row !! 0%nat) in
        if negb yes then (app, c, [], None) else
        if negb (dm_cursor (app_db app)) then (app, c, [], Some (AttributeError "rollback")) else
        if negb (up c) then (app, c, [], Some DbError) else
        match execute_update c (delete_student (mysql_id student_id)) with
        | Ok (c', _) =>
            let '(app', msgs) := MyApp_load_students_table app c' [] in
            (app', c', [Shown Information "Deleted"] ++ msgs, None)
        | Err _ => (app, c, [Shown Critical "Error"], None)
        end
    end.

  (** [QDate.fromString(s, "yyyy-MM-dd")]: four, two and two digits
      separated by '-', an invalid date otherwise ([None]). *)
Definition qdate_fromString (s : ustr) : option qdate :=
    match s with
    | [y1; y2; y3; y4; 45; m1; m2; 45; d1; d2] =>
        if forallb (in_range 48 57) [y1; y2; y3; y4; m1; m2; d1; d2] then
          let n ds := foldl (fun a d => 10 * a + (d - 48)) 0 ds in
          let q := QDate (n [y1; y2; y3; y4]) (n [m1; m2]) (n [d1; d2]) in
          if qdate_isValid q then Some q else None
        else None
    | _ => None
    end.

  (** [setCurrentText(t)] of a box with [items]: nothing happens for a
      text that is no item. *)
Definition set_current_text (items : list ustr) (cur t : ustr) : ustr :=
    if bool_decide (t ∈ items) then t else cur.

  (** Lines 145-176: the form of the edit dialog, filled from the cells
      of the row ([setDate] of an invalid date does nothing). *)
Definition prefill_form (row : list ustr) : student_form :=
    let cell i := default [] (row !! i) in
    {| f_student_id := cell 0%nat;
       f_full_name := cell 1%nat ++ [32] ++ cell 2%nat;
       f_address := cell 3%nat;
       f_phone := cell 5%nat;
       f_email := cell 4%nat;
       f_dob := default (f_dob student_form0) (qdate_fromString (cell 6%nat));
       f_gender := if bool_decide (cell 8%nat = us "M") then set_current_text gender_items (f_gender student_form0) (us "Male")
                   else if bool_decide (cell 8%nat = us "F") then set_current_text gender_items (f_gender student_form0) (us "Female")
                   else f_gender student_form0;
       f_major := set_current_text major_items (f_major student_form0) (cell 9%nat) |}.

  (** The end of the Add and Edit slots (lines 46-48, 178-180): when the
      dialog is accepted, reload and a success box. *)
Definition after_dialog (app : MyApp) (r : slot_result) : MyApp * conn * list shown * option exc :=
    match r with
    | Done c' msgs true =>
        let '(app', msgs') := MyApp_load_students_table app c' [] in
        (app', c', msgs ++ msgs' ++ [Shown Information "Success"], None)
    | Done c' msgs false => (app, c', msgs, None)
    | Escaped c' e => (app, c', [], Some e)
    end.

  (** [show_student_dialog()] (lines 43-48) *)
Definition MyApp_show_student_dialog (app : MyApp) (c : conn) (edits : list (student_form -> student_form))
    : MyApp * conn * list shown * option exc :=
    let '(dlg, msgs) := StudentDialog_init false None c in
    after_dialog app (run_dialog (StudentDialog_save_student dlg) student_form0 edits c msgs).

  (** [edit_student()] (lines 137-180): the dialog gets the id as the
      text of the cell. *)
Definition MyApp_edit_student (app : MyApp) (c : conn) (sel : option nat) (edits : list (student_form -> student_form))
    : MyApp * conn * list shown * option exc :=
    match sel ≫= (fun r => app_rows app !! r) with
    | None => (app, c, [Shown Warning "Warning"], None)
    | Some row =>
        let '(dlg, msgs) := StudentDialog_init true (Some (mysql_id (default [] (row !! 0%nat)))) c in
        after_dialog app (run_dialog (StudentDialog_save_student dlg) (prefill_form row) edits c msgs)
    end.

  (** [export_students_csv()] (lines 182-220): the code of
      [BaseTablePage.on_export] on the table shown. *)
Definition MyApp_table (app : MyApp) : table :=
    {| tbl_headers := design_headers; tbl_rows := (fun r : list ustr => Some <$> r) <$> app_rows app |}.

Definition MyApp_export_students_csv (app : MyApp) (filename : ustr) (can_write : bool) : option ustr * list shown :=
    BaseTablePage_on_export (MyApp_table app) filename can_write.

  (** [closeEvent] (lines 223-229) *)
Definition MyApp_closeEvent (app : MyApp) : MyApp :=
    {| app_db := DatabaseManager0; app_page := app_page app; app_rows := app_rows app |}.

  (** ** Sessions *)

Inductive fe_action :=
| FeShowPage (p : fe_page)
| FeAdd (edits : list (student_form -> student_form))
| FeEdit (sel : option nat) (edits : list (student_form -> student_form))
| FeDelete (sel : option nat) (yes : bool)
| FeSearch (text : ustr).

Definition fe_step (app : MyApp) (c : conn) (a : fe_action) : MyApp * conn * list shown * option exc :=
    match a with
    | FeShowPage p => let '(app', m) := MyApp_show_page app c p in (app', c, m, None)
    | FeAdd es => MyApp_show_student_dialog app c es
    | FeEdit sel es => MyApp_edit_student app c sel es
    | FeDelete sel yes => MyApp_delete_student app c sel yes
    | FeSearch t => let '(app', m) := MyApp_search_students app c t in (app', c, m, None)
    end.

  (** A session of [app.exec()]: an exception escaping a slot aborts. *)
Fixpoint fe_session (acts : list fe_action) (app : MyApp) (c : conn) : MyApp * conn * option exc :=
    match acts with
    | [] => (app, c, None)
    | a :: acts' =>
        match fe_step app c a with
        | (app', c', _, None) => fe_session acts' app' c'
        | (_, c', _, Some e) => (app, c', Some e)
        end
    end.
End Frontend.

(** * Properties *)

Section FrontendProperties.
  Context `{PyUnicode} `{!PyDigit} `{Collation}.
  Context (design_headers : list (option ustr)) (page0 : fe_page).
  Context (student_form0 : student_form) (gender_items major_items : list ustr).

(** The id cell of a student's row converts back to the id. *)
Lemma mysql_id_cell (n : Z) : 0 <= n < 2 ^ 63 -> mysql_id (py_str_int n) = n.
Proof. intros Hid. unfold mysql_id. by rewrite parse_int_str. Qed.

(** With a cursor and the server up, the table shows every student in
    id order after a reload without a search term. *)
Lemma MyApp_load_all (app : MyApp) (c : conn) :
  dm_cursor (app_db app) = true -> up c = true ->
  MyApp_load_students_table app c [] =
    ({| app_db := app_db app; app_page := app_page app;
        app_rows := frontend_cells <$> order_by [Asc] (fun r => [SInt (Student.StudentID r)]) (students (db c)) |}, []).
Proof. intros Hc Hu. unfold MyApp_load_students_table. by rewrite Hc, Hu. Qed.

(** C21. Deleting the selected row of the table, confirmed, deletes the
    student that row shows (found again from the text of its id cell)
    with their enrollments, shows the Deleted box and reloads the table
    with the remaining students in id order. *)
Theorem MyApp_delete_selected_row (app : MyApp) (c : conn) (r : nat) (s : Student.t) :
  dm_cursor (app_db app) = true -> up c = true -> app_rows app !! r = Some (frontend_cells s) ->
  0 <= Student.StudentID s < 2 ^ 63 ->
  exists c', MyApp_delete_student app c (Some r) true =
      ({| app_db := app_db app; app_page := app_page app;
          app_rows := frontend_cells <$> order_by [Asc] (fun r => [SInt (Student.StudentID r)]) (students (db c')) |},
       c', [Shown Information "Deleted"], None) /\
    students (db c') = filter (fun x => Student.StudentID x <> Student.StudentID s) (students (db c)) /\
    enrollments (db c') = filter (fun e => Enrollment.StudentID e <> Student.StudentID s) (enrollments (db c)).
Proof.
  intros Hc Hu Hr Hid. unfold MyApp_delete_student. simpl. rewrite Hr. simpl.
  rewrite Hc, Hu, (mysql_id_cell _ Hid). unfold execute_update. rewrite Hu. simpl.
  eexists. rewrite MyApp_load_all by done. split; [reflexivity|]. done.
Qed.
End FrontendProperties.

(** ** Example data *)

(** A student without an address, with one graded enrollment. *)
Definition fe_conn : conn :=
  mkConn (mkDb [Student.mk 1 (us "An") (us "Le") (us "2003-05-01") (us "F") None (Some (us "0912345678"))
                 (Some (us "an@uni.edu")) 2021 (Some (us "CS"))]
            [Subject.mk (us "CS101") (us "Intro") 3] []
            [Class.mk 1 (us "CS101") None None (us "S1") 2024 60]
            [Enrollment.mk 1 1 (Some 850) (Some (us "A")) None] 2 1 2) true.

Definition fe_app : MyApp := (MyApp_init StudentsPage fe_conn).1.

(** The table shows a NULL address as the text None; Edit copies it
    into the dialog, and saving the dialog unchanged stores the text
    'None' as the student's address, with two success boxes. *)
Example MyApp_edit_stores_None_address :
  app_rows fe_app !! 0%nat ≫= (fun row => row !! 3%nat) = Some (us "None") /\
  let '(app', c', msgs, e) :=
    MyApp_edit_student young_form [us "Male"; us "Female"] [us "CS"] fe_app fe_conn (Some 0%nat) [fun f => f] in
  e = None /\ msgs = [Shown Information "Success"; Shown Information "Success"] /\
  (Student.Address <$> students (db c')) = [Some (us "None")].
Proof. vm_compute. split_and!; reflexivity. Qed.

(** ** Witnesses *)

Lemma MyApp_delete_selected_row_witness :
  dm_cursor (app_db fe_app) = true /\ up fe_conn = true /\
  app_rows fe_app !! 0%nat = Some (frontend_cells (Student.mk 1 (us "An") (us "Le") (us "2003-05-01") (us "F") None
                                     (Some (us "0912345678")) (Some (us "an@uni.edu")) 2021 (Some (us "CS")))) /\
  0 <= 1 < 2 ^ 63 /\
  exists c', MyApp_delete_student fe_app fe_conn (Some 0%nat) true =
      ({| app_db := app_db fe_app; app_page := app_page fe_app;
          app_rows := frontend_cells <$> order_by [Asc] (fun r => [SInt (Student.StudentID r)]) (students (db c')) |},
       c', [Shown Information "Deleted"], None) /\
    students (db c') = filter (fun x => Student.StudentID x <> 1) (students (db fe_conn)) /\
    enrollments (db c') = filter (fun e => Enrollment.StudentID e <> 1) (enrollments (db fe_conn)).
Proof.
  split; [reflexivity|]. split; [reflexivity|]. split; [vm_compute; reflexivity|]. split; [lia|].
  apply (MyApp_delete_selected_row fe_app fe_conn 0 (Student.mk 1 (us "An") (us "Le") (us "2003-05-01") (us "F") None
           (Some (us "0912345678")) (Some (us "an@uni.edu")) 2021 (Some (us "CS"))));
    [reflexivity | reflexivity | vm_compute; reflexivity | simpl; lia].
Defined.
