(* ===== verification/TableWindow.v ===== *)
(** * TableWindow: the student table window of database.py

    database.py holds the same code twice (lines 1-68 and 70-144); the
    second copy, which Python binds last, defines [DatabaseManager]
    (connect and [fetch_all]) and [StudentTableWindow], a window built
    from design.py (not in the repository) that fills its
    [tableWidget] once, in [__init__], with seven columns of every
    student ([str(value)] of each column of a tuple row).  A failed
    connection is only printed: [fetch_all] then returns [[]] and the
    table keeps what design.py put in it.

    The table is the [table] of [Csv]; [tw_table0] is the table of
    design.py. *)
From S2P Require Import Prelude PyModel Storage Query Validators Reads Widgets Csv QueryPages.
Local Open Scope Z_scope.

Section TableWindow.
  Context `{PyUnicode} `{Collation}.
  Context (tw_table0 : table).

  (** [DatabaseManager] (lines 76-98): whether [self.cursor] is set. *)
Record tw_dbman := TWDBMan { tw_cursor : bool }.

  (** [connect(...)] (lines 81-92): the error is printed, the cursor
      stays [None]. *)
Definition tw_connect (c : conn) : tw_dbman := TWDBMan (up c).

  (** [fetch_all(query)] (lines 94-98): [[]] without a cursor; outside
      any [try], so a statement that fails raises. *)
Definition fetch_all {R} (dm : tw_dbman) (c : conn) (q : database -> option (list R)) : result exc (list R) :=
    if negb (tw_cursor dm) then Ok [] else
    if negb (up c) then Err DbError else
    match q (db c) with Some rows => Ok rows | None => Err DbError end.

  (** Line 120: [SELECT StudentID, FirstName, LastName, DOB, Gender,
      Email, Major FROM students], no ORDER BY: the rows in the order of
      the table. *)
Definition tw_select (d : database) : option (list Student.t) := Some (students d).

  (** Line 136: [str(value)] of each column. *)
Definition tw_cells (s : Student.t) : list (option ustr) :=
    Some <$> (py_str_sql <$> [SInt (Student.StudentID s); SStr (Student.FirstName s); SStr (Student.LastName s);
                              SStr (Student.DOB s); SStr (Student.Gender s); sql_opt_str (Student.Email s);
                              sql_opt_str (Student.Major s)]).

  (** [load_students_table()] (lines 118-136): nothing happens without
      rows; otherwise the seven headers and one row per student. *)
Definition StudentTableWindow_load_students_table (dm : tw_dbman) (c : conn) (t : table) : result exc table :=
    rows <- fetch_all dm c tw_select;;
    if bool_decide (rows = []) then Ok t
    else Ok {| tbl_headers := Some <$> (us <$> ["ID"; "First Name"; "Last Name"; "DOB"; "Gender"; "Email"; "Major"]);
               tbl_rows := tw_cells <$> rows |}.

  (** [StudentTableWindow.__init__] (lines 101-116) *)
Definition StudentTableWindow_init (c : conn) : result exc (tw_dbman * table) :=
    let dm := tw_connect c in
    t <- StudentTableWindow_load_students_table dm c tw_table0;;
    Ok (dm, t).
End TableWindow.

(** * Properties *)

Section TableWindowProperties.
  Context `{PyUnicode} `{Collation}.
  Context (tw_table0 : table).

(** The window shows every student of the database, one row of the
    seven texts per student in the order of the table, when the server
    is up and the table is not empty; otherwise it shows the table of
    design.py unchanged, without any message: a failed connection is
    only printed. *)
Theorem StudentTableWindow_init_spec (c : conn) :
  StudentTableWindow_init tw_table0 c =
    Ok (tw_connect c,
        if up c && negb (bool_decide (students (db c) = [])) then
          {| tbl_headers := Some <$> (us <$> ["ID"; "First Name"; "Last Name"; "DOB"; "Gender"; "Email"; "Major"]);
             tbl_rows := tw_cells <$> students (db c) |}
        else tw_table0).
Proof.
  unfold StudentTableWindow_init, StudentTableWindow_load_students_table, fetch_all, tw_connect, tw_select. simpl.
  destruct (up c); simpl; [|done]. by case_bool_decide.
Qed.
End TableWindowProperties.
