(* ===== verification/SubApp.v ===== *)
(** * SubApp: the second application under student-info-manager/app

    A separate, smaller copy of the data layer: one model class per
    table (app/models/*.py), each method opening its own connection with
    [get_connection] (app/db/connection.py, autocommit), and
    [EnrollmentService.enroll] (app/services/enrollment_service.py),
    which checks the student, the class, a duplicate enrollment and the
    grade before inserting.  Nothing is caught: a failed connection
    raises [RuntimeError], a statement MySQL refuses raises its error
    ([DbError]), a missing key of a dict argument [KeyError], and every
    exception reaches the caller.

    The statements are those of [Sql] where models.py has the same
    INSERT or DELETE; the INSERTs into classes and lecturers, which
    models.py never reaches, and the UPDATE of [StudentModel.update],
    whose SET clause is built from the keys of its dictionary, are
    added here.  A call runs on the state
    of [Storage] and returns the new connection with its result;
    [app_script] runs calls one after the other, as demo.py does, and
    stops at the first exception. *)
From S2P Require Import Prelude PyModel Storage Query Validators Sql Models Reads.
From Stdlib Require Import QArith.
Local Open Scope Z_scope.

Section SubApp.
  Context `{Collation}.

  (** ** Connections and statements *)

  (** [get_connection()] (connection.py 9-20): [connect] fails when the
      server is unreachable, re-raised as [RuntimeError]. *)
Definition get_connection (c : conn) : result exc unit := if up c then Ok tt else Err RuntimeError.

  (** [cur.execute(sql, params)] of a read, then [fetchone] or
      [fetchall]: a statement the server refuses raises. *)
Definition app_query {R} (c : conn) (q : database -> option R) : result exc R :=
    _ <- get_connection c;;
    match q (db c) with Some r => Ok r | None => Err DbError end.

  (** [cur.execute(sql, params)] of a write with autocommit: the new
      state and [lastrowid] or [rowcount]. *)
Definition app_update (c : conn) (u : database -> option (database * Z)) : result exc (conn * Z) :=
    _ <- get_connection c;; execute_update c u.

  (** [INSERT INTO classes (SubjectCode, LecturerID, ClassName, Semester,
      Year, MaxCapacity) VALUES (...)] (class_model.py 9-13): the
      subject, and the lecturer when given, must exist. *)
Definition insert_class (code lecturer name semester year capacity : pyval) (d : database)
      : option (database * Z) :=
    sc ← p_str code; li ← p_opt_int lecturer; n ← p_opt_str name; se ← p_str semester;
    y ← p_int year; m ← p_int capacity;
    if negb (subject_exists d sc) || match li with Some k => negb (lecturer_exists d k) | None => false end
    then None else
    let id := auto_class d in
    let d' := set_classes d (classes d ++ [Class.mk id sc li n se y m]) in
    Some (mkDb (students d') (subjects d') (lecturers d') (classes d') (enrollments d')
            (auto_student d') (auto_lecturer d') (id + 1), id).

  (** [INSERT INTO lecturers (LecturerFirstName, LecturerLastName,
      LecturerEmail, Office) VALUES (...)] (lecturer_model.py 6): the
      UNIQUE index on LecturerEmail. *)
Definition insert_lecturer (first last email office : pyval) (d : database) : option (database * Z) :=
    f ← p_str first; l ← p_str last; e ← p_opt_str email; o ← p_opt_str office;
    let taken := match e with
                 | Some e => existsb (fun r => match Lecturer.LecturerEmail r with
                                               | Some e' => coll_eq e' e | None => false end) (lecturers d)
                 | None => false
                 end in
    if taken then None else
    let id := auto_lecturer d in
    let d' := set_lecturers d (lecturers d ++ [Lecturer.mk id f l e o]) in
    Some (mkDb (students d') (subjects d') (lecturers d') (classes d') (enrollments d')
            (auto_student d') (id + 1) (auto_class d'), id).

  (** [k = %s] in the SET clause of [StudentModel.update], for a key [k]
      naming a column of students (MySQL compares column names without
      regard to case): the parameter converted to the column's type, and
      the change it makes to a row. *)
Definition student_setter (k : string) (v : pyval) : option (Student.t -> Student.t) :=
    let col := us k in
    if ci_eq col "studentid" then x ← p_int v; Some (fun '(Student.mk _ f l b g a ph e y m) => Student.mk x f l b g a ph e y m)
    else if ci_eq col "firstname" then x ← p_str v; Some (fun '(Student.mk i _ l b g a ph e y m) => Student.mk i x l b g a ph e y m)
    else if ci_eq col "lastname" then x ← p_str v; Some (fun '(Student.mk i f _ b g a ph e y m) => Student.mk i f x b g a ph e y m)
    else if ci_eq col "dob" then x ← p_str v; Some (fun '(Student.mk i f l _ g a ph e y m) => Student.mk i f l x g a ph e y m)
    else if ci_eq col "gender" then x ← p_str v; Some (fun '(Student.mk i f l b _ a ph e y m) => Student.mk i f l b x a ph e y m)
    else if ci_eq col "address" then x ← p_opt_str v; Some (fun '(Student.mk i f l b g _ ph e y m) => Student.mk i f l b g x ph e y m)
    else if ci_eq col "phone" then x ← p_opt_str v; Some (fun '(Student.mk i f l b g a _ e y m) => Student.mk i f l b g a x e y m)
    else if ci_eq col "email" then x ← p_opt_str v; Some (fun '(Student.mk i f l b g a ph _ y m) => Student.mk i f l b g a ph x y m)
    else if ci_eq col "enrollmentyear" then x ← p_int v; Some (fun '(Student.mk i f l b g a ph e _ m) => Student.mk i f l b g a ph e x m)
    else if ci_eq col "major" then x ← p_opt_str v; Some (fun '(Student.mk i f l b g a ph e y _) => Student.mk i f l b g a ph e y x)
    else None.

  (** [UPDATE students SET k1 = %s, ..., kn = %s WHERE StudentID = %s]
      (student_model.py 47-54), the assignments in the order of the
      keys.  An empty SET clause is a syntax error and a key that is not
      a column an unknown column; the assignments of a row are applied
      left to right (a later key naming the same column wins).  MySQL
      then checks the primary key, the foreign key of enrollments (no ON
      UPDATE action: a student who has enrollments keeps the id) and the
      UNIQUE index on Email; a larger id moves the AUTO_INCREMENT
      counter past it.  [rowcount] is the number of rows matched. *)
Definition update_student_set (assigns : list (string * pyval)) (sid : Z) (d : database) : option (database * Z) :=
    if bool_decide (assigns = []) then None else
    fs ← mapM (fun kv => student_setter kv.1 kv.2) assigns;
    let upd r := foldl (fun r f => f r) r fs in
    let hit r := Student.StudentID r =? sid in
    let rows := (fun r => if hit r then upd r else r) <$> students d in
    let d1 := set_students d rows in
    if negb (bool_decide (NoDup (Student.StudentID <$> rows))) then None else
    if negb (forallb (fun e => student_exists d1 (Enrollment.StudentID e)) (enrollments d)) then None else
    if existsb (fun r => hit r && email_taken d1 (Student.Email (upd r)) (Some (Student.StudentID (upd r)))) (students d)
    then None else
    Some (mkDb rows (subjects d) (lecturers d) (classes d) (enrollments d)
            (foldr Z.max (auto_student d) ((fun r => Student.StudentID r + 1) <$> rows))
            (auto_lecturer d) (auto_class d),
          Z.of_nat (length (filter (fun r => hit r = true) (students d)))).

  (** ** StudentModel (student_model.py) *)

  (** [create(student)] (lines 6-30): the parameter tuple is built
      before the connection is opened. *)
Definition AppStudentModel_create (c : conn) (student : pydict) : result exc (conn * Z) :=
    f <- dict_index student "first_name";;
    l <- dict_index student "last_name";;
    b <- dict_index student "dob";;
    g <- dict_index student "gender";;
    y <- dict_index student "enrollment_year";;
    app_update c (insert_student f l b g (dict_get student "address") (dict_get student "phone")
                    (dict_get student "email") y (dict_get student "major")).

  (** [get_by_id(student_id)] (lines 33-43) *)
Definition AppStudentModel_get_by_id (c : conn) (student_id : pyval) : result exc (option Student.t) :=
    app_query c (fun d => head <$> where_eq (fun r => SInt (Student.StudentID r)) student_id (students d)).

  (** [update(student_id, data)] (lines 45-58): the keys of [data] are
      pasted into the statement, its values are the parameters. *)
Definition AppStudentModel_update (c : conn) (student_id : Z) (data : pydict) : result exc (conn * Z) :=
    app_update c (update_student_set (map_to_list data) student_id).

  (** [delete(student_id)] (lines 61-71) *)
Definition AppStudentModel_delete (c : conn) (student_id : Z) : result exc (conn * Z) :=
    app_update c (delete_student student_id).

  (** [list(limit, offset)] (lines 74-84) *)
Definition AppStudentModel_list (c : conn) (limit offset : Z) : result exc (list Student.t) :=
    app_query c (fun d => sql_limit_offset limit offset
                            (order_by [Asc] (fun r => [SInt (Student.StudentID r)]) (students d))).

  (** ** SubjectModel (subject_model.py) *)

  (** [create(subject)] (lines 5-17): returns [None]. *)
Definition AppSubjectModel_create (c : conn) (subject : pydict) : result exc conn :=
    code <- dict_index subject "code";;
    name <- dict_index subject "name";;
    credits <- dict_index subject "credits";;
    res_map fst (app_update c (insert_subject code name credits)).

  (** [get_by_code(code)] (lines 21-30) *)
Definition AppSubjectModel_get_by_code (c : conn) (code : pyval) : result exc (option Subject.t) :=
    app_query c (fun d => head <$> where_eq (fun r => SStr (Subject.SubjectCode r)) code (subjects d)).

  (** [list_all()] (lines 33-40) *)
Definition AppSubjectModel_list_all (c : conn) : result exc (list Subject.t) :=
    app_query c (fun d => Some (order_by [Asc] (fun r => [SStr (Subject.SubjectCode r)]) (subjects d))).

  (** ** LecturerModel (lecturer_model.py) *)

  (** [create(data)] (lines 5-19) *)
Definition AppLecturerModel_create (c : conn) (data : pydict) : result exc (conn * Z) :=
    f <- dict_index data "first_name";;
    l <- dict_index data "last_name";;
    app_update c (insert_lecturer f l (dict_get data "email") (dict_get data "office")).

  (** [get_by_id(lid)] (lines 22-30) *)
Definition AppLecturerModel_get_by_id (c : conn) (lid : pyval) : result exc (option Lecturer.t) :=
    app_query c (fun d => head <$> where_eq (fun r => SInt (Lecturer.LecturerID r)) lid (lecturers d)).

  (** ** ClassModel (class_model.py) *)

  (** [create(data)] (lines 7-30) *)
Definition AppClassModel_create (c : conn) (data : pydict) : result exc (conn * Z) :=
    code <- dict_index data "subject_code";;
    semester <- dict_index data "semester";;
    year <- dict_index data "year";;
    app_update c (insert_class code (dict_get data "lecturer_id") (dict_get data "class_name") semester year
                    (dict_get_or data "max_capacity" (PInt 60))).

  (** [get_by_id(class_id)] (lines 33-43) *)
Definition AppClassModel_get_by_id (c : conn) (class_id : pyval) : result exc (option Class.t) :=
    app_query c (fun d => head <$> where_eq (fun r => SInt (Class.ClassID r)) class_id (classes d)).

  (** [list_all()] (lines 46-56): [ORDER BY Year DESC, Semester] *)
Definition AppClassModel_list_all (c : conn) : result exc (list Class.t) :=
    app_query c (fun d => Some (order_by [Desc; Asc] (fun r => [SInt (Class.Year r); SStr (Class.Semester r)])
                                 (classes d))).

  (** [delete(class_id)] (lines 59-69) *)
Definition AppClassModel_delete (c : conn) (class_id : Z) : result exc (conn * Z) :=
    app_update c (delete_class class_id).

  (** ** EnrollmentModel (enrollment_model.py) *)

  (** [create(student_id, class_id, grade, grade_letter, note)] (lines 5-19): returns [True]. *)
Definition AppEnrollmentModel_create (c : conn) (student_id class_id grade grade_letter note : pyval)
      : result exc (conn * bool) :=
    res_map (fun r => (r.1, true)) (app_update c (insert_enrollment student_id class_id grade grade_letter note)).

  (** [exists(student_id, class_id)] (lines 22-30): [fetchone() is not None]. *)
Definition AppEnrollmentModel_exists (c : conn) (student_id class_id : pyval) : result exc bool :=
    app_query c (fun d => (fun rows => bool_decide (rows <> [])) <$> select_enrollment_pair student_id class_id d).

  (** ** EnrollmentService.enroll (enrollment_service.py 7-28) *)

  (** [a <= b] of two floats: false when one side is NaN. *)
Definition float_le (x y : pyfloat) : bool :=
    match x, y with
    | FNaN, _ | _, FNaN => false
    | _, _ => negb (float_lt y x)
    end.

Definition EnrollmentService_enroll (c : conn) (student_id class_id grade grade_letter note : pyval)
      : result exc (conn * bool) :=
    student <- AppStudentModel_get_by_id c student_id;;
    raise_if (bool_decide (student = None)) ValueError;;;
    cls <- AppClassModel_get_by_id c class_id;;
    raise_if (bool_decide (cls = None)) ValueError;;;
    dup <- AppEnrollmentModel_exists c student_id class_id;;
    raise_if dup ValueError;;;
    (match grade with
     | PNone => Ok tt
     | _ => g <- py_float grade;; raise_if (negb (float_le (FFin 0) g && float_le g (FFin 10))) ValueError
     end);;;
    r <- AppEnrollmentModel_create c student_id class_id grade grade_letter note;;
    Ok (r.1, true).

  (** ** Scripts *)

  (** The calls a script such as demo.py makes. *)
Inductive app_call :=
| CStudentCreate (student : pydict)
| CStudentUpdate (student_id : Z) (data : pydict)
| CStudentDelete (student_id : Z)
| CSubjectCreate (subject : pydict)
| CLecturerCreate (data : pydict)
| CClassCreate (data : pydict)
| CClassDelete (class_id : Z)
| CEnrollmentCreate (student_id class_id grade grade_letter note : pyval)
| CEnroll (student_id class_id grade grade_letter note : pyval)
| CRead (read : conn -> result exc unit).

Definition run_app_call (a : app_call) (c : conn) : result exc conn :=
    match a with
    | CStudentCreate s => res_map fst (AppStudentModel_create c s)
    | CStudentUpdate sid data => res_map fst (AppStudentModel_update c sid data)
    | CStudentDelete sid => res_map fst (AppStudentModel_delete c sid)
    | CSubjectCreate s => AppSubjectModel_create c s
    | CLecturerCreate l => res_map fst (AppLecturerModel_create c l)
    | CClassCreate k => res_map fst (AppClassModel_create c k)
    | CClassDelete cid => res_map fst (AppClassModel_delete c cid)
    | CEnrollmentCreate s k g l n => res_map fst (AppEnrollmentModel_create c s k g l n)
    | CEnroll s k g l n => res_map fst (EnrollmentService_enroll c s k g l n)
    | CRead r => res_map (fun _ => c) (r c)
    end.

  (** A script without [try]: the state reached and the exception that
      ended it, if any. *)
Fixpoint app_script (calls : list app_call) (c : conn) : conn * option exc :=
    match calls with
    | [] => (c, None)
    | a :: rest =>
        match run_app_call a c with
        | Ok c' => app_script rest c'
        | Err e => (c, Some e)
        end
    end.
End SubApp.

(** ** What [enroll] promises

    The contract of [EnrollmentService.enroll] for integer ids, a grade
    that is absent or a finite float, and a letter and note that are
    absent or strings: the enrollment is added, with the grade stored
    in its DECIMAL(4,2) column, exactly when the student and the class
    exist, the student is not yet enrolled in the class and the grade
    lies in [0, 10]. *)
Definition grade_arg (gq : option Q) : pyval := from_option (fun q => PFloat (FFin q)) PNone gq.

Definition decimal_4_2 (q : Q) : Z := round_half_away_div (Qnum q * 100) (Zpos (Qden q)).

Definition enroll_spec `{Collation} (d : database) (sid cid : Z) (gq : option Q) (l n : option ustr)
    : option database :=
  if student_exists d sid && class_exists d cid && negb (enrollment_exists d sid cid)
     && default true ((fun q => Qle_bool 0 q && Qle_bool q 10) <$> gq)
  then Some (set_enrollments d (enrollments d ++ [Enrollment.mk sid cid (decimal_4_2 <$> gq) l n]))
  else None.


Section SubAppProperties.
  Context `{Collation}.

Lemma where_eq_SInt {R} (key : R -> Z) (k : Z) (l : list R) :
    where_eq (fun r => SInt (key r)) (PInt k) l = Some (filter (fun r => key r = k) l).
  Proof.
    unfold where_eq. simpl. f_equal. apply list_filter_iff. intros r. simpl.
    split; [intros [= ?%Z.eqb_eq] | intros ->; by rewrite Z.eqb_refl]. done.
  Qed.

Lemma head_filter_None {R} (key : R -> Z) (k : Z) (l : list R) :
    bool_decide (head (filter (fun r => key r = k) l) = None) = negb (existsb (fun r => key r =? k) l).
  Proof.
    induction l as [|r l IH]; [done|]. rewrite filter_cons. simpl.
    destruct (Z.eqb_spec (key r) k); case_decide; simpl; done.
  Qed.

Lemma AppEnrollmentModel_exists_SInt (c : conn) (sid cid : Z) :
    up c = true -> AppEnrollmentModel_exists c (PInt sid) (PInt cid) = Ok (enrollment_exists (db c) sid cid).
  Proof.
    intros Hup. unfold AppEnrollmentModel_exists, app_query, get_connection, select_enrollment_pair.
    rewrite Hup. simpl. f_equal. unfold enrollment_exists. induction (enrollments (db c)) as [|e es IH]; [done|].
    rewrite filter_cons. simpl.
    destruct (Z.eqb_spec (Enrollment.StudentID e) sid), (Z.eqb_spec (Enrollment.ClassID e) cid); simpl;
      rewrite ?bool_decide_eq_true_2 by done; try done;
      rewrite decide_False by (intros [[=]]; congruence); exact IH.
  Qed.

Lemma float_le_fin (a b : Q) : float_le (FFin a) (FFin b) = Qle_bool a b.
  Proof. unfold float_le, float_lt, q_lt, Qle_bool. by rewrite Z.ltb_antisym, negb_involutive. Qed.

Lemma decimal_4_2_ok (q : Q) : Qle_bool 0 q && Qle_bool q 10 = true -> grade_ok (Some (decimal_4_2 q)) = true.
  Proof.
    intros [H0 H10]%andb_true_iff. apply Qle_bool_iff in H0, H10. unfold Qle in H0, H10. simpl in H0, H10.
    destruct (round_half_away_div_within (Qnum q * 100) (Zpos (Qden q)) 0 1000) as [Hlo Hhi]; [lia..|].
    unfold grade_ok, decimal_4_2. apply andb_true_iff. split; apply Z.leb_le; lia.
  Qed.


  (** C9. [EnrollmentService.enroll] refines its contract [enroll_spec]:
      with the server up it adds exactly the enrollment the contract
      describes and returns [True], or raises [ValueError] when the
      contract refuses; with the server down it raises [RuntimeError]. *)
Theorem EnrollmentService_enroll_refines (c : conn) (sid cid : Z) (gq : option Q) (l n : option ustr) :
    EnrollmentService_enroll c (PInt sid) (PInt cid) (grade_arg gq) (from_option PStr PNone l)
      (from_option PStr PNone n) =
    if up c then
      match enroll_spec (db c) sid cid gq l n with
      | Some d' => Ok (mkConn d' true, true)
      | None => Err ValueError
      end
    else Err RuntimeError.
  Proof.
    destruct (up c) eqn:Hup; [|by unfold EnrollmentService_enroll, AppStudentModel_get_by_id, app_query,
                                         get_connection; rewrite Hup].
    unfold EnrollmentService_enroll. rewrite (AppEnrollmentModel_exists_SInt c sid cid Hup).
    unfold AppStudentModel_get_by_id, AppClassModel_get_by_id, app_query, get_connection.
    rewrite Hup, !where_eq_SInt. cbn -[float_le enroll_spec AppEnrollmentModel_create].
    rewrite !head_filter_None. unfold enroll_spec.
    unfold student_exists at 1, class_exists at 1.
    destruct (existsb (fun r => Student.StudentID r =? sid) _) eqn:Hs; simpl; [|done].
    destruct (existsb (fun r => Class.ClassID r =? cid) _) eqn:Hc; simpl; [|done].
    destruct (enrollment_exists (db c) sid cid) eqn:He; simpl; [done|].
    assert (Hins : forall g, grade_ok g = true -> p_grade (grade_arg gq) = Some g ->
      AppEnrollmentModel_create c (PInt sid) (PInt cid) (grade_arg gq) (from_option PStr PNone l)
        (from_option PStr PNone n)
      = Ok (mkConn (set_enrollments (db c) (enrollments (db c) ++ [Enrollment.mk sid cid g l n])) true, true)).
    { intros g Hg Hp. unfold AppEnrollmentModel_create, app_update, get_connection, execute_update, insert_enrollment.
      rewrite Hup. cbn -[p_grade grade_ok]. rewrite Hp. unfold student_exists, class_exists.
      destruct l, n; cbn -[grade_ok]; rewrite He, Hs, Hc, Hg; done. }
    destruct gq as [q|]; cbn -[float_le AppEnrollmentModel_create].
    - replace (negb (q_lt q 0)) with (Qle_bool 0 q) by (symmetry; exact (float_le_fin 0 q)).
      rewrite float_le_fin. destruct (Qle_bool 0 q && Qle_bool q 10) eqn:Hq; simpl; [|reflexivity].
      cbn [grade_arg from_option] in Hins.
      rewrite (Hins (Some (decimal_4_2 q))); [done | by apply decimal_4_2_ok | done].
    - cbn [grade_arg from_option] in Hins. by rewrite (Hins None).
  Qed.


  (** C31. [StudentModel.update] takes the column names as keys, while
      [create] takes the keys first_name, last_name and enrollment_year
      of the same student dictionary: an update whose data holds one of
      these keys names an unknown column and raises (the MySQL error
      with the server up, [RuntimeError] with it down), whatever the
      other keys and the student. *)
Theorem AppStudentModel_update_create_keys (c : conn) (sid : Z) (data : pydict) (k : string) (v : pyval) :
    k ∈ ["first_name"; "last_name"; "enrollment_year"] -> data !! k = Some v ->
    AppStudentModel_update c sid data = Err (if up c then DbError else RuntimeError).
  Proof.
    intros Hk Hv. unfold AppStudentModel_update, app_update, get_connection, execute_update.
    destruct (up c); [simpl|done].
    assert (Hnone : mapM (fun kv => student_setter kv.1 kv.2) (map_to_list data) = None).
    { apply mapM_None, Exists_exists. exists (k, v). split; [by apply elem_of_map_to_list|].
      repeat (apply elem_of_cons in Hk as [->|Hk]; [reflexivity|]). by apply elem_of_nil in Hk. }
    unfold update_student_set. rewrite Hnone. by case_bool_decide.
  Qed.
End SubAppProperties.

(** ** Example data *)

(** A class of capacity 1 that already has one student. *)
Definition app_db : database :=
  mkDb [ex_student] [Subject.mk (us "CS101") (us "Intro") 3] []
    [Class.mk 1 (us "CS101") None None (us "S1") 2024 1]
    [Enrollment.mk 1 1 None None None] 2 1 2.
Definition app_conn : conn := mkConn app_db true.

(** The student of demo.py. *)
Definition demo_student : pydict :=
  list_to_map [("first_name", PStr (us "Demo")); ("last_name", PStr (us "Student"));
               ("dob", PStr (us "2002-01-01")); ("gender", PStr (us "M")); ("address", PStr (us "Hanoi"));
               ("phone", PStr (us "0900000000")); ("email", PStr (us "demo@example.com"));
               ("enrollment_year", PInt 2024); ("major", PStr (us "Computer Science"))].

(** The calls of demo.py: create the student (id 2), read class 1, enroll
    the student in it with 8.5, B and Good. *)
Definition demo_script : list app_call :=
  [CStudentCreate demo_student; CRead (fun c => res_map (fun _ => tt) (AppClassModel_get_by_id c (PInt 1)));
   CEnroll (PInt 2) (PInt 1) (PFloat (FFin (Qmake 17 2))) (PStr (us "B")) (PStr (us "Good"))].

(** The calls of demo.py succeed on a class of capacity 1 that
    already has a student: [enroll] never looks at [MaxCapacity], and
    the class ends with two students.  Running the enrollment again
    raises [ValueError] (already enrolled). *)
Example demo_enroll_ignores_capacity :
  let '(c, e) := app_script demo_script app_conn in
  e = None /\
  enrollments (db c) = [Enrollment.mk 1 1 None None None;
                        Enrollment.mk 2 1 (Some 850) (Some (us "B")) (Some (us "Good"))] /\
  app_script [CEnroll (PInt 2) (PInt 1) PNone PNone PNone] c = (c, Some ValueError).
Proof. vm_compute. split_and!; reflexivity. Qed.

(** [update] with the column names works: the e-mail and the major of
    student 1 change (the key [major] matches the column [Major]) and
    one row is matched; a missing id matches none; changing the id of a
    student who has an enrollment breaks the foreign key. *)
Definition upd_email_major : pydict := list_to_map [("Email", PStr (us "an@uni.edu")); ("major", PStr (us "Math"))].

Example AppStudentModel_update_columns :
  (exists c', AppStudentModel_update app_conn 1 upd_email_major = Ok (c', 1) /\
     students (db c') = [Student.mk 1 (us "An") (us "Le") (us "2004-01-01") (us "M") None None
                           (Some (us "an@uni.edu")) 2022 (Some (us "Math"))]) /\
  AppStudentModel_update app_conn 7 upd_email_major = Ok (app_conn, 0) /\
  AppStudentModel_update app_conn 1 (list_to_map [("StudentID", PInt 5)]) = Err DbError.
Proof. split_and!; [eexists; vm_compute; split; reflexivity | vm_compute; reflexivity..]. Qed.

(** ** Witnesses *)


Lemma AppStudentModel_update_create_keys_witness :
  ("first_name" ∈ ["first_name"; "last_name"; "enrollment_year"] /\
   demo_student !! "first_name" = Some (PStr (us "Demo"))) /\
  AppStudentModel_update app_conn 1 demo_student = Err DbError.
Proof.
  assert (Hk : "first_name" ∈ ["first_name"; "last_name"; "enrollment_year"]) by (apply elem_of_cons; by left).
  assert (Hv : demo_student !! "first_name" = Some (PStr (us "Demo"))) by reflexivity.
  split; [split; assumption|]. exact (AppStudentModel_update_create_keys app_conn 1 demo_student _ _ Hk Hv).
Defined.
