(* ===== verification/Scripts.v ===== *)
(** * Scripts: the [if __name__ == "__main__"] blocks

    Five modules of the repository can be run as scripts.  Three of them
    are self-tests of the data layer, which print what they read:
    db_connection.py (lines 200-210), models.py (lines 581-592) and
    query_models.py (lines 548-578).  Each first imports db_connection,
    whose module body creates the pool ([db = DatabaseConnection()],
    line 165) and raises when the server cannot be reached.  The other
    two open a window: dialogs_complete.py (lines 700-711) shows the Add
    Subject dialog and studentdialog_logic.py (lines 266-271) the student
    dialog.

    A script's run is the list of what it printed, one element per
    [print] call (a leading ["\n"] is the code point 10), with the
    exception that ended it, if any.  [say] prints and goes on; [try_out]
    runs a call that may raise.  Python's [repr] of a result row and of
    the KPI dictionary is a parameter of the section: printing a sample
    row is the only use of it. *)
From S2P Require Import Prelude PyModel Storage DbConnection Query Validators Sql Models Reads Reports Widgets Csv StudentDialog Dialogs MainWindow.
Local Open Scope Z_scope.

(** ** Printed output *)

(** The lines printed and the exception that ended the script. *)
Definition script_run : Type := list ustr * option exc.

Definition say (line : ustr) (k : script_run) : script_run := (line :: k.1, k.2).

Definition script_end : script_run := ([], None).

Definition try_out {A} (r : result exc A) (k : A -> script_run) : script_run :=
  match r with Ok a => k a | Err e => ([], Some e) end.

(** [len(x)], which raises [TypeError] on the [None] of a failed read. *)
Definition py_len {R} (o : option (list R)) : result exc Z :=
  match o with Some l => Ok (Z.of_nat (length l)) | None => Err TypeError end.

(** ✓ (U+2713) and ✗ (U+2717). *)
Definition check_mark : Z := 10003.
Definition cross_mark : Z := 10007.

Section Scripts.
  Context `{PyUnicode} `{Collation}.
  Context (repr_grade_row : GradeRow.t -> ustr) (repr_kpis : option Kpis.t -> ustr).

  (** [python db_connection.py]: the pool at import (line 165), then
      lines 200-210; [SELECT * FROM students LIMIT 5]. *)
Definition db_connection_main (c : conn) : script_run :=
    try_out (DatabaseConnection_init c) (fun _ =>
    say (us "Testing database connection...") (
    if test_connection c then
      say ([check_mark] ++ us " Connection successful!") (
      try_out (py_len (execute_query c (fun d => sql_limit_offset 5 0 (students d)))) (fun n =>
      say (us "Found " ++ py_str_int n ++ us " students") script_end))
    else say ([cross_mark] ++ us " Connection failed!") script_end)).

  (** [python models.py]: the import of db_connection (line 10), then
      lines 581-592. *)
Definition models_main (c : conn) : script_run :=
    try_out (DatabaseConnection_init c) (fun _ =>
    say (us "Testing models...") (
    say (us "Total students: " ++ py_str_int (StudentModel_count c)) (
    try_out (py_len (SubjectModel_list c)) (fun n =>
    say (us "Total subjects: " ++ py_str_int n) (
    say (us "Models tested successfully!") script_end))))).

  (** [python query_models.py]: the import of db_connection, then lines
      548-578, each query with its default arguments. *)
Definition query_models_main (c : conn) : script_run :=
    try_out (DatabaseConnection_init c) (fun _ =>
    say (us "Testing query models...") (
    say ([10] ++ us "1. Testing INNER JOIN query...") (
    try_out (query_student_grades_by_subject c PNone) (fun r1 =>
    say (us "   Found " ++ py_str_int (Z.of_nat (length r1)) ++ us " records") (
    (match r1 with
     | [] => fun k => k
     | row :: _ => say (us "   Sample: " ++ repr_grade_row row)
     end) (
    say ([10] ++ us "2. Testing LEFT JOIN query...") (
    try_out (query_all_students_with_grades c) (fun r2 =>
    say (us "   Found " ++ py_str_int (Z.of_nat (length r2)) ++ us " records") (
    say ([10] ++ us "3. Testing Multi-table JOIN query...") (
    try_out (query_complete_enrollment_info c PNone PNone PNone PNone PNone) (fun r3 =>
    say (us "   Found " ++ py_str_int (Z.of_nat (length r3)) ++ us " records") (
    say ([10] ++ us "4. Testing Above Average query...") (
    try_out (query_students_above_average c 3) (fun r4 =>
    say (us "   Found " ++ py_str_int (Z.of_nat (length r4)) ++ us " students above average") (
    say ([10] ++ us "5. Testing Dashboard KPIs...") (
    say (us "   KPIs: " ++ repr_kpis (get_dashboard_kpis c)) (
    say ([10; check_mark] ++ us " All query tests completed!") script_end))))))))))))))))).

  (** [python dialogs_complete.py]: the import of models.py, and so of
      db_connection (line 13), then lines 700-711: the message and
      [SubjectDialog()] in add mode, shown. *)
Definition dialogs_complete_main (c : conn) : result exc (list ustr * (SubjectDialog * subject_form)) :=
    _ <- DatabaseConnection_init c;;
    Ok ([us "Testing dialogs..."], SubjectDialog_init false PNone c).

  (** [python studentdialog_logic.py] (lines 266-271): [StudentDialog()]
      in add mode, with the box its connection attempt may show. *)
Definition studentdialog_main (c : conn) : StudentDialog * list shown := StudentDialog_init false None c.
End Scripts.

(** * Properties *)

Section ScriptProperties.
  Context `{PyUnicode} `{Collation}.
  Context (repr_grade_row : GradeRow.t -> ustr) (repr_kpis : option Kpis.t -> ustr).

(** [SELECT 1] answers 1 whenever the server is up. *)
Lemma test_connection_up_iff (c : conn) : test_connection c = up c.
Proof. unfold test_connection, execute_query_one, execute_query. by destruct (up c). Qed.

(** A script that imports db_connection prints nothing and ends with
    the pool's error when the server is down. *)
Lemma try_out_init_down (c : conn) (k : unit -> script_run) :
  up c = false -> try_out (DatabaseConnection_init c) k = ([], Some DbError).
Proof. unfold DatabaseConnection_init. by intros ->. Qed.

Lemma try_out_init_up (c : conn) (k : unit -> script_run) :
  up c = true -> try_out (DatabaseConnection_init c) k = k tt.
Proof. unfold DatabaseConnection_init. by intros ->. Qed.

(** C34. [python db_connection.py] prints the test message, the success
    mark and the number of students [LIMIT 5] reads (at most five) when
    the server is up.  When it is down the script ends at the import,
    with the pool's error and nothing printed: the "Connection failed!"
    branch can never run, since the pool exists only if the server
    answers [SELECT 1]. *)
Theorem db_connection_main_spec (c : conn) :
  db_connection_main c =
    if up c then
      ([us "Testing database connection..."; [check_mark] ++ us " Connection successful!";
        us "Found " ++ py_str_int (Z.min 5 (Z.of_nat (length (students (db c))))) ++ us " students"], None)
    else ([], Some DbError).
Proof.
  unfold db_connection_main. destruct (up c) eqn:Hup; [|by apply try_out_init_down].
  rewrite try_out_init_up, test_connection_up_iff, Hup by done.
  unfold execute_query, sql_limit_offset. rewrite Hup. simpl.
  by rewrite length_take, drop_0, Nat2Z.inj_min.
Qed.

(** [python models.py] prints the numbers of students and subjects when
    the server is up, and ends at the import when it is down. *)
Theorem models_main_spec (c : conn) :
  models_main c =
    if up c then
      ([us "Testing models..."; us "Total students: " ++ py_str_int (Z.of_nat (length (students (db c))));
        us "Total subjects: " ++ py_str_int (Z.of_nat (length (subjects (db c)))); us "Models tested successfully!"],
       None)
    else ([], Some DbError).
Proof.
  unfold models_main. destruct (up c) eqn:Hup; [|by apply try_out_init_down].
  rewrite try_out_init_up by done.
  unfold StudentModel_count, count_or_zero, SubjectModel_list, execute_query_one, execute_query. rewrite Hup. simpl.
  by rewrite (Permutation_length (order_by_perm _ _ _)).
Qed.

(** The four numbered queries, run with their default arguments, do not
    fail while the server is up. *)
Lemma numbered_queries_up (c : conn) :
  up c = true ->
  (exists r1, query_student_grades_by_subject c PNone = Ok r1) /\
  (exists r2, query_all_students_with_grades c = Ok r2) /\
  (exists r3, query_complete_enrollment_info c PNone PNone PNone PNone PNone = Ok r3) /\
  (exists r4, query_students_above_average c 3 = Ok r4).
Proof.
  intros Hup. unfold query_student_grades_by_subject, query_all_students_with_grades,
    query_complete_enrollment_info, query_students_above_average, execute_query. rewrite Hup.
  split_and!; eexists; reflexivity.
Qed.

(** [python query_models.py] with the server up runs to its last line:
    it prints, for each numbered query, the number of rows the query
    returns (and the first row of Query 1 when there is one), then the
    KPIs.  With the server down it ends at the import. *)
Theorem query_models_main_spec (c : conn) :
  (up c = false -> query_models_main repr_grade_row repr_kpis c = ([], Some DbError)) /\
  (up c = true ->
   exists r1 r2 r3 r4,
    query_student_grades_by_subject c PNone = Ok r1 /\ query_all_students_with_grades c = Ok r2 /\
    query_complete_enrollment_info c PNone PNone PNone PNone PNone = Ok r3 /\
    query_students_above_average c 3 = Ok r4 /\
    query_models_main repr_grade_row repr_kpis c =
      ([us "Testing query models..."; [10] ++ us "1. Testing INNER JOIN query...";
        us "   Found " ++ py_str_int (Z.of_nat (length r1)) ++ us " records"] ++
       match r1 with [] => [] | row :: _ => [us "   Sample: " ++ repr_grade_row row] end ++
       [[10] ++ us "2. Testing LEFT JOIN query...";
        us "   Found " ++ py_str_int (Z.of_nat (length r2)) ++ us " records";
        [10] ++ us "3. Testing Multi-table JOIN query...";
        us "   Found " ++ py_str_int (Z.of_nat (length r3)) ++ us " records";
        [10] ++ us "4. Testing Above Average query...";
        us "   Found " ++ py_str_int (Z.of_nat (length r4)) ++ us " students above average";
        [10] ++ us "5. Testing Dashboard KPIs...";
        us "   KPIs: " ++ repr_kpis (get_dashboard_kpis c);
        [10; check_mark] ++ us " All query tests completed!"], None)).
Proof.
  split; [apply try_out_init_down|]. intros Hup.
  destruct (numbered_queries_up c Hup) as ([r1 E1] & [r2 E2] & [r3 E3] & [r4 E4]).
  exists r1, r2, r3, r4. split_and!; try done.
  unfold query_models_main. rewrite try_out_init_up, E1, E2, E3, E4 by done. by destruct r1.
Qed.
End ScriptProperties.

(** ** Example *)

(** On a database of one student and one subject the self-tests print
    their counts; with the server down they print nothing. *)
Example self_tests_example :
  let c := mkConn ex_db true in
  db_connection_main c = ([us "Testing database connection..."; [check_mark] ++ us " Connection successful!";
                           us "Found 1 students"], None) /\
  models_main c = ([us "Testing models..."; us "Total students: 1"; us "Total subjects: 1";
                    us "Models tested successfully!"], None) /\
  db_connection_main (mkConn ex_db false) = ([], Some DbError).
Proof. vm_compute. split_and!; reflexivity. Qed.
